(** * proteus: the Go-to-protobuf transformer

    A shallow embedding of [protobuf/transform.go] and [protobuf/mapping.go]:
    the identifier transforms, the type-mapping tables and the transformer
    that turns scanned Go structs and enums into protobuf messages and
    enums, together with the properties the specification states about
    them. *)

From Stdlib Require Import ZArith String Ascii List Bool Lia DecimalString Sorted.
From stdpp Require Import gmap strings list fin_maps.
Import ListNotations.

Local Open Scope Z_scope.

(** ** Go strings

    Every function of the transformer reads its strings rune by rune
    ([for _, r := range s], [strings.Map], [transform.String]), so a Go
    string is modelled by the sequence of runes that such a traversal
    yields. A rune is an [int32] code point. The byte offset that [range]
    reports is [0] for the first rune and for no other, which is all the
    code asks of it; the model keeps the rune index instead. *)

Definition rune := Z.
Abbreviation gostring := (list rune).

(** [str] reads an ASCII literal as a Go string. *)
Definition str (s : string) : gostring :=
  map (fun a => Z.of_nat (nat_of_ascii a)) (list_ascii_of_string s).

Definition underscore : rune := 0x5F.
Definition slash : rune := 0x2F.
Definition dot : rune := 0x2E.
Definition space : rune := 0x20.

(** ** The Unicode library

    [transform.go] calls into Go's [unicode] package and into
    [golang.org/x/text] ([norm], [runes]); neither is code of this
    repository. The functions it uses are the methods of an interface, and
    the transformer is written over any implementation of it. *)

Class Unicode := {
  IsUpper : rune -> bool;          (* unicode.IsUpper *)
  IsLetter : rune -> bool;         (* unicode.IsLetter *)
  IsNumber : rune -> bool;         (* unicode.IsNumber *)
  IsMn : rune -> bool;             (* runes.In(unicode.Mn).Contains *)
  ToLower : rune -> rune;          (* unicode.ToLower *)
  ToUpper : rune -> rune;          (* unicode.ToUpper *)
  NFD : gostring -> gostring;      (* norm.NFD, run over a whole string *)
  NFC : gostring -> gostring       (* norm.NFC, run over a whole string *)
}.

Section Naming.
Context {U : Unicode}.

(** *** toLowerSnakeCase *)

(** The loop state: the buffer, [lastWasUpper] and the loop index. *)
Record snakeState := {
  buf : gostring;
  lastWasUpper : bool;
  idx : nat
}.

Definition snakeInit : snakeState :=
  {| buf := []; lastWasUpper := false; idx := 0 |}.

(** One iteration of the loop body on the rune [r]. *)
Definition snakeStep (st : snakeState) (r : rune) : snakeState :=
  let buf1 :=
    if IsUpper r && negb (Nat.eqb (idx st) 0) && negb (lastWasUpper st)
    then buf st ++ [underscore]
    else buf st in
  {| buf := buf1 ++ [ToLower r];
     lastWasUpper := IsUpper r;
     idx := S (idx st) |}.

Definition toLowerSnakeCase (s : gostring) : gostring :=
  buf (fold_left snakeStep s snakeInit).

(** [strings.ToUpper] maps [unicode.ToUpper] over the runes. *)
Definition strings_ToUpper (s : gostring) : gostring := map ToUpper s.

Definition toUpperSnakeCase (s : gostring) : gostring :=
  strings_ToUpper (toLowerSnakeCase s).

(** *** toProtobufPkg *)

(** The function handed to [strings.Map]. *)
Definition pkgRune (r : rune) : rune :=
  if (r =? slash) || (r =? dot) then dot
  else if IsLetter r || IsNumber r then r
  else space.

(** [strings.Replace(pkg, " ", "", -1)]. *)
Definition removeSpaces (s : gostring) : gostring :=
  List.filter (fun r => negb (r =? space)) s.

(** [runes.Remove(runes.In(unicode.Mn))]. *)
Definition removeMn (s : gostring) : gostring :=
  List.filter (fun r => negb (IsMn r)) s.

(** [transform.Chain(norm.NFD, runes.Remove(runes.In(unicode.Mn)), norm.NFC)]. *)
Definition foldChain (s : gostring) : gostring :=
  NFC (removeMn (NFD s)).

Definition toProtobufPkg (path : gostring) : gostring :=
  let pkg := map pkgRune path in
  let pkg := removeSpaces pkg in
  foldChain pkg.

(** *** The naming rule, as the specification words it *)

(** The rune at index [i] gets a separator when it is uppercase, is not
    the first rune and the rune before it is not uppercase. *)
Definition needsSeparator (s : gostring) (i : nat) : bool :=
  match i with
  | O => false
  | S j => IsUpper (nth i s 0) && negb (IsUpper (nth j s 0))
  end.

(** Insert the separators, leaving the runes as they are. *)
Definition insertSeparators (s : gostring) : gostring :=
  flat_map (fun i => if needsSeparator s i
                     then [underscore; nth i s 0]
                     else [nth i s 0])
           (seq 0 (length s)).

(** Insert the separators, then lowercase everything. *)
Definition lowerSnakeSpec (s : gostring) : gostring :=
  map ToLower (insertSeparators s).

(** The same, read rune by rune: each rune yields its lowercase form,
    with a separator in front where one is due. *)
Definition lowerSnakeRunes (s : gostring) : gostring :=
  flat_map (fun i => if needsSeparator s i
                     then [underscore; ToLower (nth i s 0)]
                     else [ToLower (nth i s 0)])
           (seq 0 (length s)).

(** The runes [pkgRune] and [removeSpaces] let through. *)
Definition cleanRune (r : rune) : bool :=
  (r =? dot) ||
  (negb (r =? slash) && negb (r =? space) && (IsLetter r || IsNumber r)).

End Naming.

(** ** A concrete Unicode table: Basic Latin and Latin-1

    [latin1] tabulates Go's [unicode] and [norm] data for the code points
    U+0000 to U+00FF, together with the category and the case of the
    combining diacritical marks U+0300 to U+036F. It is what the small
    examples run on. Runes outside those ranges are treated as
    unclassified, caseless and without decomposition, and so are the
    marks: the singleton decompositions of U+0340, U+0341, U+0343 and
    U+0344 and the reordering of marks are not tabulated. The instance
    that follows all of Unicode is [ucd], further down. *)

Definition inRange (lo hi r : rune) : bool := (lo <=? r) && (r <=? hi).

Module Latin1.

(** Category Lu: A-Z, U+00C0-U+00D6, U+00D8-U+00DE. *)
Definition isUpper (r : rune) : bool :=
  inRange 0x41 0x5A r || inRange 0xC0 0xD6 r || inRange 0xD8 0xDE r.

(** Categories L*: the ASCII letters, U+00AA, U+00B5, U+00BA and the
    accented letters (all of U+00C0-U+00FF but the two operators). *)
Definition isLetter (r : rune) : bool :=
  inRange 0x41 0x5A r || inRange 0x61 0x7A r ||
  (r =? 0xAA) || (r =? 0xB5) || (r =? 0xBA) ||
  inRange 0xC0 0xD6 r || inRange 0xD8 0xF6 r || inRange 0xF8 0xFF r.

(** Categories N*: the digits, the superscripts and the fractions. *)
Definition isNumber (r : rune) : bool :=
  inRange 0x30 0x39 r ||
  (r =? 0xB2) || (r =? 0xB3) || (r =? 0xB9) || inRange 0xBC 0xBE r.

(** Category Mn: the block of combining diacritical marks. *)
Definition isMn (r : rune) : bool := inRange 0x300 0x36F r.

Definition toLower (r : rune) : rune :=
  if isUpper r then r + 32 else r.

(** The one cased mark: U+0345, the iota subscript, has the capital iota
    for its uppercase. *)
Definition toUpper (r : rune) : rune :=
  if inRange 0x61 0x7A r || inRange 0xE0 0xF6 r || inRange 0xF8 0xFE r
  then r - 32
  else if r =? 0xFF then 0x178
  else if r =? 0xB5 then 0x39C
  else if r =? 0x345 then 0x399
  else r.

(** The canonical decompositions of the uppercase accented letters,
    as (composite, (base, mark)). The lowercase ones are 32 above, on
    the base 32 above; U+00FF is the one lowercase letter on its own. *)
Definition upperDecompositions : list (rune * (rune * rune)) :=
  [ (0xC0, (0x41, 0x300)); (0xC1, (0x41, 0x301)); (0xC2, (0x41, 0x302));
    (0xC3, (0x41, 0x303)); (0xC4, (0x41, 0x308)); (0xC5, (0x41, 0x30A));
    (0xC7, (0x43, 0x327));
    (0xC8, (0x45, 0x300)); (0xC9, (0x45, 0x301)); (0xCA, (0x45, 0x302));
    (0xCB, (0x45, 0x308));
    (0xCC, (0x49, 0x300)); (0xCD, (0x49, 0x301)); (0xCE, (0x49, 0x302));
    (0xCF, (0x49, 0x308));
    (0xD1, (0x4E, 0x303));
    (0xD2, (0x4F, 0x300)); (0xD3, (0x4F, 0x301)); (0xD4, (0x4F, 0x302));
    (0xD5, (0x4F, 0x303)); (0xD6, (0x4F, 0x308));
    (0xD9, (0x55, 0x300)); (0xDA, (0x55, 0x301)); (0xDB, (0x55, 0x302));
    (0xDC, (0x55, 0x308));
    (0xDD, (0x59, 0x301)) ].

Definition decompositions : list (rune * (rune * rune)) :=
  upperDecompositions ++
  map (fun '(c, (b, m)) => (c + 32, (b + 32, m))) upperDecompositions ++
  [ (0xFF, (0x79, 0x308)) ].

Definition decompose (r : rune) : option (rune * rune) :=
  snd <$> List.find (fun e => fst e =? r) decompositions.

Definition compose (b m : rune) : option rune :=
  fst <$> List.find (fun e => (fst (snd e) =? b) && (snd (snd e) =? m))
                    decompositions.

Definition nfd (s : gostring) : gostring :=
  flat_map (fun r => match decompose r with
                     | Some (b, m) => [b; m]
                     | None => [r]
                     end) s.

(** A base and the mark after it are joined when the table has their
    composite. *)
Fixpoint nfc (s : gostring) : gostring :=
  match s with
  | [] => []
  | b :: tl =>
      match tl with
      | [] => [b]
      | m :: rest =>
          match compose b m with
          | Some c => c :: nfc rest
          | None => b :: nfc tl
          end
      end
  end.

End Latin1.

Definition latin1 : Unicode := {|
  IsUpper := Latin1.isUpper;
  IsLetter := Latin1.isLetter;
  IsNumber := Latin1.isNumber;
  IsMn := Latin1.isMn;
  ToLower := Latin1.toLower;
  ToUpper := Latin1.toUpper;
  NFD := Latin1.nfd;
  NFC := Latin1.nfc
|}.


(** Checks on the table. *)

Definition undecomposed (r : rune) : bool :=
  bool_decide (Latin1.decompose r = None).

(** An entry is sound when the composite decomposes into the base and the
    mark, neither of which decomposes, the mark is nonspacing, and the
    base is a letter and not a mark. *)
Definition entryOK (e : rune * (rune * rune)) : bool :=
  let '(c, (b, m)) := e in
  bool_decide (Latin1.decompose c = Some (b, m)) &&
  undecomposed b && undecomposed m &&
  Latin1.isMn m && negb (Latin1.isMn b) && cleanRune (U := latin1) b.

(** ** The Unicode Character Database

    [ucd] follows the tables of Go's [unicode] package and of
    [golang.org/x/text/unicode/norm], as they are for Unicode 14.0.0: the
    general categories of the letters, of the uppercase letters, of the
    numbers and of the nonspacing marks, the simple case mappings, the
    canonical combining classes, the full canonical decompositions and
    the primary composites, with the Hangul syllables computed as the
    standard has it. A rune with no row in a table is unclassified, its
    own case, a starter and its own decomposition.

    [norm] forms the normalisation forms of the standard, but for one
    thing: it breaks a run of more than thirty non-starters with U+034F.
    The model does not, and is [norm] on the strings that have no such
    run; the strings that [toProtobufPkg] normalises are among them, as
    they have no non-starter next to another one but within the
    decomposition of one rune. *)

Module Ucd.

(** The categories that the transformer asks about: L, N and Mn. *)
Inductive Class : Type := Letter | Number | Mark | Other.

(** The ranges of runes that are letters, numbers or nonspacing marks or
    have a combining class, each with its category and its class. *)
Definition properties : list (rune * rune * (Class * Z)) :=
  [
    (0x30, 0x39, (Number, 0)); (0x41, 0x5A, (Letter, 0));
    (0x61, 0x7A, (Letter, 0)); (0xAA, 0xAA, (Letter, 0));
    (0xB2, 0xB3, (Number, 0)); (0xB5, 0xB5, (Letter, 0));
    (0xB9, 0xB9, (Number, 0)); (0xBA, 0xBA, (Letter, 0));
    (0xBC, 0xBE, (Number, 0)); (0xC0, 0xD6, (Letter, 0));
    (0xD8, 0xF6, (Letter, 0)); (0xF8, 0x2C1, (Letter, 0));
    (0x2C6, 0x2D1, (Letter, 0)); (0x2E0, 0x2E4, (Letter, 0));
    (0x2EC, 0x2EC, (Letter, 0)); (0x2EE, 0x2EE, (Letter, 0));
    (0x300, 0x314, (Mark, 230)); (0x315, 0x315, (Mark, 232));
    (0x316, 0x319, (Mark, 220)); (0x31A, 0x31A, (Mark, 232));
    (0x31B, 0x31B, (Mark, 216)); (0x31C, 0x320, (Mark, 220));
    (0x321, 0x322, (Mark, 202)); (0x323, 0x326, (Mark, 220));
    (0x327, 0x328, (Mark, 202)); (0x329, 0x333, (Mark, 220));
    (0x334, 0x338, (Mark, 1)); (0x339, 0x33C, (Mark, 220));
    (0x33D, 0x344, (Mark, 230)); (0x345, 0x345, (Mark, 240));
    (0x346, 0x346, (Mark, 230)); (0x347, 0x349, (Mark, 220));
    (0x34A, 0x34C, (Mark, 230)); (0x34D, 0x34E, (Mark, 220));
    (0x34F, 0x34F, (Mark, 0)); (0x350, 0x352, (Mark, 230));
    (0x353, 0x356, (Mark, 220)); (0x357, 0x357, (Mark, 230));
    (0x358, 0x358, (Mark, 232)); (0x359, 0x35A, (Mark, 220));
    (0x35B, 0x35B, (Mark, 230)); (0x35C, 0x35C, (Mark, 233));
    (0x35D, 0x35E, (Mark, 234)); (0x35F, 0x35F, (Mark, 233));
    (0x360, 0x361, (Mark, 234)); (0x362, 0x362, (Mark, 233));
    (0x363, 0x36F, (Mark, 230)); (0x370, 0x374, (Letter, 0));
    (0x376, 0x377, (Letter, 0)); (0x37A, 0x37D, (Letter, 0));
    (0x37F, 0x37F, (Letter, 0)); (0x386, 0x386, (Letter, 0));
    (0x388, 0x38A, (Letter, 0)); (0x38C, 0x38C, (Letter, 0));
    (0x38E, 0x3A1, (Letter, 0)); (0x3A3, 0x3F5, (Letter, 0));
    (0x3F7, 0x481, (Letter, 0)); (0x483, 0x487, (Mark, 230));
    (0x48A, 0x52F, (Letter, 0)); (0x531, 0x556, (Letter, 0));
    (0x559, 0x559, (Letter, 0)); (0x560, 0x588, (Letter, 0));
    (0x591, 0x591, (Mark, 220)); (0x592, 0x595, (Mark, 230));
    (0x596, 0x596, (Mark, 220)); (0x597, 0x599, (Mark, 230));
    (0x59A, 0x59A, (Mark, 222)); (0x59B, 0x59B, (Mark, 220));
    (0x59C, 0x5A1, (Mark, 230)); (0x5A2, 0x5A7, (Mark, 220));
    (0x5A8, 0x5A9, (Mark, 230)); (0x5AA, 0x5AA, (Mark, 220));
    (0x5AB, 0x5AC, (Mark, 230)); (0x5AD, 0x5AD, (Mark, 222));
    (0x5AE, 0x5AE, (Mark, 228)); (0x5AF, 0x5AF, (Mark, 230));
    (0x5B0, 0x5B0, (Mark, 10)); (0x5B1, 0x5B1, (Mark, 11));
    (0x5B2, 0x5B2, (Mark, 12)); (0x5B3, 0x5B3, (Mark, 13));
    (0x5B4, 0x5B4, (Mark, 14)); (0x5B5, 0x5B5, (Mark, 15));
    (0x5B6, 0x5B6, (Mark, 16)); (0x5B7, 0x5B7, (Mark, 17));
    (0x5B8, 0x5B8, (Mark, 18)); (0x5B9, 0x5BA, (Mark, 19));
    (0x5BB, 0x5BB, (Mark, 20)); (0x5BC, 0x5BC, (Mark, 21));
    (0x5BD, 0x5BD, (Mark, 22)); (0x5BF, 0x5BF, (Mark, 23));
    (0x5C1, 0x5C1, (Mark, 24)); (0x5C2, 0x5C2, (Mark, 25));
    (0x5C4, 0x5C4, (Mark, 230)); (0x5C5, 0x5C5, (Mark, 220));
    (0x5C7, 0x5C7, (Mark, 18)); (0x5D0, 0x5EA, (Letter, 0));
    (0x5EF, 0x5F2, (Letter, 0)); (0x610, 0x617, (Mark, 230));
    (0x618, 0x618, (Mark, 30)); (0x619, 0x619, (Mark, 31));
    (0x61A, 0x61A, (Mark, 32)); (0x620, 0x64A, (Letter, 0));
    (0x64B, 0x64B, (Mark, 27)); (0x64C, 0x64C, (Mark, 28));
    (0x64D, 0x64D, (Mark, 29)); (0x64E, 0x64E, (Mark, 30));
    (0x64F, 0x64F, (Mark, 31)); (0x650, 0x650, (Mark, 32));
    (0x651, 0x651, (Mark, 33)); (0x652, 0x652, (Mark, 34));
    (0x653, 0x654, (Mark, 230)); (0x655, 0x656, (Mark, 220));
    (0x657, 0x65B, (Mark, 230)); (0x65C, 0x65C, (Mark, 220));
    (0x65D, 0x65E, (Mark, 230)); (0x65F, 0x65F, (Mark, 220));
    (0x660, 0x669, (Number, 0)); (0x66E, 0x66F, (Letter, 0));
    (0x670, 0x670, (Mark, 35)); (0x671, 0x6D3, (Letter, 0));
    (0x6D5, 0x6D5, (Letter, 0)); (0x6D6, 0x6DC, (Mark, 230));
    (0x6DF, 0x6E2, (Mark, 230)); (0x6E3, 0x6E3, (Mark, 220));
    (0x6E4, 0x6E4, (Mark, 230)); (0x6E5, 0x6E6, (Letter, 0));
    (0x6E7, 0x6E8, (Mark, 230)); (0x6EA, 0x6EA, (Mark, 220));
    (0x6EB, 0x6EC, (Mark, 230)); (0x6ED, 0x6ED, (Mark, 220));
    (0x6EE, 0x6EF, (Letter, 0)); (0x6F0, 0x6F9, (Number, 0));
    (0x6FA, 0x6FC, (Letter, 0)); (0x6FF, 0x6FF, (Letter, 0));
    (0x710, 0x710, (Letter, 0)); (0x711, 0x711, (Mark, 36));
    (0x712, 0x72F, (Letter, 0)); (0x730, 0x730, (Mark, 230));
    (0x731, 0x731, (Mark, 220)); (0x732, 0x733, (Mark, 230));
    (0x734, 0x734, (Mark, 220)); (0x735, 0x736, (Mark, 230));
    (0x737, 0x739, (Mark, 220)); (0x73A, 0x73A, (Mark, 230));
    (0x73B, 0x73C, (Mark, 220)); (0x73D, 0x73D, (Mark, 230));
    (0x73E, 0x73E, (Mark, 220)); (0x73F, 0x741, (Mark, 230));
    (0x742, 0x742, (Mark, 220)); (0x743, 0x743, (Mark, 230));
    (0x744, 0x744, (Mark, 220)); (0x745, 0x745, (Mark, 230));
    (0x746, 0x746, (Mark, 220)); (0x747, 0x747, (Mark, 230));
    (0x748, 0x748, (Mark, 220)); (0x749, 0x74A, (Mark, 230));
    (0x74D, 0x7A5, (Letter, 0)); (0x7A6, 0x7B0, (Mark, 0));
    (0x7B1, 0x7B1, (Letter, 0)); (0x7C0, 0x7C9, (Number, 0));
    (0x7CA, 0x7EA, (Letter, 0)); (0x7EB, 0x7F1, (Mark, 230));
    (0x7F2, 0x7F2, (Mark, 220)); (0x7F3, 0x7F3, (Mark, 230));
    (0x7F4, 0x7F5, (Letter, 0)); (0x7FA, 0x7FA, (Letter, 0));
    (0x7FD, 0x7FD, (Mark, 220)); (0x800, 0x815, (Letter, 0));
    (0x816, 0x819, (Mark, 230)); (0x81A, 0x81A, (Letter, 0));
    (0x81B, 0x823, (Mark, 230)); (0x824, 0x824, (Letter, 0));
    (0x825, 0x827, (Mark, 230)); (0x828, 0x828, (Letter, 0));
    (0x829, 0x82D, (Mark, 230)); (0x840, 0x858, (Letter, 0));
    (0x859, 0x85B, (Mark, 220)); (0x860, 0x86A, (Letter, 0));
    (0x870, 0x887, (Letter, 0)); (0x889, 0x88E, (Letter, 0));
    (0x898, 0x898, (Mark, 230)); (0x899, 0x89B, (Mark, 220));
    (0x89C, 0x89F, (Mark, 230)); (0x8A0, 0x8C9, (Letter, 0));
    (0x8CA, 0x8CE, (Mark, 230)); (0x8CF, 0x8D3, (Mark, 220));
    (0x8D4, 0x8E1, (Mark, 230)); (0x8E3, 0x8E3, (Mark, 220));
    (0x8E4, 0x8E5, (Mark, 230)); (0x8E6, 0x8E6, (Mark, 220));
    (0x8E7, 0x8E8, (Mark, 230)); (0x8E9, 0x8E9, (Mark, 220));
    (0x8EA, 0x8EC, (Mark, 230)); (0x8ED, 0x8EF, (Mark, 220));
    (0x8F0, 0x8F0, (Mark, 27)); (0x8F1, 0x8F1, (Mark, 28));
    (0x8F2, 0x8F2, (Mark, 29)); (0x8F3, 0x8F5, (Mark, 230));
    (0x8F6, 0x8F6, (Mark, 220)); (0x8F7, 0x8F8, (Mark, 230));
    (0x8F9, 0x8FA, (Mark, 220)); (0x8FB, 0x8FF, (Mark, 230));
    (0x900, 0x902, (Mark, 0)); (0x904, 0x939, (Letter, 0));
    (0x93A, 0x93A, (Mark, 0)); (0x93C, 0x93C, (Mark, 7));
    (0x93D, 0x93D, (Letter, 0)); (0x941, 0x948, (Mark, 0));
    (0x94D, 0x94D, (Mark, 9)); (0x950, 0x950, (Letter, 0));
    (0x951, 0x951, (Mark, 230)); (0x952, 0x952, (Mark, 220));
    (0x953, 0x954, (Mark, 230)); (0x955, 0x957, (Mark, 0));
    (0x958, 0x961, (Letter, 0)); (0x962, 0x963, (Mark, 0));
    (0x966, 0x96F, (Number, 0)); (0x971, 0x980, (Letter, 0));
    (0x981, 0x981, (Mark, 0)); (0x985, 0x98C, (Letter, 0));
    (0x98F, 0x990, (Letter, 0)); (0x993, 0x9A8, (Letter, 0));
    (0x9AA, 0x9B0, (Letter, 0)); (0x9B2, 0x9B2, (Letter, 0));
    (0x9B6, 0x9B9, (Letter, 0)); (0x9BC, 0x9BC, (Mark, 7));
    (0x9BD, 0x9BD, (Letter, 0)); (0x9C1, 0x9C4, (Mark, 0));
    (0x9CD, 0x9CD, (Mark, 9)); (0x9CE, 0x9CE, (Letter, 0));
    (0x9DC, 0x9DD, (Letter, 0)); (0x9DF, 0x9E1, (Letter, 0));
    (0x9E2, 0x9E3, (Mark, 0)); (0x9E6, 0x9EF, (Number, 0));
    (0x9F0, 0x9F1, (Letter, 0)); (0x9F4, 0x9F9, (Number, 0));
    (0x9FC, 0x9FC, (Letter, 0)); (0x9FE, 0x9FE, (Mark, 230));
    (0xA01, 0xA02, (Mark, 0)); (0xA05, 0xA0A, (Letter, 0));
    (0xA0F, 0xA10, (Letter, 0)); (0xA13, 0xA28, (Letter, 0));
    (0xA2A, 0xA30, (Letter, 0)); (0xA32, 0xA33, (Letter, 0));
    (0xA35, 0xA36, (Letter, 0)); (0xA38, 0xA39, (Letter, 0));
    (0xA3C, 0xA3C, (Mark, 7)); (0xA41, 0xA42, (Mark, 0));
    (0xA47, 0xA48, (Mark, 0)); (0xA4B, 0xA4C, (Mark, 0));
    (0xA4D, 0xA4D, (Mark, 9)); (0xA51, 0xA51, (Mark, 0));
    (0xA59, 0xA5C, (Letter, 0)); (0xA5E, 0xA5E, (Letter, 0));
    (0xA66, 0xA6F, (Number, 0)); (0xA70, 0xA71, (Mark, 0));
    (0xA72, 0xA74, (Letter, 0)); (0xA75, 0xA75, (Mark, 0));
    (0xA81, 0xA82, (Mark, 0)); (0xA85, 0xA8D, (Letter, 0));
    (0xA8F, 0xA91, (Letter, 0)); (0xA93, 0xAA8, (Letter, 0));
    (0xAAA, 0xAB0, (Letter, 0)); (0xAB2, 0xAB3, (Letter, 0));
    (0xAB5, 0xAB9, (Letter, 0)); (0xABC, 0xABC, (Mark, 7));
    (0xABD, 0xABD, (Letter, 0)); (0xAC1, 0xAC5, (Mark, 0));
    (0xAC7, 0xAC8, (Mark, 0)); (0xACD, 0xACD, (Mark, 9));
    (0xAD0, 0xAD0, (Letter, 0)); (0xAE0, 0xAE1, (Letter, 0));
    (0xAE2, 0xAE3, (Mark, 0)); (0xAE6, 0xAEF, (Number, 0));
    (0xAF9, 0xAF9, (Letter, 0)); (0xAFA, 0xAFF, (Mark, 0));
    (0xB01, 0xB01, (Mark, 0)); (0xB05, 0xB0C, (Letter, 0));
    (0xB0F, 0xB10, (Letter, 0)); (0xB13, 0xB28, (Letter, 0));
    (0xB2A, 0xB30, (Letter, 0)); (0xB32, 0xB33, (Letter, 0));
    (0xB35, 0xB39, (Letter, 0)); (0xB3C, 0xB3C, (Mark, 7));
    (0xB3D, 0xB3D, (Letter, 0)); (0xB3F, 0xB3F, (Mark, 0));
    (0xB41, 0xB44, (Mark, 0)); (0xB4D, 0xB4D, (Mark, 9));
    (0xB55, 0xB56, (Mark, 0)); (0xB5C, 0xB5D, (Letter, 0));
    (0xB5F, 0xB61, (Letter, 0)); (0xB62, 0xB63, (Mark, 0));
    (0xB66, 0xB6F, (Number, 0)); (0xB71, 0xB71, (Letter, 0));
    (0xB72, 0xB77, (Number, 0)); (0xB82, 0xB82, (Mark, 0));
    (0xB83, 0xB83, (Letter, 0)); (0xB85, 0xB8A, (Letter, 0));
    (0xB8E, 0xB90, (Letter, 0)); (0xB92, 0xB95, (Letter, 0));
    (0xB99, 0xB9A, (Letter, 0)); (0xB9C, 0xB9C, (Letter, 0));
    (0xB9E, 0xB9F, (Letter, 0)); (0xBA3, 0xBA4, (Letter, 0));
    (0xBA8, 0xBAA, (Letter, 0)); (0xBAE, 0xBB9, (Letter, 0));
    (0xBC0, 0xBC0, (Mark, 0)); (0xBCD, 0xBCD, (Mark, 9));
    (0xBD0, 0xBD0, (Letter, 0)); (0xBE6, 0xBF2, (Number, 0));
    (0xC00, 0xC00, (Mark, 0)); (0xC04, 0xC04, (Mark, 0));
    (0xC05, 0xC0C, (Letter, 0)); (0xC0E, 0xC10, (Letter, 0));
    (0xC12, 0xC28, (Letter, 0)); (0xC2A, 0xC39, (Letter, 0));
    (0xC3C, 0xC3C, (Mark, 7)); (0xC3D, 0xC3D, (Letter, 0));
    (0xC3E, 0xC40, (Mark, 0)); (0xC46, 0xC48, (Mark, 0));
    (0xC4A, 0xC4C, (Mark, 0)); (0xC4D, 0xC4D, (Mark, 9));
    (0xC55, 0xC55, (Mark, 84)); (0xC56, 0xC56, (Mark, 91));
    (0xC58, 0xC5A, (Letter, 0)); (0xC5D, 0xC5D, (Letter, 0));
    (0xC60, 0xC61, (Letter, 0)); (0xC62, 0xC63, (Mark, 0));
    (0xC66, 0xC6F, (Number, 0)); (0xC78, 0xC7E, (Number, 0));
    (0xC80, 0xC80, (Letter, 0)); (0xC81, 0xC81, (Mark, 0));
    (0xC85, 0xC8C, (Letter, 0)); (0xC8E, 0xC90, (Letter, 0));
    (0xC92, 0xCA8, (Letter, 0)); (0xCAA, 0xCB3, (Letter, 0));
    (0xCB5, 0xCB9, (Letter, 0)); (0xCBC, 0xCBC, (Mark, 7));
    (0xCBD, 0xCBD, (Letter, 0)); (0xCBF, 0xCBF, (Mark, 0));
    (0xCC6, 0xCC6, (Mark, 0)); (0xCCC, 0xCCC, (Mark, 0));
    (0xCCD, 0xCCD, (Mark, 9)); (0xCDD, 0xCDE, (Letter, 0));
    (0xCE0, 0xCE1, (Letter, 0)); (0xCE2, 0xCE3, (Mark, 0));
    (0xCE6, 0xCEF, (Number, 0)); (0xCF1, 0xCF2, (Letter, 0));
    (0xD00, 0xD01, (Mark, 0)); (0xD04, 0xD0C, (Letter, 0));
    (0xD0E, 0xD10, (Letter, 0)); (0xD12, 0xD3A, (Letter, 0));
    (0xD3B, 0xD3C, (Mark, 9)); (0xD3D, 0xD3D, (Letter, 0));
    (0xD41, 0xD44, (Mark, 0)); (0xD4D, 0xD4D, (Mark, 9));
    (0xD4E, 0xD4E, (Letter, 0)); (0xD54, 0xD56, (Letter, 0));
    (0xD58, 0xD5E, (Number, 0)); (0xD5F, 0xD61, (Letter, 0));
    (0xD62, 0xD63, (Mark, 0)); (0xD66, 0xD78, (Number, 0));
    (0xD7A, 0xD7F, (Letter, 0)); (0xD81, 0xD81, (Mark, 0));
    (0xD85, 0xD96, (Letter, 0)); (0xD9A, 0xDB1, (Letter, 0));
    (0xDB3, 0xDBB, (Letter, 0)); (0xDBD, 0xDBD, (Letter, 0));
    (0xDC0, 0xDC6, (Letter, 0)); (0xDCA, 0xDCA, (Mark, 9));
    (0xDD2, 0xDD4, (Mark, 0)); (0xDD6, 0xDD6, (Mark, 0));
    (0xDE6, 0xDEF, (Number, 0)); (0xE01, 0xE30, (Letter, 0));
    (0xE31, 0xE31, (Mark, 0)); (0xE32, 0xE33, (Letter, 0));
    (0xE34, 0xE37, (Mark, 0)); (0xE38, 0xE39, (Mark, 103));
    (0xE3A, 0xE3A, (Mark, 9)); (0xE40, 0xE46, (Letter, 0));
    (0xE47, 0xE47, (Mark, 0)); (0xE48, 0xE4B, (Mark, 107));
    (0xE4C, 0xE4E, (Mark, 0)); (0xE50, 0xE59, (Number, 0));
    (0xE81, 0xE82, (Letter, 0)); (0xE84, 0xE84, (Letter, 0));
    (0xE86, 0xE8A, (Letter, 0)); (0xE8C, 0xEA3, (Letter, 0));
    (0xEA5, 0xEA5, (Letter, 0)); (0xEA7, 0xEB0, (Letter, 0));
    (0xEB1, 0xEB1, (Mark, 0)); (0xEB2, 0xEB3, (Letter, 0));
    (0xEB4, 0xEB7, (Mark, 0)); (0xEB8, 0xEB9, (Mark, 118));
    (0xEBA, 0xEBA, (Mark, 9)); (0xEBB, 0xEBC, (Mark, 0));
    (0xEBD, 0xEBD, (Letter, 0)); (0xEC0, 0xEC4, (Letter, 0));
    (0xEC6, 0xEC6, (Letter, 0)); (0xEC8, 0xECB, (Mark, 122));
    (0xECC, 0xECD, (Mark, 0)); (0xED0, 0xED9, (Number, 0));
    (0xEDC, 0xEDF, (Letter, 0)); (0xF00, 0xF00, (Letter, 0));
    (0xF18, 0xF19, (Mark, 220)); (0xF20, 0xF33, (Number, 0));
    (0xF35, 0xF35, (Mark, 220)); (0xF37, 0xF37, (Mark, 220));
    (0xF39, 0xF39, (Mark, 216)); (0xF40, 0xF47, (Letter, 0));
    (0xF49, 0xF6C, (Letter, 0)); (0xF71, 0xF71, (Mark, 129));
    (0xF72, 0xF72, (Mark, 130)); (0xF73, 0xF73, (Mark, 0));
    (0xF74, 0xF74, (Mark, 132)); (0xF75, 0xF79, (Mark, 0));
    (0xF7A, 0xF7D, (Mark, 130)); (0xF7E, 0xF7E, (Mark, 0));
    (0xF80, 0xF80, (Mark, 130)); (0xF81, 0xF81, (Mark, 0));
    (0xF82, 0xF83, (Mark, 230)); (0xF84, 0xF84, (Mark, 9));
    (0xF86, 0xF87, (Mark, 230)); (0xF88, 0xF8C, (Letter, 0));
    (0xF8D, 0xF97, (Mark, 0)); (0xF99, 0xFBC, (Mark, 0));
    (0xFC6, 0xFC6, (Mark, 220)); (0x1000, 0x102A, (Letter, 0));
    (0x102D, 0x1030, (Mark, 0)); (0x1032, 0x1036, (Mark, 0));
    (0x1037, 0x1037, (Mark, 7)); (0x1039, 0x103A, (Mark, 9));
    (0x103D, 0x103E, (Mark, 0)); (0x103F, 0x103F, (Letter, 0));
    (0x1040, 0x1049, (Number, 0)); (0x1050, 0x1055, (Letter, 0));
    (0x1058, 0x1059, (Mark, 0)); (0x105A, 0x105D, (Letter, 0));
    (0x105E, 0x1060, (Mark, 0)); (0x1061, 0x1061, (Letter, 0));
    (0x1065, 0x1066, (Letter, 0)); (0x106E, 0x1070, (Letter, 0));
    (0x1071, 0x1074, (Mark, 0)); (0x1075, 0x1081, (Letter, 0));
    (0x1082, 0x1082, (Mark, 0)); (0x1085, 0x1086, (Mark, 0));
    (0x108D, 0x108D, (Mark, 220)); (0x108E, 0x108E, (Letter, 0));
    (0x1090, 0x1099, (Number, 0)); (0x109D, 0x109D, (Mark, 0));
    (0x10A0, 0x10C5, (Letter, 0)); (0x10C7, 0x10C7, (Letter, 0));
    (0x10CD, 0x10CD, (Letter, 0)); (0x10D0, 0x10FA, (Letter, 0));
    (0x10FC, 0x1248, (Letter, 0)); (0x124A, 0x124D, (Letter, 0));
    (0x1250, 0x1256, (Letter, 0)); (0x1258, 0x1258, (Letter, 0));
    (0x125A, 0x125D, (Letter, 0)); (0x1260, 0x1288, (Letter, 0));
    (0x128A, 0x128D, (Letter, 0)); (0x1290, 0x12B0, (Letter, 0));
    (0x12B2, 0x12B5, (Letter, 0)); (0x12B8, 0x12BE, (Letter, 0));
    (0x12C0, 0x12C0, (Letter, 0)); (0x12C2, 0x12C5, (Letter, 0));
    (0x12C8, 0x12D6, (Letter, 0)); (0x12D8, 0x1310, (Letter, 0));
    (0x1312, 0x1315, (Letter, 0)); (0x1318, 0x135A, (Letter, 0));
    (0x135D, 0x135F, (Mark, 230)); (0x1369, 0x137C, (Number, 0));
    (0x1380, 0x138F, (Letter, 0)); (0x13A0, 0x13F5, (Letter, 0));
    (0x13F8, 0x13FD, (Letter, 0)); (0x1401, 0x166C, (Letter, 0));
    (0x166F, 0x167F, (Letter, 0)); (0x1681, 0x169A, (Letter, 0));
    (0x16A0, 0x16EA, (Letter, 0)); (0x16EE, 0x16F0, (Number, 0));
    (0x16F1, 0x16F8, (Letter, 0)); (0x1700, 0x1711, (Letter, 0));
    (0x1712, 0x1713, (Mark, 0)); (0x1714, 0x1714, (Mark, 9));
    (0x1715, 0x1715, (Other, 9)); (0x171F, 0x1731, (Letter, 0));
    (0x1732, 0x1733, (Mark, 0)); (0x1734, 0x1734, (Other, 9));
    (0x1740, 0x1751, (Letter, 0)); (0x1752, 0x1753, (Mark, 0));
    (0x1760, 0x176C, (Letter, 0)); (0x176E, 0x1770, (Letter, 0));
    (0x1772, 0x1773, (Mark, 0)); (0x1780, 0x17B3, (Letter, 0));
    (0x17B4, 0x17B5, (Mark, 0)); (0x17B7, 0x17BD, (Mark, 0));
    (0x17C6, 0x17C6, (Mark, 0)); (0x17C9, 0x17D1, (Mark, 0));
    (0x17D2, 0x17D2, (Mark, 9)); (0x17D3, 0x17D3, (Mark, 0));
    (0x17D7, 0x17D7, (Letter, 0)); (0x17DC, 0x17DC, (Letter, 0));
    (0x17DD, 0x17DD, (Mark, 230)); (0x17E0, 0x17E9, (Number, 0));
    (0x17F0, 0x17F9, (Number, 0)); (0x180B, 0x180D, (Mark, 0));
    (0x180F, 0x180F, (Mark, 0)); (0x1810, 0x1819, (Number, 0));
    (0x1820, 0x1878, (Letter, 0)); (0x1880, 0x1884, (Letter, 0));
    (0x1885, 0x1886, (Mark, 0)); (0x1887, 0x18A8, (Letter, 0));
    (0x18A9, 0x18A9, (Mark, 228)); (0x18AA, 0x18AA, (Letter, 0));
    (0x18B0, 0x18F5, (Letter, 0)); (0x1900, 0x191E, (Letter, 0));
    (0x1920, 0x1922, (Mark, 0)); (0x1927, 0x1928, (Mark, 0));
    (0x1932, 0x1932, (Mark, 0)); (0x1939, 0x1939, (Mark, 222));
    (0x193A, 0x193A, (Mark, 230)); (0x193B, 0x193B, (Mark, 220));
    (0x1946, 0x194F, (Number, 0)); (0x1950, 0x196D, (Letter, 0));
    (0x1970, 0x1974, (Letter, 0)); (0x1980, 0x19AB, (Letter, 0));
    (0x19B0, 0x19C9, (Letter, 0)); (0x19D0, 0x19DA, (Number, 0));
    (0x1A00, 0x1A16, (Letter, 0)); (0x1A17, 0x1A17, (Mark, 230));
    (0x1A18, 0x1A18, (Mark, 220)); (0x1A1B, 0x1A1B, (Mark, 0));
    (0x1A20, 0x1A54, (Letter, 0)); (0x1A56, 0x1A56, (Mark, 0));
    (0x1A58, 0x1A5E, (Mark, 0)); (0x1A60, 0x1A60, (Mark, 9));
    (0x1A62, 0x1A62, (Mark, 0)); (0x1A65, 0x1A6C, (Mark, 0));
    (0x1A73, 0x1A74, (Mark, 0)); (0x1A75, 0x1A7C, (Mark, 230));
    (0x1A7F, 0x1A7F, (Mark, 220)); (0x1A80, 0x1A89, (Number, 0));
    (0x1A90, 0x1A99, (Number, 0)); (0x1AA7, 0x1AA7, (Letter, 0));
    (0x1AB0, 0x1AB4, (Mark, 230)); (0x1AB5, 0x1ABA, (Mark, 220));
    (0x1ABB, 0x1ABC, (Mark, 230)); (0x1ABD, 0x1ABD, (Mark, 220));
    (0x1ABF, 0x1AC0, (Mark, 220)); (0x1AC1, 0x1AC2, (Mark, 230));
    (0x1AC3, 0x1AC4, (Mark, 220)); (0x1AC5, 0x1AC9, (Mark, 230));
    (0x1ACA, 0x1ACA, (Mark, 220)); (0x1ACB, 0x1ACE, (Mark, 230));
    (0x1B00, 0x1B03, (Mark, 0)); (0x1B05, 0x1B33, (Letter, 0));
    (0x1B34, 0x1B34, (Mark, 7)); (0x1B36, 0x1B3A, (Mark, 0));
    (0x1B3C, 0x1B3C, (Mark, 0)); (0x1B42, 0x1B42, (Mark, 0));
    (0x1B44, 0x1B44, (Other, 9)); (0x1B45, 0x1B4C, (Letter, 0));
    (0x1B50, 0x1B59, (Number, 0)); (0x1B6B, 0x1B6B, (Mark, 230));
    (0x1B6C, 0x1B6C, (Mark, 220)); (0x1B6D, 0x1B73, (Mark, 230));
    (0x1B80, 0x1B81, (Mark, 0)); (0x1B83, 0x1BA0, (Letter, 0));
    (0x1BA2, 0x1BA5, (Mark, 0)); (0x1BA8, 0x1BA9, (Mark, 0));
    (0x1BAA, 0x1BAA, (Other, 9)); (0x1BAB, 0x1BAB, (Mark, 9));
    (0x1BAC, 0x1BAD, (Mark, 0)); (0x1BAE, 0x1BAF, (Letter, 0));
    (0x1BB0, 0x1BB9, (Number, 0)); (0x1BBA, 0x1BE5, (Letter, 0));
    (0x1BE6, 0x1BE6, (Mark, 7)); (0x1BE8, 0x1BE9, (Mark, 0));
    (0x1BED, 0x1BED, (Mark, 0)); (0x1BEF, 0x1BF1, (Mark, 0));
    (0x1BF2, 0x1BF3, (Other, 9)); (0x1C00, 0x1C23, (Letter, 0));
    (0x1C2C, 0x1C33, (Mark, 0)); (0x1C36, 0x1C36, (Mark, 0));
    (0x1C37, 0x1C37, (Mark, 7)); (0x1C40, 0x1C49, (Number, 0));
    (0x1C4D, 0x1C4F, (Letter, 0)); (0x1C50, 0x1C59, (Number, 0));
    (0x1C5A, 0x1C7D, (Letter, 0)); (0x1C80, 0x1C88, (Letter, 0));
    (0x1C90, 0x1CBA, (Letter, 0)); (0x1CBD, 0x1CBF, (Letter, 0));
    (0x1CD0, 0x1CD2, (Mark, 230)); (0x1CD4, 0x1CD4, (Mark, 1));
    (0x1CD5, 0x1CD9, (Mark, 220)); (0x1CDA, 0x1CDB, (Mark, 230));
    (0x1CDC, 0x1CDF, (Mark, 220)); (0x1CE0, 0x1CE0, (Mark, 230));
    (0x1CE2, 0x1CE8, (Mark, 1)); (0x1CE9, 0x1CEC, (Letter, 0));
    (0x1CED, 0x1CED, (Mark, 220)); (0x1CEE, 0x1CF3, (Letter, 0));
    (0x1CF4, 0x1CF4, (Mark, 230)); (0x1CF5, 0x1CF6, (Letter, 0));
    (0x1CF8, 0x1CF9, (Mark, 230)); (0x1CFA, 0x1CFA, (Letter, 0));
    (0x1D00, 0x1DBF, (Letter, 0)); (0x1DC0, 0x1DC1, (Mark, 230));
    (0x1DC2, 0x1DC2, (Mark, 220)); (0x1DC3, 0x1DC9, (Mark, 230));
    (0x1DCA, 0x1DCA, (Mark, 220)); (0x1DCB, 0x1DCC, (Mark, 230));
    (0x1DCD, 0x1DCD, (Mark, 234)); (0x1DCE, 0x1DCE, (Mark, 214));
    (0x1DCF, 0x1DCF, (Mark, 220)); (0x1DD0, 0x1DD0, (Mark, 202));
    (0x1DD1, 0x1DF5, (Mark, 230)); (0x1DF6, 0x1DF6, (Mark, 232));
    (0x1DF7, 0x1DF8, (Mark, 228)); (0x1DF9, 0x1DF9, (Mark, 220));
    (0x1DFA, 0x1DFA, (Mark, 218)); (0x1DFB, 0x1DFB, (Mark, 230));
    (0x1DFC, 0x1DFC, (Mark, 233)); (0x1DFD, 0x1DFD, (Mark, 220));
    (0x1DFE, 0x1DFE, (Mark, 230)); (0x1DFF, 0x1DFF, (Mark, 220));
    (0x1E00, 0x1F15, (Letter, 0)); (0x1F18, 0x1F1D, (Letter, 0));
    (0x1F20, 0x1F45, (Letter, 0)); (0x1F48, 0x1F4D, (Letter, 0));
    (0x1F50, 0x1F57, (Letter, 0)); (0x1F59, 0x1F59, (Letter, 0));
    (0x1F5B, 0x1F5B, (Letter, 0)); (0x1F5D, 0x1F5D, (Letter, 0));
    (0x1F5F, 0x1F7D, (Letter, 0)); (0x1F80, 0x1FB4, (Letter, 0));
    (0x1FB6, 0x1FBC, (Letter, 0)); (0x1FBE, 0x1FBE, (Letter, 0));
    (0x1FC2, 0x1FC4, (Letter, 0)); (0x1FC6, 0x1FCC, (Letter, 0));
    (0x1FD0, 0x1FD3, (Letter, 0)); (0x1FD6, 0x1FDB, (Letter, 0));
    (0x1FE0, 0x1FEC, (Letter, 0)); (0x1FF2, 0x1FF4, (Letter, 0));
    (0x1FF6, 0x1FFC, (Letter, 0)); (0x2070, 0x2070, (Number, 0));
    (0x2071, 0x2071, (Letter, 0)); (0x2074, 0x2079, (Number, 0));
    (0x207F, 0x207F, (Letter, 0)); (0x2080, 0x2089, (Number, 0));
    (0x2090, 0x209C, (Letter, 0)); (0x20D0, 0x20D1, (Mark, 230));
    (0x20D2, 0x20D3, (Mark, 1)); (0x20D4, 0x20D7, (Mark, 230));
    (0x20D8, 0x20DA, (Mark, 1)); (0x20DB, 0x20DC, (Mark, 230));
    (0x20E1, 0x20E1, (Mark, 230)); (0x20E5, 0x20E6, (Mark, 1));
    (0x20E7, 0x20E7, (Mark, 230)); (0x20E8, 0x20E8, (Mark, 220));
    (0x20E9, 0x20E9, (Mark, 230)); (0x20EA, 0x20EB, (Mark, 1));
    (0x20EC, 0x20EF, (Mark, 220)); (0x20F0, 0x20F0, (Mark, 230));
    (0x2102, 0x2102, (Letter, 0)); (0x2107, 0x2107, (Letter, 0));
    (0x210A, 0x2113, (Letter, 0)); (0x2115, 0x2115, (Letter, 0));
    (0x2119, 0x211D, (Letter, 0)); (0x2124, 0x2124, (Letter, 0));
    (0x2126, 0x2126, (Letter, 0)); (0x2128, 0x2128, (Letter, 0));
    (0x212A, 0x212D, (Letter, 0)); (0x212F, 0x2139, (Letter, 0));
    (0x213C, 0x213F, (Letter, 0)); (0x2145, 0x2149, (Letter, 0));
    (0x214E, 0x214E, (Letter, 0)); (0x2150, 0x2182, (Number, 0));
    (0x2183, 0x2184, (Letter, 0)); (0x2185, 0x2189, (Number, 0));
    (0x2460, 0x249B, (Number, 0)); (0x24EA, 0x24FF, (Number, 0));
    (0x2776, 0x2793, (Number, 0)); (0x2C00, 0x2CE4, (Letter, 0));
    (0x2CEB, 0x2CEE, (Letter, 0)); (0x2CEF, 0x2CF1, (Mark, 230));
    (0x2CF2, 0x2CF3, (Letter, 0)); (0x2CFD, 0x2CFD, (Number, 0));
    (0x2D00, 0x2D25, (Letter, 0)); (0x2D27, 0x2D27, (Letter, 0));
    (0x2D2D, 0x2D2D, (Letter, 0)); (0x2D30, 0x2D67, (Letter, 0));
    (0x2D6F, 0x2D6F, (Letter, 0)); (0x2D7F, 0x2D7F, (Mark, 9));
    (0x2D80, 0x2D96, (Letter, 0)); (0x2DA0, 0x2DA6, (Letter, 0));
    (0x2DA8, 0x2DAE, (Letter, 0)); (0x2DB0, 0x2DB6, (Letter, 0));
    (0x2DB8, 0x2DBE, (Letter, 0)); (0x2DC0, 0x2DC6, (Letter, 0));
    (0x2DC8, 0x2DCE, (Letter, 0)); (0x2DD0, 0x2DD6, (Letter, 0));
    (0x2DD8, 0x2DDE, (Letter, 0)); (0x2DE0, 0x2DFF, (Mark, 230));
    (0x2E2F, 0x2E2F, (Letter, 0)); (0x3005, 0x3006, (Letter, 0));
    (0x3007, 0x3007, (Number, 0)); (0x3021, 0x3029, (Number, 0));
    (0x302A, 0x302A, (Mark, 218)); (0x302B, 0x302B, (Mark, 228));
    (0x302C, 0x302C, (Mark, 232)); (0x302D, 0x302D, (Mark, 222));
    (0x302E, 0x302F, (Other, 224)); (0x3031, 0x3035, (Letter, 0));
    (0x3038, 0x303A, (Number, 0)); (0x303B, 0x303C, (Letter, 0));
    (0x3041, 0x3096, (Letter, 0)); (0x3099, 0x309A, (Mark, 8));
    (0x309D, 0x309F, (Letter, 0)); (0x30A1, 0x30FA, (Letter, 0));
    (0x30FC, 0x30FF, (Letter, 0)); (0x3105, 0x312F, (Letter, 0));
    (0x3131, 0x318E, (Letter, 0)); (0x3192, 0x3195, (Number, 0));
    (0x31A0, 0x31BF, (Letter, 0)); (0x31F0, 0x31FF, (Letter, 0));
    (0x3220, 0x3229, (Number, 0)); (0x3248, 0x324F, (Number, 0));
    (0x3251, 0x325F, (Number, 0)); (0x3280, 0x3289, (Number, 0));
    (0x32B1, 0x32BF, (Number, 0)); (0x3400, 0x4DBF, (Letter, 0));
    (0x4E00, 0xA48C, (Letter, 0)); (0xA4D0, 0xA4FD, (Letter, 0));
    (0xA500, 0xA60C, (Letter, 0)); (0xA610, 0xA61F, (Letter, 0));
    (0xA620, 0xA629, (Number, 0)); (0xA62A, 0xA62B, (Letter, 0));
    (0xA640, 0xA66E, (Letter, 0)); (0xA66F, 0xA66F, (Mark, 230));
    (0xA674, 0xA67D, (Mark, 230)); (0xA67F, 0xA69D, (Letter, 0));
    (0xA69E, 0xA69F, (Mark, 230)); (0xA6A0, 0xA6E5, (Letter, 0));
    (0xA6E6, 0xA6EF, (Number, 0)); (0xA6F0, 0xA6F1, (Mark, 230));
    (0xA717, 0xA71F, (Letter, 0)); (0xA722, 0xA788, (Letter, 0));
    (0xA78B, 0xA7CA, (Letter, 0)); (0xA7D0, 0xA7D1, (Letter, 0));
    (0xA7D3, 0xA7D3, (Letter, 0)); (0xA7D5, 0xA7D9, (Letter, 0));
    (0xA7F2, 0xA801, (Letter, 0)); (0xA802, 0xA802, (Mark, 0));
    (0xA803, 0xA805, (Letter, 0)); (0xA806, 0xA806, (Mark, 9));
    (0xA807, 0xA80A, (Letter, 0)); (0xA80B, 0xA80B, (Mark, 0));
    (0xA80C, 0xA822, (Letter, 0)); (0xA825, 0xA826, (Mark, 0));
    (0xA82C, 0xA82C, (Mark, 9)); (0xA830, 0xA835, (Number, 0));
    (0xA840, 0xA873, (Letter, 0)); (0xA882, 0xA8B3, (Letter, 0));
    (0xA8C4, 0xA8C4, (Mark, 9)); (0xA8C5, 0xA8C5, (Mark, 0));
    (0xA8D0, 0xA8D9, (Number, 0)); (0xA8E0, 0xA8F1, (Mark, 230));
    (0xA8F2, 0xA8F7, (Letter, 0)); (0xA8FB, 0xA8FB, (Letter, 0));
    (0xA8FD, 0xA8FE, (Letter, 0)); (0xA8FF, 0xA8FF, (Mark, 0));
    (0xA900, 0xA909, (Number, 0)); (0xA90A, 0xA925, (Letter, 0));
    (0xA926, 0xA92A, (Mark, 0)); (0xA92B, 0xA92D, (Mark, 220));
    (0xA930, 0xA946, (Letter, 0)); (0xA947, 0xA951, (Mark, 0));
    (0xA953, 0xA953, (Other, 9)); (0xA960, 0xA97C, (Letter, 0));
    (0xA980, 0xA982, (Mark, 0)); (0xA984, 0xA9B2, (Letter, 0));
    (0xA9B3, 0xA9B3, (Mark, 7)); (0xA9B6, 0xA9B9, (Mark, 0));
    (0xA9BC, 0xA9BD, (Mark, 0)); (0xA9C0, 0xA9C0, (Other, 9));
    (0xA9CF, 0xA9CF, (Letter, 0)); (0xA9D0, 0xA9D9, (Number, 0));
    (0xA9E0, 0xA9E4, (Letter, 0)); (0xA9E5, 0xA9E5, (Mark, 0));
    (0xA9E6, 0xA9EF, (Letter, 0)); (0xA9F0, 0xA9F9, (Number, 0));
    (0xA9FA, 0xA9FE, (Letter, 0)); (0xAA00, 0xAA28, (Letter, 0));
    (0xAA29, 0xAA2E, (Mark, 0)); (0xAA31, 0xAA32, (Mark, 0));
    (0xAA35, 0xAA36, (Mark, 0)); (0xAA40, 0xAA42, (Letter, 0));
    (0xAA43, 0xAA43, (Mark, 0)); (0xAA44, 0xAA4B, (Letter, 0));
    (0xAA4C, 0xAA4C, (Mark, 0)); (0xAA50, 0xAA59, (Number, 0));
    (0xAA60, 0xAA76, (Letter, 0)); (0xAA7A, 0xAA7A, (Letter, 0));
    (0xAA7C, 0xAA7C, (Mark, 0)); (0xAA7E, 0xAAAF, (Letter, 0));
    (0xAAB0, 0xAAB0, (Mark, 230)); (0xAAB1, 0xAAB1, (Letter, 0));
    (0xAAB2, 0xAAB3, (Mark, 230)); (0xAAB4, 0xAAB4, (Mark, 220));
    (0xAAB5, 0xAAB6, (Letter, 0)); (0xAAB7, 0xAAB8, (Mark, 230));
    (0xAAB9, 0xAABD, (Letter, 0)); (0xAABE, 0xAABF, (Mark, 230));
    (0xAAC0, 0xAAC0, (Letter, 0)); (0xAAC1, 0xAAC1, (Mark, 230));
    (0xAAC2, 0xAAC2, (Letter, 0)); (0xAADB, 0xAADD, (Letter, 0));
    (0xAAE0, 0xAAEA, (Letter, 0)); (0xAAEC, 0xAAED, (Mark, 0));
    (0xAAF2, 0xAAF4, (Letter, 0)); (0xAAF6, 0xAAF6, (Mark, 9));
    (0xAB01, 0xAB06, (Letter, 0)); (0xAB09, 0xAB0E, (Letter, 0));
    (0xAB11, 0xAB16, (Letter, 0)); (0xAB20, 0xAB26, (Letter, 0));
    (0xAB28, 0xAB2E, (Letter, 0)); (0xAB30, 0xAB5A, (Letter, 0));
    (0xAB5C, 0xAB69, (Letter, 0)); (0xAB70, 0xABE2, (Letter, 0));
    (0xABE5, 0xABE5, (Mark, 0)); (0xABE8, 0xABE8, (Mark, 0));
    (0xABED, 0xABED, (Mark, 9)); (0xABF0, 0xABF9, (Number, 0));
    (0xAC00, 0xD7A3, (Letter, 0)); (0xD7B0, 0xD7C6, (Letter, 0));
    (0xD7CB, 0xD7FB, (Letter, 0)); (0xF900, 0xFA6D, (Letter, 0));
    (0xFA70, 0xFAD9, (Letter, 0)); (0xFB00, 0xFB06, (Letter, 0));
    (0xFB13, 0xFB17, (Letter, 0)); (0xFB1D, 0xFB1D, (Letter, 0));
    (0xFB1E, 0xFB1E, (Mark, 26)); (0xFB1F, 0xFB28, (Letter, 0));
    (0xFB2A, 0xFB36, (Letter, 0)); (0xFB38, 0xFB3C, (Letter, 0));
    (0xFB3E, 0xFB3E, (Letter, 0)); (0xFB40, 0xFB41, (Letter, 0));
    (0xFB43, 0xFB44, (Letter, 0)); (0xFB46, 0xFBB1, (Letter, 0));
    (0xFBD3, 0xFD3D, (Letter, 0)); (0xFD50, 0xFD8F, (Letter, 0));
    (0xFD92, 0xFDC7, (Letter, 0)); (0xFDF0, 0xFDFB, (Letter, 0));
    (0xFE00, 0xFE0F, (Mark, 0)); (0xFE20, 0xFE26, (Mark, 230));
    (0xFE27, 0xFE2D, (Mark, 220)); (0xFE2E, 0xFE2F, (Mark, 230));
    (0xFE70, 0xFE74, (Letter, 0)); (0xFE76, 0xFEFC, (Letter, 0));
    (0xFF10, 0xFF19, (Number, 0)); (0xFF21, 0xFF3A, (Letter, 0));
    (0xFF41, 0xFF5A, (Letter, 0)); (0xFF66, 0xFFBE, (Letter, 0));
    (0xFFC2, 0xFFC7, (Letter, 0)); (0xFFCA, 0xFFCF, (Letter, 0));
    (0xFFD2, 0xFFD7, (Letter, 0)); (0xFFDA, 0xFFDC, (Letter, 0));
    (0x10000, 0x1000B, (Letter, 0)); (0x1000D, 0x10026, (Letter, 0));
    (0x10028, 0x1003A, (Letter, 0)); (0x1003C, 0x1003D, (Letter, 0));
    (0x1003F, 0x1004D, (Letter, 0)); (0x10050, 0x1005D, (Letter, 0));
    (0x10080, 0x100FA, (Letter, 0)); (0x10107, 0x10133, (Number, 0));
    (0x10140, 0x10178, (Number, 0)); (0x1018A, 0x1018B, (Number, 0));
    (0x101FD, 0x101FD, (Mark, 220)); (0x10280, 0x1029C, (Letter, 0));
    (0x102A0, 0x102D0, (Letter, 0)); (0x102E0, 0x102E0, (Mark, 220));
    (0x102E1, 0x102FB, (Number, 0)); (0x10300, 0x1031F, (Letter, 0));
    (0x10320, 0x10323, (Number, 0)); (0x1032D, 0x10340, (Letter, 0));
    (0x10341, 0x10341, (Number, 0)); (0x10342, 0x10349, (Letter, 0));
    (0x1034A, 0x1034A, (Number, 0)); (0x10350, 0x10375, (Letter, 0));
    (0x10376, 0x1037A, (Mark, 230)); (0x10380, 0x1039D, (Letter, 0));
    (0x103A0, 0x103C3, (Letter, 0)); (0x103C8, 0x103CF, (Letter, 0));
    (0x103D1, 0x103D5, (Number, 0)); (0x10400, 0x1049D, (Letter, 0));
    (0x104A0, 0x104A9, (Number, 0)); (0x104B0, 0x104D3, (Letter, 0));
    (0x104D8, 0x104FB, (Letter, 0)); (0x10500, 0x10527, (Letter, 0));
    (0x10530, 0x10563, (Letter, 0)); (0x10570, 0x1057A, (Letter, 0));
    (0x1057C, 0x1058A, (Letter, 0)); (0x1058C, 0x10592, (Letter, 0));
    (0x10594, 0x10595, (Letter, 0)); (0x10597, 0x105A1, (Letter, 0));
    (0x105A3, 0x105B1, (Letter, 0)); (0x105B3, 0x105B9, (Letter, 0));
    (0x105BB, 0x105BC, (Letter, 0)); (0x10600, 0x10736, (Letter, 0));
    (0x10740, 0x10755, (Letter, 0)); (0x10760, 0x10767, (Letter, 0));
    (0x10780, 0x10785, (Letter, 0)); (0x10787, 0x107B0, (Letter, 0));
    (0x107B2, 0x107BA, (Letter, 0)); (0x10800, 0x10805, (Letter, 0));
    (0x10808, 0x10808, (Letter, 0)); (0x1080A, 0x10835, (Letter, 0));
    (0x10837, 0x10838, (Letter, 0)); (0x1083C, 0x1083C, (Letter, 0));
    (0x1083F, 0x10855, (Letter, 0)); (0x10858, 0x1085F, (Number, 0));
    (0x10860, 0x10876, (Letter, 0)); (0x10879, 0x1087F, (Number, 0));
    (0x10880, 0x1089E, (Letter, 0)); (0x108A7, 0x108AF, (Number, 0));
    (0x108E0, 0x108F2, (Letter, 0)); (0x108F4, 0x108F5, (Letter, 0));
    (0x108FB, 0x108FF, (Number, 0)); (0x10900, 0x10915, (Letter, 0));
    (0x10916, 0x1091B, (Number, 0)); (0x10920, 0x10939, (Letter, 0));
    (0x10980, 0x109B7, (Letter, 0)); (0x109BC, 0x109BD, (Number, 0));
    (0x109BE, 0x109BF, (Letter, 0)); (0x109C0, 0x109CF, (Number, 0));
    (0x109D2, 0x109FF, (Number, 0)); (0x10A00, 0x10A00, (Letter, 0));
    (0x10A01, 0x10A03, (Mark, 0)); (0x10A05, 0x10A06, (Mark, 0));
    (0x10A0C, 0x10A0C, (Mark, 0)); (0x10A0D, 0x10A0D, (Mark, 220));
    (0x10A0E, 0x10A0E, (Mark, 0)); (0x10A0F, 0x10A0F, (Mark, 230));
    (0x10A10, 0x10A13, (Letter, 0)); (0x10A15, 0x10A17, (Letter, 0));
    (0x10A19, 0x10A35, (Letter, 0)); (0x10A38, 0x10A38, (Mark, 230));
    (0x10A39, 0x10A39, (Mark, 1)); (0x10A3A, 0x10A3A, (Mark, 220));
    (0x10A3F, 0x10A3F, (Mark, 9)); (0x10A40, 0x10A48, (Number, 0));
    (0x10A60, 0x10A7C, (Letter, 0)); (0x10A7D, 0x10A7E, (Number, 0));
    (0x10A80, 0x10A9C, (Letter, 0)); (0x10A9D, 0x10A9F, (Number, 0));
    (0x10AC0, 0x10AC7, (Letter, 0)); (0x10AC9, 0x10AE4, (Letter, 0));
    (0x10AE5, 0x10AE5, (Mark, 230)); (0x10AE6, 0x10AE6, (Mark, 220));
    (0x10AEB, 0x10AEF, (Number, 0)); (0x10B00, 0x10B35, (Letter, 0));
    (0x10B40, 0x10B55, (Letter, 0)); (0x10B58, 0x10B5F, (Number, 0));
    (0x10B60, 0x10B72, (Letter, 0)); (0x10B78, 0x10B7F, (Number, 0));
    (0x10B80, 0x10B91, (Letter, 0)); (0x10BA9, 0x10BAF, (Number, 0));
    (0x10C00, 0x10C48, (Letter, 0)); (0x10C80, 0x10CB2, (Letter, 0));
    (0x10CC0, 0x10CF2, (Letter, 0)); (0x10CFA, 0x10CFF, (Number, 0));
    (0x10D00, 0x10D23, (Letter, 0)); (0x10D24, 0x10D27, (Mark, 230));
    (0x10D30, 0x10D39, (Number, 0)); (0x10E60, 0x10E7E, (Number, 0));
    (0x10E80, 0x10EA9, (Letter, 0)); (0x10EAB, 0x10EAC, (Mark, 230));
    (0x10EB0, 0x10EB1, (Letter, 0)); (0x10F00, 0x10F1C, (Letter, 0));
    (0x10F1D, 0x10F26, (Number, 0)); (0x10F27, 0x10F27, (Letter, 0));
    (0x10F30, 0x10F45, (Letter, 0)); (0x10F46, 0x10F47, (Mark, 220));
    (0x10F48, 0x10F4A, (Mark, 230)); (0x10F4B, 0x10F4B, (Mark, 220));
    (0x10F4C, 0x10F4C, (Mark, 230)); (0x10F4D, 0x10F50, (Mark, 220));
    (0x10F51, 0x10F54, (Number, 0)); (0x10F70, 0x10F81, (Letter, 0));
    (0x10F82, 0x10F82, (Mark, 230)); (0x10F83, 0x10F83, (Mark, 220));
    (0x10F84, 0x10F84, (Mark, 230)); (0x10F85, 0x10F85, (Mark, 220));
    (0x10FB0, 0x10FC4, (Letter, 0)); (0x10FC5, 0x10FCB, (Number, 0));
    (0x10FE0, 0x10FF6, (Letter, 0)); (0x11001, 0x11001, (Mark, 0));
    (0x11003, 0x11037, (Letter, 0)); (0x11038, 0x11045, (Mark, 0));
    (0x11046, 0x11046, (Mark, 9)); (0x11052, 0x1106F, (Number, 0));
    (0x11070, 0x11070, (Mark, 9)); (0x11071, 0x11072, (Letter, 0));
    (0x11073, 0x11074, (Mark, 0)); (0x11075, 0x11075, (Letter, 0));
    (0x1107F, 0x1107F, (Mark, 9)); (0x11080, 0x11081, (Mark, 0));
    (0x11083, 0x110AF, (Letter, 0)); (0x110B3, 0x110B6, (Mark, 0));
    (0x110B9, 0x110B9, (Mark, 9)); (0x110BA, 0x110BA, (Mark, 7));
    (0x110C2, 0x110C2, (Mark, 0)); (0x110D0, 0x110E8, (Letter, 0));
    (0x110F0, 0x110F9, (Number, 0)); (0x11100, 0x11102, (Mark, 230));
    (0x11103, 0x11126, (Letter, 0)); (0x11127, 0x1112B, (Mark, 0));
    (0x1112D, 0x11132, (Mark, 0)); (0x11133, 0x11134, (Mark, 9));
    (0x11136, 0x1113F, (Number, 0)); (0x11144, 0x11144, (Letter, 0));
    (0x11147, 0x11147, (Letter, 0)); (0x11150, 0x11172, (Letter, 0));
    (0x11173, 0x11173, (Mark, 7)); (0x11176, 0x11176, (Letter, 0));
    (0x11180, 0x11181, (Mark, 0)); (0x11183, 0x111B2, (Letter, 0));
    (0x111B6, 0x111BE, (Mark, 0)); (0x111C0, 0x111C0, (Other, 9));
    (0x111C1, 0x111C4, (Letter, 0)); (0x111C9, 0x111C9, (Mark, 0));
    (0x111CA, 0x111CA, (Mark, 7)); (0x111CB, 0x111CC, (Mark, 0));
    (0x111CF, 0x111CF, (Mark, 0)); (0x111D0, 0x111D9, (Number, 0));
    (0x111DA, 0x111DA, (Letter, 0)); (0x111DC, 0x111DC, (Letter, 0));
    (0x111E1, 0x111F4, (Number, 0)); (0x11200, 0x11211, (Letter, 0));
    (0x11213, 0x1122B, (Letter, 0)); (0x1122F, 0x11231, (Mark, 0));
    (0x11234, 0x11234, (Mark, 0)); (0x11235, 0x11235, (Other, 9));
    (0x11236, 0x11236, (Mark, 7)); (0x11237, 0x11237, (Mark, 0));
    (0x1123E, 0x1123E, (Mark, 0)); (0x11280, 0x11286, (Letter, 0));
    (0x11288, 0x11288, (Letter, 0)); (0x1128A, 0x1128D, (Letter, 0));
    (0x1128F, 0x1129D, (Letter, 0)); (0x1129F, 0x112A8, (Letter, 0));
    (0x112B0, 0x112DE, (Letter, 0)); (0x112DF, 0x112DF, (Mark, 0));
    (0x112E3, 0x112E8, (Mark, 0)); (0x112E9, 0x112E9, (Mark, 7));
    (0x112EA, 0x112EA, (Mark, 9)); (0x112F0, 0x112F9, (Number, 0));
    (0x11300, 0x11301, (Mark, 0)); (0x11305, 0x1130C, (Letter, 0));
    (0x1130F, 0x11310, (Letter, 0)); (0x11313, 0x11328, (Letter, 0));
    (0x1132A, 0x11330, (Letter, 0)); (0x11332, 0x11333, (Letter, 0));
    (0x11335, 0x11339, (Letter, 0)); (0x1133B, 0x1133C, (Mark, 7));
    (0x1133D, 0x1133D, (Letter, 0)); (0x11340, 0x11340, (Mark, 0));
    (0x1134D, 0x1134D, (Other, 9)); (0x11350, 0x11350, (Letter, 0));
    (0x1135D, 0x11361, (Letter, 0)); (0x11366, 0x1136C, (Mark, 230));
    (0x11370, 0x11374, (Mark, 230)); (0x11400, 0x11434, (Letter, 0));
    (0x11438, 0x1143F, (Mark, 0)); (0x11442, 0x11442, (Mark, 9));
    (0x11443, 0x11444, (Mark, 0)); (0x11446, 0x11446, (Mark, 7));
    (0x11447, 0x1144A, (Letter, 0)); (0x11450, 0x11459, (Number, 0));
    (0x1145E, 0x1145E, (Mark, 230)); (0x1145F, 0x11461, (Letter, 0));
    (0x11480, 0x114AF, (Letter, 0)); (0x114B3, 0x114B8, (Mark, 0));
    (0x114BA, 0x114BA, (Mark, 0)); (0x114BF, 0x114C0, (Mark, 0));
    (0x114C2, 0x114C2, (Mark, 9)); (0x114C3, 0x114C3, (Mark, 7));
    (0x114C4, 0x114C5, (Letter, 0)); (0x114C7, 0x114C7, (Letter, 0));
    (0x114D0, 0x114D9, (Number, 0)); (0x11580, 0x115AE, (Letter, 0));
    (0x115B2, 0x115B5, (Mark, 0)); (0x115BC, 0x115BD, (Mark, 0));
    (0x115BF, 0x115BF, (Mark, 9)); (0x115C0, 0x115C0, (Mark, 7));
    (0x115D8, 0x115DB, (Letter, 0)); (0x115DC, 0x115DD, (Mark, 0));
    (0x11600, 0x1162F, (Letter, 0)); (0x11633, 0x1163A, (Mark, 0));
    (0x1163D, 0x1163D, (Mark, 0)); (0x1163F, 0x1163F, (Mark, 9));
    (0x11640, 0x11640, (Mark, 0)); (0x11644, 0x11644, (Letter, 0));
    (0x11650, 0x11659, (Number, 0)); (0x11680, 0x116AA, (Letter, 0));
    (0x116AB, 0x116AB, (Mark, 0)); (0x116AD, 0x116AD, (Mark, 0));
    (0x116B0, 0x116B5, (Mark, 0)); (0x116B6, 0x116B6, (Other, 9));
    (0x116B7, 0x116B7, (Mark, 7)); (0x116B8, 0x116B8, (Letter, 0));
    (0x116C0, 0x116C9, (Number, 0)); (0x11700, 0x1171A, (Letter, 0));
    (0x1171D, 0x1171F, (Mark, 0)); (0x11722, 0x11725, (Mark, 0));
    (0x11727, 0x1172A, (Mark, 0)); (0x1172B, 0x1172B, (Mark, 9));
    (0x11730, 0x1173B, (Number, 0)); (0x11740, 0x11746, (Letter, 0));
    (0x11800, 0x1182B, (Letter, 0)); (0x1182F, 0x11837, (Mark, 0));
    (0x11839, 0x11839, (Mark, 9)); (0x1183A, 0x1183A, (Mark, 7));
    (0x118A0, 0x118DF, (Letter, 0)); (0x118E0, 0x118F2, (Number, 0));
    (0x118FF, 0x11906, (Letter, 0)); (0x11909, 0x11909, (Letter, 0));
    (0x1190C, 0x11913, (Letter, 0)); (0x11915, 0x11916, (Letter, 0));
    (0x11918, 0x1192F, (Letter, 0)); (0x1193B, 0x1193C, (Mark, 0));
    (0x1193D, 0x1193D, (Other, 9)); (0x1193E, 0x1193E, (Mark, 9));
    (0x1193F, 0x1193F, (Letter, 0)); (0x11941, 0x11941, (Letter, 0));
    (0x11943, 0x11943, (Mark, 7)); (0x11950, 0x11959, (Number, 0));
    (0x119A0, 0x119A7, (Letter, 0)); (0x119AA, 0x119D0, (Letter, 0));
    (0x119D4, 0x119D7, (Mark, 0)); (0x119DA, 0x119DB, (Mark, 0));
    (0x119E0, 0x119E0, (Mark, 9)); (0x119E1, 0x119E1, (Letter, 0));
    (0x119E3, 0x119E3, (Letter, 0)); (0x11A00, 0x11A00, (Letter, 0));
    (0x11A01, 0x11A0A, (Mark, 0)); (0x11A0B, 0x11A32, (Letter, 0));
    (0x11A33, 0x11A33, (Mark, 0)); (0x11A34, 0x11A34, (Mark, 9));
    (0x11A35, 0x11A38, (Mark, 0)); (0x11A3A, 0x11A3A, (Letter, 0));
    (0x11A3B, 0x11A3E, (Mark, 0)); (0x11A47, 0x11A47, (Mark, 9));
    (0x11A50, 0x11A50, (Letter, 0)); (0x11A51, 0x11A56, (Mark, 0));
    (0x11A59, 0x11A5B, (Mark, 0)); (0x11A5C, 0x11A89, (Letter, 0));
    (0x11A8A, 0x11A96, (Mark, 0)); (0x11A98, 0x11A98, (Mark, 0));
    (0x11A99, 0x11A99, (Mark, 9)); (0x11A9D, 0x11A9D, (Letter, 0));
    (0x11AB0, 0x11AF8, (Letter, 0)); (0x11C00, 0x11C08, (Letter, 0));
    (0x11C0A, 0x11C2E, (Letter, 0)); (0x11C30, 0x11C36, (Mark, 0));
    (0x11C38, 0x11C3D, (Mark, 0)); (0x11C3F, 0x11C3F, (Mark, 9));
    (0x11C40, 0x11C40, (Letter, 0)); (0x11C50, 0x11C6C, (Number, 0));
    (0x11C72, 0x11C8F, (Letter, 0)); (0x11C92, 0x11CA7, (Mark, 0));
    (0x11CAA, 0x11CB0, (Mark, 0)); (0x11CB2, 0x11CB3, (Mark, 0));
    (0x11CB5, 0x11CB6, (Mark, 0)); (0x11D00, 0x11D06, (Letter, 0));
    (0x11D08, 0x11D09, (Letter, 0)); (0x11D0B, 0x11D30, (Letter, 0));
    (0x11D31, 0x11D36, (Mark, 0)); (0x11D3A, 0x11D3A, (Mark, 0));
    (0x11D3C, 0x11D3D, (Mark, 0)); (0x11D3F, 0x11D41, (Mark, 0));
    (0x11D42, 0x11D42, (Mark, 7)); (0x11D43, 0x11D43, (Mark, 0));
    (0x11D44, 0x11D45, (Mark, 9)); (0x11D46, 0x11D46, (Letter, 0));
    (0x11D47, 0x11D47, (Mark, 0)); (0x11D50, 0x11D59, (Number, 0));
    (0x11D60, 0x11D65, (Letter, 0)); (0x11D67, 0x11D68, (Letter, 0));
    (0x11D6A, 0x11D89, (Letter, 0)); (0x11D90, 0x11D91, (Mark, 0));
    (0x11D95, 0x11D95, (Mark, 0)); (0x11D97, 0x11D97, (Mark, 9));
    (0x11D98, 0x11D98, (Letter, 0)); (0x11DA0, 0x11DA9, (Number, 0));
    (0x11EE0, 0x11EF2, (Letter, 0)); (0x11EF3, 0x11EF4, (Mark, 0));
    (0x11FB0, 0x11FB0, (Letter, 0)); (0x11FC0, 0x11FD4, (Number, 0));
    (0x12000, 0x12399, (Letter, 0)); (0x12400, 0x1246E, (Number, 0));
    (0x12480, 0x12543, (Letter, 0)); (0x12F90, 0x12FF0, (Letter, 0));
    (0x13000, 0x1342E, (Letter, 0)); (0x14400, 0x14646, (Letter, 0));
    (0x16800, 0x16A38, (Letter, 0)); (0x16A40, 0x16A5E, (Letter, 0));
    (0x16A60, 0x16A69, (Number, 0)); (0x16A70, 0x16ABE, (Letter, 0));
    (0x16AC0, 0x16AC9, (Number, 0)); (0x16AD0, 0x16AED, (Letter, 0));
    (0x16AF0, 0x16AF4, (Mark, 1)); (0x16B00, 0x16B2F, (Letter, 0));
    (0x16B30, 0x16B36, (Mark, 230)); (0x16B40, 0x16B43, (Letter, 0));
    (0x16B50, 0x16B59, (Number, 0)); (0x16B5B, 0x16B61, (Number, 0));
    (0x16B63, 0x16B77, (Letter, 0)); (0x16B7D, 0x16B8F, (Letter, 0));
    (0x16E40, 0x16E7F, (Letter, 0)); (0x16E80, 0x16E96, (Number, 0));
    (0x16F00, 0x16F4A, (Letter, 0)); (0x16F4F, 0x16F4F, (Mark, 0));
    (0x16F50, 0x16F50, (Letter, 0)); (0x16F8F, 0x16F92, (Mark, 0));
    (0x16F93, 0x16F9F, (Letter, 0)); (0x16FE0, 0x16FE1, (Letter, 0));
    (0x16FE3, 0x16FE3, (Letter, 0)); (0x16FE4, 0x16FE4, (Mark, 0));
    (0x16FF0, 0x16FF1, (Other, 6)); (0x17000, 0x187F7, (Letter, 0));
    (0x18800, 0x18CD5, (Letter, 0)); (0x18D00, 0x18D08, (Letter, 0));
    (0x1AFF0, 0x1AFF3, (Letter, 0)); (0x1AFF5, 0x1AFFB, (Letter, 0));
    (0x1AFFD, 0x1AFFE, (Letter, 0)); (0x1B000, 0x1B122, (Letter, 0));
    (0x1B150, 0x1B152, (Letter, 0)); (0x1B164, 0x1B167, (Letter, 0));
    (0x1B170, 0x1B2FB, (Letter, 0)); (0x1BC00, 0x1BC6A, (Letter, 0));
    (0x1BC70, 0x1BC7C, (Letter, 0)); (0x1BC80, 0x1BC88, (Letter, 0));
    (0x1BC90, 0x1BC99, (Letter, 0)); (0x1BC9D, 0x1BC9D, (Mark, 0));
    (0x1BC9E, 0x1BC9E, (Mark, 1)); (0x1CF00, 0x1CF2D, (Mark, 0));
    (0x1CF30, 0x1CF46, (Mark, 0)); (0x1D165, 0x1D166, (Other, 216));
    (0x1D167, 0x1D169, (Mark, 1)); (0x1D16D, 0x1D16D, (Other, 226));
    (0x1D16E, 0x1D172, (Other, 216)); (0x1D17B, 0x1D182, (Mark, 220));
    (0x1D185, 0x1D189, (Mark, 230)); (0x1D18A, 0x1D18B, (Mark, 220));
    (0x1D1AA, 0x1D1AD, (Mark, 230)); (0x1D242, 0x1D244, (Mark, 230));
    (0x1D2E0, 0x1D2F3, (Number, 0)); (0x1D360, 0x1D378, (Number, 0));
    (0x1D400, 0x1D454, (Letter, 0)); (0x1D456, 0x1D49C, (Letter, 0));
    (0x1D49E, 0x1D49F, (Letter, 0)); (0x1D4A2, 0x1D4A2, (Letter, 0));
    (0x1D4A5, 0x1D4A6, (Letter, 0)); (0x1D4A9, 0x1D4AC, (Letter, 0));
    (0x1D4AE, 0x1D4B9, (Letter, 0)); (0x1D4BB, 0x1D4BB, (Letter, 0));
    (0x1D4BD, 0x1D4C3, (Letter, 0)); (0x1D4C5, 0x1D505, (Letter, 0));
    (0x1D507, 0x1D50A, (Letter, 0)); (0x1D50D, 0x1D514, (Letter, 0));
    (0x1D516, 0x1D51C, (Letter, 0)); (0x1D51E, 0x1D539, (Letter, 0));
    (0x1D53B, 0x1D53E, (Letter, 0)); (0x1D540, 0x1D544, (Letter, 0));
    (0x1D546, 0x1D546, (Letter, 0)); (0x1D54A, 0x1D550, (Letter, 0));
    (0x1D552, 0x1D6A5, (Letter, 0)); (0x1D6A8, 0x1D6C0, (Letter, 0));
    (0x1D6C2, 0x1D6DA, (Letter, 0)); (0x1D6DC, 0x1D6FA, (Letter, 0));
    (0x1D6FC, 0x1D714, (Letter, 0)); (0x1D716, 0x1D734, (Letter, 0));
    (0x1D736, 0x1D74E, (Letter, 0)); (0x1D750, 0x1D76E, (Letter, 0));
    (0x1D770, 0x1D788, (Letter, 0)); (0x1D78A, 0x1D7A8, (Letter, 0));
    (0x1D7AA, 0x1D7C2, (Letter, 0)); (0x1D7C4, 0x1D7CB, (Letter, 0));
    (0x1D7CE, 0x1D7FF, (Number, 0)); (0x1DA00, 0x1DA36, (Mark, 0));
    (0x1DA3B, 0x1DA6C, (Mark, 0)); (0x1DA75, 0x1DA75, (Mark, 0));
    (0x1DA84, 0x1DA84, (Mark, 0)); (0x1DA9B, 0x1DA9F, (Mark, 0));
    (0x1DAA1, 0x1DAAF, (Mark, 0)); (0x1DF00, 0x1DF1E, (Letter, 0));
    (0x1E000, 0x1E006, (Mark, 230)); (0x1E008, 0x1E018, (Mark, 230));
    (0x1E01B, 0x1E021, (Mark, 230)); (0x1E023, 0x1E024, (Mark, 230));
    (0x1E026, 0x1E02A, (Mark, 230)); (0x1E100, 0x1E12C, (Letter, 0));
    (0x1E130, 0x1E136, (Mark, 230)); (0x1E137, 0x1E13D, (Letter, 0));
    (0x1E140, 0x1E149, (Number, 0)); (0x1E14E, 0x1E14E, (Letter, 0));
    (0x1E290, 0x1E2AD, (Letter, 0)); (0x1E2AE, 0x1E2AE, (Mark, 230));
    (0x1E2C0, 0x1E2EB, (Letter, 0)); (0x1E2EC, 0x1E2EF, (Mark, 230));
    (0x1E2F0, 0x1E2F9, (Number, 0)); (0x1E7E0, 0x1E7E6, (Letter, 0));
    (0x1E7E8, 0x1E7EB, (Letter, 0)); (0x1E7ED, 0x1E7EE, (Letter, 0));
    (0x1E7F0, 0x1E7FE, (Letter, 0)); (0x1E800, 0x1E8C4, (Letter, 0));
    (0x1E8C7, 0x1E8CF, (Number, 0)); (0x1E8D0, 0x1E8D6, (Mark, 220));
    (0x1E900, 0x1E943, (Letter, 0)); (0x1E944, 0x1E949, (Mark, 230));
    (0x1E94A, 0x1E94A, (Mark, 7)); (0x1E94B, 0x1E94B, (Letter, 0));
    (0x1E950, 0x1E959, (Number, 0)); (0x1EC71, 0x1ECAB, (Number, 0));
    (0x1ECAD, 0x1ECAF, (Number, 0)); (0x1ECB1, 0x1ECB4, (Number, 0));
    (0x1ED01, 0x1ED2D, (Number, 0)); (0x1ED2F, 0x1ED3D, (Number, 0));
    (0x1EE00, 0x1EE03, (Letter, 0)); (0x1EE05, 0x1EE1F, (Letter, 0));
    (0x1EE21, 0x1EE22, (Letter, 0)); (0x1EE24, 0x1EE24, (Letter, 0));
    (0x1EE27, 0x1EE27, (Letter, 0)); (0x1EE29, 0x1EE32, (Letter, 0));
    (0x1EE34, 0x1EE37, (Letter, 0)); (0x1EE39, 0x1EE39, (Letter, 0));
    (0x1EE3B, 0x1EE3B, (Letter, 0)); (0x1EE42, 0x1EE42, (Letter, 0));
    (0x1EE47, 0x1EE47, (Letter, 0)); (0x1EE49, 0x1EE49, (Letter, 0));
    (0x1EE4B, 0x1EE4B, (Letter, 0)); (0x1EE4D, 0x1EE4F, (Letter, 0));
    (0x1EE51, 0x1EE52, (Letter, 0)); (0x1EE54, 0x1EE54, (Letter, 0));
    (0x1EE57, 0x1EE57, (Letter, 0)); (0x1EE59, 0x1EE59, (Letter, 0));
    (0x1EE5B, 0x1EE5B, (Letter, 0)); (0x1EE5D, 0x1EE5D, (Letter, 0));
    (0x1EE5F, 0x1EE5F, (Letter, 0)); (0x1EE61, 0x1EE62, (Letter, 0));
    (0x1EE64, 0x1EE64, (Letter, 0)); (0x1EE67, 0x1EE6A, (Letter, 0));
    (0x1EE6C, 0x1EE72, (Letter, 0)); (0x1EE74, 0x1EE77, (Letter, 0));
    (0x1EE79, 0x1EE7C, (Letter, 0)); (0x1EE7E, 0x1EE7E, (Letter, 0));
    (0x1EE80, 0x1EE89, (Letter, 0)); (0x1EE8B, 0x1EE9B, (Letter, 0));
    (0x1EEA1, 0x1EEA3, (Letter, 0)); (0x1EEA5, 0x1EEA9, (Letter, 0));
    (0x1EEAB, 0x1EEBB, (Letter, 0)); (0x1F100, 0x1F10C, (Number, 0));
    (0x1FBF0, 0x1FBF9, (Number, 0)); (0x20000, 0x2A6DF, (Letter, 0));
    (0x2A700, 0x2B738, (Letter, 0)); (0x2B740, 0x2B81D, (Letter, 0));
    (0x2B820, 0x2CEA1, (Letter, 0)); (0x2CEB0, 0x2EBE0, (Letter, 0));
    (0x2F800, 0x2FA1D, (Letter, 0)); (0x30000, 0x3134A, (Letter, 0));
    (0xE0100, 0xE01EF, (Mark, 0))
  ].

(** [unicode.Upper]: the runes [lo], [lo + stride], ... up to [hi]. *)
Definition Upper : list (rune * rune * Z) :=
  [
    (0x41, 0x5A, 1); (0xC0, 0xD6, 1); (0xD8, 0xDE, 1); (0x100, 0x136, 2);
    (0x139, 0x147, 2); (0x14A, 0x178, 2); (0x179, 0x17D, 2);
    (0x181, 0x182, 1); (0x184, 0x186, 2); (0x187, 0x189, 2);
    (0x18A, 0x18B, 1); (0x18E, 0x191, 1); (0x193, 0x194, 1);
    (0x196, 0x198, 1); (0x19C, 0x19D, 1); (0x19F, 0x1A0, 1);
    (0x1A2, 0x1A6, 2); (0x1A7, 0x1A9, 2); (0x1AC, 0x1AE, 2);
    (0x1AF, 0x1B1, 2); (0x1B2, 0x1B3, 1); (0x1B5, 0x1B7, 2);
    (0x1B8, 0x1B8, 1); (0x1BC, 0x1BC, 1); (0x1C4, 0x1C4, 1);
    (0x1C7, 0x1C7, 1); (0x1CA, 0x1CA, 1); (0x1CD, 0x1DB, 2);
    (0x1DE, 0x1EE, 2); (0x1F1, 0x1F1, 1); (0x1F4, 0x1F6, 2);
    (0x1F7, 0x1F8, 1); (0x1FA, 0x232, 2); (0x23A, 0x23B, 1);
    (0x23D, 0x23E, 1); (0x241, 0x243, 2); (0x244, 0x246, 1);
    (0x248, 0x24E, 2); (0x370, 0x372, 2); (0x376, 0x376, 1);
    (0x37F, 0x37F, 1); (0x386, 0x388, 2); (0x389, 0x38A, 1);
    (0x38C, 0x38E, 2); (0x38F, 0x391, 2); (0x392, 0x3A1, 1);
    (0x3A3, 0x3AB, 1); (0x3CF, 0x3CF, 1); (0x3D2, 0x3D4, 1);
    (0x3D8, 0x3EE, 2); (0x3F4, 0x3F4, 1); (0x3F7, 0x3F9, 2);
    (0x3FA, 0x3FA, 1); (0x3FD, 0x42F, 1); (0x460, 0x480, 2);
    (0x48A, 0x4C0, 2); (0x4C1, 0x4CD, 2); (0x4D0, 0x52E, 2);
    (0x531, 0x556, 1); (0x10A0, 0x10C5, 1); (0x10C7, 0x10C7, 1);
    (0x10CD, 0x10CD, 1); (0x13A0, 0x13F5, 1); (0x1C90, 0x1CBA, 1);
    (0x1CBD, 0x1CBF, 1); (0x1E00, 0x1E94, 2); (0x1E9E, 0x1EFE, 2);
    (0x1F08, 0x1F0F, 1); (0x1F18, 0x1F1D, 1); (0x1F28, 0x1F2F, 1);
    (0x1F38, 0x1F3F, 1); (0x1F48, 0x1F4D, 1); (0x1F59, 0x1F5F, 2);
    (0x1F68, 0x1F6F, 1); (0x1FB8, 0x1FBB, 1); (0x1FC8, 0x1FCB, 1);
    (0x1FD8, 0x1FDB, 1); (0x1FE8, 0x1FEC, 1); (0x1FF8, 0x1FFB, 1);
    (0x2102, 0x2102, 1); (0x2107, 0x2107, 1); (0x210B, 0x210D, 1);
    (0x2110, 0x2112, 1); (0x2115, 0x2115, 1); (0x2119, 0x211D, 1);
    (0x2124, 0x212A, 2); (0x212B, 0x212D, 1); (0x2130, 0x2133, 1);
    (0x213E, 0x213F, 1); (0x2145, 0x2145, 1); (0x2183, 0x2183, 1);
    (0x2C00, 0x2C2F, 1); (0x2C60, 0x2C62, 2); (0x2C63, 0x2C64, 1);
    (0x2C67, 0x2C6D, 2); (0x2C6E, 0x2C70, 1); (0x2C72, 0x2C72, 1);
    (0x2C75, 0x2C75, 1); (0x2C7E, 0x2C80, 1); (0x2C82, 0x2CE2, 2);
    (0x2CEB, 0x2CED, 2); (0x2CF2, 0x2CF2, 1); (0xA640, 0xA66C, 2);
    (0xA680, 0xA69A, 2); (0xA722, 0xA72E, 2); (0xA732, 0xA76E, 2);
    (0xA779, 0xA77D, 2); (0xA77E, 0xA786, 2); (0xA78B, 0xA78D, 2);
    (0xA790, 0xA792, 2); (0xA796, 0xA7AA, 2); (0xA7AB, 0xA7AE, 1);
    (0xA7B0, 0xA7B4, 1); (0xA7B6, 0xA7C4, 2); (0xA7C5, 0xA7C7, 1);
    (0xA7C9, 0xA7C9, 1); (0xA7D0, 0xA7D0, 1); (0xA7D6, 0xA7D8, 2);
    (0xA7F5, 0xA7F5, 1); (0xFF21, 0xFF3A, 1); (0x10400, 0x10427, 1);
    (0x104B0, 0x104D3, 1); (0x10570, 0x1057A, 1); (0x1057C, 0x1058A, 1);
    (0x1058C, 0x10592, 1); (0x10594, 0x10595, 1); (0x10C80, 0x10CB2, 1);
    (0x118A0, 0x118BF, 1); (0x16E40, 0x16E5F, 1); (0x1D400, 0x1D419, 1);
    (0x1D434, 0x1D44D, 1); (0x1D468, 0x1D481, 1); (0x1D49C, 0x1D49E, 2);
    (0x1D49F, 0x1D49F, 1); (0x1D4A2, 0x1D4A2, 1); (0x1D4A5, 0x1D4A6, 1);
    (0x1D4A9, 0x1D4AC, 1); (0x1D4AE, 0x1D4B5, 1); (0x1D4D0, 0x1D4E9, 1);
    (0x1D504, 0x1D505, 1); (0x1D507, 0x1D50A, 1); (0x1D50D, 0x1D514, 1);
    (0x1D516, 0x1D51C, 1); (0x1D538, 0x1D539, 1); (0x1D53B, 0x1D53E, 1);
    (0x1D540, 0x1D544, 1); (0x1D546, 0x1D546, 1); (0x1D54A, 0x1D550, 1);
    (0x1D56C, 0x1D585, 1); (0x1D5A0, 0x1D5B9, 1); (0x1D5D4, 0x1D5ED, 1);
    (0x1D608, 0x1D621, 1); (0x1D63C, 0x1D655, 1); (0x1D670, 0x1D689, 1);
    (0x1D6A8, 0x1D6C0, 1); (0x1D6E2, 0x1D6FA, 1); (0x1D71C, 0x1D734, 1);
    (0x1D756, 0x1D76E, 1); (0x1D790, 0x1D7A8, 1); (0x1D7CA, 0x1D7CA, 1);
    (0x1E900, 0x1E921, 1)
  ].

(** [unicode.CaseRanges], for the upper case: the runes [lo],
    [lo + stride], ... up to [hi] and what is added to each. *)
Definition upperCase : list (rune * rune * Z * Z) :=
  [
    (0x61, 0x7A, 1, (-32)); (0xB5, 0xB5, 1, 743); (0xE0, 0xF6, 1, (-32));
    (0xF8, 0xFE, 1, (-32)); (0xFF, 0xFF, 1, 121); (0x101, 0x12F, 2, (-1));
    (0x131, 0x131, 1, (-232)); (0x133, 0x137, 2, (-1));
    (0x13A, 0x148, 2, (-1)); (0x14B, 0x177, 2, (-1));
    (0x17A, 0x17E, 2, (-1)); (0x17F, 0x17F, 1, (-300));
    (0x180, 0x180, 1, 195); (0x183, 0x185, 2, (-1)); (0x188, 0x188, 1, (-1));
    (0x18C, 0x18C, 1, (-1)); (0x192, 0x192, 1, (-1)); (0x195, 0x195, 1, 97);
    (0x199, 0x199, 1, (-1)); (0x19A, 0x19A, 1, 163); (0x19E, 0x19E, 1, 130);
    (0x1A1, 0x1A5, 2, (-1)); (0x1A8, 0x1A8, 1, (-1));
    (0x1AD, 0x1AD, 1, (-1)); (0x1B0, 0x1B0, 1, (-1));
    (0x1B4, 0x1B6, 2, (-1)); (0x1B9, 0x1B9, 1, (-1));
    (0x1BD, 0x1BD, 1, (-1)); (0x1BF, 0x1BF, 1, 56); (0x1C5, 0x1C5, 1, (-1));
    (0x1C6, 0x1C6, 1, (-2)); (0x1C8, 0x1C8, 1, (-1));
    (0x1C9, 0x1C9, 1, (-2)); (0x1CB, 0x1CB, 1, (-1));
    (0x1CC, 0x1CC, 1, (-2)); (0x1CE, 0x1DC, 2, (-1));
    (0x1DD, 0x1DD, 1, (-79)); (0x1DF, 0x1EF, 2, (-1));
    (0x1F2, 0x1F2, 1, (-1)); (0x1F3, 0x1F3, 1, (-2));
    (0x1F5, 0x1F5, 1, (-1)); (0x1F9, 0x21F, 2, (-1));
    (0x223, 0x233, 2, (-1)); (0x23C, 0x23C, 1, (-1));
    (0x23F, 0x240, 1, 10815); (0x242, 0x242, 1, (-1));
    (0x247, 0x24F, 2, (-1)); (0x250, 0x250, 1, 10783);
    (0x251, 0x251, 1, 10780); (0x252, 0x252, 1, 10782);
    (0x253, 0x253, 1, (-210)); (0x254, 0x254, 1, (-206));
    (0x256, 0x257, 1, (-205)); (0x259, 0x259, 1, (-202));
    (0x25B, 0x25B, 1, (-203)); (0x25C, 0x25C, 1, 42319);
    (0x260, 0x260, 1, (-205)); (0x261, 0x261, 1, 42315);
    (0x263, 0x263, 1, (-207)); (0x265, 0x265, 1, 42280);
    (0x266, 0x266, 1, 42308); (0x268, 0x268, 1, (-209));
    (0x269, 0x269, 1, (-211)); (0x26A, 0x26A, 1, 42308);
    (0x26B, 0x26B, 1, 10743); (0x26C, 0x26C, 1, 42305);
    (0x26F, 0x26F, 1, (-211)); (0x271, 0x271, 1, 10749);
    (0x272, 0x272, 1, (-213)); (0x275, 0x275, 1, (-214));
    (0x27D, 0x27D, 1, 10727); (0x280, 0x280, 1, (-218));
    (0x282, 0x282, 1, 42307); (0x283, 0x283, 1, (-218));
    (0x287, 0x287, 1, 42282); (0x288, 0x288, 1, (-218));
    (0x289, 0x289, 1, (-69)); (0x28A, 0x28B, 1, (-217));
    (0x28C, 0x28C, 1, (-71)); (0x292, 0x292, 1, (-219));
    (0x29D, 0x29D, 1, 42261); (0x29E, 0x29E, 1, 42258);
    (0x345, 0x345, 1, 84); (0x371, 0x373, 2, (-1)); (0x377, 0x377, 1, (-1));
    (0x37B, 0x37D, 1, 130); (0x3AC, 0x3AC, 1, (-38));
    (0x3AD, 0x3AF, 1, (-37)); (0x3B1, 0x3C1, 1, (-32));
    (0x3C2, 0x3C2, 1, (-31)); (0x3C3, 0x3CB, 1, (-32));
    (0x3CC, 0x3CC, 1, (-64)); (0x3CD, 0x3CE, 1, (-63));
    (0x3D0, 0x3D0, 1, (-62)); (0x3D1, 0x3D1, 1, (-57));
    (0x3D5, 0x3D5, 1, (-47)); (0x3D6, 0x3D6, 1, (-54));
    (0x3D7, 0x3D7, 1, (-8)); (0x3D9, 0x3EF, 2, (-1));
    (0x3F0, 0x3F0, 1, (-86)); (0x3F1, 0x3F1, 1, (-80)); (0x3F2, 0x3F2, 1, 7);
    (0x3F3, 0x3F3, 1, (-116)); (0x3F5, 0x3F5, 1, (-96));
    (0x3F8, 0x3F8, 1, (-1)); (0x3FB, 0x3FB, 1, (-1));
    (0x430, 0x44F, 1, (-32)); (0x450, 0x45F, 1, (-80));
    (0x461, 0x481, 2, (-1)); (0x48B, 0x4BF, 2, (-1));
    (0x4C2, 0x4CE, 2, (-1)); (0x4CF, 0x4CF, 1, (-15));
    (0x4D1, 0x52F, 2, (-1)); (0x561, 0x586, 1, (-48));
    (0x10D0, 0x10FA, 1, 3008); (0x10FD, 0x10FF, 1, 3008);
    (0x13F8, 0x13FD, 1, (-8)); (0x1C80, 0x1C80, 1, (-6254));
    (0x1C81, 0x1C81, 1, (-6253)); (0x1C82, 0x1C82, 1, (-6244));
    (0x1C83, 0x1C84, 1, (-6242)); (0x1C85, 0x1C85, 1, (-6243));
    (0x1C86, 0x1C86, 1, (-6236)); (0x1C87, 0x1C87, 1, (-6181));
    (0x1C88, 0x1C88, 1, 35266); (0x1D79, 0x1D79, 1, 35332);
    (0x1D7D, 0x1D7D, 1, 3814); (0x1D8E, 0x1D8E, 1, 35384);
    (0x1E01, 0x1E95, 2, (-1)); (0x1E9B, 0x1E9B, 1, (-59));
    (0x1EA1, 0x1EFF, 2, (-1)); (0x1F00, 0x1F07, 1, 8);
    (0x1F10, 0x1F15, 1, 8); (0x1F20, 0x1F27, 1, 8); (0x1F30, 0x1F37, 1, 8);
    (0x1F40, 0x1F45, 1, 8); (0x1F51, 0x1F57, 2, 8); (0x1F60, 0x1F67, 1, 8);
    (0x1F70, 0x1F71, 1, 74); (0x1F72, 0x1F75, 1, 86);
    (0x1F76, 0x1F77, 1, 100); (0x1F78, 0x1F79, 1, 128);
    (0x1F7A, 0x1F7B, 1, 112); (0x1F7C, 0x1F7D, 1, 126);
    (0x1F80, 0x1F87, 1, 8); (0x1F90, 0x1F97, 1, 8); (0x1FA0, 0x1FA7, 1, 8);
    (0x1FB0, 0x1FB1, 1, 8); (0x1FB3, 0x1FB3, 1, 9);
    (0x1FBE, 0x1FBE, 1, (-7205)); (0x1FC3, 0x1FC3, 1, 9);
    (0x1FD0, 0x1FD1, 1, 8); (0x1FE0, 0x1FE1, 1, 8); (0x1FE5, 0x1FE5, 1, 7);
    (0x1FF3, 0x1FF3, 1, 9); (0x214E, 0x214E, 1, (-28));
    (0x2170, 0x217F, 1, (-16)); (0x2184, 0x2184, 1, (-1));
    (0x24D0, 0x24E9, 1, (-26)); (0x2C30, 0x2C5F, 1, (-48));
    (0x2C61, 0x2C61, 1, (-1)); (0x2C65, 0x2C65, 1, (-10795));
    (0x2C66, 0x2C66, 1, (-10792)); (0x2C68, 0x2C6C, 2, (-1));
    (0x2C73, 0x2C73, 1, (-1)); (0x2C76, 0x2C76, 1, (-1));
    (0x2C81, 0x2CE3, 2, (-1)); (0x2CEC, 0x2CEE, 2, (-1));
    (0x2CF3, 0x2CF3, 1, (-1)); (0x2D00, 0x2D25, 1, (-7264));
    (0x2D27, 0x2D27, 1, (-7264)); (0x2D2D, 0x2D2D, 1, (-7264));
    (0xA641, 0xA66D, 2, (-1)); (0xA681, 0xA69B, 2, (-1));
    (0xA723, 0xA72F, 2, (-1)); (0xA733, 0xA76F, 2, (-1));
    (0xA77A, 0xA77C, 2, (-1)); (0xA77F, 0xA787, 2, (-1));
    (0xA78C, 0xA78C, 1, (-1)); (0xA791, 0xA793, 2, (-1));
    (0xA794, 0xA794, 1, 48); (0xA797, 0xA7A9, 2, (-1));
    (0xA7B5, 0xA7C3, 2, (-1)); (0xA7C8, 0xA7CA, 2, (-1));
    (0xA7D1, 0xA7D1, 1, (-1)); (0xA7D7, 0xA7D9, 2, (-1));
    (0xA7F6, 0xA7F6, 1, (-1)); (0xAB53, 0xAB53, 1, (-928));
    (0xAB70, 0xABBF, 1, (-38864)); (0xFF41, 0xFF5A, 1, (-32));
    (0x10428, 0x1044F, 1, (-40)); (0x104D8, 0x104FB, 1, (-40));
    (0x10597, 0x105A1, 1, (-39)); (0x105A3, 0x105B1, 1, (-39));
    (0x105B3, 0x105B9, 1, (-39)); (0x105BB, 0x105BC, 1, (-39));
    (0x10CC0, 0x10CF2, 1, (-64)); (0x118C0, 0x118DF, 1, (-32));
    (0x16E60, 0x16E7F, 1, (-32)); (0x1E922, 0x1E943, 1, (-34))
  ].

(** [unicode.CaseRanges], for the lower case. *)
Definition lowerCase : list (rune * rune * Z * Z) :=
  [
    (0x41, 0x5A, 1, 32); (0xC0, 0xD6, 1, 32); (0xD8, 0xDE, 1, 32);
    (0x100, 0x12E, 2, 1); (0x130, 0x130, 1, (-199)); (0x132, 0x136, 2, 1);
    (0x139, 0x147, 2, 1); (0x14A, 0x176, 2, 1); (0x178, 0x178, 1, (-121));
    (0x179, 0x17D, 2, 1); (0x181, 0x181, 1, 210); (0x182, 0x184, 2, 1);
    (0x186, 0x186, 1, 206); (0x187, 0x187, 1, 1); (0x189, 0x18A, 1, 205);
    (0x18B, 0x18B, 1, 1); (0x18E, 0x18E, 1, 79); (0x18F, 0x18F, 1, 202);
    (0x190, 0x190, 1, 203); (0x191, 0x191, 1, 1); (0x193, 0x193, 1, 205);
    (0x194, 0x194, 1, 207); (0x196, 0x196, 1, 211); (0x197, 0x197, 1, 209);
    (0x198, 0x198, 1, 1); (0x19C, 0x19C, 1, 211); (0x19D, 0x19D, 1, 213);
    (0x19F, 0x19F, 1, 214); (0x1A0, 0x1A4, 2, 1); (0x1A6, 0x1A6, 1, 218);
    (0x1A7, 0x1A7, 1, 1); (0x1A9, 0x1A9, 1, 218); (0x1AC, 0x1AC, 1, 1);
    (0x1AE, 0x1AE, 1, 218); (0x1AF, 0x1AF, 1, 1); (0x1B1, 0x1B2, 1, 217);
    (0x1B3, 0x1B5, 2, 1); (0x1B7, 0x1B7, 1, 219); (0x1B8, 0x1B8, 1, 1);
    (0x1BC, 0x1BC, 1, 1); (0x1C4, 0x1C4, 1, 2); (0x1C5, 0x1C5, 1, 1);
    (0x1C7, 0x1C7, 1, 2); (0x1C8, 0x1C8, 1, 1); (0x1CA, 0x1CA, 1, 2);
    (0x1CB, 0x1DB, 2, 1); (0x1DE, 0x1EE, 2, 1); (0x1F1, 0x1F1, 1, 2);
    (0x1F2, 0x1F4, 2, 1); (0x1F6, 0x1F6, 1, (-97)); (0x1F7, 0x1F7, 1, (-56));
    (0x1F8, 0x21E, 2, 1); (0x220, 0x220, 1, (-130)); (0x222, 0x232, 2, 1);
    (0x23A, 0x23A, 1, 10795); (0x23B, 0x23B, 1, 1);
    (0x23D, 0x23D, 1, (-163)); (0x23E, 0x23E, 1, 10792);
    (0x241, 0x241, 1, 1); (0x243, 0x243, 1, (-195)); (0x244, 0x244, 1, 69);
    (0x245, 0x245, 1, 71); (0x246, 0x24E, 2, 1); (0x370, 0x372, 2, 1);
    (0x376, 0x376, 1, 1); (0x37F, 0x37F, 1, 116); (0x386, 0x386, 1, 38);
    (0x388, 0x38A, 1, 37); (0x38C, 0x38C, 1, 64); (0x38E, 0x38F, 1, 63);
    (0x391, 0x3A1, 1, 32); (0x3A3, 0x3AB, 1, 32); (0x3CF, 0x3CF, 1, 8);
    (0x3D8, 0x3EE, 2, 1); (0x3F4, 0x3F4, 1, (-60)); (0x3F7, 0x3F7, 1, 1);
    (0x3F9, 0x3F9, 1, (-7)); (0x3FA, 0x3FA, 1, 1); (0x3FD, 0x3FF, 1, (-130));
    (0x400, 0x40F, 1, 80); (0x410, 0x42F, 1, 32); (0x460, 0x480, 2, 1);
    (0x48A, 0x4BE, 2, 1); (0x4C0, 0x4C0, 1, 15); (0x4C1, 0x4CD, 2, 1);
    (0x4D0, 0x52E, 2, 1); (0x531, 0x556, 1, 48); (0x10A0, 0x10C5, 1, 7264);
    (0x10C7, 0x10C7, 1, 7264); (0x10CD, 0x10CD, 1, 7264);
    (0x13A0, 0x13EF, 1, 38864); (0x13F0, 0x13F5, 1, 8);
    (0x1C90, 0x1CBA, 1, (-3008)); (0x1CBD, 0x1CBF, 1, (-3008));
    (0x1E00, 0x1E94, 2, 1); (0x1E9E, 0x1E9E, 1, (-7615));
    (0x1EA0, 0x1EFE, 2, 1); (0x1F08, 0x1F0F, 1, (-8));
    (0x1F18, 0x1F1D, 1, (-8)); (0x1F28, 0x1F2F, 1, (-8));
    (0x1F38, 0x1F3F, 1, (-8)); (0x1F48, 0x1F4D, 1, (-8));
    (0x1F59, 0x1F5F, 2, (-8)); (0x1F68, 0x1F6F, 1, (-8));
    (0x1F88, 0x1F8F, 1, (-8)); (0x1F98, 0x1F9F, 1, (-8));
    (0x1FA8, 0x1FAF, 1, (-8)); (0x1FB8, 0x1FB9, 1, (-8));
    (0x1FBA, 0x1FBB, 1, (-74)); (0x1FBC, 0x1FBC, 1, (-9));
    (0x1FC8, 0x1FCB, 1, (-86)); (0x1FCC, 0x1FCC, 1, (-9));
    (0x1FD8, 0x1FD9, 1, (-8)); (0x1FDA, 0x1FDB, 1, (-100));
    (0x1FE8, 0x1FE9, 1, (-8)); (0x1FEA, 0x1FEB, 1, (-112));
    (0x1FEC, 0x1FEC, 1, (-7)); (0x1FF8, 0x1FF9, 1, (-128));
    (0x1FFA, 0x1FFB, 1, (-126)); (0x1FFC, 0x1FFC, 1, (-9));
    (0x2126, 0x2126, 1, (-7517)); (0x212A, 0x212A, 1, (-8383));
    (0x212B, 0x212B, 1, (-8262)); (0x2132, 0x2132, 1, 28);
    (0x2160, 0x216F, 1, 16); (0x2183, 0x2183, 1, 1); (0x24B6, 0x24CF, 1, 26);
    (0x2C00, 0x2C2F, 1, 48); (0x2C60, 0x2C60, 1, 1);
    (0x2C62, 0x2C62, 1, (-10743)); (0x2C63, 0x2C63, 1, (-3814));
    (0x2C64, 0x2C64, 1, (-10727)); (0x2C67, 0x2C6B, 2, 1);
    (0x2C6D, 0x2C6D, 1, (-10780)); (0x2C6E, 0x2C6E, 1, (-10749));
    (0x2C6F, 0x2C6F, 1, (-10783)); (0x2C70, 0x2C70, 1, (-10782));
    (0x2C72, 0x2C72, 1, 1); (0x2C75, 0x2C75, 1, 1);
    (0x2C7E, 0x2C7F, 1, (-10815)); (0x2C80, 0x2CE2, 2, 1);
    (0x2CEB, 0x2CED, 2, 1); (0x2CF2, 0x2CF2, 1, 1); (0xA640, 0xA66C, 2, 1);
    (0xA680, 0xA69A, 2, 1); (0xA722, 0xA72E, 2, 1); (0xA732, 0xA76E, 2, 1);
    (0xA779, 0xA77B, 2, 1); (0xA77D, 0xA77D, 1, (-35332));
    (0xA77E, 0xA786, 2, 1); (0xA78B, 0xA78B, 1, 1);
    (0xA78D, 0xA78D, 1, (-42280)); (0xA790, 0xA792, 2, 1);
    (0xA796, 0xA7A8, 2, 1); (0xA7AA, 0xA7AA, 1, (-42308));
    (0xA7AB, 0xA7AB, 1, (-42319)); (0xA7AC, 0xA7AC, 1, (-42315));
    (0xA7AD, 0xA7AD, 1, (-42305)); (0xA7AE, 0xA7AE, 1, (-42308));
    (0xA7B0, 0xA7B0, 1, (-42258)); (0xA7B1, 0xA7B1, 1, (-42282));
    (0xA7B2, 0xA7B2, 1, (-42261)); (0xA7B3, 0xA7B3, 1, 928);
    (0xA7B4, 0xA7C2, 2, 1); (0xA7C4, 0xA7C4, 1, (-48));
    (0xA7C5, 0xA7C5, 1, (-42307)); (0xA7C6, 0xA7C6, 1, (-35384));
    (0xA7C7, 0xA7C9, 2, 1); (0xA7D0, 0xA7D0, 1, 1); (0xA7D6, 0xA7D8, 2, 1);
    (0xA7F5, 0xA7F5, 1, 1); (0xFF21, 0xFF3A, 1, 32);
    (0x10400, 0x10427, 1, 40); (0x104B0, 0x104D3, 1, 40);
    (0x10570, 0x1057A, 1, 39); (0x1057C, 0x1058A, 1, 39);
    (0x1058C, 0x10592, 1, 39); (0x10594, 0x10595, 1, 39);
    (0x10C80, 0x10CB2, 1, 64); (0x118A0, 0x118BF, 1, 32);
    (0x16E40, 0x16E5F, 1, 32); (0x1E900, 0x1E921, 1, 34)
  ].

(** The full canonical decompositions, but those of the Hangul
    syllables. *)
Definition decompositions : list (rune * gostring) :=
  [
    (0xC0, [0x41; 0x300]); (0xC1, [0x41; 0x301]); (0xC2, [0x41; 0x302]);
    (0xC3, [0x41; 0x303]); (0xC4, [0x41; 0x308]); (0xC5, [0x41; 0x30A]);
    (0xC7, [0x43; 0x327]); (0xC8, [0x45; 0x300]); (0xC9, [0x45; 0x301]);
    (0xCA, [0x45; 0x302]); (0xCB, [0x45; 0x308]); (0xCC, [0x49; 0x300]);
    (0xCD, [0x49; 0x301]); (0xCE, [0x49; 0x302]); (0xCF, [0x49; 0x308]);
    (0xD1, [0x4E; 0x303]); (0xD2, [0x4F; 0x300]); (0xD3, [0x4F; 0x301]);
    (0xD4, [0x4F; 0x302]); (0xD5, [0x4F; 0x303]); (0xD6, [0x4F; 0x308]);
    (0xD9, [0x55; 0x300]); (0xDA, [0x55; 0x301]); (0xDB, [0x55; 0x302]);
    (0xDC, [0x55; 0x308]); (0xDD, [0x59; 0x301]); (0xE0, [0x61; 0x300]);
    (0xE1, [0x61; 0x301]); (0xE2, [0x61; 0x302]); (0xE3, [0x61; 0x303]);
    (0xE4, [0x61; 0x308]); (0xE5, [0x61; 0x30A]); (0xE7, [0x63; 0x327]);
    (0xE8, [0x65; 0x300]); (0xE9, [0x65; 0x301]); (0xEA, [0x65; 0x302]);
    (0xEB, [0x65; 0x308]); (0xEC, [0x69; 0x300]); (0xED, [0x69; 0x301]);
    (0xEE, [0x69; 0x302]); (0xEF, [0x69; 0x308]); (0xF1, [0x6E; 0x303]);
    (0xF2, [0x6F; 0x300]); (0xF3, [0x6F; 0x301]); (0xF4, [0x6F; 0x302]);
    (0xF5, [0x6F; 0x303]); (0xF6, [0x6F; 0x308]); (0xF9, [0x75; 0x300]);
    (0xFA, [0x75; 0x301]); (0xFB, [0x75; 0x302]); (0xFC, [0x75; 0x308]);
    (0xFD, [0x79; 0x301]); (0xFF, [0x79; 0x308]); (0x100, [0x41; 0x304]);
    (0x101, [0x61; 0x304]); (0x102, [0x41; 0x306]); (0x103, [0x61; 0x306]);
    (0x104, [0x41; 0x328]); (0x105, [0x61; 0x328]); (0x106, [0x43; 0x301]);
    (0x107, [0x63; 0x301]); (0x108, [0x43; 0x302]); (0x109, [0x63; 0x302]);
    (0x10A, [0x43; 0x307]); (0x10B, [0x63; 0x307]); (0x10C, [0x43; 0x30C]);
    (0x10D, [0x63; 0x30C]); (0x10E, [0x44; 0x30C]); (0x10F, [0x64; 0x30C]);
    (0x112, [0x45; 0x304]); (0x113, [0x65; 0x304]); (0x114, [0x45; 0x306]);
    (0x115, [0x65; 0x306]); (0x116, [0x45; 0x307]); (0x117, [0x65; 0x307]);
    (0x118, [0x45; 0x328]); (0x119, [0x65; 0x328]); (0x11A, [0x45; 0x30C]);
    (0x11B, [0x65; 0x30C]); (0x11C, [0x47; 0x302]); (0x11D, [0x67; 0x302]);
    (0x11E, [0x47; 0x306]); (0x11F, [0x67; 0x306]); (0x120, [0x47; 0x307]);
    (0x121, [0x67; 0x307]); (0x122, [0x47; 0x327]); (0x123, [0x67; 0x327]);
    (0x124, [0x48; 0x302]); (0x125, [0x68; 0x302]); (0x128, [0x49; 0x303]);
    (0x129, [0x69; 0x303]); (0x12A, [0x49; 0x304]); (0x12B, [0x69; 0x304]);
    (0x12C, [0x49; 0x306]); (0x12D, [0x69; 0x306]); (0x12E, [0x49; 0x328]);
    (0x12F, [0x69; 0x328]); (0x130, [0x49; 0x307]); (0x134, [0x4A; 0x302]);
    (0x135, [0x6A; 0x302]); (0x136, [0x4B; 0x327]); (0x137, [0x6B; 0x327]);
    (0x139, [0x4C; 0x301]); (0x13A, [0x6C; 0x301]); (0x13B, [0x4C; 0x327]);
    (0x13C, [0x6C; 0x327]); (0x13D, [0x4C; 0x30C]); (0x13E, [0x6C; 0x30C]);
    (0x143, [0x4E; 0x301]); (0x144, [0x6E; 0x301]); (0x145, [0x4E; 0x327]);
    (0x146, [0x6E; 0x327]); (0x147, [0x4E; 0x30C]); (0x148, [0x6E; 0x30C]);
    (0x14C, [0x4F; 0x304]); (0x14D, [0x6F; 0x304]); (0x14E, [0x4F; 0x306]);
    (0x14F, [0x6F; 0x306]); (0x150, [0x4F; 0x30B]); (0x151, [0x6F; 0x30B]);
    (0x154, [0x52; 0x301]); (0x155, [0x72; 0x301]); (0x156, [0x52; 0x327]);
    (0x157, [0x72; 0x327]); (0x158, [0x52; 0x30C]); (0x159, [0x72; 0x30C]);
    (0x15A, [0x53; 0x301]); (0x15B, [0x73; 0x301]); (0x15C, [0x53; 0x302]);
    (0x15D, [0x73; 0x302]); (0x15E, [0x53; 0x327]); (0x15F, [0x73; 0x327]);
    (0x160, [0x53; 0x30C]); (0x161, [0x73; 0x30C]); (0x162, [0x54; 0x327]);
    (0x163, [0x74; 0x327]); (0x164, [0x54; 0x30C]); (0x165, [0x74; 0x30C]);
    (0x168, [0x55; 0x303]); (0x169, [0x75; 0x303]); (0x16A, [0x55; 0x304]);
    (0x16B, [0x75; 0x304]); (0x16C, [0x55; 0x306]); (0x16D, [0x75; 0x306]);
    (0x16E, [0x55; 0x30A]); (0x16F, [0x75; 0x30A]); (0x170, [0x55; 0x30B]);
    (0x171, [0x75; 0x30B]); (0x172, [0x55; 0x328]); (0x173, [0x75; 0x328]);
    (0x174, [0x57; 0x302]); (0x175, [0x77; 0x302]); (0x176, [0x59; 0x302]);
    (0x177, [0x79; 0x302]); (0x178, [0x59; 0x308]); (0x179, [0x5A; 0x301]);
    (0x17A, [0x7A; 0x301]); (0x17B, [0x5A; 0x307]); (0x17C, [0x7A; 0x307]);
    (0x17D, [0x5A; 0x30C]); (0x17E, [0x7A; 0x30C]); (0x1A0, [0x4F; 0x31B]);
    (0x1A1, [0x6F; 0x31B]); (0x1AF, [0x55; 0x31B]); (0x1B0, [0x75; 0x31B]);
    (0x1CD, [0x41; 0x30C]); (0x1CE, [0x61; 0x30C]); (0x1CF, [0x49; 0x30C]);
    (0x1D0, [0x69; 0x30C]); (0x1D1, [0x4F; 0x30C]); (0x1D2, [0x6F; 0x30C]);
    (0x1D3, [0x55; 0x30C]); (0x1D4, [0x75; 0x30C]);
    (0x1D5, [0x55; 0x308; 0x304]); (0x1D6, [0x75; 0x308; 0x304]);
    (0x1D7, [0x55; 0x308; 0x301]); (0x1D8, [0x75; 0x308; 0x301]);
    (0x1D9, [0x55; 0x308; 0x30C]); (0x1DA, [0x75; 0x308; 0x30C]);
    (0x1DB, [0x55; 0x308; 0x300]); (0x1DC, [0x75; 0x308; 0x300]);
    (0x1DE, [0x41; 0x308; 0x304]); (0x1DF, [0x61; 0x308; 0x304]);
    (0x1E0, [0x41; 0x307; 0x304]); (0x1E1, [0x61; 0x307; 0x304]);
    (0x1E2, [0xC6; 0x304]); (0x1E3, [0xE6; 0x304]); (0x1E6, [0x47; 0x30C]);
    (0x1E7, [0x67; 0x30C]); (0x1E8, [0x4B; 0x30C]); (0x1E9, [0x6B; 0x30C]);
    (0x1EA, [0x4F; 0x328]); (0x1EB, [0x6F; 0x328]);
    (0x1EC, [0x4F; 0x328; 0x304]); (0x1ED, [0x6F; 0x328; 0x304]);
    (0x1EE, [0x1B7; 0x30C]); (0x1EF, [0x292; 0x30C]); (0x1F0, [0x6A; 0x30C]);
    (0x1F4, [0x47; 0x301]); (0x1F5, [0x67; 0x301]); (0x1F8, [0x4E; 0x300]);
    (0x1F9, [0x6E; 0x300]); (0x1FA, [0x41; 0x30A; 0x301]);
    (0x1FB, [0x61; 0x30A; 0x301]); (0x1FC, [0xC6; 0x301]);
    (0x1FD, [0xE6; 0x301]); (0x1FE, [0xD8; 0x301]); (0x1FF, [0xF8; 0x301]);
    (0x200, [0x41; 0x30F]); (0x201, [0x61; 0x30F]); (0x202, [0x41; 0x311]);
    (0x203, [0x61; 0x311]); (0x204, [0x45; 0x30F]); (0x205, [0x65; 0x30F]);
    (0x206, [0x45; 0x311]); (0x207, [0x65; 0x311]); (0x208, [0x49; 0x30F]);
    (0x209, [0x69; 0x30F]); (0x20A, [0x49; 0x311]); (0x20B, [0x69; 0x311]);
    (0x20C, [0x4F; 0x30F]); (0x20D, [0x6F; 0x30F]); (0x20E, [0x4F; 0x311]);
    (0x20F, [0x6F; 0x311]); (0x210, [0x52; 0x30F]); (0x211, [0x72; 0x30F]);
    (0x212, [0x52; 0x311]); (0x213, [0x72; 0x311]); (0x214, [0x55; 0x30F]);
    (0x215, [0x75; 0x30F]); (0x216, [0x55; 0x311]); (0x217, [0x75; 0x311]);
    (0x218, [0x53; 0x326]); (0x219, [0x73; 0x326]); (0x21A, [0x54; 0x326]);
    (0x21B, [0x74; 0x326]); (0x21E, [0x48; 0x30C]); (0x21F, [0x68; 0x30C]);
    (0x226, [0x41; 0x307]); (0x227, [0x61; 0x307]); (0x228, [0x45; 0x327]);
    (0x229, [0x65; 0x327]); (0x22A, [0x4F; 0x308; 0x304]);
    (0x22B, [0x6F; 0x308; 0x304]); (0x22C, [0x4F; 0x303; 0x304]);
    (0x22D, [0x6F; 0x303; 0x304]); (0x22E, [0x4F; 0x307]);
    (0x22F, [0x6F; 0x307]); (0x230, [0x4F; 0x307; 0x304]);
    (0x231, [0x6F; 0x307; 0x304]); (0x232, [0x59; 0x304]);
    (0x233, [0x79; 0x304]); (0x340, [0x300]); (0x341, [0x301]);
    (0x343, [0x313]); (0x344, [0x308; 0x301]); (0x374, [0x2B9]);
    (0x37E, [0x3B]); (0x385, [0xA8; 0x301]); (0x386, [0x391; 0x301]);
    (0x387, [0xB7]); (0x388, [0x395; 0x301]); (0x389, [0x397; 0x301]);
    (0x38A, [0x399; 0x301]); (0x38C, [0x39F; 0x301]);
    (0x38E, [0x3A5; 0x301]); (0x38F, [0x3A9; 0x301]);
    (0x390, [0x3B9; 0x308; 0x301]); (0x3AA, [0x399; 0x308]);
    (0x3AB, [0x3A5; 0x308]); (0x3AC, [0x3B1; 0x301]);
    (0x3AD, [0x3B5; 0x301]); (0x3AE, [0x3B7; 0x301]);
    (0x3AF, [0x3B9; 0x301]); (0x3B0, [0x3C5; 0x308; 0x301]);
    (0x3CA, [0x3B9; 0x308]); (0x3CB, [0x3C5; 0x308]);
    (0x3CC, [0x3BF; 0x301]); (0x3CD, [0x3C5; 0x301]);
    (0x3CE, [0x3C9; 0x301]); (0x3D3, [0x3D2; 0x301]);
    (0x3D4, [0x3D2; 0x308]); (0x400, [0x415; 0x300]);
    (0x401, [0x415; 0x308]); (0x403, [0x413; 0x301]);
    (0x407, [0x406; 0x308]); (0x40C, [0x41A; 0x301]);
    (0x40D, [0x418; 0x300]); (0x40E, [0x423; 0x306]);
    (0x419, [0x418; 0x306]); (0x439, [0x438; 0x306]);
    (0x450, [0x435; 0x300]); (0x451, [0x435; 0x308]);
    (0x453, [0x433; 0x301]); (0x457, [0x456; 0x308]);
    (0x45C, [0x43A; 0x301]); (0x45D, [0x438; 0x300]);
    (0x45E, [0x443; 0x306]); (0x476, [0x474; 0x30F]);
    (0x477, [0x475; 0x30F]); (0x4C1, [0x416; 0x306]);
    (0x4C2, [0x436; 0x306]); (0x4D0, [0x410; 0x306]);
    (0x4D1, [0x430; 0x306]); (0x4D2, [0x410; 0x308]);
    (0x4D3, [0x430; 0x308]); (0x4D6, [0x415; 0x306]);
    (0x4D7, [0x435; 0x306]); (0x4DA, [0x4D8; 0x308]);
    (0x4DB, [0x4D9; 0x308]); (0x4DC, [0x416; 0x308]);
    (0x4DD, [0x436; 0x308]); (0x4DE, [0x417; 0x308]);
    (0x4DF, [0x437; 0x308]); (0x4E2, [0x418; 0x304]);
    (0x4E3, [0x438; 0x304]); (0x4E4, [0x418; 0x308]);
    (0x4E5, [0x438; 0x308]); (0x4E6, [0x41E; 0x308]);
    (0x4E7, [0x43E; 0x308]); (0x4EA, [0x4E8; 0x308]);
    (0x4EB, [0x4E9; 0x308]); (0x4EC, [0x42D; 0x308]);
    (0x4ED, [0x44D; 0x308]); (0x4EE, [0x423; 0x304]);
    (0x4EF, [0x443; 0x304]); (0x4F0, [0x423; 0x308]);
    (0x4F1, [0x443; 0x308]); (0x4F2, [0x423; 0x30B]);
    (0x4F3, [0x443; 0x30B]); (0x4F4, [0x427; 0x308]);
    (0x4F5, [0x447; 0x308]); (0x4F8, [0x42B; 0x308]);
    (0x4F9, [0x44B; 0x308]); (0x622, [0x627; 0x653]);
    (0x623, [0x627; 0x654]); (0x624, [0x648; 0x654]);
    (0x625, [0x627; 0x655]); (0x626, [0x64A; 0x654]);
    (0x6C0, [0x6D5; 0x654]); (0x6C2, [0x6C1; 0x654]);
    (0x6D3, [0x6D2; 0x654]); (0x929, [0x928; 0x93C]);
    (0x931, [0x930; 0x93C]); (0x934, [0x933; 0x93C]);
    (0x958, [0x915; 0x93C]); (0x959, [0x916; 0x93C]);
    (0x95A, [0x917; 0x93C]); (0x95B, [0x91C; 0x93C]);
    (0x95C, [0x921; 0x93C]); (0x95D, [0x922; 0x93C]);
    (0x95E, [0x92B; 0x93C]); (0x95F, [0x92F; 0x93C]);
    (0x9CB, [0x9C7; 0x9BE]); (0x9CC, [0x9C7; 0x9D7]);
    (0x9DC, [0x9A1; 0x9BC]); (0x9DD, [0x9A2; 0x9BC]);
    (0x9DF, [0x9AF; 0x9BC]); (0xA33, [0xA32; 0xA3C]);
    (0xA36, [0xA38; 0xA3C]); (0xA59, [0xA16; 0xA3C]);
    (0xA5A, [0xA17; 0xA3C]); (0xA5B, [0xA1C; 0xA3C]);
    (0xA5E, [0xA2B; 0xA3C]); (0xB48, [0xB47; 0xB56]);
    (0xB4B, [0xB47; 0xB3E]); (0xB4C, [0xB47; 0xB57]);
    (0xB5C, [0xB21; 0xB3C]); (0xB5D, [0xB22; 0xB3C]);
    (0xB94, [0xB92; 0xBD7]); (0xBCA, [0xBC6; 0xBBE]);
    (0xBCB, [0xBC7; 0xBBE]); (0xBCC, [0xBC6; 0xBD7]);
    (0xC48, [0xC46; 0xC56]); (0xCC0, [0xCBF; 0xCD5]);
    (0xCC7, [0xCC6; 0xCD5]); (0xCC8, [0xCC6; 0xCD6]);
    (0xCCA, [0xCC6; 0xCC2]); (0xCCB, [0xCC6; 0xCC2; 0xCD5]);
    (0xD4A, [0xD46; 0xD3E]); (0xD4B, [0xD47; 0xD3E]);
    (0xD4C, [0xD46; 0xD57]); (0xDDA, [0xDD9; 0xDCA]);
    (0xDDC, [0xDD9; 0xDCF]); (0xDDD, [0xDD9; 0xDCF; 0xDCA]);
    (0xDDE, [0xDD9; 0xDDF]); (0xF43, [0xF42; 0xFB7]);
    (0xF4D, [0xF4C; 0xFB7]); (0xF52, [0xF51; 0xFB7]);
    (0xF57, [0xF56; 0xFB7]); (0xF5C, [0xF5B; 0xFB7]);
    (0xF69, [0xF40; 0xFB5]); (0xF73, [0xF71; 0xF72]);
    (0xF75, [0xF71; 0xF74]); (0xF76, [0xFB2; 0xF80]);
    (0xF78, [0xFB3; 0xF80]); (0xF81, [0xF71; 0xF80]);
    (0xF93, [0xF92; 0xFB7]); (0xF9D, [0xF9C; 0xFB7]);
    (0xFA2, [0xFA1; 0xFB7]); (0xFA7, [0xFA6; 0xFB7]);
    (0xFAC, [0xFAB; 0xFB7]); (0xFB9, [0xF90; 0xFB5]);
    (0x1026, [0x1025; 0x102E]); (0x1B06, [0x1B05; 0x1B35]);
    (0x1B08, [0x1B07; 0x1B35]); (0x1B0A, [0x1B09; 0x1B35]);
    (0x1B0C, [0x1B0B; 0x1B35]); (0x1B0E, [0x1B0D; 0x1B35]);
    (0x1B12, [0x1B11; 0x1B35]); (0x1B3B, [0x1B3A; 0x1B35]);
    (0x1B3D, [0x1B3C; 0x1B35]); (0x1B40, [0x1B3E; 0x1B35]);
    (0x1B41, [0x1B3F; 0x1B35]); (0x1B43, [0x1B42; 0x1B35]);
    (0x1E00, [0x41; 0x325]); (0x1E01, [0x61; 0x325]);
    (0x1E02, [0x42; 0x307]); (0x1E03, [0x62; 0x307]);
    (0x1E04, [0x42; 0x323]); (0x1E05, [0x62; 0x323]);
    (0x1E06, [0x42; 0x331]); (0x1E07, [0x62; 0x331]);
    (0x1E08, [0x43; 0x327; 0x301]); (0x1E09, [0x63; 0x327; 0x301]);
    (0x1E0A, [0x44; 0x307]); (0x1E0B, [0x64; 0x307]);
    (0x1E0C, [0x44; 0x323]); (0x1E0D, [0x64; 0x323]);
    (0x1E0E, [0x44; 0x331]); (0x1E0F, [0x64; 0x331]);
    (0x1E10, [0x44; 0x327]); (0x1E11, [0x64; 0x327]);
    (0x1E12, [0x44; 0x32D]); (0x1E13, [0x64; 0x32D]);
    (0x1E14, [0x45; 0x304; 0x300]); (0x1E15, [0x65; 0x304; 0x300]);
    (0x1E16, [0x45; 0x304; 0x301]); (0x1E17, [0x65; 0x304; 0x301]);
    (0x1E18, [0x45; 0x32D]); (0x1E19, [0x65; 0x32D]);
    (0x1E1A, [0x45; 0x330]); (0x1E1B, [0x65; 0x330]);
    (0x1E1C, [0x45; 0x327; 0x306]); (0x1E1D, [0x65; 0x327; 0x306]);
    (0x1E1E, [0x46; 0x307]); (0x1E1F, [0x66; 0x307]);
    (0x1E20, [0x47; 0x304]); (0x1E21, [0x67; 0x304]);
    (0x1E22, [0x48; 0x307]); (0x1E23, [0x68; 0x307]);
    (0x1E24, [0x48; 0x323]); (0x1E25, [0x68; 0x323]);
    (0x1E26, [0x48; 0x308]); (0x1E27, [0x68; 0x308]);
    (0x1E28, [0x48; 0x327]); (0x1E29, [0x68; 0x327]);
    (0x1E2A, [0x48; 0x32E]); (0x1E2B, [0x68; 0x32E]);
    (0x1E2C, [0x49; 0x330]); (0x1E2D, [0x69; 0x330]);
    (0x1E2E, [0x49; 0x308; 0x301]); (0x1E2F, [0x69; 0x308; 0x301]);
    (0x1E30, [0x4B; 0x301]); (0x1E31, [0x6B; 0x301]);
    (0x1E32, [0x4B; 0x323]); (0x1E33, [0x6B; 0x323]);
    (0x1E34, [0x4B; 0x331]); (0x1E35, [0x6B; 0x331]);
    (0x1E36, [0x4C; 0x323]); (0x1E37, [0x6C; 0x323]);
    (0x1E38, [0x4C; 0x323; 0x304]); (0x1E39, [0x6C; 0x323; 0x304]);
    (0x1E3A, [0x4C; 0x331]); (0x1E3B, [0x6C; 0x331]);
    (0x1E3C, [0x4C; 0x32D]); (0x1E3D, [0x6C; 0x32D]);
    (0x1E3E, [0x4D; 0x301]); (0x1E3F, [0x6D; 0x301]);
    (0x1E40, [0x4D; 0x307]); (0x1E41, [0x6D; 0x307]);
    (0x1E42, [0x4D; 0x323]); (0x1E43, [0x6D; 0x323]);
    (0x1E44, [0x4E; 0x307]); (0x1E45, [0x6E; 0x307]);
    (0x1E46, [0x4E; 0x323]); (0x1E47, [0x6E; 0x323]);
    (0x1E48, [0x4E; 0x331]); (0x1E49, [0x6E; 0x331]);
    (0x1E4A, [0x4E; 0x32D]); (0x1E4B, [0x6E; 0x32D]);
    (0x1E4C, [0x4F; 0x303; 0x301]); (0x1E4D, [0x6F; 0x303; 0x301]);
    (0x1E4E, [0x4F; 0x303; 0x308]); (0x1E4F, [0x6F; 0x303; 0x308]);
    (0x1E50, [0x4F; 0x304; 0x300]); (0x1E51, [0x6F; 0x304; 0x300]);
    (0x1E52, [0x4F; 0x304; 0x301]); (0x1E53, [0x6F; 0x304; 0x301]);
    (0x1E54, [0x50; 0x301]); (0x1E55, [0x70; 0x301]);
    (0x1E56, [0x50; 0x307]); (0x1E57, [0x70; 0x307]);
    (0x1E58, [0x52; 0x307]); (0x1E59, [0x72; 0x307]);
    (0x1E5A, [0x52; 0x323]); (0x1E5B, [0x72; 0x323]);
    (0x1E5C, [0x52; 0x323; 0x304]); (0x1E5D, [0x72; 0x323; 0x304]);
    (0x1E5E, [0x52; 0x331]); (0x1E5F, [0x72; 0x331]);
    (0x1E60, [0x53; 0x307]); (0x1E61, [0x73; 0x307]);
    (0x1E62, [0x53; 0x323]); (0x1E63, [0x73; 0x323]);
    (0x1E64, [0x53; 0x301; 0x307]); (0x1E65, [0x73; 0x301; 0x307]);
    (0x1E66, [0x53; 0x30C; 0x307]); (0x1E67, [0x73; 0x30C; 0x307]);
    (0x1E68, [0x53; 0x323; 0x307]); (0x1E69, [0x73; 0x323; 0x307]);
    (0x1E6A, [0x54; 0x307]); (0x1E6B, [0x74; 0x307]);
    (0x1E6C, [0x54; 0x323]); (0x1E6D, [0x74; 0x323]);
    (0x1E6E, [0x54; 0x331]); (0x1E6F, [0x74; 0x331]);
    (0x1E70, [0x54; 0x32D]); (0x1E71, [0x74; 0x32D]);
    (0x1E72, [0x55; 0x324]); (0x1E73, [0x75; 0x324]);
    (0x1E74, [0x55; 0x330]); (0x1E75, [0x75; 0x330]);
    (0x1E76, [0x55; 0x32D]); (0x1E77, [0x75; 0x32D]);
    (0x1E78, [0x55; 0x303; 0x301]); (0x1E79, [0x75; 0x303; 0x301]);
    (0x1E7A, [0x55; 0x304; 0x308]); (0x1E7B, [0x75; 0x304; 0x308]);
    (0x1E7C, [0x56; 0x303]); (0x1E7D, [0x76; 0x303]);
    (0x1E7E, [0x56; 0x323]); (0x1E7F, [0x76; 0x323]);
    (0x1E80, [0x57; 0x300]); (0x1E81, [0x77; 0x300]);
    (0x1E82, [0x57; 0x301]); (0x1E83, [0x77; 0x301]);
    (0x1E84, [0x57; 0x308]); (0x1E85, [0x77; 0x308]);
    (0x1E86, [0x57; 0x307]); (0x1E87, [0x77; 0x307]);
    (0x1E88, [0x57; 0x323]); (0x1E89, [0x77; 0x323]);
    (0x1E8A, [0x58; 0x307]); (0x1E8B, [0x78; 0x307]);
    (0x1E8C, [0x58; 0x308]); (0x1E8D, [0x78; 0x308]);
    (0x1E8E, [0x59; 0x307]); (0x1E8F, [0x79; 0x307]);
    (0x1E90, [0x5A; 0x302]); (0x1E91, [0x7A; 0x302]);
    (0x1E92, [0x5A; 0x323]); (0x1E93, [0x7A; 0x323]);
    (0x1E94, [0x5A; 0x331]); (0x1E95, [0x7A; 0x331]);
    (0x1E96, [0x68; 0x331]); (0x1E97, [0x74; 0x308]);
    (0x1E98, [0x77; 0x30A]); (0x1E99, [0x79; 0x30A]);
    (0x1E9B, [0x17F; 0x307]); (0x1EA0, [0x41; 0x323]);
    (0x1EA1, [0x61; 0x323]); (0x1EA2, [0x41; 0x309]);
    (0x1EA3, [0x61; 0x309]); (0x1EA4, [0x41; 0x302; 0x301]);
    (0x1EA5, [0x61; 0x302; 0x301]); (0x1EA6, [0x41; 0x302; 0x300]);
    (0x1EA7, [0x61; 0x302; 0x300]); (0x1EA8, [0x41; 0x302; 0x309]);
    (0x1EA9, [0x61; 0x302; 0x309]); (0x1EAA, [0x41; 0x302; 0x303]);
    (0x1EAB, [0x61; 0x302; 0x303]); (0x1EAC, [0x41; 0x323; 0x302]);
    (0x1EAD, [0x61; 0x323; 0x302]); (0x1EAE, [0x41; 0x306; 0x301]);
    (0x1EAF, [0x61; 0x306; 0x301]); (0x1EB0, [0x41; 0x306; 0x300]);
    (0x1EB1, [0x61; 0x306; 0x300]); (0x1EB2, [0x41; 0x306; 0x309]);
    (0x1EB3, [0x61; 0x306; 0x309]); (0x1EB4, [0x41; 0x306; 0x303]);
    (0x1EB5, [0x61; 0x306; 0x303]); (0x1EB6, [0x41; 0x323; 0x306]);
    (0x1EB7, [0x61; 0x323; 0x306]); (0x1EB8, [0x45; 0x323]);
    (0x1EB9, [0x65; 0x323]); (0x1EBA, [0x45; 0x309]);
    (0x1EBB, [0x65; 0x309]); (0x1EBC, [0x45; 0x303]);
    (0x1EBD, [0x65; 0x303]); (0x1EBE, [0x45; 0x302; 0x301]);
    (0x1EBF, [0x65; 0x302; 0x301]); (0x1EC0, [0x45; 0x302; 0x300]);
    (0x1EC1, [0x65; 0x302; 0x300]); (0x1EC2, [0x45; 0x302; 0x309]);
    (0x1EC3, [0x65; 0x302; 0x309]); (0x1EC4, [0x45; 0x302; 0x303]);
    (0x1EC5, [0x65; 0x302; 0x303]); (0x1EC6, [0x45; 0x323; 0x302]);
    (0x1EC7, [0x65; 0x323; 0x302]); (0x1EC8, [0x49; 0x309]);
    (0x1EC9, [0x69; 0x309]); (0x1ECA, [0x49; 0x323]);
    (0x1ECB, [0x69; 0x323]); (0x1ECC, [0x4F; 0x323]);
    (0x1ECD, [0x6F; 0x323]); (0x1ECE, [0x4F; 0x309]);
    (0x1ECF, [0x6F; 0x309]); (0x1ED0, [0x4F; 0x302; 0x301]);
    (0x1ED1, [0x6F; 0x302; 0x301]); (0x1ED2, [0x4F; 0x302; 0x300]);
    (0x1ED3, [0x6F; 0x302; 0x300]); (0x1ED4, [0x4F; 0x302; 0x309]);
    (0x1ED5, [0x6F; 0x302; 0x309]); (0x1ED6, [0x4F; 0x302; 0x303]);
    (0x1ED7, [0x6F; 0x302; 0x303]); (0x1ED8, [0x4F; 0x323; 0x302]);
    (0x1ED9, [0x6F; 0x323; 0x302]); (0x1EDA, [0x4F; 0x31B; 0x301]);
    (0x1EDB, [0x6F; 0x31B; 0x301]); (0x1EDC, [0x4F; 0x31B; 0x300]);
    (0x1EDD, [0x6F; 0x31B; 0x300]); (0x1EDE, [0x4F; 0x31B; 0x309]);
    (0x1EDF, [0x6F; 0x31B; 0x309]); (0x1EE0, [0x4F; 0x31B; 0x303]);
    (0x1EE1, [0x6F; 0x31B; 0x303]); (0x1EE2, [0x4F; 0x31B; 0x323]);
    (0x1EE3, [0x6F; 0x31B; 0x323]); (0x1EE4, [0x55; 0x323]);
    (0x1EE5, [0x75; 0x323]); (0x1EE6, [0x55; 0x309]);
    (0x1EE7, [0x75; 0x309]); (0x1EE8, [0x55; 0x31B; 0x301]);
    (0x1EE9, [0x75; 0x31B; 0x301]); (0x1EEA, [0x55; 0x31B; 0x300]);
    (0x1EEB, [0x75; 0x31B; 0x300]); (0x1EEC, [0x55; 0x31B; 0x309]);
    (0x1EED, [0x75; 0x31B; 0x309]); (0x1EEE, [0x55; 0x31B; 0x303]);
    (0x1EEF, [0x75; 0x31B; 0x303]); (0x1EF0, [0x55; 0x31B; 0x323]);
    (0x1EF1, [0x75; 0x31B; 0x323]); (0x1EF2, [0x59; 0x300]);
    (0x1EF3, [0x79; 0x300]); (0x1EF4, [0x59; 0x323]);
    (0x1EF5, [0x79; 0x323]); (0x1EF6, [0x59; 0x309]);
    (0x1EF7, [0x79; 0x309]); (0x1EF8, [0x59; 0x303]);
    (0x1EF9, [0x79; 0x303]); (0x1F00, [0x3B1; 0x313]);
    (0x1F01, [0x3B1; 0x314]); (0x1F02, [0x3B1; 0x313; 0x300]);
    (0x1F03, [0x3B1; 0x314; 0x300]); (0x1F04, [0x3B1; 0x313; 0x301]);
    (0x1F05, [0x3B1; 0x314; 0x301]); (0x1F06, [0x3B1; 0x313; 0x342]);
    (0x1F07, [0x3B1; 0x314; 0x342]); (0x1F08, [0x391; 0x313]);
    (0x1F09, [0x391; 0x314]); (0x1F0A, [0x391; 0x313; 0x300]);
    (0x1F0B, [0x391; 0x314; 0x300]); (0x1F0C, [0x391; 0x313; 0x301]);
    (0x1F0D, [0x391; 0x314; 0x301]); (0x1F0E, [0x391; 0x313; 0x342]);
    (0x1F0F, [0x391; 0x314; 0x342]); (0x1F10, [0x3B5; 0x313]);
    (0x1F11, [0x3B5; 0x314]); (0x1F12, [0x3B5; 0x313; 0x300]);
    (0x1F13, [0x3B5; 0x314; 0x300]); (0x1F14, [0x3B5; 0x313; 0x301]);
    (0x1F15, [0x3B5; 0x314; 0x301]); (0x1F18, [0x395; 0x313]);
    (0x1F19, [0x395; 0x314]); (0x1F1A, [0x395; 0x313; 0x300]);
    (0x1F1B, [0x395; 0x314; 0x300]); (0x1F1C, [0x395; 0x313; 0x301]);
    (0x1F1D, [0x395; 0x314; 0x301]); (0x1F20, [0x3B7; 0x313]);
    (0x1F21, [0x3B7; 0x314]); (0x1F22, [0x3B7; 0x313; 0x300]);
    (0x1F23, [0x3B7; 0x314; 0x300]); (0x1F24, [0x3B7; 0x313; 0x301]);
    (0x1F25, [0x3B7; 0x314; 0x301]); (0x1F26, [0x3B7; 0x313; 0x342]);
    (0x1F27, [0x3B7; 0x314; 0x342]); (0x1F28, [0x397; 0x313]);
    (0x1F29, [0x397; 0x314]); (0x1F2A, [0x397; 0x313; 0x300]);
    (0x1F2B, [0x397; 0x314; 0x300]); (0x1F2C, [0x397; 0x313; 0x301]);
    (0x1F2D, [0x397; 0x314; 0x301]); (0x1F2E, [0x397; 0x313; 0x342]);
    (0x1F2F, [0x397; 0x314; 0x342]); (0x1F30, [0x3B9; 0x313]);
    (0x1F31, [0x3B9; 0x314]); (0x1F32, [0x3B9; 0x313; 0x300]);
    (0x1F33, [0x3B9; 0x314; 0x300]); (0x1F34, [0x3B9; 0x313; 0x301]);
    (0x1F35, [0x3B9; 0x314; 0x301]); (0x1F36, [0x3B9; 0x313; 0x342]);
    (0x1F37, [0x3B9; 0x314; 0x342]); (0x1F38, [0x399; 0x313]);
    (0x1F39, [0x399; 0x314]); (0x1F3A, [0x399; 0x313; 0x300]);
    (0x1F3B, [0x399; 0x314; 0x300]); (0x1F3C, [0x399; 0x313; 0x301]);
    (0x1F3D, [0x399; 0x314; 0x301]); (0x1F3E, [0x399; 0x313; 0x342]);
    (0x1F3F, [0x399; 0x314; 0x342]); (0x1F40, [0x3BF; 0x313]);
    (0x1F41, [0x3BF; 0x314]); (0x1F42, [0x3BF; 0x313; 0x300]);
    (0x1F43, [0x3BF; 0x314; 0x300]); (0x1F44, [0x3BF; 0x313; 0x301]);
    (0x1F45, [0x3BF; 0x314; 0x301]); (0x1F48, [0x39F; 0x313]);
    (0x1F49, [0x39F; 0x314]); (0x1F4A, [0x39F; 0x313; 0x300]);
    (0x1F4B, [0x39F; 0x314; 0x300]); (0x1F4C, [0x39F; 0x313; 0x301]);
    (0x1F4D, [0x39F; 0x314; 0x301]); (0x1F50, [0x3C5; 0x313]);
    (0x1F51, [0x3C5; 0x314]); (0x1F52, [0x3C5; 0x313; 0x300]);
    (0x1F53, [0x3C5; 0x314; 0x300]); (0x1F54, [0x3C5; 0x313; 0x301]);
    (0x1F55, [0x3C5; 0x314; 0x301]); (0x1F56, [0x3C5; 0x313; 0x342]);
    (0x1F57, [0x3C5; 0x314; 0x342]); (0x1F59, [0x3A5; 0x314]);
    (0x1F5B, [0x3A5; 0x314; 0x300]); (0x1F5D, [0x3A5; 0x314; 0x301]);
    (0x1F5F, [0x3A5; 0x314; 0x342]); (0x1F60, [0x3C9; 0x313]);
    (0x1F61, [0x3C9; 0x314]); (0x1F62, [0x3C9; 0x313; 0x300]);
    (0x1F63, [0x3C9; 0x314; 0x300]); (0x1F64, [0x3C9; 0x313; 0x301]);
    (0x1F65, [0x3C9; 0x314; 0x301]); (0x1F66, [0x3C9; 0x313; 0x342]);
    (0x1F67, [0x3C9; 0x314; 0x342]); (0x1F68, [0x3A9; 0x313]);
    (0x1F69, [0x3A9; 0x314]); (0x1F6A, [0x3A9; 0x313; 0x300]);
    (0x1F6B, [0x3A9; 0x314; 0x300]); (0x1F6C, [0x3A9; 0x313; 0x301]);
    (0x1F6D, [0x3A9; 0x314; 0x301]); (0x1F6E, [0x3A9; 0x313; 0x342]);
    (0x1F6F, [0x3A9; 0x314; 0x342]); (0x1F70, [0x3B1; 0x300]);
    (0x1F71, [0x3B1; 0x301]); (0x1F72, [0x3B5; 0x300]);
    (0x1F73, [0x3B5; 0x301]); (0x1F74, [0x3B7; 0x300]);
    (0x1F75, [0x3B7; 0x301]); (0x1F76, [0x3B9; 0x300]);
    (0x1F77, [0x3B9; 0x301]); (0x1F78, [0x3BF; 0x300]);
    (0x1F79, [0x3BF; 0x301]); (0x1F7A, [0x3C5; 0x300]);
    (0x1F7B, [0x3C5; 0x301]); (0x1F7C, [0x3C9; 0x300]);
    (0x1F7D, [0x3C9; 0x301]); (0x1F80, [0x3B1; 0x313; 0x345]);
    (0x1F81, [0x3B1; 0x314; 0x345]); (0x1F82, [0x3B1; 0x313; 0x300; 0x345]);
    (0x1F83, [0x3B1; 0x314; 0x300; 0x345]);
    (0x1F84, [0x3B1; 0x313; 0x301; 0x345]);
    (0x1F85, [0x3B1; 0x314; 0x301; 0x345]);
    (0x1F86, [0x3B1; 0x313; 0x342; 0x345]);
    (0x1F87, [0x3B1; 0x314; 0x342; 0x345]); (0x1F88, [0x391; 0x313; 0x345]);
    (0x1F89, [0x391; 0x314; 0x345]); (0x1F8A, [0x391; 0x313; 0x300; 0x345]);
    (0x1F8B, [0x391; 0x314; 0x300; 0x345]);
    (0x1F8C, [0x391; 0x313; 0x301; 0x345]);
    (0x1F8D, [0x391; 0x314; 0x301; 0x345]);
    (0x1F8E, [0x391; 0x313; 0x342; 0x345]);
    (0x1F8F, [0x391; 0x314; 0x342; 0x345]); (0x1F90, [0x3B7; 0x313; 0x345]);
    (0x1F91, [0x3B7; 0x314; 0x345]); (0x1F92, [0x3B7; 0x313; 0x300; 0x345]);
    (0x1F93, [0x3B7; 0x314; 0x300; 0x345]);
    (0x1F94, [0x3B7; 0x313; 0x301; 0x345]);
    (0x1F95, [0x3B7; 0x314; 0x301; 0x345]);
    (0x1F96, [0x3B7; 0x313; 0x342; 0x345]);
    (0x1F97, [0x3B7; 0x314; 0x342; 0x345]); (0x1F98, [0x397; 0x313; 0x345]);
    (0x1F99, [0x397; 0x314; 0x345]); (0x1F9A, [0x397; 0x313; 0x300; 0x345]);
    (0x1F9B, [0x397; 0x314; 0x300; 0x345]);
    (0x1F9C, [0x397; 0x313; 0x301; 0x345]);
    (0x1F9D, [0x397; 0x314; 0x301; 0x345]);
    (0x1F9E, [0x397; 0x313; 0x342; 0x345]);
    (0x1F9F, [0x397; 0x314; 0x342; 0x345]); (0x1FA0, [0x3C9; 0x313; 0x345]);
    (0x1FA1, [0x3C9; 0x314; 0x345]); (0x1FA2, [0x3C9; 0x313; 0x300; 0x345]);
    (0x1FA3, [0x3C9; 0x314; 0x300; 0x345]);
    (0x1FA4, [0x3C9; 0x313; 0x301; 0x345]);
    (0x1FA5, [0x3C9; 0x314; 0x301; 0x345]);
    (0x1FA6, [0x3C9; 0x313; 0x342; 0x345]);
    (0x1FA7, [0x3C9; 0x314; 0x342; 0x345]); (0x1FA8, [0x3A9; 0x313; 0x345]);
    (0x1FA9, [0x3A9; 0x314; 0x345]); (0x1FAA, [0x3A9; 0x313; 0x300; 0x345]);
    (0x1FAB, [0x3A9; 0x314; 0x300; 0x345]);
    (0x1FAC, [0x3A9; 0x313; 0x301; 0x345]);
    (0x1FAD, [0x3A9; 0x314; 0x301; 0x345]);
    (0x1FAE, [0x3A9; 0x313; 0x342; 0x345]);
    (0x1FAF, [0x3A9; 0x314; 0x342; 0x345]); (0x1FB0, [0x3B1; 0x306]);
    (0x1FB1, [0x3B1; 0x304]); (0x1FB2, [0x3B1; 0x300; 0x345]);
    (0x1FB3, [0x3B1; 0x345]); (0x1FB4, [0x3B1; 0x301; 0x345]);
    (0x1FB6, [0x3B1; 0x342]); (0x1FB7, [0x3B1; 0x342; 0x345]);
    (0x1FB8, [0x391; 0x306]); (0x1FB9, [0x391; 0x304]);
    (0x1FBA, [0x391; 0x300]); (0x1FBB, [0x391; 0x301]);
    (0x1FBC, [0x391; 0x345]); (0x1FBE, [0x3B9]); (0x1FC1, [0xA8; 0x342]);
    (0x1FC2, [0x3B7; 0x300; 0x345]); (0x1FC3, [0x3B7; 0x345]);
    (0x1FC4, [0x3B7; 0x301; 0x345]); (0x1FC6, [0x3B7; 0x342]);
    (0x1FC7, [0x3B7; 0x342; 0x345]); (0x1FC8, [0x395; 0x300]);
    (0x1FC9, [0x395; 0x301]); (0x1FCA, [0x397; 0x300]);
    (0x1FCB, [0x397; 0x301]); (0x1FCC, [0x397; 0x345]);
    (0x1FCD, [0x1FBF; 0x300]); (0x1FCE, [0x1FBF; 0x301]);
    (0x1FCF, [0x1FBF; 0x342]); (0x1FD0, [0x3B9; 0x306]);
    (0x1FD1, [0x3B9; 0x304]); (0x1FD2, [0x3B9; 0x308; 0x300]);
    (0x1FD3, [0x3B9; 0x308; 0x301]); (0x1FD6, [0x3B9; 0x342]);
    (0x1FD7, [0x3B9; 0x308; 0x342]); (0x1FD8, [0x399; 0x306]);
    (0x1FD9, [0x399; 0x304]); (0x1FDA, [0x399; 0x300]);
    (0x1FDB, [0x399; 0x301]); (0x1FDD, [0x1FFE; 0x300]);
    (0x1FDE, [0x1FFE; 0x301]); (0x1FDF, [0x1FFE; 0x342]);
    (0x1FE0, [0x3C5; 0x306]); (0x1FE1, [0x3C5; 0x304]);
    (0x1FE2, [0x3C5; 0x308; 0x300]); (0x1FE3, [0x3C5; 0x308; 0x301]);
    (0x1FE4, [0x3C1; 0x313]); (0x1FE5, [0x3C1; 0x314]);
    (0x1FE6, [0x3C5; 0x342]); (0x1FE7, [0x3C5; 0x308; 0x342]);
    (0x1FE8, [0x3A5; 0x306]); (0x1FE9, [0x3A5; 0x304]);
    (0x1FEA, [0x3A5; 0x300]); (0x1FEB, [0x3A5; 0x301]);
    (0x1FEC, [0x3A1; 0x314]); (0x1FED, [0xA8; 0x300]);
    (0x1FEE, [0xA8; 0x301]); (0x1FEF, [0x60]);
    (0x1FF2, [0x3C9; 0x300; 0x345]); (0x1FF3, [0x3C9; 0x345]);
    (0x1FF4, [0x3C9; 0x301; 0x345]); (0x1FF6, [0x3C9; 0x342]);
    (0x1FF7, [0x3C9; 0x342; 0x345]); (0x1FF8, [0x39F; 0x300]);
    (0x1FF9, [0x39F; 0x301]); (0x1FFA, [0x3A9; 0x300]);
    (0x1FFB, [0x3A9; 0x301]); (0x1FFC, [0x3A9; 0x345]); (0x1FFD, [0xB4]);
    (0x2000, [0x2002]); (0x2001, [0x2003]); (0x2126, [0x3A9]);
    (0x212A, [0x4B]); (0x212B, [0x41; 0x30A]); (0x219A, [0x2190; 0x338]);
    (0x219B, [0x2192; 0x338]); (0x21AE, [0x2194; 0x338]);
    (0x21CD, [0x21D0; 0x338]); (0x21CE, [0x21D4; 0x338]);
    (0x21CF, [0x21D2; 0x338]); (0x2204, [0x2203; 0x338]);
    (0x2209, [0x2208; 0x338]); (0x220C, [0x220B; 0x338]);
    (0x2224, [0x2223; 0x338]); (0x2226, [0x2225; 0x338]);
    (0x2241, [0x223C; 0x338]); (0x2244, [0x2243; 0x338]);
    (0x2247, [0x2245; 0x338]); (0x2249, [0x2248; 0x338]);
    (0x2260, [0x3D; 0x338]); (0x2262, [0x2261; 0x338]);
    (0x226D, [0x224D; 0x338]); (0x226E, [0x3C; 0x338]);
    (0x226F, [0x3E; 0x338]); (0x2270, [0x2264; 0x338]);
    (0x2271, [0x2265; 0x338]); (0x2274, [0x2272; 0x338]);
    (0x2275, [0x2273; 0x338]); (0x2278, [0x2276; 0x338]);
    (0x2279, [0x2277; 0x338]); (0x2280, [0x227A; 0x338]);
    (0x2281, [0x227B; 0x338]); (0x2284, [0x2282; 0x338]);
    (0x2285, [0x2283; 0x338]); (0x2288, [0x2286; 0x338]);
    (0x2289, [0x2287; 0x338]); (0x22AC, [0x22A2; 0x338]);
    (0x22AD, [0x22A8; 0x338]); (0x22AE, [0x22A9; 0x338]);
    (0x22AF, [0x22AB; 0x338]); (0x22E0, [0x227C; 0x338]);
    (0x22E1, [0x227D; 0x338]); (0x22E2, [0x2291; 0x338]);
    (0x22E3, [0x2292; 0x338]); (0x22EA, [0x22B2; 0x338]);
    (0x22EB, [0x22B3; 0x338]); (0x22EC, [0x22B4; 0x338]);
    (0x22ED, [0x22B5; 0x338]); (0x2329, [0x3008]); (0x232A, [0x3009]);
    (0x2ADC, [0x2ADD; 0x338]); (0x304C, [0x304B; 0x3099]);
    (0x304E, [0x304D; 0x3099]); (0x3050, [0x304F; 0x3099]);
    (0x3052, [0x3051; 0x3099]); (0x3054, [0x3053; 0x3099]);
    (0x3056, [0x3055; 0x3099]); (0x3058, [0x3057; 0x3099]);
    (0x305A, [0x3059; 0x3099]); (0x305C, [0x305B; 0x3099]);
    (0x305E, [0x305D; 0x3099]); (0x3060, [0x305F; 0x3099]);
    (0x3062, [0x3061; 0x3099]); (0x3065, [0x3064; 0x3099]);
    (0x3067, [0x3066; 0x3099]); (0x3069, [0x3068; 0x3099]);
    (0x3070, [0x306F; 0x3099]); (0x3071, [0x306F; 0x309A]);
    (0x3073, [0x3072; 0x3099]); (0x3074, [0x3072; 0x309A]);
    (0x3076, [0x3075; 0x3099]); (0x3077, [0x3075; 0x309A]);
    (0x3079, [0x3078; 0x3099]); (0x307A, [0x3078; 0x309A]);
    (0x307C, [0x307B; 0x3099]); (0x307D, [0x307B; 0x309A]);
    (0x3094, [0x3046; 0x3099]); (0x309E, [0x309D; 0x3099]);
    (0x30AC, [0x30AB; 0x3099]); (0x30AE, [0x30AD; 0x3099]);
    (0x30B0, [0x30AF; 0x3099]); (0x30B2, [0x30B1; 0x3099]);
    (0x30B4, [0x30B3; 0x3099]); (0x30B6, [0x30B5; 0x3099]);
    (0x30B8, [0x30B7; 0x3099]); (0x30BA, [0x30B9; 0x3099]);
    (0x30BC, [0x30BB; 0x3099]); (0x30BE, [0x30BD; 0x3099]);
    (0x30C0, [0x30BF; 0x3099]); (0x30C2, [0x30C1; 0x3099]);
    (0x30C5, [0x30C4; 0x3099]); (0x30C7, [0x30C6; 0x3099]);
    (0x30C9, [0x30C8; 0x3099]); (0x30D0, [0x30CF; 0x3099]);
    (0x30D1, [0x30CF; 0x309A]); (0x30D3, [0x30D2; 0x3099]);
    (0x30D4, [0x30D2; 0x309A]); (0x30D6, [0x30D5; 0x3099]);
    (0x30D7, [0x30D5; 0x309A]); (0x30D9, [0x30D8; 0x3099]);
    (0x30DA, [0x30D8; 0x309A]); (0x30DC, [0x30DB; 0x3099]);
    (0x30DD, [0x30DB; 0x309A]); (0x30F4, [0x30A6; 0x3099]);
    (0x30F7, [0x30EF; 0x3099]); (0x30F8, [0x30F0; 0x3099]);
    (0x30F9, [0x30F1; 0x3099]); (0x30FA, [0x30F2; 0x3099]);
    (0x30FE, [0x30FD; 0x3099]); (0xF900, [0x8C48]); (0xF901, [0x66F4]);
    (0xF902, [0x8ECA]); (0xF903, [0x8CC8]); (0xF904, [0x6ED1]);
    (0xF905, [0x4E32]); (0xF906, [0x53E5]); (0xF907, [0x9F9C]);
    (0xF908, [0x9F9C]); (0xF909, [0x5951]); (0xF90A, [0x91D1]);
    (0xF90B, [0x5587]); (0xF90C, [0x5948]); (0xF90D, [0x61F6]);
    (0xF90E, [0x7669]); (0xF90F, [0x7F85]); (0xF910, [0x863F]);
    (0xF911, [0x87BA]); (0xF912, [0x88F8]); (0xF913, [0x908F]);
    (0xF914, [0x6A02]); (0xF915, [0x6D1B]); (0xF916, [0x70D9]);
    (0xF917, [0x73DE]); (0xF918, [0x843D]); (0xF919, [0x916A]);
    (0xF91A, [0x99F1]); (0xF91B, [0x4E82]); (0xF91C, [0x5375]);
    (0xF91D, [0x6B04]); (0xF91E, [0x721B]); (0xF91F, [0x862D]);
    (0xF920, [0x9E1E]); (0xF921, [0x5D50]); (0xF922, [0x6FEB]);
    (0xF923, [0x85CD]); (0xF924, [0x8964]); (0xF925, [0x62C9]);
    (0xF926, [0x81D8]); (0xF927, [0x881F]); (0xF928, [0x5ECA]);
    (0xF929, [0x6717]); (0xF92A, [0x6D6A]); (0xF92B, [0x72FC]);
    (0xF92C, [0x90CE]); (0xF92D, [0x4F86]); (0xF92E, [0x51B7]);
    (0xF92F, [0x52DE]); (0xF930, [0x64C4]); (0xF931, [0x6AD3]);
    (0xF932, [0x7210]); (0xF933, [0x76E7]); (0xF934, [0x8001]);
    (0xF935, [0x8606]); (0xF936, [0x865C]); (0xF937, [0x8DEF]);
    (0xF938, [0x9732]); (0xF939, [0x9B6F]); (0xF93A, [0x9DFA]);
    (0xF93B, [0x788C]); (0xF93C, [0x797F]); (0xF93D, [0x7DA0]);
    (0xF93E, [0x83C9]); (0xF93F, [0x9304]); (0xF940, [0x9E7F]);
    (0xF941, [0x8AD6]); (0xF942, [0x58DF]); (0xF943, [0x5F04]);
    (0xF944, [0x7C60]); (0xF945, [0x807E]); (0xF946, [0x7262]);
    (0xF947, [0x78CA]); (0xF948, [0x8CC2]); (0xF949, [0x96F7]);
    (0xF94A, [0x58D8]); (0xF94B, [0x5C62]); (0xF94C, [0x6A13]);
    (0xF94D, [0x6DDA]); (0xF94E, [0x6F0F]); (0xF94F, [0x7D2F]);
    (0xF950, [0x7E37]); (0xF951, [0x964B]); (0xF952, [0x52D2]);
    (0xF953, [0x808B]); (0xF954, [0x51DC]); (0xF955, [0x51CC]);
    (0xF956, [0x7A1C]); (0xF957, [0x7DBE]); (0xF958, [0x83F1]);
    (0xF959, [0x9675]); (0xF95A, [0x8B80]); (0xF95B, [0x62CF]);
    (0xF95C, [0x6A02]); (0xF95D, [0x8AFE]); (0xF95E, [0x4E39]);
    (0xF95F, [0x5BE7]); (0xF960, [0x6012]); (0xF961, [0x7387]);
    (0xF962, [0x7570]); (0xF963, [0x5317]); (0xF964, [0x78FB]);
    (0xF965, [0x4FBF]); (0xF966, [0x5FA9]); (0xF967, [0x4E0D]);
    (0xF968, [0x6CCC]); (0xF969, [0x6578]); (0xF96A, [0x7D22]);
    (0xF96B, [0x53C3]); (0xF96C, [0x585E]); (0xF96D, [0x7701]);
    (0xF96E, [0x8449]); (0xF96F, [0x8AAA]); (0xF970, [0x6BBA]);
    (0xF971, [0x8FB0]); (0xF972, [0x6C88]); (0xF973, [0x62FE]);
    (0xF974, [0x82E5]); (0xF975, [0x63A0]); (0xF976, [0x7565]);
    (0xF977, [0x4EAE]); (0xF978, [0x5169]); (0xF979, [0x51C9]);
    (0xF97A, [0x6881]); (0xF97B, [0x7CE7]); (0xF97C, [0x826F]);
    (0xF97D, [0x8AD2]); (0xF97E, [0x91CF]); (0xF97F, [0x52F5]);
    (0xF980, [0x5442]); (0xF981, [0x5973]); (0xF982, [0x5EEC]);
    (0xF983, [0x65C5]); (0xF984, [0x6FFE]); (0xF985, [0x792A]);
    (0xF986, [0x95AD]); (0xF987, [0x9A6A]); (0xF988, [0x9E97]);
    (0xF989, [0x9ECE]); (0xF98A, [0x529B]); (0xF98B, [0x66C6]);
    (0xF98C, [0x6B77]); (0xF98D, [0x8F62]); (0xF98E, [0x5E74]);
    (0xF98F, [0x6190]); (0xF990, [0x6200]); (0xF991, [0x649A]);
    (0xF992, [0x6F23]); (0xF993, [0x7149]); (0xF994, [0x7489]);
    (0xF995, [0x79CA]); (0xF996, [0x7DF4]); (0xF997, [0x806F]);
    (0xF998, [0x8F26]); (0xF999, [0x84EE]); (0xF99A, [0x9023]);
    (0xF99B, [0x934A]); (0xF99C, [0x5217]); (0xF99D, [0x52A3]);
    (0xF99E, [0x54BD]); (0xF99F, [0x70C8]); (0xF9A0, [0x88C2]);
    (0xF9A1, [0x8AAA]); (0xF9A2, [0x5EC9]); (0xF9A3, [0x5FF5]);
    (0xF9A4, [0x637B]); (0xF9A5, [0x6BAE]); (0xF9A6, [0x7C3E]);
    (0xF9A7, [0x7375]); (0xF9A8, [0x4EE4]); (0xF9A9, [0x56F9]);
    (0xF9AA, [0x5BE7]); (0xF9AB, [0x5DBA]); (0xF9AC, [0x601C]);
    (0xF9AD, [0x73B2]); (0xF9AE, [0x7469]); (0xF9AF, [0x7F9A]);
    (0xF9B0, [0x8046]); (0xF9B1, [0x9234]); (0xF9B2, [0x96F6]);
    (0xF9B3, [0x9748]); (0xF9B4, [0x9818]); (0xF9B5, [0x4F8B]);
    (0xF9B6, [0x79AE]); (0xF9B7, [0x91B4]); (0xF9B8, [0x96B8]);
    (0xF9B9, [0x60E1]); (0xF9BA, [0x4E86]); (0xF9BB, [0x50DA]);
    (0xF9BC, [0x5BEE]); (0xF9BD, [0x5C3F]); (0xF9BE, [0x6599]);
    (0xF9BF, [0x6A02]); (0xF9C0, [0x71CE]); (0xF9C1, [0x7642]);
    (0xF9C2, [0x84FC]); (0xF9C3, [0x907C]); (0xF9C4, [0x9F8D]);
    (0xF9C5, [0x6688]); (0xF9C6, [0x962E]); (0xF9C7, [0x5289]);
    (0xF9C8, [0x677B]); (0xF9C9, [0x67F3]); (0xF9CA, [0x6D41]);
    (0xF9CB, [0x6E9C]); (0xF9CC, [0x7409]); (0xF9CD, [0x7559]);
    (0xF9CE, [0x786B]); (0xF9CF, [0x7D10]); (0xF9D0, [0x985E]);
    (0xF9D1, [0x516D]); (0xF9D2, [0x622E]); (0xF9D3, [0x9678]);
    (0xF9D4, [0x502B]); (0xF9D5, [0x5D19]); (0xF9D6, [0x6DEA]);
    (0xF9D7, [0x8F2A]); (0xF9D8, [0x5F8B]); (0xF9D9, [0x6144]);
    (0xF9DA, [0x6817]); (0xF9DB, [0x7387]); (0xF9DC, [0x9686]);
    (0xF9DD, [0x5229]); (0xF9DE, [0x540F]); (0xF9DF, [0x5C65]);
    (0xF9E0, [0x6613]); (0xF9E1, [0x674E]); (0xF9E2, [0x68A8]);
    (0xF9E3, [0x6CE5]); (0xF9E4, [0x7406]); (0xF9E5, [0x75E2]);
    (0xF9E6, [0x7F79]); (0xF9E7, [0x88CF]); (0xF9E8, [0x88E1]);
    (0xF9E9, [0x91CC]); (0xF9EA, [0x96E2]); (0xF9EB, [0x533F]);
    (0xF9EC, [0x6EBA]); (0xF9ED, [0x541D]); (0xF9EE, [0x71D0]);
    (0xF9EF, [0x7498]); (0xF9F0, [0x85FA]); (0xF9F1, [0x96A3]);
    (0xF9F2, [0x9C57]); (0xF9F3, [0x9E9F]); (0xF9F4, [0x6797]);
    (0xF9F5, [0x6DCB]); (0xF9F6, [0x81E8]); (0xF9F7, [0x7ACB]);
    (0xF9F8, [0x7B20]); (0xF9F9, [0x7C92]); (0xF9FA, [0x72C0]);
    (0xF9FB, [0x7099]); (0xF9FC, [0x8B58]); (0xF9FD, [0x4EC0]);
    (0xF9FE, [0x8336]); (0xF9FF, [0x523A]); (0xFA00, [0x5207]);
    (0xFA01, [0x5EA6]); (0xFA02, [0x62D3]); (0xFA03, [0x7CD6]);
    (0xFA04, [0x5B85]); (0xFA05, [0x6D1E]); (0xFA06, [0x66B4]);
    (0xFA07, [0x8F3B]); (0xFA08, [0x884C]); (0xFA09, [0x964D]);
    (0xFA0A, [0x898B]); (0xFA0B, [0x5ED3]); (0xFA0C, [0x5140]);
    (0xFA0D, [0x55C0]); (0xFA10, [0x585A]); (0xFA12, [0x6674]);
    (0xFA15, [0x51DE]); (0xFA16, [0x732A]); (0xFA17, [0x76CA]);
    (0xFA18, [0x793C]); (0xFA19, [0x795E]); (0xFA1A, [0x7965]);
    (0xFA1B, [0x798F]); (0xFA1C, [0x9756]); (0xFA1D, [0x7CBE]);
    (0xFA1E, [0x7FBD]); (0xFA20, [0x8612]); (0xFA22, [0x8AF8]);
    (0xFA25, [0x9038]); (0xFA26, [0x90FD]); (0xFA2A, [0x98EF]);
    (0xFA2B, [0x98FC]); (0xFA2C, [0x9928]); (0xFA2D, [0x9DB4]);
    (0xFA2E, [0x90DE]); (0xFA2F, [0x96B7]); (0xFA30, [0x4FAE]);
    (0xFA31, [0x50E7]); (0xFA32, [0x514D]); (0xFA33, [0x52C9]);
    (0xFA34, [0x52E4]); (0xFA35, [0x5351]); (0xFA36, [0x559D]);
    (0xFA37, [0x5606]); (0xFA38, [0x5668]); (0xFA39, [0x5840]);
    (0xFA3A, [0x58A8]); (0xFA3B, [0x5C64]); (0xFA3C, [0x5C6E]);
    (0xFA3D, [0x6094]); (0xFA3E, [0x6168]); (0xFA3F, [0x618E]);
    (0xFA40, [0x61F2]); (0xFA41, [0x654F]); (0xFA42, [0x65E2]);
    (0xFA43, [0x6691]); (0xFA44, [0x6885]); (0xFA45, [0x6D77]);
    (0xFA46, [0x6E1A]); (0xFA47, [0x6F22]); (0xFA48, [0x716E]);
    (0xFA49, [0x722B]); (0xFA4A, [0x7422]); (0xFA4B, [0x7891]);
    (0xFA4C, [0x793E]); (0xFA4D, [0x7949]); (0xFA4E, [0x7948]);
    (0xFA4F, [0x7950]); (0xFA50, [0x7956]); (0xFA51, [0x795D]);
    (0xFA52, [0x798D]); (0xFA53, [0x798E]); (0xFA54, [0x7A40]);
    (0xFA55, [0x7A81]); (0xFA56, [0x7BC0]); (0xFA57, [0x7DF4]);
    (0xFA58, [0x7E09]); (0xFA59, [0x7E41]); (0xFA5A, [0x7F72]);
    (0xFA5B, [0x8005]); (0xFA5C, [0x81ED]); (0xFA5D, [0x8279]);
    (0xFA5E, [0x8279]); (0xFA5F, [0x8457]); (0xFA60, [0x8910]);
    (0xFA61, [0x8996]); (0xFA62, [0x8B01]); (0xFA63, [0x8B39]);
    (0xFA64, [0x8CD3]); (0xFA65, [0x8D08]); (0xFA66, [0x8FB6]);
    (0xFA67, [0x9038]); (0xFA68, [0x96E3]); (0xFA69, [0x97FF]);
    (0xFA6A, [0x983B]); (0xFA6B, [0x6075]); (0xFA6C, [0x242EE]);
    (0xFA6D, [0x8218]); (0xFA70, [0x4E26]); (0xFA71, [0x51B5]);
    (0xFA72, [0x5168]); (0xFA73, [0x4F80]); (0xFA74, [0x5145]);
    (0xFA75, [0x5180]); (0xFA76, [0x52C7]); (0xFA77, [0x52FA]);
    (0xFA78, [0x559D]); (0xFA79, [0x5555]); (0xFA7A, [0x5599]);
    (0xFA7B, [0x55E2]); (0xFA7C, [0x585A]); (0xFA7D, [0x58B3]);
    (0xFA7E, [0x5944]); (0xFA7F, [0x5954]); (0xFA80, [0x5A62]);
    (0xFA81, [0x5B28]); (0xFA82, [0x5ED2]); (0xFA83, [0x5ED9]);
    (0xFA84, [0x5F69]); (0xFA85, [0x5FAD]); (0xFA86, [0x60D8]);
    (0xFA87, [0x614E]); (0xFA88, [0x6108]); (0xFA89, [0x618E]);
    (0xFA8A, [0x6160]); (0xFA8B, [0x61F2]); (0xFA8C, [0x6234]);
    (0xFA8D, [0x63C4]); (0xFA8E, [0x641C]); (0xFA8F, [0x6452]);
    (0xFA90, [0x6556]); (0xFA91, [0x6674]); (0xFA92, [0x6717]);
    (0xFA93, [0x671B]); (0xFA94, [0x6756]); (0xFA95, [0x6B79]);
    (0xFA96, [0x6BBA]); (0xFA97, [0x6D41]); (0xFA98, [0x6EDB]);
    (0xFA99, [0x6ECB]); (0xFA9A, [0x6F22]); (0xFA9B, [0x701E]);
    (0xFA9C, [0x716E]); (0xFA9D, [0x77A7]); (0xFA9E, [0x7235]);
    (0xFA9F, [0x72AF]); (0xFAA0, [0x732A]); (0xFAA1, [0x7471]);
    (0xFAA2, [0x7506]); (0xFAA3, [0x753B]); (0xFAA4, [0x761D]);
    (0xFAA5, [0x761F]); (0xFAA6, [0x76CA]); (0xFAA7, [0x76DB]);
    (0xFAA8, [0x76F4]); (0xFAA9, [0x774A]); (0xFAAA, [0x7740]);
    (0xFAAB, [0x78CC]); (0xFAAC, [0x7AB1]); (0xFAAD, [0x7BC0]);
    (0xFAAE, [0x7C7B]); (0xFAAF, [0x7D5B]); (0xFAB0, [0x7DF4]);
    (0xFAB1, [0x7F3E]); (0xFAB2, [0x8005]); (0xFAB3, [0x8352]);
    (0xFAB4, [0x83EF]); (0xFAB5, [0x8779]); (0xFAB6, [0x8941]);
    (0xFAB7, [0x8986]); (0xFAB8, [0x8996]); (0xFAB9, [0x8ABF]);
    (0xFABA, [0x8AF8]); (0xFABB, [0x8ACB]); (0xFABC, [0x8B01]);
    (0xFABD, [0x8AFE]); (0xFABE, [0x8AED]); (0xFABF, [0x8B39]);
    (0xFAC0, [0x8B8A]); (0xFAC1, [0x8D08]); (0xFAC2, [0x8F38]);
    (0xFAC3, [0x9072]); (0xFAC4, [0x9199]); (0xFAC5, [0x9276]);
    (0xFAC6, [0x967C]); (0xFAC7, [0x96E3]); (0xFAC8, [0x9756]);
    (0xFAC9, [0x97DB]); (0xFACA, [0x97FF]); (0xFACB, [0x980B]);
    (0xFACC, [0x983B]); (0xFACD, [0x9B12]); (0xFACE, [0x9F9C]);
    (0xFACF, [0x2284A]); (0xFAD0, [0x22844]); (0xFAD1, [0x233D5]);
    (0xFAD2, [0x3B9D]); (0xFAD3, [0x4018]); (0xFAD4, [0x4039]);
    (0xFAD5, [0x25249]); (0xFAD6, [0x25CD0]); (0xFAD7, [0x27ED3]);
    (0xFAD8, [0x9F43]); (0xFAD9, [0x9F8E]); (0xFB1D, [0x5D9; 0x5B4]);
    (0xFB1F, [0x5F2; 0x5B7]); (0xFB2A, [0x5E9; 0x5C1]);
    (0xFB2B, [0x5E9; 0x5C2]); (0xFB2C, [0x5E9; 0x5BC; 0x5C1]);
    (0xFB2D, [0x5E9; 0x5BC; 0x5C2]); (0xFB2E, [0x5D0; 0x5B7]);
    (0xFB2F, [0x5D0; 0x5B8]); (0xFB30, [0x5D0; 0x5BC]);
    (0xFB31, [0x5D1; 0x5BC]); (0xFB32, [0x5D2; 0x5BC]);
    (0xFB33, [0x5D3; 0x5BC]); (0xFB34, [0x5D4; 0x5BC]);
    (0xFB35, [0x5D5; 0x5BC]); (0xFB36, [0x5D6; 0x5BC]);
    (0xFB38, [0x5D8; 0x5BC]); (0xFB39, [0x5D9; 0x5BC]);
    (0xFB3A, [0x5DA; 0x5BC]); (0xFB3B, [0x5DB; 0x5BC]);
    (0xFB3C, [0x5DC; 0x5BC]); (0xFB3E, [0x5DE; 0x5BC]);
    (0xFB40, [0x5E0; 0x5BC]); (0xFB41, [0x5E1; 0x5BC]);
    (0xFB43, [0x5E3; 0x5BC]); (0xFB44, [0x5E4; 0x5BC]);
    (0xFB46, [0x5E6; 0x5BC]); (0xFB47, [0x5E7; 0x5BC]);
    (0xFB48, [0x5E8; 0x5BC]); (0xFB49, [0x5E9; 0x5BC]);
    (0xFB4A, [0x5EA; 0x5BC]); (0xFB4B, [0x5D5; 0x5B9]);
    (0xFB4C, [0x5D1; 0x5BF]); (0xFB4D, [0x5DB; 0x5BF]);
    (0xFB4E, [0x5E4; 0x5BF]); (0x1109A, [0x11099; 0x110BA]);
    (0x1109C, [0x1109B; 0x110BA]); (0x110AB, [0x110A5; 0x110BA]);
    (0x1112E, [0x11131; 0x11127]); (0x1112F, [0x11132; 0x11127]);
    (0x1134B, [0x11347; 0x1133E]); (0x1134C, [0x11347; 0x11357]);
    (0x114BB, [0x114B9; 0x114BA]); (0x114BC, [0x114B9; 0x114B0]);
    (0x114BE, [0x114B9; 0x114BD]); (0x115BA, [0x115B8; 0x115AF]);
    (0x115BB, [0x115B9; 0x115AF]); (0x11938, [0x11935; 0x11930]);
    (0x1D15E, [0x1D157; 0x1D165]); (0x1D15F, [0x1D158; 0x1D165]);
    (0x1D160, [0x1D158; 0x1D165; 0x1D16E]);
    (0x1D161, [0x1D158; 0x1D165; 0x1D16F]);
    (0x1D162, [0x1D158; 0x1D165; 0x1D170]);
    (0x1D163, [0x1D158; 0x1D165; 0x1D171]);
    (0x1D164, [0x1D158; 0x1D165; 0x1D172]); (0x1D1BB, [0x1D1B9; 0x1D165]);
    (0x1D1BC, [0x1D1BA; 0x1D165]); (0x1D1BD, [0x1D1B9; 0x1D165; 0x1D16E]);
    (0x1D1BE, [0x1D1BA; 0x1D165; 0x1D16E]);
    (0x1D1BF, [0x1D1B9; 0x1D165; 0x1D16F]);
    (0x1D1C0, [0x1D1BA; 0x1D165; 0x1D16F]); (0x2F800, [0x4E3D]);
    (0x2F801, [0x4E38]); (0x2F802, [0x4E41]); (0x2F803, [0x20122]);
    (0x2F804, [0x4F60]); (0x2F805, [0x4FAE]); (0x2F806, [0x4FBB]);
    (0x2F807, [0x5002]); (0x2F808, [0x507A]); (0x2F809, [0x5099]);
    (0x2F80A, [0x50E7]); (0x2F80B, [0x50CF]); (0x2F80C, [0x349E]);
    (0x2F80D, [0x2063A]); (0x2F80E, [0x514D]); (0x2F80F, [0x5154]);
    (0x2F810, [0x5164]); (0x2F811, [0x5177]); (0x2F812, [0x2051C]);
    (0x2F813, [0x34B9]); (0x2F814, [0x5167]); (0x2F815, [0x518D]);
    (0x2F816, [0x2054B]); (0x2F817, [0x5197]); (0x2F818, [0x51A4]);
    (0x2F819, [0x4ECC]); (0x2F81A, [0x51AC]); (0x2F81B, [0x51B5]);
    (0x2F81C, [0x291DF]); (0x2F81D, [0x51F5]); (0x2F81E, [0x5203]);
    (0x2F81F, [0x34DF]); (0x2F820, [0x523B]); (0x2F821, [0x5246]);
    (0x2F822, [0x5272]); (0x2F823, [0x5277]); (0x2F824, [0x3515]);
    (0x2F825, [0x52C7]); (0x2F826, [0x52C9]); (0x2F827, [0x52E4]);
    (0x2F828, [0x52FA]); (0x2F829, [0x5305]); (0x2F82A, [0x5306]);
    (0x2F82B, [0x5317]); (0x2F82C, [0x5349]); (0x2F82D, [0x5351]);
    (0x2F82E, [0x535A]); (0x2F82F, [0x5373]); (0x2F830, [0x537D]);
    (0x2F831, [0x537F]); (0x2F832, [0x537F]); (0x2F833, [0x537F]);
    (0x2F834, [0x20A2C]); (0x2F835, [0x7070]); (0x2F836, [0x53CA]);
    (0x2F837, [0x53DF]); (0x2F838, [0x20B63]); (0x2F839, [0x53EB]);
    (0x2F83A, [0x53F1]); (0x2F83B, [0x5406]); (0x2F83C, [0x549E]);
    (0x2F83D, [0x5438]); (0x2F83E, [0x5448]); (0x2F83F, [0x5468]);
    (0x2F840, [0x54A2]); (0x2F841, [0x54F6]); (0x2F842, [0x5510]);
    (0x2F843, [0x5553]); (0x2F844, [0x5563]); (0x2F845, [0x5584]);
    (0x2F846, [0x5584]); (0x2F847, [0x5599]); (0x2F848, [0x55AB]);
    (0x2F849, [0x55B3]); (0x2F84A, [0x55C2]); (0x2F84B, [0x5716]);
    (0x2F84C, [0x5606]); (0x2F84D, [0x5717]); (0x2F84E, [0x5651]);
    (0x2F84F, [0x5674]); (0x2F850, [0x5207]); (0x2F851, [0x58EE]);
    (0x2F852, [0x57CE]); (0x2F853, [0x57F4]); (0x2F854, [0x580D]);
    (0x2F855, [0x578B]); (0x2F856, [0x5832]); (0x2F857, [0x5831]);
    (0x2F858, [0x58AC]); (0x2F859, [0x214E4]); (0x2F85A, [0x58F2]);
    (0x2F85B, [0x58F7]); (0x2F85C, [0x5906]); (0x2F85D, [0x591A]);
    (0x2F85E, [0x5922]); (0x2F85F, [0x5962]); (0x2F860, [0x216A8]);
    (0x2F861, [0x216EA]); (0x2F862, [0x59EC]); (0x2F863, [0x5A1B]);
    (0x2F864, [0x5A27]); (0x2F865, [0x59D8]); (0x2F866, [0x5A66]);
    (0x2F867, [0x36EE]); (0x2F868, [0x36FC]); (0x2F869, [0x5B08]);
    (0x2F86A, [0x5B3E]); (0x2F86B, [0x5B3E]); (0x2F86C, [0x219C8]);
    (0x2F86D, [0x5BC3]); (0x2F86E, [0x5BD8]); (0x2F86F, [0x5BE7]);
    (0x2F870, [0x5BF3]); (0x2F871, [0x21B18]); (0x2F872, [0x5BFF]);
    (0x2F873, [0x5C06]); (0x2F874, [0x5F53]); (0x2F875, [0x5C22]);
    (0x2F876, [0x3781]); (0x2F877, [0x5C60]); (0x2F878, [0x5C6E]);
    (0x2F879, [0x5CC0]); (0x2F87A, [0x5C8D]); (0x2F87B, [0x21DE4]);
    (0x2F87C, [0x5D43]); (0x2F87D, [0x21DE6]); (0x2F87E, [0x5D6E]);
    (0x2F87F, [0x5D6B]); (0x2F880, [0x5D7C]); (0x2F881, [0x5DE1]);
    (0x2F882, [0x5DE2]); (0x2F883, [0x382F]); (0x2F884, [0x5DFD]);
    (0x2F885, [0x5E28]); (0x2F886, [0x5E3D]); (0x2F887, [0x5E69]);
    (0x2F888, [0x3862]); (0x2F889, [0x22183]); (0x2F88A, [0x387C]);
    (0x2F88B, [0x5EB0]); (0x2F88C, [0x5EB3]); (0x2F88D, [0x5EB6]);
    (0x2F88E, [0x5ECA]); (0x2F88F, [0x2A392]); (0x2F890, [0x5EFE]);
    (0x2F891, [0x22331]); (0x2F892, [0x22331]); (0x2F893, [0x8201]);
    (0x2F894, [0x5F22]); (0x2F895, [0x5F22]); (0x2F896, [0x38C7]);
    (0x2F897, [0x232B8]); (0x2F898, [0x261DA]); (0x2F899, [0x5F62]);
    (0x2F89A, [0x5F6B]); (0x2F89B, [0x38E3]); (0x2F89C, [0x5F9A]);
    (0x2F89D, [0x5FCD]); (0x2F89E, [0x5FD7]); (0x2F89F, [0x5FF9]);
    (0x2F8A0, [0x6081]); (0x2F8A1, [0x393A]); (0x2F8A2, [0x391C]);
    (0x2F8A3, [0x6094]); (0x2F8A4, [0x226D4]); (0x2F8A5, [0x60C7]);
    (0x2F8A6, [0x6148]); (0x2F8A7, [0x614C]); (0x2F8A8, [0x614E]);
    (0x2F8A9, [0x614C]); (0x2F8AA, [0x617A]); (0x2F8AB, [0x618E]);
    (0x2F8AC, [0x61B2]); (0x2F8AD, [0x61A4]); (0x2F8AE, [0x61AF]);
    (0x2F8AF, [0x61DE]); (0x2F8B0, [0x61F2]); (0x2F8B1, [0x61F6]);
    (0x2F8B2, [0x6210]); (0x2F8B3, [0x621B]); (0x2F8B4, [0x625D]);
    (0x2F8B5, [0x62B1]); (0x2F8B6, [0x62D4]); (0x2F8B7, [0x6350]);
    (0x2F8B8, [0x22B0C]); (0x2F8B9, [0x633D]); (0x2F8BA, [0x62FC]);
    (0x2F8BB, [0x6368]); (0x2F8BC, [0x6383]); (0x2F8BD, [0x63E4]);
    (0x2F8BE, [0x22BF1]); (0x2F8BF, [0x6422]); (0x2F8C0, [0x63C5]);
    (0x2F8C1, [0x63A9]); (0x2F8C2, [0x3A2E]); (0x2F8C3, [0x6469]);
    (0x2F8C4, [0x647E]); (0x2F8C5, [0x649D]); (0x2F8C6, [0x6477]);
    (0x2F8C7, [0x3A6C]); (0x2F8C8, [0x654F]); (0x2F8C9, [0x656C]);
    (0x2F8CA, [0x2300A]); (0x2F8CB, [0x65E3]); (0x2F8CC, [0x66F8]);
    (0x2F8CD, [0x6649]); (0x2F8CE, [0x3B19]); (0x2F8CF, [0x6691]);
    (0x2F8D0, [0x3B08]); (0x2F8D1, [0x3AE4]); (0x2F8D2, [0x5192]);
    (0x2F8D3, [0x5195]); (0x2F8D4, [0x6700]); (0x2F8D5, [0x669C]);
    (0x2F8D6, [0x80AD]); (0x2F8D7, [0x43D9]); (0x2F8D8, [0x6717]);
    (0x2F8D9, [0x671B]); (0x2F8DA, [0x6721]); (0x2F8DB, [0x675E]);
    (0x2F8DC, [0x6753]); (0x2F8DD, [0x233C3]); (0x2F8DE, [0x3B49]);
    (0x2F8DF, [0x67FA]); (0x2F8E0, [0x6785]); (0x2F8E1, [0x6852]);
    (0x2F8E2, [0x6885]); (0x2F8E3, [0x2346D]); (0x2F8E4, [0x688E]);
    (0x2F8E5, [0x681F]); (0x2F8E6, [0x6914]); (0x2F8E7, [0x3B9D]);
    (0x2F8E8, [0x6942]); (0x2F8E9, [0x69A3]); (0x2F8EA, [0x69EA]);
    (0x2F8EB, [0x6AA8]); (0x2F8EC, [0x236A3]); (0x2F8ED, [0x6ADB]);
    (0x2F8EE, [0x3C18]); (0x2F8EF, [0x6B21]); (0x2F8F0, [0x238A7]);
    (0x2F8F1, [0x6B54]); (0x2F8F2, [0x3C4E]); (0x2F8F3, [0x6B72]);
    (0x2F8F4, [0x6B9F]); (0x2F8F5, [0x6BBA]); (0x2F8F6, [0x6BBB]);
    (0x2F8F7, [0x23A8D]); (0x2F8F8, [0x21D0B]); (0x2F8F9, [0x23AFA]);
    (0x2F8FA, [0x6C4E]); (0x2F8FB, [0x23CBC]); (0x2F8FC, [0x6CBF]);
    (0x2F8FD, [0x6CCD]); (0x2F8FE, [0x6C67]); (0x2F8FF, [0x6D16]);
    (0x2F900, [0x6D3E]); (0x2F901, [0x6D77]); (0x2F902, [0x6D41]);
    (0x2F903, [0x6D69]); (0x2F904, [0x6D78]); (0x2F905, [0x6D85]);
    (0x2F906, [0x23D1E]); (0x2F907, [0x6D34]); (0x2F908, [0x6E2F]);
    (0x2F909, [0x6E6E]); (0x2F90A, [0x3D33]); (0x2F90B, [0x6ECB]);
    (0x2F90C, [0x6EC7]); (0x2F90D, [0x23ED1]); (0x2F90E, [0x6DF9]);
    (0x2F90F, [0x6F6E]); (0x2F910, [0x23F5E]); (0x2F911, [0x23F8E]);
    (0x2F912, [0x6FC6]); (0x2F913, [0x7039]); (0x2F914, [0x701E]);
    (0x2F915, [0x701B]); (0x2F916, [0x3D96]); (0x2F917, [0x704A]);
    (0x2F918, [0x707D]); (0x2F919, [0x7077]); (0x2F91A, [0x70AD]);
    (0x2F91B, [0x20525]); (0x2F91C, [0x7145]); (0x2F91D, [0x24263]);
    (0x2F91E, [0x719C]); (0x2F91F, [0x243AB]); (0x2F920, [0x7228]);
    (0x2F921, [0x7235]); (0x2F922, [0x7250]); (0x2F923, [0x24608]);
    (0x2F924, [0x7280]); (0x2F925, [0x7295]); (0x2F926, [0x24735]);
    (0x2F927, [0x24814]); (0x2F928, [0x737A]); (0x2F929, [0x738B]);
    (0x2F92A, [0x3EAC]); (0x2F92B, [0x73A5]); (0x2F92C, [0x3EB8]);
    (0x2F92D, [0x3EB8]); (0x2F92E, [0x7447]); (0x2F92F, [0x745C]);
    (0x2F930, [0x7471]); (0x2F931, [0x7485]); (0x2F932, [0x74CA]);
    (0x2F933, [0x3F1B]); (0x2F934, [0x7524]); (0x2F935, [0x24C36]);
    (0x2F936, [0x753E]); (0x2F937, [0x24C92]); (0x2F938, [0x7570]);
    (0x2F939, [0x2219F]); (0x2F93A, [0x7610]); (0x2F93B, [0x24FA1]);
    (0x2F93C, [0x24FB8]); (0x2F93D, [0x25044]); (0x2F93E, [0x3FFC]);
    (0x2F93F, [0x4008]); (0x2F940, [0x76F4]); (0x2F941, [0x250F3]);
    (0x2F942, [0x250F2]); (0x2F943, [0x25119]); (0x2F944, [0x25133]);
    (0x2F945, [0x771E]); (0x2F946, [0x771F]); (0x2F947, [0x771F]);
    (0x2F948, [0x774A]); (0x2F949, [0x4039]); (0x2F94A, [0x778B]);
    (0x2F94B, [0x4046]); (0x2F94C, [0x4096]); (0x2F94D, [0x2541D]);
    (0x2F94E, [0x784E]); (0x2F94F, [0x788C]); (0x2F950, [0x78CC]);
    (0x2F951, [0x40E3]); (0x2F952, [0x25626]); (0x2F953, [0x7956]);
    (0x2F954, [0x2569A]); (0x2F955, [0x256C5]); (0x2F956, [0x798F]);
    (0x2F957, [0x79EB]); (0x2F958, [0x412F]); (0x2F959, [0x7A40]);
    (0x2F95A, [0x7A4A]); (0x2F95B, [0x7A4F]); (0x2F95C, [0x2597C]);
    (0x2F95D, [0x25AA7]); (0x2F95E, [0x25AA7]); (0x2F95F, [0x7AEE]);
    (0x2F960, [0x4202]); (0x2F961, [0x25BAB]); (0x2F962, [0x7BC6]);
    (0x2F963, [0x7BC9]); (0x2F964, [0x4227]); (0x2F965, [0x25C80]);
    (0x2F966, [0x7CD2]); (0x2F967, [0x42A0]); (0x2F968, [0x7CE8]);
    (0x2F969, [0x7CE3]); (0x2F96A, [0x7D00]); (0x2F96B, [0x25F86]);
    (0x2F96C, [0x7D63]); (0x2F96D, [0x4301]); (0x2F96E, [0x7DC7]);
    (0x2F96F, [0x7E02]); (0x2F970, [0x7E45]); (0x2F971, [0x4334]);
    (0x2F972, [0x26228]); (0x2F973, [0x26247]); (0x2F974, [0x4359]);
    (0x2F975, [0x262D9]); (0x2F976, [0x7F7A]); (0x2F977, [0x2633E]);
    (0x2F978, [0x7F95]); (0x2F979, [0x7FFA]); (0x2F97A, [0x8005]);
    (0x2F97B, [0x264DA]); (0x2F97C, [0x26523]); (0x2F97D, [0x8060]);
    (0x2F97E, [0x265A8]); (0x2F97F, [0x8070]); (0x2F980, [0x2335F]);
    (0x2F981, [0x43D5]); (0x2F982, [0x80B2]); (0x2F983, [0x8103]);
    (0x2F984, [0x440B]); (0x2F985, [0x813E]); (0x2F986, [0x5AB5]);
    (0x2F987, [0x267A7]); (0x2F988, [0x267B5]); (0x2F989, [0x23393]);
    (0x2F98A, [0x2339C]); (0x2F98B, [0x8201]); (0x2F98C, [0x8204]);
    (0x2F98D, [0x8F9E]); (0x2F98E, [0x446B]); (0x2F98F, [0x8291]);
    (0x2F990, [0x828B]); (0x2F991, [0x829D]); (0x2F992, [0x52B3]);
    (0x2F993, [0x82B1]); (0x2F994, [0x82B3]); (0x2F995, [0x82BD]);
    (0x2F996, [0x82E6]); (0x2F997, [0x26B3C]); (0x2F998, [0x82E5]);
    (0x2F999, [0x831D]); (0x2F99A, [0x8363]); (0x2F99B, [0x83AD]);
    (0x2F99C, [0x8323]); (0x2F99D, [0x83BD]); (0x2F99E, [0x83E7]);
    (0x2F99F, [0x8457]); (0x2F9A0, [0x8353]); (0x2F9A1, [0x83CA]);
    (0x2F9A2, [0x83CC]); (0x2F9A3, [0x83DC]); (0x2F9A4, [0x26C36]);
    (0x2F9A5, [0x26D6B]); (0x2F9A6, [0x26CD5]); (0x2F9A7, [0x452B]);
    (0x2F9A8, [0x84F1]); (0x2F9A9, [0x84F3]); (0x2F9AA, [0x8516]);
    (0x2F9AB, [0x273CA]); (0x2F9AC, [0x8564]); (0x2F9AD, [0x26F2C]);
    (0x2F9AE, [0x455D]); (0x2F9AF, [0x4561]); (0x2F9B0, [0x26FB1]);
    (0x2F9B1, [0x270D2]); (0x2F9B2, [0x456B]); (0x2F9B3, [0x8650]);
    (0x2F9B4, [0x865C]); (0x2F9B5, [0x8667]); (0x2F9B6, [0x8669]);
    (0x2F9B7, [0x86A9]); (0x2F9B8, [0x8688]); (0x2F9B9, [0x870E]);
    (0x2F9BA, [0x86E2]); (0x2F9BB, [0x8779]); (0x2F9BC, [0x8728]);
    (0x2F9BD, [0x876B]); (0x2F9BE, [0x8786]); (0x2F9BF, [0x45D7]);
    (0x2F9C0, [0x87E1]); (0x2F9C1, [0x8801]); (0x2F9C2, [0x45F9]);
    (0x2F9C3, [0x8860]); (0x2F9C4, [0x8863]); (0x2F9C5, [0x27667]);
    (0x2F9C6, [0x88D7]); (0x2F9C7, [0x88DE]); (0x2F9C8, [0x4635]);
    (0x2F9C9, [0x88FA]); (0x2F9CA, [0x34BB]); (0x2F9CB, [0x278AE]);
    (0x2F9CC, [0x27966]); (0x2F9CD, [0x46BE]); (0x2F9CE, [0x46C7]);
    (0x2F9CF, [0x8AA0]); (0x2F9D0, [0x8AED]); (0x2F9D1, [0x8B8A]);
    (0x2F9D2, [0x8C55]); (0x2F9D3, [0x27CA8]); (0x2F9D4, [0x8CAB]);
    (0x2F9D5, [0x8CC1]); (0x2F9D6, [0x8D1B]); (0x2F9D7, [0x8D77]);
    (0x2F9D8, [0x27F2F]); (0x2F9D9, [0x20804]); (0x2F9DA, [0x8DCB]);
    (0x2F9DB, [0x8DBC]); (0x2F9DC, [0x8DF0]); (0x2F9DD, [0x208DE]);
    (0x2F9DE, [0x8ED4]); (0x2F9DF, [0x8F38]); (0x2F9E0, [0x285D2]);
    (0x2F9E1, [0x285ED]); (0x2F9E2, [0x9094]); (0x2F9E3, [0x90F1]);
    (0x2F9E4, [0x9111]); (0x2F9E5, [0x2872E]); (0x2F9E6, [0x911B]);
    (0x2F9E7, [0x9238]); (0x2F9E8, [0x92D7]); (0x2F9E9, [0x92D8]);
    (0x2F9EA, [0x927C]); (0x2F9EB, [0x93F9]); (0x2F9EC, [0x9415]);
    (0x2F9ED, [0x28BFA]); (0x2F9EE, [0x958B]); (0x2F9EF, [0x4995]);
    (0x2F9F0, [0x95B7]); (0x2F9F1, [0x28D77]); (0x2F9F2, [0x49E6]);
    (0x2F9F3, [0x96C3]); (0x2F9F4, [0x5DB2]); (0x2F9F5, [0x9723]);
    (0x2F9F6, [0x29145]); (0x2F9F7, [0x2921A]); (0x2F9F8, [0x4A6E]);
    (0x2F9F9, [0x4A76]); (0x2F9FA, [0x97E0]); (0x2F9FB, [0x2940A]);
    (0x2F9FC, [0x4AB2]); (0x2F9FD, [0x29496]); (0x2F9FE, [0x980B]);
    (0x2F9FF, [0x980B]); (0x2FA00, [0x9829]); (0x2FA01, [0x295B6]);
    (0x2FA02, [0x98E2]); (0x2FA03, [0x4B33]); (0x2FA04, [0x9929]);
    (0x2FA05, [0x99A7]); (0x2FA06, [0x99C2]); (0x2FA07, [0x99FE]);
    (0x2FA08, [0x4BCE]); (0x2FA09, [0x29B30]); (0x2FA0A, [0x9B12]);
    (0x2FA0B, [0x9C40]); (0x2FA0C, [0x9CFD]); (0x2FA0D, [0x4CCE]);
    (0x2FA0E, [0x4CED]); (0x2FA0F, [0x9D67]); (0x2FA10, [0x2A0CE]);
    (0x2FA11, [0x4CF8]); (0x2FA12, [0x2A105]); (0x2FA13, [0x2A20E]);
    (0x2FA14, [0x2A291]); (0x2FA15, [0x9EBB]); (0x2FA16, [0x4D56]);
    (0x2FA17, [0x9EF9]); (0x2FA18, [0x9EFE]); (0x2FA19, [0x9F05]);
    (0x2FA1A, [0x9F0F]); (0x2FA1B, [0x9F16]); (0x2FA1C, [0x9F3B]);
    (0x2FA1D, [0x2A600])
  ].

(** The primary composites, but the Hangul syllables: for a first rune,
    the second runes that compose with it, each with the composite. *)
Definition compositions : list (rune * list (rune * rune)) :=
  [
    (0x3C, [(0x338, 0x226E)]); (0x3D, [(0x338, 0x2260)]);
    (0x3E, [(0x338, 0x226F)]);
    (0x41, [(0x300, 0xC0); (0x301, 0xC1); (0x302, 0xC2); (0x303, 0xC3); (0x304, 0x100); (0x306, 0x102); (0x307, 0x226); (0x308, 0xC4); (0x309, 0x1EA2); (0x30A, 0xC5); (0x30C, 0x1CD); (0x30F, 0x200); (0x311, 0x202); (0x323, 0x1EA0); (0x325, 0x1E00); (0x328, 0x104)]);
    (0x42, [(0x307, 0x1E02); (0x323, 0x1E04); (0x331, 0x1E06)]);
    (0x43, [(0x301, 0x106); (0x302, 0x108); (0x307, 0x10A); (0x30C, 0x10C); (0x327, 0xC7)]);
    (0x44, [(0x307, 0x1E0A); (0x30C, 0x10E); (0x323, 0x1E0C); (0x327, 0x1E10); (0x32D, 0x1E12); (0x331, 0x1E0E)]);
    (0x45, [(0x300, 0xC8); (0x301, 0xC9); (0x302, 0xCA); (0x303, 0x1EBC); (0x304, 0x112); (0x306, 0x114); (0x307, 0x116); (0x308, 0xCB); (0x309, 0x1EBA); (0x30C, 0x11A); (0x30F, 0x204); (0x311, 0x206); (0x323, 0x1EB8); (0x327, 0x228); (0x328, 0x118); (0x32D, 0x1E18); (0x330, 0x1E1A)]);
    (0x46, [(0x307, 0x1E1E)]);
    (0x47, [(0x301, 0x1F4); (0x302, 0x11C); (0x304, 0x1E20); (0x306, 0x11E); (0x307, 0x120); (0x30C, 0x1E6); (0x327, 0x122)]);
    (0x48, [(0x302, 0x124); (0x307, 0x1E22); (0x308, 0x1E26); (0x30C, 0x21E); (0x323, 0x1E24); (0x327, 0x1E28); (0x32E, 0x1E2A)]);
    (0x49, [(0x300, 0xCC); (0x301, 0xCD); (0x302, 0xCE); (0x303, 0x128); (0x304, 0x12A); (0x306, 0x12C); (0x307, 0x130); (0x308, 0xCF); (0x309, 0x1EC8); (0x30C, 0x1CF); (0x30F, 0x208); (0x311, 0x20A); (0x323, 0x1ECA); (0x328, 0x12E); (0x330, 0x1E2C)]);
    (0x4A, [(0x302, 0x134)]);
    (0x4B, [(0x301, 0x1E30); (0x30C, 0x1E8); (0x323, 0x1E32); (0x327, 0x136); (0x331, 0x1E34)]);
    (0x4C, [(0x301, 0x139); (0x30C, 0x13D); (0x323, 0x1E36); (0x327, 0x13B); (0x32D, 0x1E3C); (0x331, 0x1E3A)]);
    (0x4D, [(0x301, 0x1E3E); (0x307, 0x1E40); (0x323, 0x1E42)]);
    (0x4E, [(0x300, 0x1F8); (0x301, 0x143); (0x303, 0xD1); (0x307, 0x1E44); (0x30C, 0x147); (0x323, 0x1E46); (0x327, 0x145); (0x32D, 0x1E4A); (0x331, 0x1E48)]);
    (0x4F, [(0x300, 0xD2); (0x301, 0xD3); (0x302, 0xD4); (0x303, 0xD5); (0x304, 0x14C); (0x306, 0x14E); (0x307, 0x22E); (0x308, 0xD6); (0x309, 0x1ECE); (0x30B, 0x150); (0x30C, 0x1D1); (0x30F, 0x20C); (0x311, 0x20E); (0x31B, 0x1A0); (0x323, 0x1ECC); (0x328, 0x1EA)]);
    (0x50, [(0x301, 0x1E54); (0x307, 0x1E56)]);
    (0x52, [(0x301, 0x154); (0x307, 0x1E58); (0x30C, 0x158); (0x30F, 0x210); (0x311, 0x212); (0x323, 0x1E5A); (0x327, 0x156); (0x331, 0x1E5E)]);
    (0x53, [(0x301, 0x15A); (0x302, 0x15C); (0x307, 0x1E60); (0x30C, 0x160); (0x323, 0x1E62); (0x326, 0x218); (0x327, 0x15E)]);
    (0x54, [(0x307, 0x1E6A); (0x30C, 0x164); (0x323, 0x1E6C); (0x326, 0x21A); (0x327, 0x162); (0x32D, 0x1E70); (0x331, 0x1E6E)]);
    (0x55, [(0x300, 0xD9); (0x301, 0xDA); (0x302, 0xDB); (0x303, 0x168); (0x304, 0x16A); (0x306, 0x16C); (0x308, 0xDC); (0x309, 0x1EE6); (0x30A, 0x16E); (0x30B, 0x170); (0x30C, 0x1D3); (0x30F, 0x214); (0x311, 0x216); (0x31B, 0x1AF); (0x323, 0x1EE4); (0x324, 0x1E72); (0x328, 0x172); (0x32D, 0x1E76); (0x330, 0x1E74)]);
    (0x56, [(0x303, 0x1E7C); (0x323, 0x1E7E)]);
    (0x57, [(0x300, 0x1E80); (0x301, 0x1E82); (0x302, 0x174); (0x307, 0x1E86); (0x308, 0x1E84); (0x323, 0x1E88)]);
    (0x58, [(0x307, 0x1E8A); (0x308, 0x1E8C)]);
    (0x59, [(0x300, 0x1EF2); (0x301, 0xDD); (0x302, 0x176); (0x303, 0x1EF8); (0x304, 0x232); (0x307, 0x1E8E); (0x308, 0x178); (0x309, 0x1EF6); (0x323, 0x1EF4)]);
    (0x5A, [(0x301, 0x179); (0x302, 0x1E90); (0x307, 0x17B); (0x30C, 0x17D); (0x323, 0x1E92); (0x331, 0x1E94)]);
    (0x61, [(0x300, 0xE0); (0x301, 0xE1); (0x302, 0xE2); (0x303, 0xE3); (0x304, 0x101); (0x306, 0x103); (0x307, 0x227); (0x308, 0xE4); (0x309, 0x1EA3); (0x30A, 0xE5); (0x30C, 0x1CE); (0x30F, 0x201); (0x311, 0x203); (0x323, 0x1EA1); (0x325, 0x1E01); (0x328, 0x105)]);
    (0x62, [(0x307, 0x1E03); (0x323, 0x1E05); (0x331, 0x1E07)]);
    (0x63, [(0x301, 0x107); (0x302, 0x109); (0x307, 0x10B); (0x30C, 0x10D); (0x327, 0xE7)]);
    (0x64, [(0x307, 0x1E0B); (0x30C, 0x10F); (0x323, 0x1E0D); (0x327, 0x1E11); (0x32D, 0x1E13); (0x331, 0x1E0F)]);
    (0x65, [(0x300, 0xE8); (0x301, 0xE9); (0x302, 0xEA); (0x303, 0x1EBD); (0x304, 0x113); (0x306, 0x115); (0x307, 0x117); (0x308, 0xEB); (0x309, 0x1EBB); (0x30C, 0x11B); (0x30F, 0x205); (0x311, 0x207); (0x323, 0x1EB9); (0x327, 0x229); (0x328, 0x119); (0x32D, 0x1E19); (0x330, 0x1E1B)]);
    (0x66, [(0x307, 0x1E1F)]);
    (0x67, [(0x301, 0x1F5); (0x302, 0x11D); (0x304, 0x1E21); (0x306, 0x11F); (0x307, 0x121); (0x30C, 0x1E7); (0x327, 0x123)]);
    (0x68, [(0x302, 0x125); (0x307, 0x1E23); (0x308, 0x1E27); (0x30C, 0x21F); (0x323, 0x1E25); (0x327, 0x1E29); (0x32E, 0x1E2B); (0x331, 0x1E96)]);
    (0x69, [(0x300, 0xEC); (0x301, 0xED); (0x302, 0xEE); (0x303, 0x129); (0x304, 0x12B); (0x306, 0x12D); (0x308, 0xEF); (0x309, 0x1EC9); (0x30C, 0x1D0); (0x30F, 0x209); (0x311, 0x20B); (0x323, 0x1ECB); (0x328, 0x12F); (0x330, 0x1E2D)]);
    (0x6A, [(0x302, 0x135); (0x30C, 0x1F0)]);
    (0x6B, [(0x301, 0x1E31); (0x30C, 0x1E9); (0x323, 0x1E33); (0x327, 0x137); (0x331, 0x1E35)]);
    (0x6C, [(0x301, 0x13A); (0x30C, 0x13E); (0x323, 0x1E37); (0x327, 0x13C); (0x32D, 0x1E3D); (0x331, 0x1E3B)]);
    (0x6D, [(0x301, 0x1E3F); (0x307, 0x1E41); (0x323, 0x1E43)]);
    (0x6E, [(0x300, 0x1F9); (0x301, 0x144); (0x303, 0xF1); (0x307, 0x1E45); (0x30C, 0x148); (0x323, 0x1E47); (0x327, 0x146); (0x32D, 0x1E4B); (0x331, 0x1E49)]);
    (0x6F, [(0x300, 0xF2); (0x301, 0xF3); (0x302, 0xF4); (0x303, 0xF5); (0x304, 0x14D); (0x306, 0x14F); (0x307, 0x22F); (0x308, 0xF6); (0x309, 0x1ECF); (0x30B, 0x151); (0x30C, 0x1D2); (0x30F, 0x20D); (0x311, 0x20F); (0x31B, 0x1A1); (0x323, 0x1ECD); (0x328, 0x1EB)]);
    (0x70, [(0x301, 0x1E55); (0x307, 0x1E57)]);
    (0x72, [(0x301, 0x155); (0x307, 0x1E59); (0x30C, 0x159); (0x30F, 0x211); (0x311, 0x213); (0x323, 0x1E5B); (0x327, 0x157); (0x331, 0x1E5F)]);
    (0x73, [(0x301, 0x15B); (0x302, 0x15D); (0x307, 0x1E61); (0x30C, 0x161); (0x323, 0x1E63); (0x326, 0x219); (0x327, 0x15F)]);
    (0x74, [(0x307, 0x1E6B); (0x308, 0x1E97); (0x30C, 0x165); (0x323, 0x1E6D); (0x326, 0x21B); (0x327, 0x163); (0x32D, 0x1E71); (0x331, 0x1E6F)]);
    (0x75, [(0x300, 0xF9); (0x301, 0xFA); (0x302, 0xFB); (0x303, 0x169); (0x304, 0x16B); (0x306, 0x16D); (0x308, 0xFC); (0x309, 0x1EE7); (0x30A, 0x16F); (0x30B, 0x171); (0x30C, 0x1D4); (0x30F, 0x215); (0x311, 0x217); (0x31B, 0x1B0); (0x323, 0x1EE5); (0x324, 0x1E73); (0x328, 0x173); (0x32D, 0x1E77); (0x330, 0x1E75)]);
    (0x76, [(0x303, 0x1E7D); (0x323, 0x1E7F)]);
    (0x77, [(0x300, 0x1E81); (0x301, 0x1E83); (0x302, 0x175); (0x307, 0x1E87); (0x308, 0x1E85); (0x30A, 0x1E98); (0x323, 0x1E89)]);
    (0x78, [(0x307, 0x1E8B); (0x308, 0x1E8D)]);
    (0x79, [(0x300, 0x1EF3); (0x301, 0xFD); (0x302, 0x177); (0x303, 0x1EF9); (0x304, 0x233); (0x307, 0x1E8F); (0x308, 0xFF); (0x309, 0x1EF7); (0x30A, 0x1E99); (0x323, 0x1EF5)]);
    (0x7A, [(0x301, 0x17A); (0x302, 0x1E91); (0x307, 0x17C); (0x30C, 0x17E); (0x323, 0x1E93); (0x331, 0x1E95)]);
    (0xA8, [(0x300, 0x1FED); (0x301, 0x385); (0x342, 0x1FC1)]);
    (0xC2, [(0x300, 0x1EA6); (0x301, 0x1EA4); (0x303, 0x1EAA); (0x309, 0x1EA8)]);
    (0xC4, [(0x304, 0x1DE)]); (0xC5, [(0x301, 0x1FA)]);
    (0xC6, [(0x301, 0x1FC); (0x304, 0x1E2)]); (0xC7, [(0x301, 0x1E08)]);
    (0xCA, [(0x300, 0x1EC0); (0x301, 0x1EBE); (0x303, 0x1EC4); (0x309, 0x1EC2)]);
    (0xCF, [(0x301, 0x1E2E)]);
    (0xD4, [(0x300, 0x1ED2); (0x301, 0x1ED0); (0x303, 0x1ED6); (0x309, 0x1ED4)]);
    (0xD5, [(0x301, 0x1E4C); (0x304, 0x22C); (0x308, 0x1E4E)]);
    (0xD6, [(0x304, 0x22A)]); (0xD8, [(0x301, 0x1FE)]);
    (0xDC, [(0x300, 0x1DB); (0x301, 0x1D7); (0x304, 0x1D5); (0x30C, 0x1D9)]);
    (0xE2, [(0x300, 0x1EA7); (0x301, 0x1EA5); (0x303, 0x1EAB); (0x309, 0x1EA9)]);
    (0xE4, [(0x304, 0x1DF)]); (0xE5, [(0x301, 0x1FB)]);
    (0xE6, [(0x301, 0x1FD); (0x304, 0x1E3)]); (0xE7, [(0x301, 0x1E09)]);
    (0xEA, [(0x300, 0x1EC1); (0x301, 0x1EBF); (0x303, 0x1EC5); (0x309, 0x1EC3)]);
    (0xEF, [(0x301, 0x1E2F)]);
    (0xF4, [(0x300, 0x1ED3); (0x301, 0x1ED1); (0x303, 0x1ED7); (0x309, 0x1ED5)]);
    (0xF5, [(0x301, 0x1E4D); (0x304, 0x22D); (0x308, 0x1E4F)]);
    (0xF6, [(0x304, 0x22B)]); (0xF8, [(0x301, 0x1FF)]);
    (0xFC, [(0x300, 0x1DC); (0x301, 0x1D8); (0x304, 0x1D6); (0x30C, 0x1DA)]);
    (0x102, [(0x300, 0x1EB0); (0x301, 0x1EAE); (0x303, 0x1EB4); (0x309, 0x1EB2)]);
    (0x103, [(0x300, 0x1EB1); (0x301, 0x1EAF); (0x303, 0x1EB5); (0x309, 0x1EB3)]);
    (0x112, [(0x300, 0x1E14); (0x301, 0x1E16)]);
    (0x113, [(0x300, 0x1E15); (0x301, 0x1E17)]);
    (0x14C, [(0x300, 0x1E50); (0x301, 0x1E52)]);
    (0x14D, [(0x300, 0x1E51); (0x301, 0x1E53)]); (0x15A, [(0x307, 0x1E64)]);
    (0x15B, [(0x307, 0x1E65)]); (0x160, [(0x307, 0x1E66)]);
    (0x161, [(0x307, 0x1E67)]); (0x168, [(0x301, 0x1E78)]);
    (0x169, [(0x301, 0x1E79)]); (0x16A, [(0x308, 0x1E7A)]);
    (0x16B, [(0x308, 0x1E7B)]); (0x17F, [(0x307, 0x1E9B)]);
    (0x1A0, [(0x300, 0x1EDC); (0x301, 0x1EDA); (0x303, 0x1EE0); (0x309, 0x1EDE); (0x323, 0x1EE2)]);
    (0x1A1, [(0x300, 0x1EDD); (0x301, 0x1EDB); (0x303, 0x1EE1); (0x309, 0x1EDF); (0x323, 0x1EE3)]);
    (0x1AF, [(0x300, 0x1EEA); (0x301, 0x1EE8); (0x303, 0x1EEE); (0x309, 0x1EEC); (0x323, 0x1EF0)]);
    (0x1B0, [(0x300, 0x1EEB); (0x301, 0x1EE9); (0x303, 0x1EEF); (0x309, 0x1EED); (0x323, 0x1EF1)]);
    (0x1B7, [(0x30C, 0x1EE)]); (0x1EA, [(0x304, 0x1EC)]);
    (0x1EB, [(0x304, 0x1ED)]); (0x226, [(0x304, 0x1E0)]);
    (0x227, [(0x304, 0x1E1)]); (0x228, [(0x306, 0x1E1C)]);
    (0x229, [(0x306, 0x1E1D)]); (0x22E, [(0x304, 0x230)]);
    (0x22F, [(0x304, 0x231)]); (0x292, [(0x30C, 0x1EF)]);
    (0x391, [(0x300, 0x1FBA); (0x301, 0x386); (0x304, 0x1FB9); (0x306, 0x1FB8); (0x313, 0x1F08); (0x314, 0x1F09); (0x345, 0x1FBC)]);
    (0x395, [(0x300, 0x1FC8); (0x301, 0x388); (0x313, 0x1F18); (0x314, 0x1F19)]);
    (0x397, [(0x300, 0x1FCA); (0x301, 0x389); (0x313, 0x1F28); (0x314, 0x1F29); (0x345, 0x1FCC)]);
    (0x399, [(0x300, 0x1FDA); (0x301, 0x38A); (0x304, 0x1FD9); (0x306, 0x1FD8); (0x308, 0x3AA); (0x313, 0x1F38); (0x314, 0x1F39)]);
    (0x39F, [(0x300, 0x1FF8); (0x301, 0x38C); (0x313, 0x1F48); (0x314, 0x1F49)]);
    (0x3A1, [(0x314, 0x1FEC)]);
    (0x3A5, [(0x300, 0x1FEA); (0x301, 0x38E); (0x304, 0x1FE9); (0x306, 0x1FE8); (0x308, 0x3AB); (0x314, 0x1F59)]);
    (0x3A9, [(0x300, 0x1FFA); (0x301, 0x38F); (0x313, 0x1F68); (0x314, 0x1F69); (0x345, 0x1FFC)]);
    (0x3AC, [(0x345, 0x1FB4)]); (0x3AE, [(0x345, 0x1FC4)]);
    (0x3B1, [(0x300, 0x1F70); (0x301, 0x3AC); (0x304, 0x1FB1); (0x306, 0x1FB0); (0x313, 0x1F00); (0x314, 0x1F01); (0x342, 0x1FB6); (0x345, 0x1FB3)]);
    (0x3B5, [(0x300, 0x1F72); (0x301, 0x3AD); (0x313, 0x1F10); (0x314, 0x1F11)]);
    (0x3B7, [(0x300, 0x1F74); (0x301, 0x3AE); (0x313, 0x1F20); (0x314, 0x1F21); (0x342, 0x1FC6); (0x345, 0x1FC3)]);
    (0x3B9, [(0x300, 0x1F76); (0x301, 0x3AF); (0x304, 0x1FD1); (0x306, 0x1FD0); (0x308, 0x3CA); (0x313, 0x1F30); (0x314, 0x1F31); (0x342, 0x1FD6)]);
    (0x3BF, [(0x300, 0x1F78); (0x301, 0x3CC); (0x313, 0x1F40); (0x314, 0x1F41)]);
    (0x3C1, [(0x313, 0x1FE4); (0x314, 0x1FE5)]);
    (0x3C5, [(0x300, 0x1F7A); (0x301, 0x3CD); (0x304, 0x1FE1); (0x306, 0x1FE0); (0x308, 0x3CB); (0x313, 0x1F50); (0x314, 0x1F51); (0x342, 0x1FE6)]);
    (0x3C9, [(0x300, 0x1F7C); (0x301, 0x3CE); (0x313, 0x1F60); (0x314, 0x1F61); (0x342, 0x1FF6); (0x345, 0x1FF3)]);
    (0x3CA, [(0x300, 0x1FD2); (0x301, 0x390); (0x342, 0x1FD7)]);
    (0x3CB, [(0x300, 0x1FE2); (0x301, 0x3B0); (0x342, 0x1FE7)]);
    (0x3CE, [(0x345, 0x1FF4)]); (0x3D2, [(0x301, 0x3D3); (0x308, 0x3D4)]);
    (0x406, [(0x308, 0x407)]); (0x410, [(0x306, 0x4D0); (0x308, 0x4D2)]);
    (0x413, [(0x301, 0x403)]);
    (0x415, [(0x300, 0x400); (0x306, 0x4D6); (0x308, 0x401)]);
    (0x416, [(0x306, 0x4C1); (0x308, 0x4DC)]); (0x417, [(0x308, 0x4DE)]);
    (0x418, [(0x300, 0x40D); (0x304, 0x4E2); (0x306, 0x419); (0x308, 0x4E4)]);
    (0x41A, [(0x301, 0x40C)]); (0x41E, [(0x308, 0x4E6)]);
    (0x423, [(0x304, 0x4EE); (0x306, 0x40E); (0x308, 0x4F0); (0x30B, 0x4F2)]);
    (0x427, [(0x308, 0x4F4)]); (0x42B, [(0x308, 0x4F8)]);
    (0x42D, [(0x308, 0x4EC)]); (0x430, [(0x306, 0x4D1); (0x308, 0x4D3)]);
    (0x433, [(0x301, 0x453)]);
    (0x435, [(0x300, 0x450); (0x306, 0x4D7); (0x308, 0x451)]);
    (0x436, [(0x306, 0x4C2); (0x308, 0x4DD)]); (0x437, [(0x308, 0x4DF)]);
    (0x438, [(0x300, 0x45D); (0x304, 0x4E3); (0x306, 0x439); (0x308, 0x4E5)]);
    (0x43A, [(0x301, 0x45C)]); (0x43E, [(0x308, 0x4E7)]);
    (0x443, [(0x304, 0x4EF); (0x306, 0x45E); (0x308, 0x4F1); (0x30B, 0x4F3)]);
    (0x447, [(0x308, 0x4F5)]); (0x44B, [(0x308, 0x4F9)]);
    (0x44D, [(0x308, 0x4ED)]); (0x456, [(0x308, 0x457)]);
    (0x474, [(0x30F, 0x476)]); (0x475, [(0x30F, 0x477)]);
    (0x4D8, [(0x308, 0x4DA)]); (0x4D9, [(0x308, 0x4DB)]);
    (0x4E8, [(0x308, 0x4EA)]); (0x4E9, [(0x308, 0x4EB)]);
    (0x627, [(0x653, 0x622); (0x654, 0x623); (0x655, 0x625)]);
    (0x648, [(0x654, 0x624)]); (0x64A, [(0x654, 0x626)]);
    (0x6C1, [(0x654, 0x6C2)]); (0x6D2, [(0x654, 0x6D3)]);
    (0x6D5, [(0x654, 0x6C0)]); (0x928, [(0x93C, 0x929)]);
    (0x930, [(0x93C, 0x931)]); (0x933, [(0x93C, 0x934)]);
    (0x9C7, [(0x9BE, 0x9CB); (0x9D7, 0x9CC)]);
    (0xB47, [(0xB3E, 0xB4B); (0xB56, 0xB48); (0xB57, 0xB4C)]);
    (0xB92, [(0xBD7, 0xB94)]); (0xBC6, [(0xBBE, 0xBCA); (0xBD7, 0xBCC)]);
    (0xBC7, [(0xBBE, 0xBCB)]); (0xC46, [(0xC56, 0xC48)]);
    (0xCBF, [(0xCD5, 0xCC0)]);
    (0xCC6, [(0xCC2, 0xCCA); (0xCD5, 0xCC7); (0xCD6, 0xCC8)]);
    (0xCCA, [(0xCD5, 0xCCB)]); (0xD46, [(0xD3E, 0xD4A); (0xD57, 0xD4C)]);
    (0xD47, [(0xD3E, 0xD4B)]);
    (0xDD9, [(0xDCA, 0xDDA); (0xDCF, 0xDDC); (0xDDF, 0xDDE)]);
    (0xDDC, [(0xDCA, 0xDDD)]); (0x1025, [(0x102E, 0x1026)]);
    (0x1B05, [(0x1B35, 0x1B06)]); (0x1B07, [(0x1B35, 0x1B08)]);
    (0x1B09, [(0x1B35, 0x1B0A)]); (0x1B0B, [(0x1B35, 0x1B0C)]);
    (0x1B0D, [(0x1B35, 0x1B0E)]); (0x1B11, [(0x1B35, 0x1B12)]);
    (0x1B3A, [(0x1B35, 0x1B3B)]); (0x1B3C, [(0x1B35, 0x1B3D)]);
    (0x1B3E, [(0x1B35, 0x1B40)]); (0x1B3F, [(0x1B35, 0x1B41)]);
    (0x1B42, [(0x1B35, 0x1B43)]); (0x1E36, [(0x304, 0x1E38)]);
    (0x1E37, [(0x304, 0x1E39)]); (0x1E5A, [(0x304, 0x1E5C)]);
    (0x1E5B, [(0x304, 0x1E5D)]); (0x1E62, [(0x307, 0x1E68)]);
    (0x1E63, [(0x307, 0x1E69)]);
    (0x1EA0, [(0x302, 0x1EAC); (0x306, 0x1EB6)]);
    (0x1EA1, [(0x302, 0x1EAD); (0x306, 0x1EB7)]);
    (0x1EB8, [(0x302, 0x1EC6)]); (0x1EB9, [(0x302, 0x1EC7)]);
    (0x1ECC, [(0x302, 0x1ED8)]); (0x1ECD, [(0x302, 0x1ED9)]);
    (0x1F00, [(0x300, 0x1F02); (0x301, 0x1F04); (0x342, 0x1F06); (0x345, 0x1F80)]);
    (0x1F01, [(0x300, 0x1F03); (0x301, 0x1F05); (0x342, 0x1F07); (0x345, 0x1F81)]);
    (0x1F02, [(0x345, 0x1F82)]); (0x1F03, [(0x345, 0x1F83)]);
    (0x1F04, [(0x345, 0x1F84)]); (0x1F05, [(0x345, 0x1F85)]);
    (0x1F06, [(0x345, 0x1F86)]); (0x1F07, [(0x345, 0x1F87)]);
    (0x1F08, [(0x300, 0x1F0A); (0x301, 0x1F0C); (0x342, 0x1F0E); (0x345, 0x1F88)]);
    (0x1F09, [(0x300, 0x1F0B); (0x301, 0x1F0D); (0x342, 0x1F0F); (0x345, 0x1F89)]);
    (0x1F0A, [(0x345, 0x1F8A)]); (0x1F0B, [(0x345, 0x1F8B)]);
    (0x1F0C, [(0x345, 0x1F8C)]); (0x1F0D, [(0x345, 0x1F8D)]);
    (0x1F0E, [(0x345, 0x1F8E)]); (0x1F0F, [(0x345, 0x1F8F)]);
    (0x1F10, [(0x300, 0x1F12); (0x301, 0x1F14)]);
    (0x1F11, [(0x300, 0x1F13); (0x301, 0x1F15)]);
    (0x1F18, [(0x300, 0x1F1A); (0x301, 0x1F1C)]);
    (0x1F19, [(0x300, 0x1F1B); (0x301, 0x1F1D)]);
    (0x1F20, [(0x300, 0x1F22); (0x301, 0x1F24); (0x342, 0x1F26); (0x345, 0x1F90)]);
    (0x1F21, [(0x300, 0x1F23); (0x301, 0x1F25); (0x342, 0x1F27); (0x345, 0x1F91)]);
    (0x1F22, [(0x345, 0x1F92)]); (0x1F23, [(0x345, 0x1F93)]);
    (0x1F24, [(0x345, 0x1F94)]); (0x1F25, [(0x345, 0x1F95)]);
    (0x1F26, [(0x345, 0x1F96)]); (0x1F27, [(0x345, 0x1F97)]);
    (0x1F28, [(0x300, 0x1F2A); (0x301, 0x1F2C); (0x342, 0x1F2E); (0x345, 0x1F98)]);
    (0x1F29, [(0x300, 0x1F2B); (0x301, 0x1F2D); (0x342, 0x1F2F); (0x345, 0x1F99)]);
    (0x1F2A, [(0x345, 0x1F9A)]); (0x1F2B, [(0x345, 0x1F9B)]);
    (0x1F2C, [(0x345, 0x1F9C)]); (0x1F2D, [(0x345, 0x1F9D)]);
    (0x1F2E, [(0x345, 0x1F9E)]); (0x1F2F, [(0x345, 0x1F9F)]);
    (0x1F30, [(0x300, 0x1F32); (0x301, 0x1F34); (0x342, 0x1F36)]);
    (0x1F31, [(0x300, 0x1F33); (0x301, 0x1F35); (0x342, 0x1F37)]);
    (0x1F38, [(0x300, 0x1F3A); (0x301, 0x1F3C); (0x342, 0x1F3E)]);
    (0x1F39, [(0x300, 0x1F3B); (0x301, 0x1F3D); (0x342, 0x1F3F)]);
    (0x1F40, [(0x300, 0x1F42); (0x301, 0x1F44)]);
    (0x1F41, [(0x300, 0x1F43); (0x301, 0x1F45)]);
    (0x1F48, [(0x300, 0x1F4A); (0x301, 0x1F4C)]);
    (0x1F49, [(0x300, 0x1F4B); (0x301, 0x1F4D)]);
    (0x1F50, [(0x300, 0x1F52); (0x301, 0x1F54); (0x342, 0x1F56)]);
    (0x1F51, [(0x300, 0x1F53); (0x301, 0x1F55); (0x342, 0x1F57)]);
    (0x1F59, [(0x300, 0x1F5B); (0x301, 0x1F5D); (0x342, 0x1F5F)]);
    (0x1F60, [(0x300, 0x1F62); (0x301, 0x1F64); (0x342, 0x1F66); (0x345, 0x1FA0)]);
    (0x1F61, [(0x300, 0x1F63); (0x301, 0x1F65); (0x342, 0x1F67); (0x345, 0x1FA1)]);
    (0x1F62, [(0x345, 0x1FA2)]); (0x1F63, [(0x345, 0x1FA3)]);
    (0x1F64, [(0x345, 0x1FA4)]); (0x1F65, [(0x345, 0x1FA5)]);
    (0x1F66, [(0x345, 0x1FA6)]); (0x1F67, [(0x345, 0x1FA7)]);
    (0x1F68, [(0x300, 0x1F6A); (0x301, 0x1F6C); (0x342, 0x1F6E); (0x345, 0x1FA8)]);
    (0x1F69, [(0x300, 0x1F6B); (0x301, 0x1F6D); (0x342, 0x1F6F); (0x345, 0x1FA9)]);
    (0x1F6A, [(0x345, 0x1FAA)]); (0x1F6B, [(0x345, 0x1FAB)]);
    (0x1F6C, [(0x345, 0x1FAC)]); (0x1F6D, [(0x345, 0x1FAD)]);
    (0x1F6E, [(0x345, 0x1FAE)]); (0x1F6F, [(0x345, 0x1FAF)]);
    (0x1F70, [(0x345, 0x1FB2)]); (0x1F74, [(0x345, 0x1FC2)]);
    (0x1F7C, [(0x345, 0x1FF2)]); (0x1FB6, [(0x345, 0x1FB7)]);
    (0x1FBF, [(0x300, 0x1FCD); (0x301, 0x1FCE); (0x342, 0x1FCF)]);
    (0x1FC6, [(0x345, 0x1FC7)]); (0x1FF6, [(0x345, 0x1FF7)]);
    (0x1FFE, [(0x300, 0x1FDD); (0x301, 0x1FDE); (0x342, 0x1FDF)]);
    (0x2190, [(0x338, 0x219A)]); (0x2192, [(0x338, 0x219B)]);
    (0x2194, [(0x338, 0x21AE)]); (0x21D0, [(0x338, 0x21CD)]);
    (0x21D2, [(0x338, 0x21CF)]); (0x21D4, [(0x338, 0x21CE)]);
    (0x2203, [(0x338, 0x2204)]); (0x2208, [(0x338, 0x2209)]);
    (0x220B, [(0x338, 0x220C)]); (0x2223, [(0x338, 0x2224)]);
    (0x2225, [(0x338, 0x2226)]); (0x223C, [(0x338, 0x2241)]);
    (0x2243, [(0x338, 0x2244)]); (0x2245, [(0x338, 0x2247)]);
    (0x2248, [(0x338, 0x2249)]); (0x224D, [(0x338, 0x226D)]);
    (0x2261, [(0x338, 0x2262)]); (0x2264, [(0x338, 0x2270)]);
    (0x2265, [(0x338, 0x2271)]); (0x2272, [(0x338, 0x2274)]);
    (0x2273, [(0x338, 0x2275)]); (0x2276, [(0x338, 0x2278)]);
    (0x2277, [(0x338, 0x2279)]); (0x227A, [(0x338, 0x2280)]);
    (0x227B, [(0x338, 0x2281)]); (0x227C, [(0x338, 0x22E0)]);
    (0x227D, [(0x338, 0x22E1)]); (0x2282, [(0x338, 0x2284)]);
    (0x2283, [(0x338, 0x2285)]); (0x2286, [(0x338, 0x2288)]);
    (0x2287, [(0x338, 0x2289)]); (0x2291, [(0x338, 0x22E2)]);
    (0x2292, [(0x338, 0x22E3)]); (0x22A2, [(0x338, 0x22AC)]);
    (0x22A8, [(0x338, 0x22AD)]); (0x22A9, [(0x338, 0x22AE)]);
    (0x22AB, [(0x338, 0x22AF)]); (0x22B2, [(0x338, 0x22EA)]);
    (0x22B3, [(0x338, 0x22EB)]); (0x22B4, [(0x338, 0x22EC)]);
    (0x22B5, [(0x338, 0x22ED)]); (0x3046, [(0x3099, 0x3094)]);
    (0x304B, [(0x3099, 0x304C)]); (0x304D, [(0x3099, 0x304E)]);
    (0x304F, [(0x3099, 0x3050)]); (0x3051, [(0x3099, 0x3052)]);
    (0x3053, [(0x3099, 0x3054)]); (0x3055, [(0x3099, 0x3056)]);
    (0x3057, [(0x3099, 0x3058)]); (0x3059, [(0x3099, 0x305A)]);
    (0x305B, [(0x3099, 0x305C)]); (0x305D, [(0x3099, 0x305E)]);
    (0x305F, [(0x3099, 0x3060)]); (0x3061, [(0x3099, 0x3062)]);
    (0x3064, [(0x3099, 0x3065)]); (0x3066, [(0x3099, 0x3067)]);
    (0x3068, [(0x3099, 0x3069)]);
    (0x306F, [(0x3099, 0x3070); (0x309A, 0x3071)]);
    (0x3072, [(0x3099, 0x3073); (0x309A, 0x3074)]);
    (0x3075, [(0x3099, 0x3076); (0x309A, 0x3077)]);
    (0x3078, [(0x3099, 0x3079); (0x309A, 0x307A)]);
    (0x307B, [(0x3099, 0x307C); (0x309A, 0x307D)]);
    (0x309D, [(0x3099, 0x309E)]); (0x30A6, [(0x3099, 0x30F4)]);
    (0x30AB, [(0x3099, 0x30AC)]); (0x30AD, [(0x3099, 0x30AE)]);
    (0x30AF, [(0x3099, 0x30B0)]); (0x30B1, [(0x3099, 0x30B2)]);
    (0x30B3, [(0x3099, 0x30B4)]); (0x30B5, [(0x3099, 0x30B6)]);
    (0x30B7, [(0x3099, 0x30B8)]); (0x30B9, [(0x3099, 0x30BA)]);
    (0x30BB, [(0x3099, 0x30BC)]); (0x30BD, [(0x3099, 0x30BE)]);
    (0x30BF, [(0x3099, 0x30C0)]); (0x30C1, [(0x3099, 0x30C2)]);
    (0x30C4, [(0x3099, 0x30C5)]); (0x30C6, [(0x3099, 0x30C7)]);
    (0x30C8, [(0x3099, 0x30C9)]);
    (0x30CF, [(0x3099, 0x30D0); (0x309A, 0x30D1)]);
    (0x30D2, [(0x3099, 0x30D3); (0x309A, 0x30D4)]);
    (0x30D5, [(0x3099, 0x30D6); (0x309A, 0x30D7)]);
    (0x30D8, [(0x3099, 0x30D9); (0x309A, 0x30DA)]);
    (0x30DB, [(0x3099, 0x30DC); (0x309A, 0x30DD)]);
    (0x30EF, [(0x3099, 0x30F7)]); (0x30F0, [(0x3099, 0x30F8)]);
    (0x30F1, [(0x3099, 0x30F9)]); (0x30F2, [(0x3099, 0x30FA)]);
    (0x30FD, [(0x3099, 0x30FE)]); (0x11099, [(0x110BA, 0x1109A)]);
    (0x1109B, [(0x110BA, 0x1109C)]); (0x110A5, [(0x110BA, 0x110AB)]);
    (0x11131, [(0x11127, 0x1112E)]); (0x11132, [(0x11127, 0x1112F)]);
    (0x11347, [(0x1133E, 0x1134B); (0x11357, 0x1134C)]);
    (0x114B9, [(0x114B0, 0x114BC); (0x114BA, 0x114BB); (0x114BD, 0x114BE)]);
    (0x115B8, [(0x115AF, 0x115BA)]); (0x115B9, [(0x115AF, 0x115BB)]);
    (0x11935, [(0x11930, 0x11938)])
  ].

(** A table is in ascending order and is searched by bisection, as
    [unicode.Is] searches a range table. *)
Inductive RangeTree (A : Type) : Type :=
| Leaf
| Node (below : RangeTree A) (lo hi : rune) (a : A) (above : RangeTree A).
Arguments Leaf {A}.
Arguments Node {A} below lo hi a above.

Fixpoint bisect {A : Type} (depth : nat) (rows : list (rune * rune * A))
    : RangeTree A :=
  match depth with
  | O => Leaf
  | S d =>
      match skipn (Nat.div2 (length rows)) rows with
      | [] => Leaf
      | (lo, hi, a) :: above =>
          Node (bisect d (firstn (Nat.div2 (length rows)) rows)) lo hi a
               (bisect d above)
      end
  end.

Fixpoint search {A : Type} (t : RangeTree A) (r : rune) : option A :=
  match t with
  | Leaf => None
  | Node below lo hi a above =>
      if r <? lo then search below r
      else if hi <? r then search above r
      else Some a
  end.

(** The rows of a tree, in order. *)
Fixpoint rowsOf {A : Type} (t : RangeTree A) : list (rune * rune * A) :=
  match t with
  | Leaf => []
  | Node below lo hi a above => rowsOf below ++ (lo, hi, a) :: rowsOf above
  end.

(** A tree all of whose ranges lie strictly between two bounds, each
    above the one before it. *)
Fixpoint ordered {A : Type} (t : RangeTree A) (lower upper : Z) : bool :=
  match t with
  | Leaf => true
  | Node below lo hi _ above =>
      (lower <? lo) && (lo <=? hi) && (hi <? upper) &&
      ordered below lower lo && ordered above hi upper
  end.

(** A table keyed by single runes. *)
Definition byRune {A : Type} (rows : list (rune * A)) : list (rune * rune * A) :=
  map (fun e => (fst e, fst e, snd e)) rows.

Definition propertyTree : RangeTree (Class * Z) :=
  Eval vm_compute in bisect 11 properties.

Definition decompositionTree : RangeTree gostring :=
  Eval vm_compute in bisect 12 (byRune decompositions).

Definition compositionTree : RangeTree (list (rune * rune)) :=
  Eval vm_compute in bisect 9 (byRune compositions).

Definition property (r : rune) : Class * Z :=
  default (Other, 0) (search propertyTree r).

Definition isLetter (r : rune) : bool :=
  match fst (property r) with Letter => true | _ => false end.

Definition isNumber (r : rune) : bool :=
  match fst (property r) with Number => true | _ => false end.

Definition isMn (r : rune) : bool :=
  match fst (property r) with Mark => true | _ => false end.

(** The canonical combining class; the starters have class 0. *)
Definition ccc (r : rune) : Z := snd (property r).

Definition inStride (lo hi stride r : rune) : bool :=
  inRange lo hi r && ((r - lo) mod stride =? 0).

Definition isUpper (r : rune) : bool :=
  existsb (fun '(lo, hi, stride) => inStride lo hi stride r) Upper.

Definition toCase (table : list (rune * rune * Z * Z)) (r : rune) : rune :=
  match List.find (fun '(lo, hi, stride, _) => inStride lo hi stride r) table with
  | Some (_, _, _, delta) => r + delta
  | None => r
  end.

Definition toLower : rune -> rune := toCase lowerCase.
Definition toUpper : rune -> rune := toCase upperCase.

(** *** Hangul *)

Definition SBase : rune := 0xAC00.
Definition LBase : rune := 0x1100.
Definition VBase : rune := 0x1161.
Definition TBase : rune := 0x11A7.
Definition LCount : Z := 19.
Definition VCount : Z := 21.
Definition TCount : Z := 28.
Definition NCount : Z := 588.
Definition SCount : Z := 11172.

Definition isSyllable (r : rune) : bool := inRange SBase (SBase + SCount - 1) r.
Definition isLeading (r : rune) : bool := inRange LBase (LBase + LCount - 1) r.
Definition isVowel (r : rune) : bool := inRange VBase (VBase + VCount - 1) r.
Definition isTrailing (r : rune) : bool :=
  inRange (TBase + 1) (TBase + TCount - 1) r.

(** A syllable is a leading consonant and a vowel, with a trailing
    consonant or without one. *)
Definition hangulDecomp (r : rune) : gostring :=
  let s := r - SBase in
  let l := LBase + s / NCount in
  let v := VBase + (s mod NCount) / TCount in
  let t := TBase + s mod TCount in
  if t =? TBase then [l; v] else [l; v; t].

Definition hangulPair (a b : rune) : option rune :=
  if isLeading a && isVowel b
  then Some (SBase + ((a - LBase) * VCount + (b - VBase)) * TCount)
  else if isSyllable a && ((a - SBase) mod TCount =? 0) && isTrailing b
       then Some (a + (b - TBase))
       else None.

(** *** Decomposition *)

Definition fullDecomp (r : rune) : gostring :=
  if isSyllable r then hangulDecomp r
  else default [r] (search decompositionTree r).

Definition decompose (s : gostring) : gostring := flat_map fullDecomp s.

(** The canonical ordering: a mark goes behind the marks of a lower class
    that follow it, and no rune passes a starter. *)
Fixpoint insertMark (r : rune) (s : gostring) : gostring :=
  match s with
  | [] => [r]
  | m :: s' =>
      if (0 <? ccc m) && (ccc m <? ccc r)
      then m :: insertMark r s'
      else r :: s
  end.

Definition reorder (s : gostring) : gostring := foldr insertMark [] s.

Definition nfd (s : gostring) : gostring := reorder (decompose s).

(** *** Composition *)

Definition composePair (a b : rune) : option rune :=
  match hangulPair a b with
  | Some c => Some c
  | None =>
      match search compositionTree a with
      | Some seconds => snd <$> List.find (fun e => fst e =? b) seconds
      | None => None
      end
  end.

(** A rune is blocked from the last starter when a starter or a mark of
    its class or of a higher one stands in between; [lastClass] is the
    class of the rune before it. *)
Definition blocked (lastClass chClass : Z) : bool :=
  negb ((lastClass <? chClass) || (lastClass =? 0)).

(** The canonical composition of a decomposed string, from the last
    starter and the marks kept after it: a rune that is not blocked and
    composes with the starter is taken into it, a starter that is left
    becomes the last starter, and a mark that is left is kept. *)
Fixpoint composeFrom (starter : rune) (marks : gostring) (lastClass : Z)
    (s : gostring) : gostring :=
  match s with
  | [] => starter :: marks
  | ch :: s' =>
      match (if blocked lastClass (ccc ch) then None
             else composePair starter ch) with
      | Some composite => composeFrom composite marks lastClass s'
      | None =>
          if ccc ch =? 0
          then starter :: marks ++ composeFrom ch [] 0 s'
          else composeFrom starter (marks ++ [ch]) (ccc ch) s'
      end
  end.

Definition compose (s : gostring) : gostring :=
  match s with
  | [] => []
  | ch :: s' => composeFrom ch [] (if ccc ch =? 0 then 0 else 256) s'
  end.

Definition nfc (s : gostring) : gostring := compose (nfd s).

End Ucd.

Definition ucd : Unicode := {|
  IsUpper := Ucd.isUpper;
  IsLetter := Ucd.isLetter;
  IsNumber := Ucd.isNumber;
  IsMn := Ucd.isMn;
  ToLower := Ucd.toLower;
  ToUpper := Ucd.toUpper;
  NFD := Ucd.nfd;
  NFC := Ucd.nfc
|}.

(** ** The declaration model (package [scanner])

    The transformer reads the scanner's types through their constructors,
    fields and methods only; their declarations are not among the sources.
    A [scanner.Type] is one of [*Basic], [*Named] and [*Map], each with its
    repeated flag. [scanType] builds a map from the scanned key and element
    types and yields [nil] for a Go type it does not support, so the key
    and the value of a map may be [nil]; a field with a [nil] type is never
    added to a struct. *)

Module scanner.

#[warnings="-register-all"]
Inductive Ty : Type :=
| Basic (Name : gostring) (Repeated : bool)
| Named (Path Name : gostring) (Repeated : bool)
| Map (Key Value : option Ty) (Repeated : bool).

Definition IsRepeated (t : Ty) : bool :=
  match t with
  | Basic _ r | Named _ _ r | Map _ _ r => r
  end.

Definition SetRepeated (r : bool) (t : Ty) : Ty :=
  match t with
  | Basic n _ => Basic n r
  | Named p n _ => Named p n r
  | Map k v _ => Map k v r
  end.

Definition NewBasic (name : gostring) : Ty := Basic name false.
Definition NewNamed (path name : gostring) : Ty := Named path name false.
Definition NewMap (key value : option Ty) : Ty := Map key value false.

(** The [String] method of [Named]: the path and the name joined by a dot, the form
    the keys of the mapping tables have (["time.Time"]). *)
Definition Named_String (path name : gostring) : gostring :=
  path ++ dot :: name.

Module Field.
Record t := { Name : gostring; Typ : Ty }.
End Field.

Module Struct.
Record t := { Name : gostring; Fields : list Field.t }.
End Struct.

Module Enum.
Record t := { Name : gostring; Values : list gostring }.
End Enum.

Module Func.
Record t := {
  Name : gostring;
  Receiver : option Ty;
  Input : list Ty;
  Output : list Ty;
  IsVariadic : bool
}.
End Func.

Module Package.
Record t := {
  Path : gostring;
  Name : gostring;
  Structs : list Struct.t;
  Enums : list Enum.t;
  Funcs : list Func.t
}.
End Package.

End scanner.

(** ** The output schema model (package [protobuf])

    Modelled from the spec: the declarations of [Package], [Message],
    [Field], [Enum], [RPC], the output types and the option values, and
    the methods [Message.Reserve], [EnumValues.Add], [Package.Import] and
    [Package.ImportFromPath], which live in a file of the package that is
    not among the sources. The records have the fields that section 3 of
    the specification lists and that [transform.go] and its tests read and
    write. *)

(** An output type: [*Basic], [*Named] (generated or not) or [*Map]. The
    key and the value of a map are interface values and may be [nil]. *)
#[warnings="-register-all"]
Inductive Ty : Type :=
| Basic (Name : gostring)
| Named (Package Name : gostring) (Generated : bool)
| Map (Key Value : option Ty).

Definition NewBasic (name : gostring) : Ty := Basic name.
Definition NewNamed (package name : gostring) : Ty := Named package name false.
Definition NewGeneratedNamed (package name : gostring) : Ty :=
  Named package name true.
Definition NewMap (key value : option Ty) : Ty := Map key value.

Inductive OptionValue : Type :=
| StringValue (v : gostring)
| LiteralValue (v : gostring).

Definition NewStringValue (v : gostring) : OptionValue := StringValue v.
Definition NewLiteralValue (v : gostring) : OptionValue := LiteralValue v.

Abbreviation Options := (gmap gostring OptionValue).

Module Field.
Record t := {
  Name : gostring;
  Pos : Z;
  Typ : Ty;
  Repeated : bool;
  Options : Options
}.
End Field.

Module Message.
Record t := {
  Name : gostring;
  Fields : list Field.t;
  Reserved : list Z;
  Options : Options
}.
End Message.

Module EnumValue.
Record t := { Name : gostring; Value : Z; Options : Options }.
End EnumValue.

Module Enum.
Record t := {
  Name : gostring;
  Values : list EnumValue.t;
  Options : Options
}.
End Enum.

Module RPC.
Record t := { Name : gostring; Input : Ty; Output : Ty }.
End RPC.

(** An entry of a package's import list: a schema file named by a mapping,
    or the schema generated for the Go package at a path. *)
Inductive ImportEntry : Type :=
| ImportFile (file : gostring)
| ImportGenerated (path : gostring).

Module Package.
Record t := {
  Name : gostring;
  Path : gostring;
  Options : Options;
  Messages : list Message.t;
  Enums : list Enum.t;
  RPCs : list RPC.t;
  Imports : list ImportEntry
}.
End Package.

#[global] Instance ImportEntry_eq_dec : EqDecision ImportEntry :=
  ltac:(solve_decision).

(** ** The mapping table ([mapping.go]) *)

(** A decorator receives the package, the message and the field; those of
    the table write to the field's options only, and a decorator is
    modelled by what it makes of the field. *)
Definition Decorator := Field.t -> Field.t.
Definition Decorators := list Decorator.

Definition NewDecorators (fns : list (Field.t -> Field.t)) : Decorators :=
  fold_left (fun decorators fn => decorators ++ [fn]) fns [].

Module ProtoType.
Record t := {
  Package : gostring;
  Basic : bool;
  Name : gostring;
  Import : gostring;
  GoImport : gostring;
  Decorators : Decorators;
  Warn : gostring
}.
End ProtoType.

(** The [Type] method of [ProtoType]. *)
Definition ProtoType_Type (pt : ProtoType.t) : Ty :=
  if ProtoType.Basic pt then NewBasic (ProtoType.Name pt)
  else NewNamed (ProtoType.Package pt) (ProtoType.Name pt).

Definition Decorators_Run (ds : Decorators) (f : Field.t) : Field.t :=
  fold_left (fun f d => d f) ds f.

Definition ProtoType_Decorate (pt : ProtoType.t) (f : Field.t) : Field.t :=
  Decorators_Run (ProtoType.Decorators pt) f.

Abbreviation TypeMappings := (gmap gostring ProtoType.t).

(** A table entry with the given name and basic flag, the other fields
    at their zero values. *)
Definition basicType (name : string) : ProtoType.t :=
  {| ProtoType.Package := []; ProtoType.Basic := true;
     ProtoType.Name := str name; ProtoType.Import := [];
     ProtoType.GoImport := []; ProtoType.Decorators := [];
     ProtoType.Warn := [] |}.

Definition upgradedType (name warn : string) : ProtoType.t :=
  {| ProtoType.Package := []; ProtoType.Basic := true;
     ProtoType.Name := str name; ProtoType.Import := [];
     ProtoType.GoImport := []; ProtoType.Decorators := [];
     ProtoType.Warn := str warn |}.

(** [f.Options[name] = NewLiteralValue(value)], on a possibly [nil] bag. *)
Definition setLiteral (name value : string) (f : Field.t) : Field.t :=
  {| Field.Name := Field.Name f; Field.Pos := Field.Pos f;
     Field.Typ := Field.Typ f; Field.Repeated := Field.Repeated f;
     Field.Options :=
       <[str name := NewLiteralValue (str value)]> (Field.Options f) |}.

Definition DefaultMappings : TypeMappings :=
  list_to_map [
    (str "float64", basicType "double");
    (str "float32", basicType "float");
    (str "int32", basicType "int32");
    (str "int64", basicType "int64");
    (str "uint32", basicType "uint32");
    (str "uint64", basicType "uint64");
    (str "bool", basicType "bool");
    (str "string", basicType "string");
    (str "uint8", upgradedType "uint32" "type %s was upgraded to uint32");
    (str "int8", upgradedType "int32" "type %s was upgraded to int32");
    (str "byte", upgradedType "uint32" "type %s was upgraded to uint32");
    (str "uint16", upgradedType "uint32" "type %s was upgraded to uint32");
    (str "int16", upgradedType "int32" "type %s was upgraded to int32");
    (str "int", upgradedType "int64" "type %s was upgraded to int64");
    (str "uint", upgradedType "uint64" "type %s was upgraded to uint64");
    (str "uintptr", basicType "uint64");
    (str "rune", basicType "int32");
    (str "time.Time",
      {| ProtoType.Package := str "google.protobuf";
         ProtoType.Basic := false;
         ProtoType.Name := str "Timestamp";
         ProtoType.Import := str "google/protobuf/timestamp.proto";
         ProtoType.GoImport := str "github.com/gogo/protobuf/types";
         ProtoType.Decorators := NewDecorators [
           fun f => setLiteral "(gogoproto.nullable)" "false"
                      (setLiteral "(gogoproto.stdtime)" "true" f) ];
         ProtoType.Warn := [] |});
    (str "time.Duration",
      {| ProtoType.Package := str "google.protobuf";
         ProtoType.Basic := true;
         ProtoType.Name := str "int64";
         ProtoType.Import := str "google/protobuf/duration.proto";
         ProtoType.GoImport := str "github.com/gogo/protobuf/types";
         ProtoType.Decorators := NewDecorators [
           fun f => setLiteral "(gogoproto.nullable)" "false"
                      (setLiteral "(gogoproto.stdduration)" "true" f) ];
         ProtoType.Warn := [] |})
  ].

(** The second variant of [mapping.go]: a [ProtoType] without decorators
    and without a warning, and a table whose entries carry none. *)
Module Plain.

Module ProtoType.
Record t := {
  Package : gostring;
  Basic : bool;
  Name : gostring;
  Import : gostring;
  GoImport : gostring
}.
End ProtoType.

Definition ProtoType_Type (pt : ProtoType.t) : Ty :=
  if ProtoType.Basic pt then NewBasic (ProtoType.Name pt)
  else NewNamed (ProtoType.Package pt) (ProtoType.Name pt).

Definition basicType (name : string) : ProtoType.t :=
  {| ProtoType.Package := []; ProtoType.Basic := true;
     ProtoType.Name := str name; ProtoType.Import := [];
     ProtoType.GoImport := [] |}.

Definition DefaultMappings : gmap gostring ProtoType.t :=
  list_to_map [
    (str "float64", basicType "double");
    (str "float32", basicType "float");
    (str "int32", basicType "int32");
    (str "int64", basicType "int64");
    (str "uint32", basicType "uint32");
    (str "uint64", basicType "uint64");
    (str "bool", basicType "bool");
    (str "string", basicType "string");
    (str "uint8", basicType "uint32");
    (str "int8", basicType "int32");
    (str "byte", basicType "uint32");
    (str "uint16", basicType "uint32");
    (str "int16", basicType "int32");
    (str "int", basicType "int32");
    (str "uint", basicType "uint32");
    (str "uintptr", basicType "uint64");
    (str "rune", basicType "int32");
    (str "time.Time",
      {| ProtoType.Package := str "google.protobuf";
         ProtoType.Basic := false;
         ProtoType.Name := str "Timestamp";
         ProtoType.Import := str "google/protobuf/timestamp.proto";
         ProtoType.GoImport := str "github.com/gogo/protobuf/types" |});
    (str "time.Duration", basicType "int64")
  ].

End Plain.

(** ** Effects

    The transformer writes to two objects while it runs: the package under
    construction, which it holds by pointer and whose import list grows,
    and the report sink, which receives the warnings. [World] is the pair
    of them and [M] the computations that read and update it. *)

(** A call [report.Warn(format, args...)]. *)
Record Warning := { format : string; args : list gostring }.

Record World := { pkg : Package.t; warnings : list Warning }.

Definition M (A : Type) : Type := World -> A * World.

#[global] Instance M_ret : MRet M := fun A a w => (a, w).
#[global] Instance M_bind : MBind M :=
  fun A B f m w => let '(a, w') := m w in f a w'.

(** [report.Warn]. *)
Definition report_Warn (fmt : string) (a : list gostring) : M unit :=
  fun w => (tt, {| pkg := pkg w; warnings := warnings w ++ [ {| format := fmt; args := a |} ] |}).

(** Read [pkg.Path]. *)
Definition packagePath : M gostring :=
  fun w => (Package.Path (pkg w), w).

(** Run [f] on the package. *)
Definition onPackage (f : Package.t -> Package.t) : M unit :=
  fun w => (tt, {| pkg := f (pkg w); warnings := warnings w |}).

Definition withImports (imports : list ImportEntry) (p : Package.t) : Package.t :=
  {| Package.Name := Package.Name p; Package.Path := Package.Path p;
     Package.Options := Package.Options p;
     Package.Messages := Package.Messages p;
     Package.Enums := Package.Enums p; Package.RPCs := Package.RPCs p;
     Package.Imports := imports |}.

(** Modelled from the spec: the import list of a package is ordered by
    insertion and holds no entry twice. *)
Definition addImport (e : ImportEntry) (p : Package.t) : Package.t :=
  if decide (e ∈ Package.Imports p) then p
  else withImports (Package.Imports p ++ [e]) p.

(** Modelled from the spec: [Package.Import] registers the import that a
    mapped type requires, when it requires one. *)
Definition Package_Import (pt : ProtoType.t) (p : Package.t) : Package.t :=
  match ProtoType.Import pt with
  | [] => p
  | file => addImport (ImportFile file) p
  end.

(** Modelled from the spec: [Package.ImportFromPath] registers the import
    of the schema generated for the Go package at [path] when the type
    requires one (section 3 of the specification), that is when [path] is
    not the path of the package itself: a package does not import its own
    schema, and the import lists that [TestTransform] expects hold the
    schema of the other package only. The registration keeps the order of
    first use and no entry twice, as [addImport] has it. *)
Definition Package_ImportFromPath (path : gostring) (p : Package.t) : Package.t :=
  if decide (path = Package.Path p) then p
  else addImport (ImportGenerated path) p.

(** Modelled from the spec: [Message.Reserve] adds a position to the
    reserved positions of the message. *)
Definition Message_Reserve (pos : Z) (m : Message.t) : Message.t :=
  {| Message.Name := Message.Name m; Message.Fields := Message.Fields m;
     Message.Reserved := Message.Reserved m ++ [pos];
     Message.Options := Message.Options m |}.

(** [msg.Fields = append(msg.Fields, field)]. *)
Definition Message_appendField (f : Field.t) (m : Message.t) : Message.t :=
  {| Message.Name := Message.Name m;
     Message.Fields := Message.Fields m ++ [f];
     Message.Reserved := Message.Reserved m;
     Message.Options := Message.Options m |}.

(** Modelled from the spec: [EnumValues.Add] appends a value with its name,
    ordinal and options. *)
Definition Enum_addValue (name : gostring) (value : Z) (options : Options)
    (e : Enum.t) : Enum.t :=
  {| Enum.Name := Enum.Name e;
     Enum.Values := Enum.Values e ++
       [ {| EnumValue.Name := name; EnumValue.Value := value;
            EnumValue.Options := options |} ];
     Enum.Options := Enum.Options e |}.

(** [for i, x := range l { s = body(i, x, s) }], from index [i] on. *)
Fixpoint forRange {A St : Type} (body : nat -> A -> St -> St)
    (i : nat) (l : list A) (s : St) : St :=
  match l with
  | [] => s
  | x :: l' => forRange body (S i) l' (body i x s)
  end.

(** The same loop with a body that has effects. *)
Fixpoint forRangeM {A St : Type} (body : nat -> A -> St -> M St)
    (i : nat) (l : list A) (s : St) : M St :=
  match l with
  | [] => mret s
  | x :: l' => s' ← body i x s; forRangeM body (S i) l' s'
  end.

(** ** The transformer ([transform.go]) *)

Record Transformer := { mappings : TypeMappings }.

Definition NewTransformer : Transformer := {| mappings := ∅ |}.

(** A [nil] table leaves the transformer as it is. *)
Definition SetMappings (m : option TypeMappings) (t : Transformer) : Transformer :=
  match m with
  | None => t
  | Some m => {| mappings := m |}
  end.

(** [transform.go] names the default table [defaultMappings]; [mapping.go]
    declares it as [DefaultMappings]. *)
Definition defaultMappings : TypeMappings := DefaultMappings.

(** A table maps to pointers, and a missing key reads as [nil]. *)
Definition findMapping (t : Transformer) (name : gostring) : option ProtoType.t :=
  match mappings t !! name with
  | Some typ => Some typ
  | None => defaultMappings !! name
  end.

Definition isByteSlice (typ : scanner.Ty) : bool :=
  match typ with
  | scanner.Basic name repeated =>
      if repeated then bool_decide (name = str "byte") else false
  | _ => false
  end.

Section Transform.
Context {U : Unicode}.

(** The result is the interface value that the function returns: [None]
    is [nil]. A [nil] scanned type matches no case of the type switch. *)
Fixpoint transformType (t : Transformer) (typ : scanner.Ty) : M (option Ty) :=
  match typ with
  | scanner.Named path name _ =>
      match findMapping t (scanner.Named_String path name) with
      | Some protoType =>
          onPackage (Package_Import protoType);;
          mret (Some (ProtoType_Type protoType))
      | None =>
          onPackage (Package_ImportFromPath path);;
          mret (Some (NewNamed (toProtobufPkg path) name))
      end
  | scanner.Basic name _ =>
      match findMapping t name with
      | Some protoType =>
          onPackage (Package_Import protoType);;
          mret (Some (ProtoType_Type protoType))
      | None =>
          report_Warn "basic type %q is not defined in the mappings, ignoring"
                      [name];;
          mret None
      end
  | scanner.Map key value _ =>
      k ← match key with
          | Some key => transformType t key
          | None => mret None
          end;
      v ← match value with
          | Some value => transformType t value
          | None => mret None
          end;
      mret (Some (NewMap k v))
  end.

Definition transformField (t : Transformer) (field : scanner.Field.t)
    (pos : Z) : M (option Field.t) :=
  let repeated := scanner.IsRepeated (scanner.Field.Typ field) in
  '(typ, repeated) ←
    (if isByteSlice (scanner.Field.Typ field)
     then mret (Some (NewBasic (str "bytes")), false)
     else typ ← transformType t (scanner.Field.Typ field);
          mret (typ, repeated));
  match typ with
  | None => mret None
  | Some typ =>
      mret (Some {| Field.Name := toLowerSnakeCase (scanner.Field.Name field);
                    Field.Pos := pos;
                    Field.Typ := typ;
                    Field.Repeated := repeated;
                    Field.Options := ∅ |})
  end.

(** The body of the loop of [transformStruct]. The index of a slice fits
    an [int], so neither [i+1] nor [uint(i) + 1] wraps. *)
Definition structStep (t : Transformer) (s : scanner.Struct.t)
    (i : nat) (f : scanner.Field.t) (msg : Message.t) : M Message.t :=
  field ← transformField t f (Z.of_nat i + 1);
  match field with
  | None =>
      let msg := Message_Reserve (Z.of_nat i + 1) msg in
      report_Warn
        "field %q of struct %q has an invalid type, ignoring field but reserving its position"
        [scanner.Field.Name f; scanner.Struct.Name s];;
      mret msg
  | Some field => mret (Message_appendField field msg)
  end.

Definition newMessage (name : gostring) : Message.t :=
  {| Message.Name := name; Message.Fields := [];
     Message.Reserved := []; Message.Options := ∅ |}.

Definition transformStruct (t : Transformer) (s : scanner.Struct.t) : M Message.t :=
  forRangeM (structStep t s) 0 (scanner.Struct.Fields s)
            (newMessage (scanner.Struct.Name s)).

Definition transformEnum (t : Transformer) (e : scanner.Enum.t) : Enum.t :=
  forRange (fun i v enum => Enum_addValue (toUpperSnakeCase v) (Z.of_nat i) ∅ enum)
           0 (scanner.Enum.Values e)
           {| Enum.Name := scanner.Enum.Name e; Enum.Values := [];
              Enum.Options := ∅ |}.

Definition defaultOptionsForPackage (p : scanner.Package.t) : Options :=
  {[ str "go_package" := NewStringValue (scanner.Package.Name p) ]}.

Definition appendMessage (msg : Message.t) (p : Package.t) : Package.t :=
  {| Package.Name := Package.Name p; Package.Path := Package.Path p;
     Package.Options := Package.Options p;
     Package.Messages := Package.Messages p ++ [msg];
     Package.Enums := Package.Enums p; Package.RPCs := Package.RPCs p;
     Package.Imports := Package.Imports p |}.

Definition appendEnum (enum : Enum.t) (p : Package.t) : Package.t :=
  {| Package.Name := Package.Name p; Package.Path := Package.Path p;
     Package.Options := Package.Options p;
     Package.Messages := Package.Messages p;
     Package.Enums := Package.Enums p ++ [enum];
     Package.RPCs := Package.RPCs p;
     Package.Imports := Package.Imports p |}.

(** [Transform] builds a fresh package; the warnings go to the sink, whose
    earlier content is [log]. *)
Definition Transform (t : Transformer) (p : scanner.Package.t)
    (log : list Warning) : Package.t * list Warning :=
  let pkg0 :=
    {| Package.Name := toProtobufPkg (scanner.Package.Path p);
       Package.Path := scanner.Package.Path p;
       Package.Options := defaultOptionsForPackage p;
       Package.Messages := []; Package.Enums := []; Package.RPCs := [];
       Package.Imports := [] |} in
  let run : M unit :=
    forRangeM (fun _ s _ =>
                 msg ← transformStruct t s;
                 onPackage (appendMessage msg))
              0 (scanner.Package.Structs p) tt;;
    forRangeM (fun _ e _ =>
                 onPackage (appendEnum (transformEnum t e)))
              0 (scanner.Package.Enums p) tt in
  let '(_, w) := run {| pkg := pkg0; warnings := log |} in
  (pkg w, warnings w).

End Transform.

(** ** Upgrade warnings

    The [Warn] field of [mapping.go] belongs to a later transformer than
    the one of [transform.go]: [findMapping] above reads a table named
    [defaultMappings], which [mapping.go] does not declare under that
    name, and reads no [Warn]. The lookup that shows the warning is not
    among the sources. *)




(** ** Functions to RPCs

    [transformFunc] is exercised by the tests of the package, but its body
    is not in [transform.go] as the sources have it. *)

Abbreviation nameSet := (gset gostring).

(** The decimal numeral of [n], as [fmt.Sprintf("%d", n)] prints it. *)
Definition decimal (n : nat) : gostring :=
  str (NilEmpty.string_of_uint (Nat.to_uint n)).

Definition appendRPC (rpc : RPC.t) (p : Package.t) : Package.t :=
  {| Package.Name := Package.Name p; Package.Path := Package.Path p;
     Package.Options := Package.Options p;
     Package.Messages := Package.Messages p;
     Package.Enums := Package.Enums p;
     Package.RPCs := Package.RPCs p ++ [rpc];
     Package.Imports := Package.Imports p |}.

(** Modelled from the spec: step 1 of section 4.7, the schema-facing name
    of a function. A method is named after the type of its receiver, and a
    receiver that is not a named type has no name to give. *)
Definition rpcName (f : scanner.Func.t) : option gostring :=
  match scanner.Func.Receiver f with
  | None => Some (scanner.Func.Name f)
  | Some (scanner.Named _ receiver _) =>
      Some (receiver ++ underscore :: scanner.Func.Name f)
  | Some _ => None
  end.

(** Modelled from the spec: step 2 of section 4.7, the names of the two
    wrapper messages. *)
Definition requestName (name : gostring) : gostring := name ++ str "Request".
Definition responseName (name : gostring) : gostring := name ++ str "Response".

(** Modelled from the spec: the sentinel of step 5, the type named
    [error] that belongs to no package. *)
Definition isError (typ : scanner.Ty) : bool :=
  match typ with
  | scanner.Named [] name _ => bool_decide (name = str "error")
  | _ => false
  end.

(** Modelled from the spec: step 5 of section 4.7, an output list without
    its trailing error. *)
Definition removeLastError (output : list scanner.Ty) : list scanner.Ty :=
  match rev output with
  | last :: front => if isError last then rev front else output
  | [] => output
  end.

Section Funcs.
Context {U : Unicode}.

(** Modelled from the spec: the wrapper message of step 4 of section 4.7,
    with one field per type, named [prefix1], [prefix2], ... in order and
    transformed as the fields of a struct are. *)
Definition wrapperMessage (t : Transformer) (name prefix : gostring)
    (types : list scanner.Ty) : M Message.t :=
  transformStruct t
    {| scanner.Struct.Name := name;
       scanner.Struct.Fields :=
         imap (fun i typ => {| scanner.Field.Name := prefix ++ decimal (S i);
                               scanner.Field.Typ := typ |}) types |}.

(** Modelled from the spec: one side of an RPC (step 4 of section 4.7).
    A lone named type that is not repeated is used as it is; any other
    list of types gets a wrapper message, which is returned with the
    generated type that refers to it. *)
Definition rpcSide (t : Transformer) (name prefix : gostring)
    (types : list scanner.Ty) : M (option Ty * option Message.t) :=
  match types with
  | [scanner.Named path n false] =>
      typ ← transformType t (scanner.Named path n false);
      mret (typ, None)
  | _ =>
      msg ← wrapperMessage t name prefix types;
      path ← packagePath;
      mret (Some (NewGeneratedNamed (toProtobufPkg path) name), Some msg)
  end.

Definition commitWrapper (name : gostring) (msg : option Message.t)
    (names : nameSet) : M nameSet :=
  match msg with
  | Some msg => onPackage (appendMessage msg);; mret ({[ name ]} ∪ names)
  | None => mret names
  end.

(** Modelled from the spec: [transformFunc], section 4.7. The function
    is named, its two wrapper names are checked against the collision
    set before anything is built, both sides are transformed, and only
    then are the names registered, the wrappers appended to the messages
    of the package and the RPC appended to its RPCs. *)
Definition transformFunc (t : Transformer) (f : scanner.Func.t)
    (names : nameSet) : M (option RPC.t * nameSet) :=
  match rpcName f with
  | None => mret (None, names)
  | Some name =>
      if decide (requestName name ∈ names ∨ responseName name ∈ names)
      then mret (None, names)
      else
        '(input, request) ←
          rpcSide t (requestName name) (str "arg") (scanner.Func.Input f);
        '(output, response) ←
          rpcSide t (responseName name) (str "result")
                  (removeLastError (scanner.Func.Output f));
        match input, output with
        | Some input, Some output =>
            names ← commitWrapper (requestName name) request names;
            names ← commitWrapper (responseName name) response names;
            let rpc := {| RPC.Name := name; RPC.Input := input;
                          RPC.Output := output |} in
            onPackage (appendRPC rpc);;
            mret (Some rpc, names)
        | _, _ => mret (None, names)
        end
  end.

End Funcs.

(** ** Test data *)

Definition emptyPackage : Package.t :=
  {| Package.Name := []; Package.Path := []; Package.Options := ∅;
     Package.Messages := []; Package.Enums := []; Package.RPCs := [];
     Package.Imports := [] |}.

Definition emptyWorld : World := {| pkg := emptyPackage; warnings := [] |}.



Definition field (name : string) (typ : scanner.Ty) : scanner.Field.t :=
  {| scanner.Field.Name := str name; scanner.Field.Typ := typ |}.

(** The function of the tests [TestTransformFunc*Registered]. *)
Definition doFoo : scanner.Func.t :=
  {| scanner.Func.Name := str "DoFoo";
     scanner.Func.Receiver := None;
     scanner.Func.Input :=
       [scanner.NewNamed (str "foo") (str "Bar"); scanner.NewBasic (str "int")];
     scanner.Func.Output :=
       [scanner.NewNamed (str "foo") (str "Foo"); scanner.NewBasic (str "bool");
        scanner.NewNamed [] (str "error")];
     scanner.Func.IsVariadic := false |}.


(** The struct of the reserved-position property: a field that maps, a
    field of an unsupported type, a field that maps. *)
Definition threeFields : scanner.Struct.t :=
  {| scanner.Struct.Name := str "Foo";
     scanner.Struct.Fields :=
       [ field "First" (scanner.NewBasic (str "int32"));
         field "Invalid" (scanner.NewBasic (str "complex64"));
         field "Third" (scanner.NewBasic (str "int32")) ] |}.

(** The enum of [TestTransformEnum]. *)
Definition fooEnum : scanner.Enum.t :=
  {| scanner.Enum.Name := str "Foo";
     scanner.Enum.Values := [str "Foo"; str "Bar"; str "BarBaz"] |}.

(** ["github.cóm/fòo/bar"], of [TestToProtobufPkg]: U+00F3 and U+00F2 are
    the accented letters. *)
Definition accentedPath : gostring :=
  str "github.c" ++ [0xF3] ++ str "m/f" ++ [0xF2] ++ str "o/bar".

(** The same path with "com" under a macron, U+014D, and the one with a
    dash of [TestToProtobufPkg]. *)
Definition macronPath : gostring :=
  str "github.c" ++ [0x14D] ++ str "m/foo/bar".

Definition dashedPath : gostring := str "gopkg.in/go-foo/foo.v1".

(** The named type of [TestTransformType] that no table knows. *)
Definition fooBar : scanner.Ty := scanner.NewNamed (str "foo") (str "Bar").

(** A map from strings to an unsupported basic type. *)
Definition brokenMap : scanner.Ty :=
  scanner.NewMap (Some (scanner.NewBasic (str "string")))
                 (Some (scanner.NewBasic (str "complex64"))).

(** A struct whose only field is such a map. *)
Definition brokenStruct : scanner.Struct.t :=
  {| scanner.Struct.Name := str "Foo";
     scanner.Struct.Fields := [field "Lookup" brokenMap] |}.




(** ** Vocabulary of the statements *)

(** The key under which a type is looked up in the tables; a map type is
    not looked up. *)
Definition qualifiedName (typ : scanner.Ty) : option gostring :=
  match typ with
  | scanner.Basic name _ => Some name
  | scanner.Named path name _ => Some (scanner.Named_String path name)
  | scanner.Map _ _ _ => None
  end.

(** The warning that [transformStruct] gives for a field it drops. *)
Definition droppedWarning (s : scanner.Struct.t) (f : scanner.Field.t)
    : Warning :=
  {| format := "field %q of struct %q has an invalid type, ignoring field but reserving its position";
     args := [scanner.Field.Name f; scanner.Struct.Name s] |}.

(** The warning that [transformType] gives for a basic type without a
    mapping. *)
Definition unmappedWarning (name : gostring) : Warning :=
  {| format := "basic type %q is not defined in the mappings, ignoring";
     args := [name] |}.

Section Outcome.
Context {U : Unicode}.

(** The value that the loop of [transformEnum] adds for the name [v] at
    index [i]. *)
Definition enumValueAt (i : nat) (v : gostring) : EnumValue.t :=
  {| EnumValue.Name := toUpperSnakeCase v;
     EnumValue.Value := Z.of_nat i;
     EnumValue.Options := ∅ |}.

(** What [transformField] returns for the field [f] at index [i]. *)
Definition fieldAt (t : Transformer) (i : nat) (f : scanner.Field.t)
    : option Field.t :=
  fst (transformField t f (Z.of_nat i + 1) emptyWorld).

(** The fields that transform, from index [i] on, in order. *)
Fixpoint keptFrom (t : Transformer) (i : nat) (fs : list scanner.Field.t)
    : list Field.t :=
  match fs with
  | [] => []
  | f :: fs' =>
      match fieldAt t i f with
      | Some out => out :: keptFrom t (S i) fs'
      | None => keptFrom t (S i) fs'
      end
  end.

(** The positions of the fields that do not, from index [i] on. *)
Fixpoint droppedFrom (t : Transformer) (i : nat) (fs : list scanner.Field.t)
    : list Z :=
  match fs with
  | [] => []
  | f :: fs' =>
      match fieldAt t i f with
      | Some _ => droppedFrom t (S i) fs'
      | None => (Z.of_nat i + 1) :: droppedFrom t (S i) fs'
      end
  end.

End Outcome.

(** ** The rest of [mapping.go] *)

(** [strings.Join]. *)
Fixpoint strings_Join (elems : list gostring) (sep : gostring) : gostring :=
  match elems with
  | [] => []
  | a :: rest =>
      match rest with
      | [] => a
      | _ :: _ => a ++ sep ++ strings_Join rest sep
      end
  end.

(** The body of the loop of [ToGoOutPath]: the import mapping of a value
    that has both an import and a Go import. *)
Definition goOutEntry (value : ProtoType.t) : option gostring :=
  match ProtoType.Import value, ProtoType.GoImport value with
  | _ :: _, _ :: _ =>
      Some (str "M" ++ ProtoType.Import value ++ str "=" ++
            ProtoType.GoImport value)
  | _, _ => None
  end.

(** [ToGoOutPath] ranges over a Go map, whose iteration order is not
    specified: [order] is the order in which one run meets the entries. *)
Definition ToGoOutPath_in (order : list (gostring * ProtoType.t)) : gostring :=
  strings_Join (omap (fun e => goOutEntry (snd e)) order) (str ",").

(** The orders in which a run may meet the entries of [t]. *)
Definition iterationOf (t : TypeMappings)
    (order : list (gostring * ProtoType.t)) : Prop :=
  order ≡ₚ map_to_list t.

(** ** The scanner ([scanner.go])

    The scanner reads Go types through [go/types]. Of a [types.Type] it
    asks which of the kinds below it is, and of each kind the parts below;
    every other kind (channels, functions, interfaces, structs, ...) falls
    to the default case of its type switch, where only its rendering is
    used. The object of a named type has a package, or [nil] for one: the
    types of the universe scope, such as [error], belong to no package. *)

Module types.

Inductive Ty : Type :=
| Named (pkgPath : option gostring) (name : gostring)
| Basic (name : gostring)
| Slice (elem : Ty)
| Array (elem : Ty)
| Pointer (elem : Ty)
| Map (key elem : Ty)
| Other (rendering : gostring).

End types.

(** [strings.Replace(s, old, "", -1)] for a non-empty [old]: the runes of
    [s] are copied from left to right and every occurrence of [old] met on
    the way is skipped. [skip] counts the runes of an occurrence that are
    still to be passed over. *)
Fixpoint isPrefix (p s : gostring) : bool :=
  match p, s with
  | [], _ => true
  | _ :: _, [] => false
  | a :: p', b :: s' => (a =? b) && isPrefix p' s'
  end.

Fixpoint removeAllFrom (old : gostring) (skip : nat) (s : gostring) : gostring :=
  match s with
  | [] => []
  | r :: s' =>
      match skip with
      | S k => removeAllFrom old k s'
      | O =>
          if isPrefix old s
          then removeAllFrom old (length old - 1) s'
          else r :: removeAllFrom old 0 s'
      end
  end.

(** With an empty [old] and an empty replacement the string is returned
    as it is. *)
Definition strings_removeAll (old s : gostring) : gostring :=
  match old with
  | [] => s
  | _ :: _ => removeAllFrom old 0 s
  end.

(** [srcDir] stands for [filepath.Join(goPath, "src")]. *)
Definition removeGoPath (srcDir path : gostring) : gostring :=
  strings_removeAll (srcDir ++ [slash]) path.

(** A call either returns or panics. *)
Inductive Outcome (A : Type) : Type :=
| Panic
| Return (a : A).
Arguments Panic {A}.
Arguments Return {A} a.

(** [scanType], with the sink it warns to. A method call on the [nil]
    that [scanType] returns for an unsupported element panics, and so does
    [u.Obj().Pkg().Path()] on the [nil] package of a named type that has
    none. *)
Fixpoint scanType (srcDir : gostring) (typ : types.Ty) (log : list Warning)
    : Outcome (option scanner.Ty) * list Warning :=
  match typ with
  | types.Named pkgPath name =>
      match pkgPath with
      | Some path =>
          (Return (Some (scanner.NewNamed (removeGoPath srcDir path) name)), log)
      | None => (Panic, log)
      end
  | types.Basic name => (Return (Some (scanner.NewBasic name)), log)
  | types.Slice elem | types.Array elem =>
      match scanType srcDir elem log with
      | (Return (Some t), log) => (Return (Some (scanner.SetRepeated true t)), log)
      | (Return None, log) => (Panic, log)
      | (Panic, log) => (Panic, log)
      end
  | types.Pointer elem => scanType srcDir elem log
  | types.Map key elem =>
      match scanType srcDir key log with
      | (Return key, log) =>
          match scanType srcDir elem log with
          | (Return val, log) => (Return (Some (scanner.NewMap key val)), log)
          | (Panic, log) => (Panic, log)
          end
      | (Panic, log) => (Panic, log)
      end
  | types.Other rendering =>
      (Return None,
       log ++ [ {| format := "ignoring type %s"; args := [rendering] |} ])
  end.

(** The enum values that [newEnum] sorts: a name and the position that
    the constant's data gives it. *)
Module enumValue.
Record t := { name : gostring; pos : Z }.
End enumValue.

(** The conversion [uint(x)] of an [int]. *)
Definition uint (x : Z) : Z := x mod 2 ^ 64.

(** The first loop of [newEnum]: the values that are constants, in the
    order of [vals]. [consts] maps the name of a constant to the [int] in
    its [Data]. *)
Definition constValues (consts : gmap gostring Z) (vals : list gostring)
    : list enumValue.t :=
  omap (fun v => match consts !! v with
                 | Some data => Some {| enumValue.name := v;
                                        enumValue.pos := uint data |}
                 | None => None
                 end) vals.

(** [Less] of [enumValues]. *)
Definition enumValues_Less (a b : enumValue.t) : bool :=
  enumValue.pos a <? enumValue.pos b.

(** [sort.Stable] with that [Less]: an element goes in front of the first
    one that is not less than it, so equal elements keep their order. *)
Fixpoint insertValue (x : enumValue.t) (l : list enumValue.t)
    : list enumValue.t :=
  match l with
  | [] => [x]
  | y :: l' =>
      if enumValues_Less y x then y :: insertValue x l' else x :: y :: l'
  end.

Definition sort_Stable (l : list enumValue.t) : list enumValue.t :=
  foldr insertValue [] l.

Definition newEnum (consts : gmap gostring Z) (name : gostring)
    (vals : list gostring) : scanner.Enum.t :=
  {| scanner.Enum.Name := name;
     scanner.Enum.Values :=
       map enumValue.name (sort_Stable (constValues consts vals)) |}.

(** ** More vocabulary *)

(** A Go type that is bytes in sequence: the basic type byte under at
    least one slice or array, with pointers anywhere. *)
Fixpoint underByte (seen : bool) (typ : types.Ty) : bool :=
  match typ with
  | types.Basic name => seen && bool_decide (name = str "byte")
  | types.Slice elem | types.Array elem => underByte true elem
  | types.Pointer elem => underByte seen elem
  | _ => false
  end.

(** A Go type with no unsupported kind in it and no named type without a
    package. *)
Fixpoint supported (typ : types.Ty) : bool :=
  match typ with
  | types.Named (Some _) _ => true
  | types.Named None _ => false
  | types.Basic _ => true
  | types.Slice elem | types.Array elem | types.Pointer elem => supported elem
  | types.Map key elem => supported key && supported elem
  | types.Other _ => false
  end.

(** Two packages that differ in their imports at most. *)
Definition sameButImports (p q : Package.t) : Prop :=
  Package.Name p = Package.Name q /\ Package.Path p = Package.Path q /\
  Package.Options p = Package.Options q /\
  Package.Messages p = Package.Messages q /\
  Package.Enums p = Package.Enums q /\ Package.RPCs p = Package.RPCs q.

Section MoreOutcome.
Context {U : Unicode}.

(** What [transformType] returns for a type, or for the [nil] type. *)
Definition typeOf (t : Transformer) (typ : option scanner.Ty) : option Ty :=
  match typ with
  | Some typ => fst (transformType t typ emptyWorld)
  | None => None
  end.

(** The message that [transformStruct] returns for a struct. *)
Definition messageOf (t : Transformer) (s : scanner.Struct.t) : Message.t :=
  {| Message.Name := scanner.Struct.Name s;
     Message.Fields := keptFrom t 0 (scanner.Struct.Fields s);
     Message.Reserved := droppedFrom t 0 (scanner.Struct.Fields s);
     Message.Options := ∅ |}.

(** The warnings that [transformType] gives for a type, or for the [nil]
    type. *)
Definition warningsOf (t : Transformer) (typ : option scanner.Ty)
    : list Warning :=
  match typ with
  | Some typ => warnings (snd (transformType t typ emptyWorld))
  | None => []
  end.

(** The number of runes that get a separator. *)
Definition separators (s : gostring) : nat :=
  length (List.filter (needsSeparator s) (seq 0 (length s))).

End MoreOutcome.

(** What an ASCII rune of a package path becomes in the namespace: a
    slash or a dot becomes a dot, a letter or a digit stays, and any other
    rune goes. *)
Definition asciiNamespaceRune (r : rune) : option rune :=
  if (r =? slash) || (r =? dot) then Some dot
  else if inRange 0x30 0x39 r || inRange 0x41 0x5A r || inRange 0x61 0x7A r
       then Some r
       else None.

Definition isASCII (r : rune) : bool := inRange 0 0x7F r.

(** A Go type that is of an unsupported kind once its pointers are
    followed. *)
Fixpoint pointsToOther (typ : types.Ty) : bool :=
  match typ with
  | types.Other _ => true
  | types.Pointer elem => pointsToOther elem
  | _ => false
  end.

(** An occurrence of [old] in [s]. *)
Definition occursIn (old s : gostring) : Prop :=
  exists a b : gostring, s = a ++ old ++ b.

(** The override table of the test suite. *)
Definition suiteMappings : TypeMappings :=
  {[ str "url.URL" := basicType "string";
     str "time.Duration" := basicType "uint64" ]}.

(** The Go type [[]*time.Time]. *)
Definition goTimes : types.Ty :=
  types.Slice (types.Pointer (types.Named (Some (str "time")) (str "Time"))).

(** The Go type [map[string][]*int]. *)
Definition goMapOfSlices : types.Ty :=
  types.Map (types.Basic (str "string"))
            (types.Slice (types.Pointer (types.Basic (str "int")))).

(** Constants of an enum, with the values of their iota. *)
Definition fooConsts : gmap gostring Z :=
  {[ str "Foo" := 0; str "Bar" := 1; str "BarBaz" := 2 ]}.

(** The two import mappings of the default table. *)
Definition timestampGoOut : gostring :=
  str "Mgoogle/protobuf/timestamp.proto=github.com/gogo/protobuf/types".
Definition durationGoOut : gostring :=
  str "Mgoogle/protobuf/duration.proto=github.com/gogo/protobuf/types".

(** The options that the decorators of the table set. *)
Definition temporalOptions (native : string) (options : Options) : Options :=
  <[str "(gogoproto.nullable)" := NewLiteralValue (str "false")]>
    (<[str native := NewLiteralValue (str "true")]> options).

(** ** Vocabulary of the namespace *)

(** What the chain keeps of a rune: its full decomposition without the
    nonspacing marks. *)
Definition baseRunes (r : rune) : gostring :=
  List.filter (fun x => negb (Ucd.isMn x)) (Ucd.fullDecomp r).

(** What a rune of a path gives to the namespace, ahead of the last
    composition: a dot for a slash or a dot, its base runes for a letter
    or a number, and nothing for any other rune. *)
Definition foldRune (r : rune) : gostring :=
  if (r =? slash) || (r =? dot) then [dot]
  else if Ucd.isLetter r || Ucd.isNumber r then baseRunes r
  else [].

(** A rune that decomposition, reordering and the removal of marks leave
    alone: a starter that is no nonspacing mark and is its own
    decomposition. *)
Definition plain (x : rune) : bool :=
  (Ucd.ccc x =? 0) && negb (Ucd.isMn x) &&
  bool_decide (Ucd.fullDecomp x = [x]).

(** A plain rune that is a letter, a number or the dot. *)
Definition steady (x : rune) : bool := cleanRune (U := ucd) x && plain x.

(** The Hangul vowels and trailing consonants join the syllable in front
    of them. *)
Definition joins (x : rune) : bool := Ucd.isVowel x || Ucd.isTrailing x.

Definition standsAlone (x : rune) : bool := steady x && negb (joins x).

(** A letter whose decomposition ends in a spacing mark: the two compose
    again, to a letter or a number. *)
Definition oddPair (a m : rune) : bool :=
  standsAlone a && plain m &&
  match Ucd.composePair a m with
  | Some c => cleanRune (U := ucd) c
  | None => false
  end.

(** The decomposition of a letter or a number begins with a starter, is
    in canonical order, and its base runes are steady runes or one odd
    pair. *)
Definition blockOK (r : rune) : bool :=
  match Ucd.fullDecomp r with
  | x :: _ => Ucd.ccc x =? 0
  | [] => false
  end &&
  bool_decide (Ucd.reorder (Ucd.fullDecomp r) = Ucd.fullDecomp r) &&
  (forallb steady (baseRunes r) ||
   match baseRunes r with
   | [a; m] => oddPair a m
   | _ => false
   end).

Definition propertyOK (row : rune * rune * (Ucd.Class * Z)) : bool :=
  match row with
  | (_, _, (Ucd.Letter, k)) | (_, _, (Ucd.Number, k)) => k =? 0
  | _ => true
  end.

Definition decompositionOK (e : rune * gostring) : bool :=
  implb (cleanRune (U := ucd) (fst e)) (blockOK (fst e)).

(** The second rune of a composite is no letter and no number, and the
    composite decomposes as its first rune does, with the second after
    it. *)
Definition compositionOK (e : rune * list (rune * rune)) : bool :=
  forallb (fun '(b, c) =>
             negb (cleanRune (U := ucd) b) &&
             bool_decide (Ucd.fullDecomp c = Ucd.fullDecomp (fst e) ++ [b]))
          (snd e).

(** The runes from [lo] on, [n] of them. *)
Definition runesFrom (lo : rune) (n : Z) : list rune :=
  map (fun i => lo + Z.of_nat i) (seq 0 (Z.to_nat n)).

Definition jamos : list rune :=
  runesFrom Ucd.LBase Ucd.LCount ++ runesFrom Ucd.VBase Ucd.VCount ++
  runesFrom (Ucd.TBase + 1) (Ucd.TCount - 1).

(** The Latin-1 table against the Unicode tables: the classes and the
    case of a rune, and for a rune of Latin-1 its decomposition and the
    composition of that. *)
Definition sameClasses (r : rune) : bool :=
  eqb (Latin1.isUpper r) (Ucd.isUpper r) &&
  eqb (Latin1.isLetter r) (Ucd.isLetter r) &&
  eqb (Latin1.isNumber r) (Ucd.isNumber r) &&
  eqb (Latin1.isMn r) (Ucd.isMn r) &&
  (Latin1.toLower r =? Ucd.toLower r) && (Latin1.toUpper r =? Ucd.toUpper r).

Definition sameForms (r : rune) : bool :=
  bool_decide (Latin1.nfd [r] = Ucd.nfd [r]) &&
  bool_decide (Latin1.nfc (Latin1.nfd [r]) = Ucd.nfc [r]).

(** A rune of a path whose base runes stay as they are in the last
    composition. *)
Definition foldsAlone (r : rune) : bool := forallb standsAlone (foldRune r).

(** Canonical composition on starters alone: each rune composes with the
    last starter or becomes it. *)
Fixpoint composeStarters (starter : rune) (s : gostring) : gostring :=
  match s with
  | [] => [starter]
  | ch :: s' =>
      match Ucd.composePair starter ch with
      | Some composite => composeStarters composite s'
      | None => starter :: composeStarters ch s'
      end
  end.

(** A string of steady runes and odd pairs. *)
Inductive blocks : gostring -> Prop :=
| blocks_nil : blocks []
| blocks_one (x : rune) (s : gostring) :
    steady x = true -> blocks s -> blocks (x :: s)
| blocks_two (a m : rune) (s : gostring) :
    oddPair a m = true -> blocks s -> blocks (a :: m :: s).

(** * Properties *)

(** ** Identifier case *)

Section SnakeCase.
Context {U : Unicode}.

Lemma fold_snakeStep_snoc (p : gostring) (r : rune) (st : snakeState) :
  fold_left snakeStep (p ++ [r]) st = snakeStep (fold_left snakeStep p st) r.
Proof. now rewrite fold_left_app. Qed.

(** After the prefix [p] the loop index is its length and [lastWasUpper]
    tells whether its last rune is uppercase. *)
Lemma snake_invariant (p : gostring) :
  let st := fold_left snakeStep p snakeInit in
  idx st = length p /\
  lastWasUpper st = match length p with
                    | O => false
                    | S j => IsUpper (nth j p 0)
                    end.
Proof.
  induction p as [|r p IH] using rev_ind; [easy|].
  cbn zeta in *. rewrite fold_snakeStep_snoc. destruct IH as [Hi _].
  cbn [snakeStep idx lastWasUpper]. rewrite Hi, length_app. cbn [length].
  split; [lia|].
  replace (length p + 1)%nat with (S (length p)) by lia.
  now rewrite app_nth2, Nat.sub_diag by lia.
Qed.

Lemma needsSeparator_prefix (p q : gostring) (i : nat) :
  (i < length p)%nat -> needsSeparator (p ++ q) i = needsSeparator p i.
Proof.
  intros Hi. destruct i as [|j]; [easy|]. cbn [needsSeparator].
  now rewrite !app_nth1 by lia.
Qed.

Lemma flat_map_ext_seq {A : Type} (f g : nat -> list A) (a n : nat) :
  (forall i, (a <= i < a + n)%nat -> f i = g i) ->
  flat_map f (seq a n) = flat_map g (seq a n).
Proof.
  revert a. induction n as [|n IH]; intros a H; [easy|].
  cbn [seq flat_map]. rewrite (H a) by lia. f_equal. apply IH.
  intros i Hi. apply H. lia.
Qed.

(** The loop produces the rune-by-rune reading of the rule. *)
Lemma toLowerSnakeCase_runes (s : gostring) :
  toLowerSnakeCase s = lowerSnakeRunes s.
Proof.
  unfold toLowerSnakeCase, lowerSnakeRunes.
  induction s as [|r p IH] using rev_ind; [easy|].
  rewrite fold_snakeStep_snoc, length_app. cbn [length].
  rewrite seq_app, flat_map_app. cbn [seq flat_map].
  rewrite app_nil_r, Nat.add_0_l.
  destruct (snake_invariant p) as [Hi Hl]. cbn zeta in Hi, Hl.
  cbn [snakeStep buf]. rewrite Hi, Hl, IH.
  rewrite (flat_map_ext_seq
             (fun i => if needsSeparator (p ++ [r]) i
                       then [underscore; ToLower (nth i (p ++ [r]) 0)]
                       else [ToLower (nth i (p ++ [r]) 0)])
             (fun i => if needsSeparator p i
                       then [underscore; ToLower (nth i p 0)]
                       else [ToLower (nth i p 0)])).
  2:{ intros i Hi'. rewrite needsSeparator_prefix by lia.
      now rewrite app_nth1 by lia. }
  rewrite app_nth2, Nat.sub_diag by lia. cbn [nth].
  destruct (length p) as [|j] eqn:Hlen.
  - cbn [needsSeparator Nat.eqb negb]. now rewrite andb_false_r.
  - cbn [needsSeparator Nat.eqb negb].
    rewrite <- Hlen, app_nth2, Nat.sub_diag by lia. cbn [nth].
    rewrite app_nth1 by lia. rewrite andb_true_r.
    destruct (IsUpper r && negb (IsUpper (nth j p 0)));
      now rewrite <- ?app_assoc.
Qed.

Lemma map_flat_map {A B C : Type} (f : B -> C) (g : A -> list B) (l : list A) :
  map f (flat_map g l) = flat_map (fun x => map f (g x)) l.
Proof.
  induction l as [|x l IH]; [easy|].
  cbn [flat_map]. now rewrite map_app, IH.
Qed.

(** Lowercasing after the insertion is lowercasing rune by rune, as long
    as the separator has no lowercase form of its own. *)
Lemma lowerSnakeSpec_runes (s : gostring) :
  ToLower underscore = underscore -> lowerSnakeSpec s = lowerSnakeRunes s.
Proof.
  intros Hu. unfold lowerSnakeSpec, insertSeparators, lowerSnakeRunes.
  rewrite map_flat_map. apply flat_map_ext. intros i.
  destruct (needsSeparator s i); cbn [map]; now rewrite ?Hu.
Qed.

End SnakeCase.

(** C2. For every identifier, [toLowerSnakeCase] puts an underscore before
    exactly the uppercase letters that are not the first rune and do not
    follow an uppercase letter, and lowercases every rune: it yields the
    rune-by-rune reading of that rule for every Unicode table, and the
    reading "insert, then lowercase everything" for every table whose
    lowercase of the underscore is the underscore. On the Latin-1 table,
    "fooBarBaz" and "FooBarBaz" give "foo_bar_baz", "foo1barBaz" gives
    "foo1bar_baz", "fooBAR" gives "foo_bar" and "FBar" gives "fbar". *)
Theorem toLowerSnakeCase_spec :
  (forall (U : Unicode) (s : gostring),
      toLowerSnakeCase s = lowerSnakeRunes s) /\
  (forall (U : Unicode), ToLower underscore = underscore ->
      forall s : gostring, toLowerSnakeCase s = lowerSnakeSpec s) /\
  toLowerSnakeCase (U := latin1) (str "fooBarBaz") = str "foo_bar_baz" /\
  toLowerSnakeCase (U := latin1) (str "FooBarBaz") = str "foo_bar_baz" /\
  toLowerSnakeCase (U := latin1) (str "foo1barBaz") = str "foo1bar_baz" /\
  toLowerSnakeCase (U := latin1) (str "fooBAR") = str "foo_bar" /\
  toLowerSnakeCase (U := latin1) (str "FBar") = str "fbar".
Proof.
  split; [intros U s; apply toLowerSnakeCase_runes|].
  split.
  - intros U Hu s. rewrite lowerSnakeSpec_runes by exact Hu.
    apply toLowerSnakeCase_runes.
  - repeat split; vm_compute; reflexivity.
Qed.

Lemma toLowerSnakeCase_spec_witness :
  ToLower (Unicode := latin1) underscore = underscore /\
  toLowerSnakeCase (U := latin1) (str "myHTTPServer") =
    lowerSnakeSpec (U := latin1) (str "myHTTPServer").
Proof.
  split; [reflexivity|].
  apply (proj1 (proj2 toLowerSnakeCase_spec) latin1). reflexivity.
Defined.

(** ** Enums *)

Section Enums.
Context {U : Unicode}.

Lemma forRange_addValue (vs : list gostring) (i : nat) (enum : Enum.t) :
  let enum' :=
    forRange (fun i v enum =>
                Enum_addValue (toUpperSnakeCase v) (Z.of_nat i) ∅ enum)
             i vs enum in
  Enum.Name enum' = Enum.Name enum /\
  Enum.Values enum' =
    Enum.Values enum ++ imap (fun k => enumValueAt (i + k)) vs.
Proof.
  revert i enum. induction vs as [|v vs IH]; intros i enum; cbn zeta.
  - cbn. now rewrite app_nil_r.
  - cbn [forRange imap]. destruct (IH (S i) (Enum_addValue (toUpperSnakeCase v) (Z.of_nat i) ∅ enum)) as [Hn Hv].
    cbn zeta in Hn, Hv. rewrite Hn, Hv. split; [easy|].
    cbn [Enum_addValue Enum.Values]. rewrite <- app_assoc. cbn [app].
    rewrite Nat.add_0_r. do 2 f_equal.
    apply imap_ext. intros k x _. cbn. f_equal. lia.
Qed.

Lemma transformEnum_values (t : Transformer) (e : scanner.Enum.t) :
  Enum.Values (transformEnum t e) = imap enumValueAt (scanner.Enum.Values e).
Proof.
  unfold transformEnum.
  destruct (forRange_addValue (scanner.Enum.Values e) 0
              {| Enum.Name := scanner.Enum.Name e; Enum.Values := [];
                 Enum.Options := ∅ |}) as [_ Hv].
  cbn zeta in Hv. rewrite Hv. reflexivity.
Qed.

Lemma transformEnum_lookup (t : Transformer) (e : scanner.Enum.t) (i : nat) :
  Enum.Values (transformEnum t e) !! i =
    enumValueAt i <$> scanner.Enum.Values e !! i.
Proof. rewrite transformEnum_values. apply list_lookup_imap. Qed.

End Enums.

(** C3. The transformed enum has one value per declared value, in declared
    order: the value at index [i] bears the upper-snake-case of the [i]-th
    declared name and the ordinal [i]. The declared values "Foo", "Bar",
    "BarBaz" yield ("FOO", 0), ("BAR", 1), ("BAR_BAZ", 2), in that order. *)
Theorem transformEnum_ordinals :
  (forall (U : Unicode) (t : Transformer) (e : scanner.Enum.t),
      length (Enum.Values (transformEnum t e)) =
        length (scanner.Enum.Values e) /\
      forall i : nat,
        Enum.Values (transformEnum t e) !! i =
          (fun v => {| EnumValue.Name := toUpperSnakeCase v;
                       EnumValue.Value := Z.of_nat i;
                       EnumValue.Options := ∅ |})
            <$> scanner.Enum.Values e !! i) /\
  map (fun v => (EnumValue.Name v, EnumValue.Value v))
      (Enum.Values (transformEnum (U := latin1) NewTransformer fooEnum)) =
    [(str "FOO", 0); (str "BAR", 1); (str "BAR_BAZ", 2)].
Proof.
  split.
  - intros U t e. split.
    + rewrite transformEnum_values. apply length_imap.
    + intros i. apply transformEnum_lookup.
  - vm_compute. reflexivity.
Qed.

(** ** Package names *)

Section PackageName.
Context {U : Unicode}.

Lemma pkgRune_clean (r : rune) :
  pkgRune r <> space -> cleanRune (pkgRune r) = true.
Proof.
  unfold pkgRune, cleanRune.
  destruct ((r =? slash) || (r =? dot)) eqn:Hsep; [easy|].
  apply orb_false_iff in Hsep as [Hs Hd].
  destruct (IsLetter r || IsNumber r) eqn:Hc; [|easy].
  intros Hsp. apply Z.eqb_neq in Hsp. now rewrite Hs, Hd, Hsp.
Qed.

(** What is left of a path after [strings.Map] and [strings.Replace] is
    made of letters, numbers and dots. *)
Lemma removeSpaces_clean (s : gostring) :
  forallb cleanRune (removeSpaces (map pkgRune s)) = true.
Proof.
  induction s as [|r s IH]; [easy|].
  cbn [map removeSpaces List.filter]. fold (removeSpaces (map pkgRune s)).
  destruct (pkgRune r =? space) eqn:Hsp; cbn [negb]; [exact IH|].
  cbn [forallb]. rewrite IH, andb_true_r.
  apply pkgRune_clean. now apply Z.eqb_neq.
Qed.

Lemma cleanRune_fixed (r : rune) :
  cleanRune r = true -> pkgRune r = r /\ (r =? space) = false.
Proof.
  unfold cleanRune, pkgRune. intros H.
  apply orb_true_iff in H as [Hd|H].
  - apply Z.eqb_eq in Hd. subst r. now rewrite orb_true_r.
  - apply andb_true_iff in H as [H Hc]. apply andb_true_iff in H as [Hs Hsp].
    apply negb_true_iff in Hs, Hsp. rewrite Hs, Hc, Hsp. cbn [orb].
    now destruct (r =? dot) eqn:Hd; [apply Z.eqb_eq in Hd|].
Qed.

(** Such text passes the two steps unchanged. *)
Lemma removeSpaces_fixed (s : gostring) :
  forallb cleanRune s = true -> removeSpaces (map pkgRune s) = s.
Proof.
  induction s as [|r s IH]; [easy|].
  cbn [forallb]. intros H. apply andb_true_iff in H as [Hr Hs].
  destruct (cleanRune_fixed r Hr) as [Hp Hsp].
  cbn [map removeSpaces List.filter]. rewrite Hp, Hsp. cbn [negb].
  f_equal. now apply IH.
Qed.

Lemma removeMn_idempotent (s : gostring) : removeMn (removeMn s) = removeMn s.
Proof.
  unfold removeMn. induction s as [|r s IH]; [easy|].
  cbn [List.filter]. destruct (IsMn r) eqn:Hr; cbn [negb]; [exact IH|].
  cbn [List.filter]. rewrite Hr. cbn [negb]. now f_equal.
Qed.

End PackageName.

(** *** The Latin-1 table *)

Module Latin1Facts.
Import Latin1.

Lemma table_ok : forallb entryOK decompositions = true.
Proof. vm_compute. reflexivity. Qed.

Lemma entry_facts (c b m : rune) :
  In (c, (b, m)) decompositions ->
  decompose c = Some (b, m) /\ decompose b = None /\ decompose m = None /\
  isMn m = true /\ isMn b = false /\ cleanRune (U := latin1) b = true.
Proof.
  intros Hin. pose proof table_ok as H.
  rewrite forallb_forall in H. specialize (H _ Hin). cbn [entryOK] in H.
  repeat (apply andb_true_iff in H as [H ?]).
  unfold undecomposed in *.
  repeat match goal with
         | Hb : bool_decide _ = true |- _ => apply bool_decide_eq_true in Hb
         | Hb : negb _ = true |- _ => apply negb_true_iff in Hb
         end.
  easy.
Qed.

Lemma decompose_In (r b m : rune) :
  decompose r = Some (b, m) -> In (r, (b, m)) decompositions.
Proof.
  unfold decompose. destruct (List.find _ _) as [[c [b' m']]|] eqn:Hf; [|easy].
  cbn. intros [= <- <-]. apply find_some in Hf as [Hin Heq].
  cbn in Heq. apply Z.eqb_eq in Heq. now subst c.
Qed.

Lemma compose_In (b m c : rune) :
  compose b m = Some c -> In (c, (b, m)) decompositions.
Proof.
  unfold compose. destruct (List.find _ _) as [[c' [b' m']]|] eqn:Hf; [|easy].
  cbn. intros [= <-]. apply find_some in Hf as [Hin Heq].
  cbn in Heq. apply andb_true_iff in Heq as [Hb Hm].
  apply Z.eqb_eq in Hb, Hm. now subst.
Qed.

Lemma nfd_cons (r : rune) (s : gostring) :
  nfd (r :: s) = match decompose r with
                 | Some (b, m) => [b; m]
                 | None => [r]
                 end ++ nfd s.
Proof. reflexivity. Qed.

Lemma nfc_cons (b m : rune) (rest : gostring) :
  nfc (b :: m :: rest) = match compose b m with
                         | Some c => c :: nfc rest
                         | None => b :: nfc (m :: rest)
                         end.
Proof. reflexivity. Qed.

Lemma nfd_nfc_bounded (n : nat) (s : gostring) :
  (length s <= n)%nat -> nfd (nfc s) = nfd s.
Proof.
  revert s. induction n as [|n IH]; intros s Hn.
  - destruct s; [reflexivity | cbn in Hn; lia].
  - destruct s as [|b [|m rest]]; [reflexivity..|].
    cbn [length] in Hn. rewrite nfc_cons.
    destruct (compose b m) as [c|] eqn:Hc.
    + apply compose_In, entry_facts in Hc as (Hc & Hb & Hm & _).
      rewrite !nfd_cons, Hc, Hb, Hm. cbn [app]. do 2 f_equal.
      apply IH. lia.
    + rewrite (nfd_cons b (nfc _)), (nfd_cons b (m :: rest)). f_equal.
      apply IH. cbn [length]. lia.
Qed.

Lemma nfd_undecomposed (s : gostring) :
  forallb undecomposed (nfd s) = true.
Proof.
  induction s as [|r s IH]; [reflexivity|].
  rewrite nfd_cons, forallb_app, IH, andb_true_r.
  destruct (decompose r) as [[b m]|] eqn:Hr.
  - apply decompose_In, entry_facts in Hr as (_ & Hb & Hm & _).
    cbn [forallb]. unfold undecomposed.
    now rewrite !bool_decide_eq_true_2.
  - cbn [forallb]. unfold undecomposed. now rewrite bool_decide_eq_true_2.
Qed.

Lemma nfd_fixed (s : gostring) :
  forallb undecomposed s = true -> nfd s = s.
Proof.
  induction s as [|r s IH]; [reflexivity|].
  cbn [forallb]. intros H. apply andb_true_iff in H as [Hr Hs].
  apply bool_decide_eq_true in Hr. rewrite nfd_cons, Hr. cbn [app].
  f_equal. now apply IH.
Qed.

Lemma forallb_filter {A : Type} (p q : A -> bool) (l : list A) :
  forallb p l = true -> forallb p (List.filter q l) = true.
Proof.
  induction l as [|x l IH]; [easy|].
  cbn [forallb List.filter]. intros H. apply andb_true_iff in H as [Hx Hl].
  destruct (q x); cbn [forallb]; rewrite ?Hx; auto.
Qed.

Lemma forallb_weaken {A : Type} (p q : A -> bool) (l : list A) :
  (forall x, p x = true -> q x = true) ->
  forallb p l = true -> forallb q l = true.
Proof.
  intros Hpq. induction l as [|x l IH]; [easy|].
  cbn [forallb]. intros H. apply andb_true_iff in H as [Hx Hl].
  now rewrite (Hpq x Hx), IH.
Qed.

Lemma nfc_fixed (s : gostring) :
  forallb (fun r => negb (isMn r)) s = true -> nfc s = s.
Proof.
  induction s as [|b s IH]; [reflexivity|].
  cbn [forallb]. intros H. apply andb_true_iff in H as [_ Hs].
  specialize (IH Hs). destruct s as [|m rest]; [reflexivity|].
  rewrite nfc_cons. destruct (compose b m) as [c|] eqn:Hc.
  - apply compose_In, entry_facts in Hc as (_ & _ & _ & Hm & _).
    cbn [forallb] in Hs. now rewrite Hm in Hs.
  - f_equal. exact IH.
Qed.

Lemma mark_not_clean (r : rune) :
  isMn r = true -> cleanRune (U := latin1) r = false.
Proof.
  unfold isMn, cleanRune, inRange, dot, slash, space. cbn.
  unfold isLetter, isNumber, inRange. intros H. lia.
Qed.

(** Decomposing clean text and dropping the marks leaves clean text with
    no mark in it. *)
Lemma removeMn_nfd_clean (s : gostring) :
  forallb (cleanRune (U := latin1)) s = true ->
  forallb (fun r => cleanRune (U := latin1) r && negb (isMn r))
          (removeMn (U := latin1) (nfd s)) = true.
Proof.
  induction s as [|r s IH]; [reflexivity|].
  cbn [forallb]. intros H. apply andb_true_iff in H as [Hr Hs].
  specialize (IH Hs). rewrite nfd_cons. unfold removeMn in *.
  rewrite List.filter_app, forallb_app, IH, andb_true_r.
  destruct (decompose r) as [[b m]|] eqn:Hd.
  - apply decompose_In, entry_facts in Hd as (_ & _ & _ & Hm & Hb & Hcb).
    cbn [List.filter IsMn latin1]. rewrite Hb, Hm. cbn [negb forallb].
    now rewrite Hcb, Hb.
  - cbn [List.filter IsMn latin1].
    destruct (isMn r) eqn:Hm.
    + apply mark_not_clean in Hm. congruence.
    + cbn [negb forallb]. now rewrite Hr, Hm.
Qed.

End Latin1Facts.

(** ** The namespace over all of Unicode *)

Module UcdFacts.

(** *** Searching a table *)

Lemma search_rows {A : Type} (t : Ucd.RangeTree A) (r : rune) (a : A) :
  Ucd.search t r = Some a ->
  exists lo hi : rune, In (lo, hi, a) (Ucd.rowsOf t) /\ lo <= r <= hi.
Proof.
  induction t as [|below IHb lo hi a' above IHa]; cbn [Ucd.search Ucd.rowsOf];
    [easy|].
  destruct (r <? lo) eqn:H1.
  { intros H. destruct (IHb H) as (lo' & hi' & Hin & Hr). exists lo', hi'.
    split; [apply in_or_app; now left | exact Hr]. }
  destruct (hi <? r) eqn:H2.
  { intros H. destruct (IHa H) as (lo' & hi' & Hin & Hr). exists lo', hi'.
    split; [apply in_or_app; right; now right | exact Hr]. }
  intros [= <-]. exists lo, hi. split; [apply in_or_app; right; now left|].
  apply Z.ltb_ge in H1, H2. lia.
Qed.

Lemma ordered_bounds {A : Type} (t : Ucd.RangeTree A) :
  forall (lower upper lo hi : Z) (a : A),
    Ucd.ordered t lower upper = true ->
    In (lo, hi, a) (Ucd.rowsOf t) ->
    lower < lo /\ lo <= hi /\ hi < upper.
Proof.
  induction t as [|below IHb lo' hi' a' above IHa];
    intros lower upper lo hi a Ho Hin; cbn [Ucd.ordered Ucd.rowsOf] in *;
    [easy|].
  repeat (apply andb_true_iff in Ho as [Ho ?]).
  apply Z.ltb_lt in Ho. apply Z.leb_le in H2. apply Z.ltb_lt in H1.
  apply in_app_or in Hin as [Hin|[Hin|Hin]].
  - specialize (IHb _ _ _ _ _ H0 Hin). lia.
  - injection Hin as <- <- <-. lia.
  - specialize (IHa _ _ _ _ _ H Hin). lia.
Qed.

(** In an ordered table the search finds the range that holds the rune. *)
Lemma search_found {A : Type} (t : Ucd.RangeTree A) :
  forall (lower upper lo hi : Z) (a : A) (r : rune),
    Ucd.ordered t lower upper = true ->
    In (lo, hi, a) (Ucd.rowsOf t) ->
    lo <= r <= hi ->
    Ucd.search t r = Some a.
Proof.
  induction t as [|below IHb lo' hi' a' above IHa];
    intros lower upper lo hi a r Ho Hin Hr;
    cbn [Ucd.ordered Ucd.rowsOf Ucd.search] in *; [easy|].
  repeat (apply andb_true_iff in Ho as [Ho ?]).
  apply Z.ltb_lt in Ho. apply Z.leb_le in H2. apply Z.ltb_lt in H1.
  apply in_app_or in Hin as [Hin|[Hin|Hin]].
  - pose proof (ordered_bounds _ _ _ _ _ _ H0 Hin) as Hb.
    assert (Hlt : (r <? lo') = true) by (apply Z.ltb_lt; lia).
    rewrite Hlt. now apply (IHb lower lo' lo hi).
  - injection Hin as <- <- <-.
    assert (Hlt : (r <? lo') = false) by (apply Z.ltb_ge; lia).
    assert (Hgt : (hi' <? r) = false) by (apply Z.ltb_ge; lia).
    now rewrite Hlt, Hgt.
  - pose proof (ordered_bounds _ _ _ _ _ _ H Hin) as Hb.
    assert (Hlt : (r <? lo') = false) by (apply Z.ltb_ge; lia).
    assert (Hgt : (hi' <? r) = true) by (apply Z.ltb_lt; lia).
    rewrite Hlt, Hgt. now apply (IHa hi' upper lo hi).
Qed.

(** *** The tables *)

Lemma propertyTree_rows : Ucd.rowsOf Ucd.propertyTree = Ucd.properties.
Proof. vm_compute. reflexivity. Qed.

Lemma propertyTree_ordered :
  Ucd.ordered Ucd.propertyTree (-1) 0x110000 = true.
Proof. vm_compute. reflexivity. Qed.

Lemma decompositionTree_rows :
  Ucd.rowsOf Ucd.decompositionTree = Ucd.byRune Ucd.decompositions.
Proof. vm_compute. reflexivity. Qed.

Lemma decompositionTree_ordered :
  Ucd.ordered Ucd.decompositionTree (-1) 0x110000 = true.
Proof. vm_compute. reflexivity. Qed.

Lemma compositionTree_rows :
  Ucd.rowsOf Ucd.compositionTree = Ucd.byRune Ucd.compositions.
Proof. vm_compute. reflexivity. Qed.

Lemma compositionTree_ordered :
  Ucd.ordered Ucd.compositionTree (-1) 0x110000 = true.
Proof. vm_compute. reflexivity. Qed.

Lemma properties_ok : forallb propertyOK Ucd.properties = true.
Proof. vm_compute. reflexivity. Qed.

Lemma decompositions_ok : forallb decompositionOK Ucd.decompositions = true.
Proof. vm_compute. reflexivity. Qed.

Lemma compositions_ok : forallb compositionOK Ucd.compositions = true.
Proof. vm_compute. reflexivity. Qed.

Lemma jamos_ok : forallb steady jamos = true.
Proof. vm_compute. reflexivity. Qed.

Lemma syllables_row :
  In (0xAC00, 0xD7A3, (Ucd.Letter, 0)) Ucd.properties.
Proof.
  assert (H : List.find (fun row => fst (fst row) =? 0xAC00) Ucd.properties =
              Some (0xAC00, 0xD7A3, (Ucd.Letter, 0)))
    by (vm_compute; reflexivity).
  now apply find_some in H.
Qed.

Lemma byRune_In {A : Type} (rows : list (rune * A)) (lo hi : rune) (a : A) :
  In (lo, hi, a) (Ucd.byRune rows) -> lo = hi /\ In (lo, a) rows.
Proof.
  unfold Ucd.byRune. intros H. apply in_map_iff in H as ([k v] & [= <- <- <-] & H).
  now split.
Qed.

(** *** Classes *)

Lemma property_row (r : rune) :
  Ucd.property r = (Ucd.Other, 0) \/
  exists lo hi : rune, In (lo, hi, Ucd.property r) Ucd.properties.
Proof.
  unfold Ucd.property. destruct (Ucd.search Ucd.propertyTree r) as [p|] eqn:H;
    cbn [default from_option id]; [right|now left].
  apply search_rows in H as (lo & hi & Hin & _). rewrite propertyTree_rows in Hin.
  now exists lo, hi.
Qed.

Lemma letter_starter (r : rune) :
  Ucd.isLetter r || Ucd.isNumber r = true ->
  Ucd.ccc r = 0 /\ Ucd.isMn r = false.
Proof.
  unfold Ucd.isLetter, Ucd.isNumber, Ucd.ccc, Ucd.isMn.
  destruct (property_row r) as [->|(lo & hi & Hin)]; [discriminate|].
  pose proof properties_ok as Hok. rewrite forallb_forall in Hok.
  specialize (Hok _ Hin). destruct (Ucd.property r) as [[] k];
    cbn [fst snd propertyOK] in *; try discriminate;
    intros _; split; try reflexivity; now apply Z.eqb_eq.
Qed.

Lemma clean_letter (r : rune) :
  cleanRune (U := ucd) r = true ->
  r = dot \/ Ucd.isLetter r || Ucd.isNumber r = true.
Proof.
  unfold cleanRune. cbn [IsLetter IsNumber ucd]. intros H.
  apply orb_true_iff in H as [H|H]; [left; now apply Z.eqb_eq|right].
  now apply andb_true_iff in H as [_ H].
Qed.

Lemma clean_starter (r : rune) :
  cleanRune (U := ucd) r = true -> Ucd.ccc r = 0 /\ Ucd.isMn r = false.
Proof.
  intros H. destruct (clean_letter r H) as [->|Hl]; [now vm_compute|].
  now apply letter_starter.
Qed.

Lemma plain_facts (x : rune) :
  plain x = true ->
  Ucd.ccc x = 0 /\ Ucd.isMn x = false /\ Ucd.fullDecomp x = [x].
Proof.
  unfold plain. intros H. apply andb_true_iff in H as [H Hd].
  apply andb_true_iff in H as [Hc Hm]. apply Z.eqb_eq in Hc.
  apply negb_true_iff in Hm. now apply bool_decide_eq_true in Hd.
Qed.

Lemma steady_facts (x : rune) :
  steady x = true -> cleanRune (U := ucd) x = true /\ plain x = true.
Proof. unfold steady. intros H. now apply andb_true_iff in H. Qed.

Lemma baseRunes_plain (x : rune) : plain x = true -> baseRunes x = [x].
Proof.
  intros H. apply plain_facts in H as (_ & Hm & Hd). unfold baseRunes.
  rewrite Hd. cbn [List.filter]. now rewrite Hm.
Qed.

(** *** Canonical order *)

Lemma insertMark_starter (r : rune) (s : gostring) :
  Ucd.ccc r = 0 -> Ucd.insertMark r s = r :: s.
Proof.
  intros H. destruct s as [|m s]; [easy|]. cbn [Ucd.insertMark]. rewrite H.
  destruct (0 <? Ucd.ccc m) eqn:H1; [|easy].
  destruct (Ucd.ccc m <? 0) eqn:H2; [|easy].
  apply Z.ltb_lt in H1, H2. lia.
Qed.

Lemma insertMark_app (r x : rune) (l l' : gostring) :
  Ucd.ccc x = 0 ->
  Ucd.insertMark r (l ++ x :: l') = Ucd.insertMark r l ++ x :: l'.
Proof.
  intros H. induction l as [|m l IH]; cbn [app Ucd.insertMark].
  - rewrite H. now rewrite Z.ltb_irrefl.
  - destruct ((0 <? Ucd.ccc m) && (Ucd.ccc m <? Ucd.ccc r)); [|easy].
    now rewrite IH.
Qed.

Lemma reorder_cons (x : rune) (l : gostring) :
  Ucd.ccc x = 0 -> Ucd.reorder (x :: l) = x :: Ucd.reorder l.
Proof. intros H. unfold Ucd.reorder. cbn [foldr]. now apply insertMark_starter. Qed.

Lemma reorder_app (x : rune) (l l' : gostring) :
  Ucd.ccc x = 0 ->
  Ucd.reorder (l ++ x :: l') = Ucd.reorder l ++ x :: Ucd.reorder l'.
Proof.
  intros H. induction l as [|a l IH]; cbn [app].
  - now apply reorder_cons.
  - change (Ucd.reorder (a :: l ++ x :: l'))
      with (Ucd.insertMark a (Ucd.reorder (l ++ x :: l'))).
    rewrite IH. now rewrite insertMark_app.
Qed.

Lemma reorder_starters (s : gostring) :
  Forall (fun x => Ucd.ccc x = 0) s -> Ucd.reorder s = s.
Proof.
  induction 1 as [|x s Hx _ IH]; [easy|].
  rewrite reorder_cons by exact Hx. now rewrite IH.
Qed.

(** *** Blocks *)

Lemma blocks_app (l1 l2 : gostring) :
  blocks l1 -> blocks l2 -> blocks (l1 ++ l2).
Proof.
  induction 1; intros H2; cbn [app]; [easy| |].
  - apply blocks_one; auto.
  - apply blocks_two; auto.
Qed.

Lemma blocks_steady (l : gostring) : forallb steady l = true -> blocks l.
Proof.
  induction l as [|x l IH]; cbn [forallb]; intros H; [constructor|].
  apply andb_true_iff in H as [Hx Hl]. apply blocks_one; auto.
Qed.

Lemma blocks_plain (y : gostring) :
  blocks y -> Forall (fun x => plain x = true) y.
Proof.
  induction 1 as [|x s Hx _ IH|a m s Ham _ IH]; [constructor| |].
  - constructor; [|exact IH]. now apply steady_facts in Hx.
  - unfold oddPair in Ham. apply andb_true_iff in Ham as [Ham _].
    apply andb_true_iff in Ham as [Ha Hm]. unfold standsAlone in Ha.
    apply andb_true_iff in Ha as [Ha _]. apply steady_facts in Ha as [_ Ha].
    repeat constructor; assumption.
Qed.

Lemma plain_starters (y : gostring) :
  Forall (fun x => plain x = true) y -> Forall (fun x => Ucd.ccc x = 0) y.
Proof.
  apply List.Forall_impl. intros x H. now apply plain_facts in H.
Qed.

(** What [blockOK] checks. *)
Lemma blockOK_facts (r : rune) :
  blockOK r = true ->
  (exists (x : rune) (d : gostring),
      Ucd.fullDecomp r = x :: d /\ Ucd.ccc x = 0) /\
  Ucd.reorder (Ucd.fullDecomp r) = Ucd.fullDecomp r /\
  blocks (baseRunes r).
Proof.
  unfold blockOK. intros H. apply andb_true_iff in H as [H Hb].
  apply andb_true_iff in H as [Hh Ho]. apply bool_decide_eq_true in Ho.
  split; [|split; [exact Ho|]].
  - destruct (Ucd.fullDecomp r) as [|x d]; [discriminate|].
    exists x, d. split; [reflexivity | now apply Z.eqb_eq].
  - apply orb_true_iff in Hb as [Hb|Hb]; [now apply blocks_steady|].
    destruct (baseRunes r) as [|a [|m [|? ?]]]; try discriminate.
    apply blocks_two; [exact Hb | constructor].
Qed.

(** *** Hangul *)

Lemma in_runesFrom (lo n x : Z) : lo <= x < lo + n -> In x (runesFrom lo n).
Proof.
  intros H. unfold runesFrom. apply in_map_iff. exists (Z.to_nat (x - lo)).
  split; [lia|]. apply in_seq. lia.
Qed.

Lemma jamo_steady (x : rune) :
  Ucd.isLeading x || Ucd.isVowel x || Ucd.isTrailing x = true ->
  steady x = true.
Proof.
  intros H. pose proof jamos_ok as Hok. rewrite forallb_forall in Hok.
  apply Hok. unfold jamos.
  unfold Ucd.isLeading, Ucd.isVowel, Ucd.isTrailing, inRange in H.
  apply orb_true_iff in H as [H|H]; [apply orb_true_iff in H as [H|H]|];
    apply andb_true_iff in H as [H1 H2];
    apply Z.leb_le in H1; apply Z.leb_le in H2.
  - apply in_or_app. left. apply in_runesFrom. lia.
  - apply in_or_app. right. apply in_or_app. left. apply in_runesFrom. lia.
  - apply in_or_app. right. apply in_or_app. right. apply in_runesFrom. lia.
Qed.

Lemma syllable_clean (c : rune) :
  Ucd.isSyllable c = true -> cleanRune (U := ucd) c = true.
Proof.
  intros H. unfold Ucd.isSyllable, inRange in H.
  apply andb_true_iff in H as [H1 H2]. apply Z.leb_le in H1, H2.
  unfold Ucd.SBase, Ucd.SCount in H1, H2.
  assert (Hp : Ucd.property c = (Ucd.Letter, 0)).
  { unfold Ucd.property.
    rewrite (search_found Ucd.propertyTree (-1) 0x110000 0xAC00 0xD7A3
               (Ucd.Letter, 0) c); [reflexivity| | |lia].
    - apply propertyTree_ordered.
    - rewrite propertyTree_rows. apply syllables_row. }
  unfold cleanRune. cbn [IsLetter IsNumber ucd]. unfold Ucd.isLetter.
  rewrite Hp. cbn [fst]. rewrite orb_true_l, andb_true_r.
  assert (Hs : (c =? slash) = false) by (apply Z.eqb_neq; unfold slash; lia).
  assert (Hsp : (c =? space) = false) by (apply Z.eqb_neq; unfold space; lia).
  rewrite Hs, Hsp. now rewrite orb_true_r.
Qed.

Lemma syllable_decomp (r : rune) :
  Ucd.isSyllable r = true ->
  exists (l v : rune),
    (Ucd.isLeading l = true /\ Ucd.isVowel v = true) /\
    (Ucd.fullDecomp r = [l; v] \/
     exists t : rune, Ucd.isTrailing t = true /\ Ucd.fullDecomp r = [l; v; t]).
Proof.
  intros H. unfold Ucd.fullDecomp. rewrite H. unfold Ucd.hangulDecomp.
  cbv zeta. unfold Ucd.isSyllable, inRange in H.
  apply andb_true_iff in H as [H1 H2]. apply Z.leb_le in H1, H2.
  exists (Ucd.LBase + (r - Ucd.SBase) / Ucd.NCount),
         (Ucd.VBase + (r - Ucd.SBase) mod Ucd.NCount / Ucd.TCount).
  unfold Ucd.isLeading, Ucd.isVowel, Ucd.isTrailing, inRange.
  unfold Ucd.SBase, Ucd.SCount, Ucd.LBase, Ucd.LCount, Ucd.VBase, Ucd.VCount,
    Ucd.TBase, Ucd.TCount, Ucd.NCount in *.
  split.
  - split; apply andb_true_iff; split; apply Z.leb_le;
      Z.div_mod_to_equations; lia.
  - destruct (_ =? _) eqn:Ht; [now left|right].
    apply Z.eqb_neq in Ht. eexists. split; [|reflexivity].
    apply andb_true_iff; split; apply Z.leb_le;
      Z.div_mod_to_equations; lia.
Qed.

Lemma syllable_facts (r : rune) :
  Ucd.isSyllable r = true ->
  (exists (x : rune) (d : gostring),
      Ucd.fullDecomp r = x :: d /\ Ucd.ccc x = 0) /\
  Ucd.reorder (Ucd.fullDecomp r) = Ucd.fullDecomp r /\
  blocks (baseRunes r).
Proof.
  intros H. destruct (syllable_decomp r H) as (l & v & [Hl Hv] & Hd).
  assert (Sl : steady l = true) by (apply jamo_steady; now rewrite Hl).
  assert (Sv : steady v = true)
    by (apply jamo_steady; now rewrite Hv, orb_true_r).
  pose proof (steady_facts l Sl) as [_ Pl].
  pose proof (steady_facts v Sv) as [_ Pv].
  pose proof (plain_facts l Pl) as (Cl & Ml & _).
  pose proof (plain_facts v Pv) as (Cv & Mv & _).
  destruct Hd as [Hd|(t & Ht & Hd)].
  - unfold baseRunes. rewrite Hd. cbn [List.filter]. rewrite Ml, Mv.
    cbn [negb]. split; [now exists l, [v]|]. split.
    + apply reorder_starters. now repeat constructor.
    + apply blocks_one; [exact Sl|]. apply blocks_one; [exact Sv|constructor].
  - assert (St : steady t = true)
      by (apply jamo_steady; now rewrite Ht, orb_true_r).
    pose proof (steady_facts t St) as [_ Pt].
    pose proof (plain_facts t Pt) as (Ct & Mt & _).
    unfold baseRunes. rewrite Hd. cbn [List.filter]. rewrite Ml, Mv, Mt.
    cbn [negb]. split; [now exists l, [v; t]|]. split.
    + apply reorder_starters. now repeat constructor.
    + apply blocks_one; [exact Sl|]. apply blocks_one; [exact Sv|].
      apply blocks_one; [exact St|constructor].
Qed.

(** The decomposition of a letter, of a number or of the dot. *)
Lemma clean_facts (r : rune) :
  cleanRune (U := ucd) r = true ->
  (exists (x : rune) (d : gostring),
      Ucd.fullDecomp r = x :: d /\ Ucd.ccc x = 0) /\
  Ucd.reorder (Ucd.fullDecomp r) = Ucd.fullDecomp r /\
  blocks (baseRunes r).
Proof.
  intros Hc. destruct (Ucd.isSyllable r) eqn:Hs; [now apply syllable_facts|].
  destruct (Ucd.search Ucd.decompositionTree r) as [d|] eqn:Hd.
  - apply search_rows in Hd as (lo & hi & Hin & Hr).
    rewrite decompositionTree_rows in Hin.
    apply byRune_In in Hin as [<- Hin]. assert (lo = r) by lia. subst lo.
    pose proof decompositions_ok as Hok. rewrite forallb_forall in Hok.
    specialize (Hok _ Hin). unfold decompositionOK in Hok. cbn [fst] in Hok.
    rewrite Hc in Hok. now apply blockOK_facts.
  - assert (Hf : Ucd.fullDecomp r = [r]).
    { unfold Ucd.fullDecomp. now rewrite Hs, Hd. }
    destruct (clean_starter r Hc) as [Hccc Hmn].
    unfold baseRunes. rewrite Hf. cbn [List.filter]. rewrite Hmn. cbn [negb].
    split; [now exists r, []|]. split.
    + apply reorder_starters. now repeat constructor.
    + apply blocks_one; [|constructor]. unfold steady, plain.
      rewrite Hc, Hccc, Hmn, Hf. cbn. now rewrite bool_decide_eq_true_2.
Qed.

(** *** Pairs *)

Lemma hangulPair_facts (a b c : rune) :
  Ucd.hangulPair a b = Some c ->
  Ucd.isSyllable c = true /\ joins b = true /\
  Ucd.fullDecomp c = Ucd.fullDecomp a ++ [b].
Proof.
  unfold Ucd.hangulPair.
  destruct (Ucd.isLeading a && Ucd.isVowel b) eqn:H1.
  - intros [= <-]. apply andb_true_iff in H1 as [Ha Hb].
    assert (Sa : steady a = true) by (apply jamo_steady; now rewrite Ha).
    apply steady_facts in Sa as [_ Pa]. apply plain_facts in Pa as (_ & _ & Da).
    rewrite Da. unfold joins. rewrite Hb. cbn [orb].
    unfold Ucd.isLeading, Ucd.isVowel, inRange in Ha, Hb.
    apply andb_true_iff in Ha as [Ha1 Ha2]. apply andb_true_iff in Hb as [Hb1 Hb2].
    apply Z.leb_le in Ha1, Ha2, Hb1, Hb2.
    assert (Hs : Ucd.isSyllable
                   (Ucd.SBase + ((a - Ucd.LBase) * Ucd.VCount + (b - Ucd.VBase))
                                * Ucd.TCount) = true).
    { unfold Ucd.isSyllable, inRange. apply andb_true_iff.
      unfold Ucd.SBase, Ucd.SCount, Ucd.LBase, Ucd.LCount, Ucd.VBase,
        Ucd.VCount, Ucd.TCount in *. split; apply Z.leb_le; lia. }
    split; [exact Hs|]. split; [reflexivity|].
    unfold Ucd.fullDecomp. rewrite Hs. unfold Ucd.hangulDecomp. cbv zeta.
    unfold Ucd.SBase, Ucd.SCount, Ucd.LBase, Ucd.LCount, Ucd.VBase,
      Ucd.VCount, Ucd.TBase, Ucd.TCount, Ucd.NCount in *.
    match goal with
    | |- (if 0x11A7 + ?s mod 28 =? 0x11A7 then [?l; ?v] else _) = _ =>
        assert (Hm : s mod 28 = 0) by (Z.div_mod_to_equations; lia);
        assert (Hl : l = a) by (Z.div_mod_to_equations; lia);
        assert (Hv : v = b) by (Z.div_mod_to_equations; lia)
    end.
    rewrite Hm, Hl, Hv. reflexivity.
  - destruct (Ucd.isSyllable a && ((a - Ucd.SBase) mod Ucd.TCount =? 0) &&
              Ucd.isTrailing b) eqn:H2; [|discriminate].
    intros [= <-]. apply andb_true_iff in H2 as [H2 Hb].
    apply andb_true_iff in H2 as [Ha Hm]. apply Z.eqb_eq in Hm.
    unfold joins. rewrite Hb, orb_true_r.
    unfold Ucd.isTrailing, inRange in Hb.
    apply andb_true_iff in Hb as [Hb1 Hb2]. apply Z.leb_le in Hb1, Hb2.
    assert (Hs : Ucd.isSyllable (a + (b - Ucd.TBase)) = true).
    { unfold Ucd.isSyllable, inRange in Ha |- *.
      apply andb_true_iff in Ha as [Ha1 Ha2]. apply Z.leb_le in Ha1, Ha2.
      apply andb_true_iff.
      unfold Ucd.SBase, Ucd.SCount, Ucd.TBase, Ucd.TCount in *.
      split; apply Z.leb_le; Z.div_mod_to_equations; lia. }
    split; [exact Hs|]. split; [reflexivity|].
    unfold Ucd.fullDecomp. rewrite Hs, Ha. unfold Ucd.hangulDecomp. cbv zeta.
    unfold Ucd.isSyllable, inRange in Ha.
    apply andb_true_iff in Ha as [Ha1 Ha2]. apply Z.leb_le in Ha1, Ha2.
    unfold Ucd.SBase, Ucd.SCount, Ucd.LBase, Ucd.LCount, Ucd.VBase,
      Ucd.VCount, Ucd.TBase, Ucd.TCount, Ucd.NCount in *.
    rewrite Hm. rewrite Z.add_0_r, Z.eqb_refl.
    match goal with
    | |- (if 0x11A7 + ?s mod 28 =? 0x11A7 then _ else [?l; ?v; ?t]) =
         [?l'; ?v'] ++ _ =>
        assert (Ht : s mod 28 <> 0) by (Z.div_mod_to_equations; lia);
        assert (Hl : l = l') by (Z.div_mod_to_equations; lia);
        assert (Hv : v = v') by (Z.div_mod_to_equations; lia);
        assert (Hb' : t = b) by (Z.div_mod_to_equations; lia)
    end.
    destruct (_ =? _) eqn:He; [apply Z.eqb_eq in He; lia|].
    rewrite Hl, Hv, Hb'. reflexivity.
Qed.

Lemma composePair_facts (a b c : rune) :
  Ucd.composePair a b = Some c ->
  Ucd.fullDecomp c = Ucd.fullDecomp a ++ [b] /\
  (cleanRune (U := ucd) b = true ->
   joins b = true /\ cleanRune (U := ucd) c = true).
Proof.
  unfold Ucd.composePair. destruct (Ucd.hangulPair a b) as [c'|] eqn:Hh.
  - intros [= <-]. apply hangulPair_facts in Hh as (Hs & Hj & Hd).
    split; [exact Hd|]. intros _. split; [exact Hj|]. now apply syllable_clean.
  - destruct (Ucd.search Ucd.compositionTree a) as [seconds|] eqn:Hs;
      [|discriminate].
    apply search_rows in Hs as (lo & hi & Hin & Hr).
    rewrite compositionTree_rows in Hin.
    apply byRune_In in Hin as [<- Hin]. assert (lo = a) by lia. subst lo.
    pose proof compositions_ok as Hok. rewrite forallb_forall in Hok.
    specialize (Hok _ Hin). unfold compositionOK in Hok. cbn [fst snd] in Hok.
    rewrite forallb_forall in Hok.
    destruct (List.find (fun e => fst e =? b) seconds) as [[b' c']|] eqn:Hf;
      [|discriminate].
    cbn. intros [= <-]. apply find_some in Hf as [Hf Hb]. cbn [fst] in Hb.
    apply Z.eqb_eq in Hb. subst b'. specialize (Hok _ Hf). cbn beta iota in Hok.
    apply andb_true_iff in Hok as [Hn Hd]. apply negb_true_iff in Hn.
    apply bool_decide_eq_true in Hd. split; [exact Hd|].
    intros Hc. congruence.
Qed.

(** *** Composition of plain runes *)

Lemma composeFrom_starters (s : gostring) :
  Forall (fun x => Ucd.ccc x = 0) s ->
  forall starter : rune,
    Ucd.composeFrom starter [] 0 s = composeStarters starter s.
Proof.
  induction 1 as [|ch s Hch _ IH]; intros starter; [easy|].
  cbn [Ucd.composeFrom composeStarters]. unfold Ucd.blocked.
  rewrite Z.eqb_refl, orb_true_r. cbn [negb].
  destruct (Ucd.composePair starter ch) as [c|]; [apply IH|].
  rewrite Hch. rewrite Z.eqb_refl. cbn [app]. now rewrite IH.
Qed.

Lemma compose_starters (x : rune) (s : gostring) :
  Forall (fun x => Ucd.ccc x = 0) (x :: s) ->
  Ucd.compose (x :: s) = composeStarters x s.
Proof.
  intros H. inversion H as [|? ? Hx Hs]; subst. unfold Ucd.compose.
  rewrite Hx, Z.eqb_refl. now apply composeFrom_starters.
Qed.

Lemma composeStarters_clean (y : gostring) :
  blocks y ->
  forall starter : rune,
    cleanRune (U := ucd) starter = true ->
    forallb (cleanRune (U := ucd)) (composeStarters starter y) = true.
Proof.
  induction 1 as [|x s Hx _ IH|a m s Ham _ IH]; intros starter Hs.
  - cbn. now rewrite Hs.
  - cbn [composeStarters]. apply steady_facts in Hx as [Hx _].
    destruct (Ucd.composePair starter x) as [c|] eqn:Hp.
    + apply composePair_facts in Hp as [_ Hp]. apply IH. now apply Hp.
    + cbn [forallb]. rewrite Hs. now apply IH.
  - unfold oddPair in Ham. apply andb_true_iff in Ham as [Ham Hc].
    apply andb_true_iff in Ham as [Ha _]. unfold standsAlone in Ha.
    apply andb_true_iff in Ha as [Ha Hj]. apply steady_facts in Ha as [Ha _].
    apply negb_true_iff in Hj.
    cbn [composeStarters].
    destruct (Ucd.composePair starter a) as [c|] eqn:Hp.
    { apply composePair_facts in Hp as [_ Hp]. destruct (Hp Ha). congruence. }
    destruct (Ucd.composePair a m) as [c|]; [|discriminate].
    cbn [forallb]. rewrite Hs. now apply IH.
Qed.

Lemma baseRunes_composite (a b c : rune) :
  Ucd.composePair a b = Some c -> plain b = true ->
  baseRunes c = baseRunes a ++ [b].
Proof.
  intros Hp Hb. apply composePair_facts in Hp as [Hd _].
  apply plain_facts in Hb as (_ & Hm & _). unfold baseRunes. rewrite Hd.
  rewrite List.filter_app. cbn [List.filter]. now rewrite Hm.
Qed.

Lemma composeStarters_base (y : gostring) :
  Forall (fun x => plain x = true) y ->
  forall starter : rune,
    flat_map baseRunes (composeStarters starter y) = baseRunes starter ++ y.
Proof.
  induction 1 as [|x s Hx _ IH]; intros starter.
  - cbn. reflexivity.
  - cbn [composeStarters].
    destruct (Ucd.composePair starter x) as [c|] eqn:Hp.
    + rewrite IH. rewrite (baseRunes_composite starter x c Hp Hx).
      now rewrite <- app_assoc.
    + cbn [flat_map]. rewrite IH. now rewrite (baseRunes_plain x Hx).
Qed.

(** The composition of a string of blocks is made of letters, numbers
    and dots, and its base runes are the string. *)
Lemma compose_blocks (y : gostring) :
  blocks y ->
  forallb (cleanRune (U := ucd)) (Ucd.compose y) = true /\
  flat_map baseRunes (Ucd.compose y) = y.
Proof.
  intros Hy. pose proof (blocks_plain y Hy) as Hp.
  pose proof (plain_starters y Hp) as Hs.
  destruct y as [|x s]; [easy|]. rewrite compose_starters by exact Hs.
  inversion Hp as [|? ? Hx Hps]; subst. split.
  - inversion Hy as [|? ? Sx Hb|a m s' Ham Hb]; subst.
    + apply composeStarters_clean; [exact Hb|]. now apply steady_facts in Sx.
    + pose proof Ham as Ham'. unfold oddPair in Ham'.
      apply andb_true_iff in Ham' as [_ Hc]. cbn [composeStarters].
      destruct (Ucd.composePair x m) as [c|]; [|discriminate].
      now apply composeStarters_clean.
  - rewrite composeStarters_base by exact Hps.
    now rewrite (baseRunes_plain x Hx).
Qed.

(** *** The chain *)

Lemma decompose_head (c : gostring) :
  forallb (cleanRune (U := ucd)) c = true ->
  Ucd.decompose c = [] \/
  exists (x : rune) (d : gostring), Ucd.decompose c = x :: d /\ Ucd.ccc x = 0.
Proof.
  destruct c as [|r c]; [now left|right]. cbn [forallb] in H.
  apply andb_true_iff in H as [Hr _].
  destruct (clean_facts r Hr) as ((x & d & Hd & Hx) & _).
  unfold Ucd.decompose. cbn [flat_map]. rewrite Hd. cbn [app]. eauto.
Qed.

(** Text made of letters, numbers and dots is decomposed rune by rune. *)
Lemma nfd_clean (c : gostring) :
  forallb (cleanRune (U := ucd)) c = true -> Ucd.nfd c = Ucd.decompose c.
Proof.
  unfold Ucd.nfd. induction c as [|r c IH]; [easy|]. cbn [forallb].
  intros H. apply andb_true_iff in H as [Hr Hc]. specialize (IH Hc).
  destruct (clean_facts r Hr) as (_ & Ho & _).
  unfold Ucd.decompose in *. cbn [flat_map].
  destruct (decompose_head c Hc) as [Hd|(x & d & Hd & Hx)];
    unfold Ucd.decompose in Hd; rewrite Hd in *.
  - now rewrite app_nil_r.
  - rewrite reorder_app by exact Hx. rewrite Ho.
    rewrite reorder_cons in IH by exact Hx. now injection IH as ->.
Qed.

Lemma removeMn_decompose (c : gostring) :
  removeMn (U := ucd) (Ucd.decompose c) = flat_map baseRunes c.
Proof.
  unfold removeMn, Ucd.decompose. cbn [IsMn ucd].
  induction c as [|r c IH]; [easy|]. cbn [flat_map].
  rewrite List.filter_app, IH. reflexivity.
Qed.

Lemma blocks_flat_map (c : gostring) :
  forallb (cleanRune (U := ucd)) c = true -> blocks (flat_map baseRunes c).
Proof.
  induction c as [|r c IH]; [constructor|]. cbn [forallb flat_map].
  intros H. apply andb_true_iff in H as [Hr Hc]. apply blocks_app; [|auto].
  now destruct (clean_facts r Hr) as (_ & _ & Hb).
Qed.

Lemma nfd_plain (y : gostring) :
  Forall (fun x => plain x = true) y -> Ucd.nfd y = y.
Proof.
  intros H. unfold Ucd.nfd.
  assert (Hd : Ucd.decompose y = y).
  { unfold Ucd.decompose. induction H as [|x s Hx _ IH]; [easy|].
    cbn [flat_map]. rewrite IH. apply plain_facts in Hx as (_ & _ & ->).
    reflexivity. }
  rewrite Hd. apply reorder_starters. now apply plain_starters.
Qed.

(** The chain on text made of letters, numbers and dots. *)
Lemma foldChain_clean (c : gostring) :
  forallb (cleanRune (U := ucd)) c = true ->
  foldChain (U := ucd) c = Ucd.compose (flat_map baseRunes c).
Proof.
  intros Hc. unfold foldChain. cbn [NFC NFD ucd]. unfold Ucd.nfc.
  rewrite (nfd_clean c Hc). rewrite removeMn_decompose.
  rewrite nfd_plain; [reflexivity|].
  apply blocks_plain. now apply blocks_flat_map.
Qed.

Lemma foldRune_pkgRune (r : rune) :
  flat_map baseRunes (removeSpaces [pkgRune (U := ucd) r]) = foldRune r.
Proof.
  unfold pkgRune, foldRune, removeSpaces. cbn [IsLetter IsNumber ucd].
  destruct ((r =? slash) || (r =? dot)) eqn:Hsep; [now vm_compute|].
  destruct (Ucd.isLetter r || Ucd.isNumber r) eqn:Hl; [|now vm_compute].
  cbn [List.filter]. destruct (r =? space) eqn:Hsp.
  - apply Z.eqb_eq in Hsp. subst r. discriminate Hl.
  - cbn [negb flat_map]. apply app_nil_r.
Qed.

Lemma foldRune_path (path : gostring) :
  flat_map baseRunes (removeSpaces (map (pkgRune (U := ucd)) path)) =
  flat_map foldRune path.
Proof.
  induction path as [|r path IH]; [easy|]. cbn [map flat_map].
  rewrite <- IH, <- foldRune_pkgRune. unfold removeSpaces.
  cbn [List.filter]. destruct (negb (pkgRune r =? space)); cbn [flat_map app];
    [now rewrite app_nil_r | reflexivity].
Qed.

Lemma toProtobufPkg_compose (path : gostring) :
  toProtobufPkg (U := ucd) path = Ucd.compose (flat_map foldRune path).
Proof.
  unfold toProtobufPkg. cbv zeta.
  rewrite foldChain_clean by apply removeSpaces_clean.
  now rewrite foldRune_path.
Qed.

Lemma toProtobufPkg_fixed (path : gostring) :
  toProtobufPkg (U := ucd) (toProtobufPkg (U := ucd) path) =
  toProtobufPkg (U := ucd) path.
Proof.
  pose proof (removeSpaces_clean (U := ucd) path) as Hc.
  pose proof (compose_blocks _ (blocks_flat_map _ Hc)) as [Hz Hy].
  assert (H1 : toProtobufPkg (U := ucd) path =
               Ucd.compose
                 (flat_map baseRunes
                    (removeSpaces (map (pkgRune (U := ucd)) path)))).
  { unfold toProtobufPkg. cbv zeta. now apply foldChain_clean. }
  rewrite H1. unfold toProtobufPkg at 1. cbv zeta.
  rewrite (removeSpaces_fixed (U := ucd)) by exact Hz.
  rewrite foldChain_clean by exact Hz. now rewrite Hy.
Qed.

(** Runes that stand alone compose with nothing. *)
Lemma composeStarters_alone (y : gostring) :
  forallb standsAlone y = true ->
  forall starter : rune, composeStarters starter y = starter :: y.
Proof.
  induction y as [|x y IH]; intros H starter; [easy|]. cbn [forallb] in H.
  apply andb_true_iff in H as [Hx Hy]. cbn [composeStarters].
  unfold standsAlone in Hx. apply andb_true_iff in Hx as [Hx Hj].
  apply steady_facts in Hx as [Hx _]. apply negb_true_iff in Hj.
  destruct (Ucd.composePair starter x) as [c|] eqn:Hp.
  - apply composePair_facts in Hp as [_ Hp]. destruct (Hp Hx). congruence.
  - now rewrite IH.
Qed.

Lemma compose_alone (y : gostring) :
  forallb standsAlone y = true -> Ucd.compose y = y.
Proof.
  intros H. destruct y as [|x y]; [easy|].
  assert (Hs : Forall (fun x => Ucd.ccc x = 0) (x :: y)).
  { apply List.Forall_forall. intros z Hz. rewrite forallb_forall in H.
    specialize (H z Hz). unfold standsAlone in H.
    apply andb_true_iff in H as [H _]. apply steady_facts in H as [_ H].
    now apply plain_facts in H. }
  rewrite compose_starters by exact Hs. cbn [forallb] in H.
  apply andb_true_iff in H as [_ H]. now apply composeStarters_alone.
Qed.

Lemma toProtobufPkg_alone (path : gostring) :
  forallb foldsAlone path = true ->
  toProtobufPkg (U := ucd) path = flat_map foldRune path.
Proof.
  intros H. rewrite toProtobufPkg_compose. apply compose_alone.
  induction path as [|r path IH]; [easy|]. cbn [forallb flat_map] in *.
  apply andb_true_iff in H as [Hr Hp]. rewrite forallb_app.
  unfold foldsAlone in Hr. now rewrite Hr, IH.
Qed.

(** A letter or a number that decomposes to a base and nonspacing marks
    gives its base. *)
Lemma foldRune_accented (r base : rune) (marks : gostring) :
  Ucd.isLetter r || Ucd.isNumber r = true ->
  Ucd.fullDecomp r = base :: marks ->
  Ucd.isMn base = false ->
  forallb Ucd.isMn marks = true ->
  foldRune r = [base].
Proof.
  intros Hl Hd Hb Hm. unfold foldRune.
  destruct ((r =? slash) || (r =? dot)) eqn:Hsep.
  { apply orb_true_iff in Hsep as [H|H]; apply Z.eqb_eq in H; subst r;
      discriminate Hl. }
  rewrite Hl. unfold baseRunes. rewrite Hd. cbn [List.filter]. rewrite Hb.
  cbn [negb]. f_equal. clear Hd. induction marks as [|m marks IH]; [easy|].
  cbn [forallb] in Hm. apply andb_true_iff in Hm as [Hm1 Hm2].
  cbn [List.filter]. rewrite Hm1. cbn [negb]. now apply IH.
Qed.

End UcdFacts.

(** On U+0000 to U+00FF the Latin-1 table is the Unicode tables, and on
    the combining diacritical marks it has their classes and their case. *)
Lemma latin1_follows_ucd :
  forallb (fun r => sameClasses r && sameForms r) (runesFrom 0 256) = true /\
  forallb sameClasses (runesFrom 0x300 112) = true.
Proof. split; vm_compute; reflexivity. Qed.

(** C8. Over the tables of Unicode [toProtobufPkg] is idempotent: run on
    its own output, it returns that output, for every path. What it
    returns is the canonical composition of what the runes of the path
    give: a dot for a slash or a dot, the runes of its decomposition that
    are no nonspacing marks for a letter or a number, and nothing for any
    other rune. A letter that decomposes to a base and nonspacing marks
    gives the base, and on a path whose base runes take part in no
    composition the result is the path with each rune replaced by what it
    gives. So "net/url" becomes "net.url", "github.com/foo/bar" becomes
    "github.com.foo.bar", and so do that path with its accented letters
    and the one with "com" under a macron. *)
Theorem toProtobufPkg_namespace :
  (forall path : gostring,
      toProtobufPkg (U := ucd) (toProtobufPkg (U := ucd) path) =
        toProtobufPkg (U := ucd) path) /\
  (forall path : gostring,
      toProtobufPkg (U := ucd) path = Ucd.compose (flat_map foldRune path)) /\
  (forall path : gostring,
      forallb foldsAlone path = true ->
      toProtobufPkg (U := ucd) path = flat_map foldRune path) /\
  (forall (r base : rune) (marks : gostring),
      Ucd.isLetter r || Ucd.isNumber r = true ->
      Ucd.fullDecomp r = base :: marks ->
      Ucd.isMn base = false ->
      forallb Ucd.isMn marks = true ->
      foldRune r = [base]) /\
  toProtobufPkg (U := ucd) (str "foo") = str "foo" /\
  toProtobufPkg (U := ucd) (str "net/url") = str "net.url" /\
  toProtobufPkg (U := ucd) (str "github.com/foo/bar") =
    str "github.com.foo.bar" /\
  toProtobufPkg (U := ucd) accentedPath = str "github.com.foo.bar" /\
  toProtobufPkg (U := ucd) macronPath = str "github.com.foo.bar" /\
  toProtobufPkg (U := ucd) dashedPath = str "gopkg.in.gofoo.foo.v1".
Proof.
  split; [exact UcdFacts.toProtobufPkg_fixed|].
  split; [exact UcdFacts.toProtobufPkg_compose|].
  split; [exact UcdFacts.toProtobufPkg_alone|].
  split; [exact UcdFacts.foldRune_accented|].
  repeat split; vm_compute; reflexivity.
Qed.

Lemma toProtobufPkg_namespace_witness :
  toProtobufPkg (U := ucd) macronPath = flat_map foldRune macronPath /\
  foldRune 0x14D = [0x6F].
Proof.
  split.
  - apply (proj1 (proj2 (proj2 toProtobufPkg_namespace)) macronPath).
    vm_compute. reflexivity.
  - apply (proj1 (proj2 (proj2 (proj2 toProtobufPkg_namespace)))
             0x14D 0x6F [0x304]); reflexivity.
Defined.

(** ** The transformer *)

Section TransformerFacts.
Context {U : Unicode}.

(** What [transformType] returns does not depend on the package and the
    sink it writes to. *)
Lemma transformType_result (t : Transformer) :
  forall (typ : scanner.Ty) (w w' : World),
    fst (transformType t typ w) = fst (transformType t typ w').
Proof.
  fix IH 1. intros [name r|path name r|k v r] w w'.
  - cbn. destruct (findMapping t name); reflexivity.
  - cbn. destruct (findMapping t _); reflexivity.
  - cbn [transformType]. unfold mbind, M_bind, mret, M_ret.
    destruct k as [k|].
    + specialize (IH k w w') as Hk.
      destruct (transformType t k w) as [rk w1].
      destruct (transformType t k w') as [rk' w1'].
      cbn [fst] in Hk. subst rk'.
      destruct v as [v|]; [|reflexivity].
      specialize (IH v w1 w1') as Hv.
      destruct (transformType t v w1) as [rv w2].
      destruct (transformType t v w1') as [rv' w2'].
      cbn [fst] in Hv. now subst rv'.
    + destruct v as [v|]; [|reflexivity].
      specialize (IH v w w') as Hv.
      destruct (transformType t v w) as [rv w2].
      destruct (transformType t v w') as [rv' w2'].
      cbn [fst] in Hv. now subst rv'.
Qed.

Lemma transformField_result (t : Transformer) (f : scanner.Field.t)
    (pos : Z) (w w' : World) :
  fst (transformField t f pos w) = fst (transformField t f pos w').
Proof.
  unfold transformField, mbind, M_bind, mret, M_ret.
  destruct (isByteSlice (scanner.Field.Typ f)); [reflexivity|].
  pose proof (transformType_result t (scanner.Field.Typ f) w w') as H.
  destruct (transformType t (scanner.Field.Typ f) w) as [r w1].
  destruct (transformType t (scanner.Field.Typ f) w') as [r' w1'].
  cbn [fst] in H. subst r'. destruct r; reflexivity.
Qed.

Lemma transformField_fieldAt (t : Transformer) (f : scanner.Field.t)
    (i : nat) (w : World) :
  fst (transformField t f (Z.of_nat i + 1) w) = fieldAt t i f.
Proof. apply transformField_result. Qed.

Lemma transformField_pos (t : Transformer) (f : scanner.Field.t)
    (pos : Z) (w : World) (out : Field.t) :
  fst (transformField t f pos w) = Some out -> Field.Pos out = pos.
Proof.
  unfold transformField, mbind, M_bind, mret, M_ret.
  destruct (isByteSlice (scanner.Field.Typ f)).
  - cbn. now intros [= <-].
  - destruct (transformType t (scanner.Field.Typ f) w) as [[typ|] w1];
      cbn; [now intros [= <-] | easy].
Qed.

Lemma fieldAt_pos (t : Transformer) (i : nat) (f : scanner.Field.t)
    (out : Field.t) :
  fieldAt t i f = Some out -> Field.Pos out = Z.of_nat i + 1.
Proof. apply transformField_pos. Qed.

Lemma forRangeM_cons {A St : Type} (body : nat -> A -> St -> M St)
    (i : nat) (x : A) (l : list A) (st : St) (w : World) :
  forRangeM body i (x :: l) st w =
    let '(st', w') := body i x st w in forRangeM body (S i) l st' w'.
Proof. reflexivity. Qed.

Lemma structStep_run (t : Transformer) (s : scanner.Struct.t) (i : nat)
    (f : scanner.Field.t) (msg : Message.t) (w : World) :
  structStep t s i f msg w =
    let '(o, w1) := transformField t f (Z.of_nat i + 1) w in
    match o with
    | Some out => (Message_appendField out msg, w1)
    | None => (Message_Reserve (Z.of_nat i + 1) msg,
               {| pkg := pkg w1;
                  warnings := warnings w1 ++ [droppedWarning s f] |})
    end.
Proof.
  unfold structStep, mbind, M_bind.
  destruct (transformField t f (Z.of_nat i + 1) w) as [[out|] w1];
    reflexivity.
Qed.

(** The loop of [transformStruct] appends to the fields those that
    transform and to the reserved positions those of the others. *)
Lemma forRangeM_structStep (t : Transformer) (s : scanner.Struct.t)
    (fs : list scanner.Field.t) :
  forall (i : nat) (msg : Message.t) (w : World),
    let msg' := fst (forRangeM (structStep t s) i fs msg w) in
    Message.Name msg' = Message.Name msg /\
    Message.Fields msg' = Message.Fields msg ++ keptFrom t i fs /\
    Message.Reserved msg' = Message.Reserved msg ++ droppedFrom t i fs.
Proof.
  induction fs as [|f fs IH]; intros i msg w; cbn zeta.
  - cbn. now rewrite !app_nil_r.
  - rewrite forRangeM_cons, structStep_run. cbn [keptFrom droppedFrom].
    pose proof (transformField_fieldAt t f i w) as Hf.
    destruct (transformField t f (Z.of_nat i + 1) w) as [o w1].
    cbn [fst] in Hf. rewrite <- Hf. destruct o as [out|].
    + destruct (IH (S i) (Message_appendField out msg) w1) as (Hn & Hk & Hd).
      cbn zeta in Hn, Hk, Hd. rewrite Hn, Hk, Hd.
      cbn [Message_appendField Message.Name Message.Fields Message.Reserved].
      now rewrite <- app_assoc.
    + match goal with
      | |- context [forRangeM _ _ _ ?m ?w'] =>
          destruct (IH (S i) m w') as (Hn & Hk & Hd)
      end.
      cbn zeta in Hn, Hk, Hd. rewrite Hn, Hk, Hd.
      cbn [Message_Reserve Message.Name Message.Fields Message.Reserved].
      now rewrite <- app_assoc.
Qed.

Lemma transformStruct_fields (t : Transformer) (s : scanner.Struct.t)
    (w : World) :
  Message.Fields (fst (transformStruct t s w)) =
    keptFrom t 0 (scanner.Struct.Fields s) /\
  Message.Reserved (fst (transformStruct t s w)) =
    droppedFrom t 0 (scanner.Struct.Fields s).
Proof.
  unfold transformStruct.
  destruct (forRangeM_structStep t s (scanner.Struct.Fields s) 0
              (newMessage (scanner.Struct.Name s)) w) as (_ & Hk & Hd).
  cbn zeta in Hk, Hd. now rewrite Hk, Hd.
Qed.

Lemma elem_of_keptFrom (t : Transformer) (fs : list scanner.Field.t) :
  forall (i : nat) (out : Field.t),
    out ∈ keptFrom t i fs <->
    exists (k : nat) (f : scanner.Field.t),
      fs !! k = Some f /\ fieldAt t (i + k) f = Some out.
Proof.
  induction fs as [|f fs IH]; intros i out; cbn [keptFrom].
  - split; [intros H; inversion H | intros (k & f & H & _); easy].
  - assert (Hshift : out ∈ keptFrom t (S i) fs <->
              exists k f', fs !! k = Some f' /\
                           fieldAt t (i + S k) f' = Some out).
    { rewrite IH. split; intros (k & f' & H1 & H2); exists k, f';
        (split; [exact H1|]); now replace (i + S k)%nat with (S i + k)%nat
          in * by lia. }
    destruct (fieldAt t i f) as [o|] eqn:Ho.
    + rewrite elem_of_cons, Hshift. split.
      * intros [->|(k & f' & H1 & H2)].
        -- exists 0%nat, f. now rewrite Nat.add_0_r.
        -- now exists (S k), f'.
      * intros ([|k] & f' & H1 & H2).
        -- cbn in H1. injection H1 as <-. rewrite Nat.add_0_r in H2.
           left. congruence.
        -- right. now exists k, f'.
    + rewrite Hshift. split.
      * intros (k & f' & H1 & H2). now exists (S k), f'.
      * intros ([|k] & f' & H1 & H2).
        -- cbn in H1. injection H1 as <-. rewrite Nat.add_0_r in H2.
           congruence.
        -- now exists k, f'.
Qed.

Lemma elem_of_droppedFrom (t : Transformer) (fs : list scanner.Field.t) :
  forall (i : nat) (p : Z),
    p ∈ droppedFrom t i fs <->
    exists (k : nat) (f : scanner.Field.t),
      fs !! k = Some f /\ fieldAt t (i + k) f = None /\
      p = Z.of_nat (i + k) + 1.
Proof.
  induction fs as [|f fs IH]; intros i p; cbn [droppedFrom].
  - split; [intros H; inversion H | intros (k & f & H & _); easy].
  - assert (Hshift : p ∈ droppedFrom t (S i) fs <->
              exists k f', fs !! k = Some f' /\
                           fieldAt t (i + S k) f' = None /\
                           p = Z.of_nat (i + S k) + 1).
    { rewrite IH. split; intros (k & f' & H1 & H2 & H3); exists k, f';
        (split; [exact H1|]); now replace (i + S k)%nat with (S i + k)%nat
          in * by lia. }
    destruct (fieldAt t i f) as [o|] eqn:Ho.
    + rewrite Hshift. split.
      * intros (k & f' & H1 & H2). now exists (S k), f'.
      * intros ([|k] & f' & H1 & H2 & H3).
        -- cbn in H1. injection H1 as <-. rewrite Nat.add_0_r in H2.
           congruence.
        -- now exists k, f'.
    + rewrite elem_of_cons, Hshift. split.
      * intros [->|(k & f' & H1 & H2)].
        -- exists 0%nat, f. now rewrite Nat.add_0_r.
        -- now exists (S k), f'.
      * intros ([|k] & f' & H1 & H2 & H3).
        -- left. now rewrite Nat.add_0_r in H3.
        -- right. now exists k, f'.
Qed.

Lemma keptFrom_lower_bound (t : Transformer) (fs : list scanner.Field.t)
    (i : nat) :
  Forall (fun p => Z.of_nat i + 1 <= p) (map Field.Pos (keptFrom t i fs)).
Proof.
  revert i. induction fs as [|f fs IH]; intros i; cbn [keptFrom].
  - constructor.
  - assert (Hrest : Forall (fun p => Z.of_nat i + 1 <= p)
                           (map Field.Pos (keptFrom t (S i) fs))).
    { eapply List.Forall_impl; [|apply IH]. cbn beta. intros p Hp. lia. }
    destruct (fieldAt t i f) as [out|] eqn:Ho; [|exact Hrest].
    cbn [map]. constructor; [|exact Hrest].
    apply fieldAt_pos in Ho. lia.
Qed.

Lemma keptFrom_sorted (t : Transformer) (fs : list scanner.Field.t)
    (i : nat) :
  StronglySorted Z.lt (map Field.Pos (keptFrom t i fs)).
Proof.
  revert i. induction fs as [|f fs IH]; intros i; cbn [keptFrom].
  - constructor.
  - destruct (fieldAt t i f) as [out|] eqn:Ho; [|apply IH].
    cbn [map]. constructor; [apply IH|].
    apply fieldAt_pos in Ho.
    eapply List.Forall_impl; [|apply (keptFrom_lower_bound t fs (S i))].
    cbn beta. intros p Hp. lia.
Qed.

End TransformerFacts.

(** C1. For every struct, the message that [transformStruct] builds has
    as fields exactly the fields that transform, each at the position of
    its declaration index plus one, and as reserved positions exactly the
    index plus one of the fields that do not; no position is both the
    position of a field and reserved, and the positions of the fields
    increase strictly in declaration order. A struct whose three fields
    map, do not map and map has fields at the positions 1 and 3 and the
    reserved position 2. *)
Theorem transformStruct_positions :
  (forall (U : Unicode) (t : Transformer) (s : scanner.Struct.t) (w : World),
      let msg := fst (transformStruct t s w) in
      (forall (i : nat) (f : scanner.Field.t) (w' : World),
          fst (transformField t f (Z.of_nat i + 1) w') = fieldAt t i f) /\
      (forall (i : nat) (f : scanner.Field.t) (out : Field.t),
          fieldAt t i f = Some out -> Field.Pos out = Z.of_nat i + 1) /\
      (forall out : Field.t,
          out ∈ Message.Fields msg <->
          exists (i : nat) (f : scanner.Field.t),
            scanner.Struct.Fields s !! i = Some f /\
            fieldAt t i f = Some out) /\
      (forall p : Z,
          p ∈ Message.Reserved msg <->
          exists (i : nat) (f : scanner.Field.t),
            scanner.Struct.Fields s !! i = Some f /\
            fieldAt t i f = None /\ p = Z.of_nat i + 1) /\
      (forall out : Field.t,
          out ∈ Message.Fields msg ->
          Field.Pos out ∉ Message.Reserved msg) /\
      StronglySorted Z.lt (map Field.Pos (Message.Fields msg))) /\
  (let msg := fst (transformStruct (U := latin1) NewTransformer threeFields
                                   emptyWorld) in
   map Field.Pos (Message.Fields msg) = [1; 3] /\
   Message.Reserved msg = [2]).
Proof.
  split; [|vm_compute; split; reflexivity].
  intros U t s w msg. subst msg.
  destruct (transformStruct_fields t s w) as [Hk Hd]. rewrite Hk, Hd.
  assert (Hfields : forall out : Field.t,
             out ∈ keptFrom t 0 (scanner.Struct.Fields s) <->
             exists i f, scanner.Struct.Fields s !! i = Some f /\
                         fieldAt t i f = Some out).
  { intros out. apply elem_of_keptFrom. }
  assert (Hreserved : forall p : Z,
             p ∈ droppedFrom t 0 (scanner.Struct.Fields s) <->
             exists i f, scanner.Struct.Fields s !! i = Some f /\
                         fieldAt t i f = None /\ p = Z.of_nat i + 1).
  { intros p. apply elem_of_droppedFrom. }
  repeat split.
  - intros i f w'. apply transformField_fieldAt.
  - intros i f out. apply fieldAt_pos.
  - apply Hfields.
  - apply Hfields.
  - apply Hreserved.
  - apply Hreserved.
  - intros out Hout Hres.
    apply Hfields in Hout as (i & f & Hi & Hf).
    apply Hreserved in Hres as (j & g & Hj & Hg & Hp).
    apply fieldAt_pos in Hf as Hpos. rewrite Hpos in Hp.
    assert (i = j) by lia. subst j. congruence.
  - apply keptFrom_sorted.
Qed.

Lemma transformStruct_positions_witness :
  fieldAt (U := latin1) NewTransformer 2
          (field "Third" (scanner.NewBasic (str "int32"))) =
    Some {| Field.Name := str "third"; Field.Pos := 3;
            Field.Typ := Basic (str "int32"); Field.Repeated := false;
            Field.Options := ∅ |} /\
  Field.Pos {| Field.Name := str "third"; Field.Pos := 3;
               Field.Typ := Basic (str "int32"); Field.Repeated := false;
               Field.Options := ∅ |} = Z.of_nat 2 + 1.
Proof.
  assert (H : fieldAt (U := latin1) NewTransformer 2
                (field "Third" (scanner.NewBasic (str "int32"))) =
              Some {| Field.Name := str "third"; Field.Pos := 3;
                      Field.Typ := Basic (str "int32");
                      Field.Repeated := false; Field.Options := ∅ |})
    by (vm_compute; reflexivity).
  split; [exact H|].
  exact (proj1 (proj2 (proj1 transformStruct_positions latin1 NewTransformer
                         threeFields emptyWorld)) _ _ _ H).
Defined.

(** ** Fields and their types *)

Lemma isByteSlice_true (typ : scanner.Ty) :
  isByteSlice typ = true <-> typ = scanner.Basic (str "byte") true.
Proof.
  destruct typ as [name [|]|path name r|k v r]; cbn; split; try easy.
  - intros H. apply bool_decide_eq_true in H. now subst name.
  - intros [= ->]. now apply bool_decide_eq_true.
Qed.

Lemma findMapping_None (t : Transformer) (name : gostring) :
  findMapping t name = None <->
  mappings t !! name = None /\ defaultMappings !! name = None.
Proof.
  unfold findMapping. destruct (mappings t !! name); [easy|]. tauto.
Qed.

(** The raw byte type has an entry in the default table. *)
Lemma unmapped_not_byte (name : gostring) :
  defaultMappings !! name = None -> name <> str "byte".
Proof. intros H ->. vm_compute in H. discriminate. Qed.


Section FieldFacts.
Context {U : Unicode}.

Lemma transformType_basic_unmapped (t : Transformer) (name : gostring)
    (repeated : bool) (w : World) :
  findMapping t name = None ->
  transformType t (scanner.Basic name repeated) w =
    (None, {| pkg := pkg w;
              warnings := warnings w ++ [unmappedWarning name] |}).
Proof. intros H. cbn. now rewrite H. Qed.

Lemma transformType_basic_mapped (t : Transformer) (name : gostring)
    (repeated : bool) (w : World) (protoType : ProtoType.t) :
  findMapping t name = Some protoType ->
  transformType t (scanner.Basic name repeated) w =
    (Some (ProtoType_Type protoType),
     {| pkg := Package_Import protoType (pkg w); warnings := warnings w |}).
Proof. intros H. cbn. now rewrite H. Qed.


(** [transformField] when the type is not a byte slice. *)
Lemma transformField_run (t : Transformer) (f : scanner.Field.t) (pos : Z)
    (w : World) :
  isByteSlice (scanner.Field.Typ f) = false ->
  transformField t f pos w =
    let '(typ, w1) := transformType t (scanner.Field.Typ f) w in
    (match typ with
     | Some typ =>
         Some {| Field.Name := toLowerSnakeCase (scanner.Field.Name f);
                 Field.Pos := pos; Field.Typ := typ;
                 Field.Repeated := scanner.IsRepeated (scanner.Field.Typ f);
                 Field.Options := ∅ |}
     | None => None
     end, w1).
Proof.
  intros Hb. unfold transformField, mbind, M_bind, mret, M_ret. rewrite Hb.
  destruct (transformType t (scanner.Field.Typ f) w) as [[typ|] w1];
    reflexivity.
Qed.

(** The sink only grows. *)
Lemma transformType_warnings (t : Transformer) :
  forall (typ : scanner.Ty) (w : World),
    exists more : list Warning,
      warnings (snd (transformType t typ w)) = warnings w ++ more.
Proof.
  fix IH 1. intros [name r|path name r|k v r] w.
  - cbn. destruct (findMapping t name); cbn;
      [exists []; now rewrite app_nil_r | now eexists].
  - cbn. destruct (findMapping t _); cbn; exists []; now rewrite app_nil_r.
  - cbn [transformType]. unfold mbind, M_bind, mret, M_ret.
    assert (Hk : exists rk w1 more,
               (match k with
                | Some key => transformType t key
                | None => fun w => (None, w)
                end) w = (rk, w1) /\ warnings w1 = warnings w ++ more).
    { destruct k as [k|].
      - destruct (IH k w) as [more Hm].
        destruct (transformType t k w) as [rk w1]. now exists rk, w1, more.
      - exists None, w, []. now rewrite app_nil_r. }
    destruct Hk as (rk & w1 & more1 & -> & H1).
    assert (Hv : exists rv w2 more,
               (match v with
                | Some value => transformType t value
                | None => fun w => (None, w)
                end) w1 = (rv, w2) /\ warnings w2 = warnings w1 ++ more).
    { destruct v as [v|].
      - destruct (IH v w1) as [more Hm].
        destruct (transformType t v w1) as [rv w2]. now exists rv, w2, more.
      - exists None, w1, []. now rewrite app_nil_r. }
    destruct Hv as (rv & w2 & more2 & -> & H2).
    cbn. exists (more1 ++ more2). now rewrite H2, H1, app_assoc.
Qed.

Lemma transformField_warnings (t : Transformer) (f : scanner.Field.t)
    (pos : Z) (w : World) :
  exists more : list Warning,
    warnings (snd (transformField t f pos w)) = warnings w ++ more.
Proof.
  destruct (isByteSlice (scanner.Field.Typ f)) eqn:Hb.
  - unfold transformField, mbind, M_bind, mret, M_ret. rewrite Hb. cbn.
    exists []. now rewrite app_nil_r.
  - rewrite transformField_run by exact Hb.
    destruct (transformType_warnings t (scanner.Field.Typ f) w) as [more H].
    destruct (transformType t (scanner.Field.Typ f) w) as [typ w1].
    now exists more.
Qed.

Lemma structStep_warnings (t : Transformer) (s : scanner.Struct.t)
    (i : nat) (f : scanner.Field.t) (msg : Message.t) (w : World) :
  exists more : list Warning,
    warnings (snd (structStep t s i f msg w)) = warnings w ++ more.
Proof.
  rewrite structStep_run.
  destruct (transformField_warnings t f (Z.of_nat i + 1) w) as [more H].
  destruct (transformField t f (Z.of_nat i + 1) w) as [[out|] w1];
    cbn in *.
  - now exists more.
  - exists (more ++ [droppedWarning s f]). now rewrite H, app_assoc.
Qed.

Lemma forRangeM_warnings (t : Transformer) (s : scanner.Struct.t)
    (fs : list scanner.Field.t) :
  forall (i : nat) (msg : Message.t) (w : World),
    exists more : list Warning,
      warnings (snd (forRangeM (structStep t s) i fs msg w)) =
        warnings w ++ more.
Proof.
  induction fs as [|f fs IH]; intros i msg w.
  - exists []. cbn. now rewrite app_nil_r.
  - rewrite forRangeM_cons.
    destruct (structStep_warnings t s i f msg w) as [more1 H1].
    destruct (structStep t s i f msg w) as [msg1 w1]. cbn [snd] in H1.
    destruct (IH (S i) msg1 w1) as [more2 H2].
    exists (more1 ++ more2). now rewrite H2, H1, app_assoc.
Qed.

(** A field of an unmapped basic type leaves both of its warnings in the
    sink of the struct it belongs to. *)
Lemma forRangeM_unmapped (t : Transformer) (s : scanner.Struct.t)
    (name : gostring) (repeated : bool) (fname : gostring)
    (fs : list scanner.Field.t) :
  findMapping t name = None ->
  isByteSlice (scanner.Basic name repeated) = false ->
  let f := {| scanner.Field.Name := fname;
              scanner.Field.Typ := scanner.Basic name repeated |} in
  forall (k i : nat) (msg : Message.t) (w : World),
    fs !! k = Some f ->
    let w' := snd (forRangeM (structStep t s) i fs msg w) in
    unmappedWarning name ∈ warnings w' /\ droppedWarning s f ∈ warnings w'.
Proof.
  intros Hnone Hb f. induction fs as [|g fs IH]; intros k i msg w Hk; [easy|].
  cbn zeta. rewrite forRangeM_cons. destruct k as [|k].
  - cbn in Hk. injection Hk as ->. rewrite structStep_run.
    rewrite transformField_run by exact Hb. cbn [scanner.Field.Typ f].
    rewrite transformType_basic_unmapped by exact Hnone.
    match goal with
    | |- context [forRangeM _ _ _ ?m ?w1] =>
        destruct (forRangeM_warnings t s fs (S i) m w1) as [more ->]
    end.
    cbn [warnings]. split; rewrite !elem_of_app, !list_elem_of_singleton; auto.
  - destruct (structStep t s i g msg w) as [msg1 w1]. now apply (IH k).
Qed.

End FieldFacts.

(** C4. A field whose declared type is the repeated basic type "byte"
    becomes a field of the basic type "bytes" that is not repeated; every
    other field that is transformed keeps the repeated flag of its declared
    type. *)
Theorem transformField_repeated :
  forall (U : Unicode) (t : Transformer) (pos : Z) (w : World),
    (forall fname : gostring,
        transformField t
          {| scanner.Field.Name := fname;
             scanner.Field.Typ := scanner.Basic (str "byte") true |} pos w =
          (Some {| Field.Name := toLowerSnakeCase fname; Field.Pos := pos;
                   Field.Typ := Basic (str "bytes"); Field.Repeated := false;
                   Field.Options := ∅ |}, w)) /\
    (forall (f : scanner.Field.t) (out : Field.t),
        scanner.Field.Typ f <> scanner.Basic (str "byte") true ->
        fst (transformField t f pos w) = Some out ->
        Field.Repeated out = scanner.IsRepeated (scanner.Field.Typ f)).
Proof.
  intros U t pos w. split; [reflexivity|].
  intros f out Hne Hout.
  assert (Hb : isByteSlice (scanner.Field.Typ f) = false).
  { destruct (isByteSlice _) eqn:Hb; [|reflexivity].
    now apply isByteSlice_true in Hb. }
  rewrite transformField_run in Hout by exact Hb.
  destruct (transformType t (scanner.Field.Typ f) w) as [[typ|] w1];
    cbn in Hout; [|easy].
  now injection Hout as <-.
Qed.

Lemma transformField_repeated_witness :
  Field.Repeated
    {| Field.Name := str "baz_bar"; Field.Pos := 1;
       Field.Typ := Basic (str "int64"); Field.Repeated := true;
       Field.Options := ∅ |} =
  scanner.IsRepeated (scanner.Basic (str "int") true).
Proof.
  apply (proj2 (transformField_repeated latin1 NewTransformer 1 emptyWorld)
               (field "BazBar" (scanner.Basic (str "int") true))).
  - discriminate.
  - vm_compute. reflexivity.
Defined.

(** C5, as the claim has it, fails: the named type foo.Bar has an entry in
    neither table, and its field is transformed, not dropped; nothing is
    reserved in its struct and no warning is given. So it is not true that
    every field whose type has no entry is dropped. *)
Lemma unmapped_named_not_dropped :
  (qualifiedName fooBar = Some (str "foo.Bar") /\
   mappings NewTransformer !! str "foo.Bar" = None /\
   defaultMappings !! str "foo.Bar" = None /\
   transformStruct (U := latin1) NewTransformer
     {| scanner.Struct.Name := str "Foo";
        scanner.Struct.Fields := [field "Owner" fooBar] |}
     emptyWorld =
     ({| Message.Name := str "Foo";
         Message.Fields :=
           [ {| Field.Name := str "owner"; Field.Pos := 1;
                Field.Typ := Named (str "foo") (str "Bar") false;
                Field.Repeated := false; Field.Options := ∅ |} ];
         Message.Reserved := [];
         Message.Options := ∅ |},
      {| pkg := withImports [ImportGenerated (str "foo")] emptyPackage;
         warnings := [] |})) /\
  ~ (forall (U : Unicode) (t : Transformer) (f : scanner.Field.t)
            (name : gostring) (pos : Z) (w : World),
        qualifiedName (scanner.Field.Typ f) = Some name ->
        mappings t !! name = None ->
        defaultMappings !! name = None ->
        fst (transformField t f pos w) = None).
Proof.
  split; [vm_compute; repeat split; reflexivity|].
  intros H.
  specialize (H latin1 NewTransformer (field "Owner" fooBar) (str "foo.Bar")
                1 emptyWorld eq_refl eq_refl eq_refl).
  vm_compute in H. discriminate.
Qed.

(** C5, amended. A field whose declared type is a basic type with an entry
    in neither the override table nor the default table is dropped:
    [transformField] yields no field and sends the sink a warning that
    names the type, and in every struct that has the field the message
    reserves its position, holds no field at it, and the sink has that
    warning and the one for the dropped field. *)
Theorem unmapped_basic_dropped :
  forall (U : Unicode) (t : Transformer) (name : gostring) (repeated : bool)
         (fname : gostring),
    mappings t !! name = None ->
    defaultMappings !! name = None ->
    let f := {| scanner.Field.Name := fname;
                scanner.Field.Typ := scanner.Basic name repeated |} in
    (forall (pos : Z) (w : World),
        transformField t f pos w =
          (None, {| pkg := pkg w;
                    warnings := warnings w ++ [unmappedWarning name] |})) /\
    (forall (s : scanner.Struct.t) (i : nat) (w : World),
        scanner.Struct.Fields s !! i = Some f ->
        let msg := fst (transformStruct t s w) in
        let w' := snd (transformStruct t s w) in
        Z.of_nat i + 1 ∈ Message.Reserved msg /\
        (forall out : Field.t,
            out ∈ Message.Fields msg -> Field.Pos out <> Z.of_nat i + 1) /\
        unmappedWarning name ∈ warnings w' /\
        droppedWarning s f ∈ warnings w').
Proof.
  intros U t name repeated fname Hcustom Hdefault f.
  assert (Hnone : findMapping t name = None) by now apply findMapping_None.
  assert (Hb : isByteSlice (scanner.Basic name repeated) = false).
  { destruct (isByteSlice _) eqn:Hb; [|reflexivity].
    apply isByteSlice_true in Hb. injection Hb as -> _.
    now apply unmapped_not_byte in Hdefault. }
  assert (Hfield : forall pos w,
             transformField t f pos w =
               (None, {| pkg := pkg w;
                         warnings := warnings w ++ [unmappedWarning name] |})).
  { intros pos w. rewrite transformField_run by exact Hb.
    cbn [scanner.Field.Typ f].
    now rewrite transformType_basic_unmapped by exact Hnone. }
  split; [exact Hfield|].
  intros s i w Hi msg w'. subst msg w'.
  destruct (transformStruct_fields t s w) as [Hk Hd]. rewrite Hk, Hd.
  assert (Hat : fieldAt t i f = None) by (unfold fieldAt; now rewrite Hfield).
  split; [|split].
  - apply elem_of_droppedFrom. exists i, f. now rewrite Nat.add_0_l.
  - intros out Hout Hpos. apply elem_of_keptFrom in Hout as (j & g & Hj & Hg).
    rewrite Nat.add_0_l in Hg. apply fieldAt_pos in Hg as Hp.
    assert (j = i) by lia. subst j. congruence.
  - unfold transformStruct.
    now apply (forRangeM_unmapped t s name repeated fname _ Hnone Hb i).
Qed.

Lemma unmapped_basic_dropped_witness :
  transformField (U := latin1) NewTransformer
    (field "Invalid" (scanner.Basic (str "complex64") false)) 2 emptyWorld =
    (None, {| pkg := emptyPackage;
              warnings := [unmappedWarning (str "complex64")] |}) /\
  (let msg := fst (transformStruct (U := latin1) NewTransformer threeFields
                                   emptyWorld) in
   let w' := snd (transformStruct (U := latin1) NewTransformer threeFields
                                  emptyWorld) in
   Z.of_nat 1 + 1 ∈ Message.Reserved msg /\
   (forall out : Field.t,
       out ∈ Message.Fields msg -> Field.Pos out <> Z.of_nat 1 + 1) /\
   unmappedWarning (str "complex64") ∈ warnings w' /\
   droppedWarning threeFields
     (field "Invalid" (scanner.Basic (str "complex64") false)) ∈ warnings w').
Proof.
  pose proof (unmapped_basic_dropped latin1 NewTransformer (str "complex64")
                false (str "Invalid") eq_refl eq_refl) as [Hfield Hstruct].
  split.
  - apply (Hfield 2 emptyWorld).
  - apply (Hstruct threeFields 1%nat emptyWorld eq_refl).
Defined.




(** C6. [transformType] never fails on a map: whatever becomes of the key
    and of the value, it returns a map type, with [nil] for the component
    that did not resolve. The field of a map from strings to the
    unsupported type complex64 is therefore transformed into a field
    whose map type has no value type, and its position is not reserved. *)
Theorem map_with_unresolved_component :
  (forall (U : Unicode) (t : Transformer) (key value : option scanner.Ty)
          (repeated : bool) (w : World),
      exists k v : option Ty,
        fst (transformType t (scanner.Map key value repeated) w) =
          Some (Map k v)) /\
  fst (transformType (U := latin1) NewTransformer
         (scanner.NewBasic (str "complex64")) emptyWorld) = None /\
  fst (transformField (U := latin1) NewTransformer (field "Lookup" brokenMap)
                      1 emptyWorld) =
    Some {| Field.Name := str "lookup"; Field.Pos := 1;
            Field.Typ := Map (Some (Basic (str "string"))) None;
            Field.Repeated := false; Field.Options := ∅ |} /\
  (let msg := fst (transformStruct (U := latin1) NewTransformer brokenStruct
                                   emptyWorld) in
   map Field.Pos (Message.Fields msg) = [1] /\ Message.Reserved msg = []).
Proof.
  split; [|vm_compute; repeat split; reflexivity].
  intros U t key value repeated w.
  cbn [transformType]. unfold mbind, M_bind, mret, M_ret.
  destruct (match key with
            | Some key => transformType t key
            | None => fun w => (None, w)
            end w) as [k w1].
  destruct (match value with
            | Some value => transformType t value
            | None => fun w => (None, w)
            end w1) as [v w2].
  now exists k, v.
Qed.





(** ** RPCs *)

(** C9. A function one of whose wrapper names, "<Name>Request" or
    "<Name>Response", is already in the collision set is skipped as a
    whole: [transformFunc] returns no RPC and leaves the collision set, the
    package (its messages and its RPCs among the rest) and the sink as they
    were. So it is with the function DoFoo when DoFooRequest, or
    DoFooResponse, is registered beforehand. *)
Theorem transformFunc_collision :
  forall (U : Unicode) (t : Transformer) (f : scanner.Func.t)
         (name : gostring) (names : nameSet) (w : World),
    rpcName f = Some name ->
    requestName name ∈ names \/ responseName name ∈ names ->
    transformFunc t f names w = ((None, names), w).
Proof.
  intros U t f name names w Hname Hin. unfold transformFunc. rewrite Hname.
  now destruct (decide (requestName name ∈ names ∨ responseName name ∈ names)).
Qed.

Lemma transformFunc_collision_witness :
  transformFunc (U := latin1) NewTransformer doFoo {[ str "DoFooRequest" ]}
                emptyWorld = ((None, {[ str "DoFooRequest" ]}), emptyWorld) /\
  transformFunc (U := latin1) NewTransformer doFoo {[ str "DoFooResponse" ]}
                emptyWorld = ((None, {[ str "DoFooResponse" ]}), emptyWorld).
Proof.
  split.
  - apply (transformFunc_collision latin1 NewTransformer doFoo (str "DoFoo"));
      [reflexivity|].
    left. apply elem_of_singleton. reflexivity.
  - apply (transformFunc_collision latin1 NewTransformer doFoo (str "DoFoo"));
      [reflexivity|].
    right. apply elem_of_singleton. reflexivity.
Defined.

(** * Further properties *)

(** ** What becomes of a type *)

Lemma findMapping_default (t : Transformer) (name : gostring) :
  is_Some (defaultMappings !! name) -> is_Some (findMapping t name).
Proof.
  intros [d Hd]. unfold findMapping. destruct (mappings t !! name); [easy|].
  now rewrite Hd.
Qed.

Lemma sameButImports_refl (p : Package.t) : sameButImports p p.
Proof. now repeat split. Qed.

Lemma sameButImports_trans (p q r : Package.t) :
  sameButImports p q -> sameButImports q r -> sameButImports p r.
Proof.
  unfold sameButImports. intros (?&?&?&?&?&?) (?&?&?&?&?&?).
  repeat split; congruence.
Qed.

Lemma sameButImports_addImport (e : ImportEntry) (p : Package.t) :
  sameButImports p (addImport e p).
Proof.
  unfold addImport. destruct (decide (e ∈ Package.Imports p)).
  - apply sameButImports_refl.
  - now repeat split.
Qed.

Lemma sameButImports_ImportFromPath (path : gostring) (p : Package.t) :
  sameButImports p (Package_ImportFromPath path p).
Proof.
  unfold Package_ImportFromPath. destruct (decide (path = Package.Path p)).
  - apply sameButImports_refl.
  - apply sameButImports_addImport.
Qed.

Lemma sameButImports_Import (pt : ProtoType.t) (p : Package.t) :
  sameButImports p (Package_Import pt p).
Proof.
  unfold Package_Import. destruct (ProtoType.Import pt).
  - apply sameButImports_refl.
  - apply sameButImports_addImport.
Qed.

Section TypeFacts.
Context {U : Unicode}.

Lemma transformType_map_run (t : Transformer) (key value : option scanner.Ty)
    (repeated : bool) (w : World) :
  transformType t (scanner.Map key value repeated) w =
    let '(k, w1) := match key with
                    | Some key => transformType t key w
                    | None => (None, w)
                    end in
    let '(v, w2) := match value with
                    | Some value => transformType t value w1
                    | None => (None, w1)
                    end in
    (Some (Map k v), w2).
Proof.
  cbn [transformType]. unfold mbind, M_bind, mret, M_ret.
  destruct key as [key|], value as [value|]; cbn;
    repeat match goal with
           | |- context [transformType t ?x ?y] =>
               destruct (transformType t x y)
           end; reflexivity.
Qed.

Lemma transformType_map_some (t : Transformer) (key value : option scanner.Ty)
    (repeated : bool) (w : World) :
  exists (k v : option Ty) (w2 : World),
    transformType t (scanner.Map key value repeated) w = (Some (Map k v), w2).
Proof.
  rewrite transformType_map_run.
  destruct (match key with
            | Some key => transformType t key w
            | None => (None, w)
            end) as [k w1].
  destruct (match value with
            | Some value => transformType t value w1
            | None => (None, w1)
            end) as [v w2].
  now exists k, v, w2.
Qed.

Lemma typeOf_result (t : Transformer) (typ : scanner.Ty) (w : World) :
  fst (transformType t typ w) = typeOf t (Some typ).
Proof. apply transformType_result. Qed.

(** The warnings of a type are the same wherever the sink stands. *)
Lemma transformType_warnings_eq (t : Transformer) :
  forall (typ : scanner.Ty) (w : World),
    warnings (snd (transformType t typ w)) =
      warnings w ++ warningsOf t (Some typ).
Proof.
  fix IH 1. intros [name r|path name r|k v r] w.
  - cbn. destruct (findMapping t name); cbn; now rewrite ?app_nil_r.
  - cbn. destruct (findMapping t _); cbn; now rewrite ?app_nil_r.
  - cbn [warningsOf]. rewrite !transformType_map_run.
    assert (Hk : forall w0,
               warnings (snd (match k with
                              | Some key => transformType t key w0
                              | None => (None, w0)
                              end)) = warnings w0 ++ warningsOf t k).
    { intros w0. destruct k as [k|]; cbn [snd warningsOf].
      - apply IH.
      - now rewrite app_nil_r. }
    assert (Hv : forall w0,
               warnings (snd (match v with
                              | Some value => transformType t value w0
                              | None => (None, w0)
                              end)) = warnings w0 ++ warningsOf t v).
    { intros w0. destruct v as [v|]; cbn [snd warningsOf].
      - apply IH.
      - now rewrite app_nil_r. }
    pose proof (Hk w) as Hk1. pose proof (Hk emptyWorld) as Hk2.
    destruct (match k with
              | Some key => transformType t key w
              | None => (None, w)
              end) as [rk w1].
    destruct (match k with
              | Some key => transformType t key emptyWorld
              | None => (None, emptyWorld)
              end) as [rk' e1].
    pose proof (Hv w1) as Hv1. pose proof (Hv e1) as Hv2.
    destruct (match v with
              | Some value => transformType t value w1
              | None => (None, w1)
              end) as [rv w2].
    destruct (match v with
              | Some value => transformType t value e1
              | None => (None, e1)
              end) as [rv' e2].
    cbn [snd] in *. rewrite Hv1, Hk1, Hv2, Hk2. cbn [warnings emptyWorld app].
    now rewrite app_assoc.
Qed.

(** Only the import list of the package changes. *)
Lemma transformType_package (t : Transformer) :
  forall (typ : scanner.Ty) (w : World),
    sameButImports (pkg w) (pkg (snd (transformType t typ w))).
Proof.
  fix IH 1. intros [name r|path name r|k v r] w.
  - cbn. destruct (findMapping t name); cbn.
    + apply sameButImports_Import.
    + apply sameButImports_refl.
  - cbn. destruct (findMapping t _); cbn.
    + apply sameButImports_Import.
    + apply sameButImports_ImportFromPath.
  - rewrite transformType_map_run.
    assert (Hk : sameButImports (pkg w)
                   (pkg (snd (match k with
                              | Some key => transformType t key w
                              | None => (None, w)
                              end)))).
    { destruct k as [k|]; [apply IH | apply sameButImports_refl]. }
    destruct (match k with
              | Some key => transformType t key w
              | None => (None, w)
              end) as [rk w1].
    assert (Hv : sameButImports (pkg w1)
                   (pkg (snd (match v with
                              | Some value => transformType t value w1
                              | None => (None, w1)
                              end)))).
    { destruct v as [v|]; [apply IH | apply sameButImports_refl]. }
    destruct (match v with
              | Some value => transformType t value w1
              | None => (None, w1)
              end) as [rv w2].
    cbn [snd] in *. eapply sameButImports_trans; eassumption.
Qed.

End TypeFacts.

(** X1. [transformField] drops a field exactly when its declared type is
    a basic type with an entry in neither table: fields of named types
    and of map types always come out, and so do byte slices. *)
Theorem transformField_dropped_iff :
  forall (U : Unicode) (t : Transformer) (f : scanner.Field.t) (pos : Z)
         (w : World),
    fst (transformField t f pos w) = None <->
    exists (name : gostring) (repeated : bool),
      scanner.Field.Typ f = scanner.Basic name repeated /\
      mappings t !! name = None /\ defaultMappings !! name = None.
Proof.
  intros U t f pos w. split.
  - intros Hnone.
    destruct (isByteSlice (scanner.Field.Typ f)) eqn:Hb.
    { unfold transformField, mbind, M_bind, mret, M_ret in Hnone.
      now rewrite Hb in Hnone. }
    rewrite transformField_run in Hnone by exact Hb.
    destruct (scanner.Field.Typ f) as [name r|path name r|k v r] eqn:Htyp.
    + exists name, r. split; [reflexivity|]. apply findMapping_None.
      destruct (findMapping t name) as [pt|] eqn:Hf; [|reflexivity].
      now rewrite (transformType_basic_mapped t name r w pt Hf) in Hnone.
    + cbn in Hnone. now destruct (findMapping t _).
    + destruct (transformType_map_some t k v r w) as (k' & v' & w2 & Hm).
      now rewrite Hm in Hnone.
  - intros (name & r & Htyp & Hc & Hd).
    assert (Hnone : findMapping t name = None) by now apply findMapping_None.
    assert (Hb : isByteSlice (scanner.Field.Typ f) = false).
    { rewrite Htyp. destruct (isByteSlice _) eqn:Hb; [|reflexivity].
      apply isByteSlice_true in Hb. injection Hb as -> _.
      now apply unmapped_not_byte in Hd. }
    rewrite transformField_run by exact Hb. rewrite Htyp.
    now rewrite transformType_basic_unmapped by exact Hnone.
Qed.

(** X2. A map type is transformed component by component: the result is
    the map of what the key and the value become on their own, with [nil]
    for a component that is [nil] or does not resolve, and the warnings of
    the key come before those of the value. *)
Theorem transformType_map_componentwise :
  forall (U : Unicode) (t : Transformer) (key value : option scanner.Ty)
         (repeated : bool) (w : World),
    fst (transformType t (scanner.Map key value repeated) w) =
      Some (Map (typeOf t key) (typeOf t value)) /\
    warnings (snd (transformType t (scanner.Map key value repeated) w)) =
      warnings w ++ warningsOf t key ++ warningsOf t value.
Proof.
  intros U t key value repeated w. split.
  - rewrite transformType_map_run.
    assert (Hk : forall w0,
               fst (match key with
                    | Some key => transformType t key w0
                    | None => (None, w0)
                    end) = typeOf t key).
    { intros w0. destruct key; [apply transformType_result | reflexivity]. }
    assert (Hv : forall w0,
               fst (match value with
                    | Some value => transformType t value w0
                    | None => (None, w0)
                    end) = typeOf t value).
    { intros w0. destruct value; [apply transformType_result | reflexivity]. }
    specialize (Hk w).
    destruct (match key with
              | Some key => transformType t key w
              | None => (None, w)
              end) as [rk w1].
    specialize (Hv w1).
    destruct (match value with
              | Some value => transformType t value w1
              | None => (None, w1)
              end) as [rv w2].
    cbn [fst] in *. now subst.
  - rewrite transformType_warnings_eq. f_equal.
    cbn [warningsOf]. rewrite transformType_map_run.
    assert (Hk : forall w0,
               warnings (snd (match key with
                              | Some key => transformType t key w0
                              | None => (None, w0)
                              end)) = warnings w0 ++ warningsOf t key).
    { intros w0. destruct key; cbn [snd warningsOf];
        [apply transformType_warnings_eq | now rewrite app_nil_r]. }
    assert (Hv : forall w0,
               warnings (snd (match value with
                              | Some value => transformType t value w0
                              | None => (None, w0)
                              end)) = warnings w0 ++ warningsOf t value).
    { intros w0. destruct value; cbn [snd warningsOf];
        [apply transformType_warnings_eq | now rewrite app_nil_r]. }
    specialize (Hk emptyWorld).
    destruct (match key with
              | Some key => transformType t key emptyWorld
              | None => (None, emptyWorld)
              end) as [rk e1].
    specialize (Hv e1).
    destruct (match value with
              | Some value => transformType t value e1
              | None => (None, e1)
              end) as [rv e2].
    cbn [snd] in *. now rewrite Hv, Hk.
Qed.

(** ** Structs and packages *)

Section StructFacts.
Context {U : Unicode}.

Lemma forRangeM_structStep_options (t : Transformer) (s : scanner.Struct.t)
    (fs : list scanner.Field.t) :
  forall (i : nat) (msg : Message.t) (w : World),
    Message.Options (fst (forRangeM (structStep t s) i fs msg w)) =
      Message.Options msg.
Proof.
  induction fs as [|f fs IH]; intros i msg w; [reflexivity|].
  rewrite forRangeM_cons, structStep_run.
  destruct (transformField t f (Z.of_nat i + 1) w) as [[out|] w1];
    now rewrite IH.
Qed.

Lemma transformStruct_messageOf (t : Transformer) (s : scanner.Struct.t)
    (w : World) :
  fst (transformStruct t s w) = messageOf t s.
Proof.
  destruct (transformStruct_fields t s w) as [Hk Hd].
  pose proof (forRangeM_structStep t s (scanner.Struct.Fields s) 0
                (newMessage (scanner.Struct.Name s)) w) as (Hn & _ & _).
  pose proof (forRangeM_structStep_options t s (scanner.Struct.Fields s) 0
                (newMessage (scanner.Struct.Name s)) w) as Ho.
  cbn zeta in Hn. fold (transformStruct t s) in Hn, Ho.
  destruct (fst (transformStruct t s w)) as [n fl rs os].
  cbn in Hk, Hd, Hn, Ho. unfold messageOf. now subst.
Qed.

Lemma kept_dropped_length (t : Transformer) (fs : list scanner.Field.t)
    (i : nat) :
  (length (keptFrom t i fs) + length (droppedFrom t i fs) = length fs)%nat.
Proof.
  revert i. induction fs as [|f fs IH]; intros i; [reflexivity|].
  cbn [keptFrom droppedFrom length]. specialize (IH (S i)).
  destruct (fieldAt t i f); cbn [length]; lia.
Qed.

Lemma transformField_package (t : Transformer) (f : scanner.Field.t)
    (pos : Z) (w : World) :
  sameButImports (pkg w) (pkg (snd (transformField t f pos w))).
Proof.
  destruct (isByteSlice (scanner.Field.Typ f)) eqn:Hb.
  - unfold transformField, mbind, M_bind, mret, M_ret. rewrite Hb. cbn.
    apply sameButImports_refl.
  - rewrite transformField_run by exact Hb.
    pose proof (transformType_package t (scanner.Field.Typ f) w) as H.
    now destruct (transformType t (scanner.Field.Typ f) w) as [typ w1].
Qed.

Lemma forRangeM_structStep_package (t : Transformer) (s : scanner.Struct.t)
    (fs : list scanner.Field.t) :
  forall (i : nat) (msg : Message.t) (w : World),
    sameButImports (pkg w)
      (pkg (snd (forRangeM (structStep t s) i fs msg w))).
Proof.
  induction fs as [|f fs IH]; intros i msg w.
  - apply sameButImports_refl.
  - rewrite forRangeM_cons, structStep_run.
    pose proof (transformField_package t f (Z.of_nat i + 1) w) as H.
    destruct (transformField t f (Z.of_nat i + 1) w) as [[out|] w1];
      cbn [snd] in H; (eapply sameButImports_trans; [exact H|]).
    + apply IH.
    + match goal with
      | |- context [forRangeM _ _ _ ?m ?w'] => apply (IH (S i) m w')
      end.
Qed.

(** A run of [transformStruct]: the message, a package that differs in
    its imports at most, and a sink that has grown. *)
Lemma transformStruct_run (t : Transformer) (s : scanner.Struct.t) (w : World) :
  exists w' : World,
    transformStruct t s w = (messageOf t s, w') /\
    sameButImports (pkg w) (pkg w') /\
    exists more : list Warning, warnings w' = warnings w ++ more.
Proof.
  exists (snd (transformStruct t s w)). split; [|split].
  - rewrite <- (transformStruct_messageOf t s w).
    now destruct (transformStruct t s w).
  - apply forRangeM_structStep_package.
  - apply forRangeM_warnings.
Qed.

Lemma structsStep_run (t : Transformer) (s : scanner.Struct.t) (w : World) :
  (msg ← transformStruct t s; onPackage (appendMessage msg)) w =
    (tt, {| pkg := appendMessage (messageOf t s)
                     (pkg (snd (transformStruct t s w)));
            warnings := warnings (snd (transformStruct t s w)) |}).
Proof.
  unfold mbind, M_bind, onPackage.
  rewrite <- (transformStruct_messageOf t s w).
  now destruct (transformStruct t s w).
Qed.

(** The first loop of [Transform]. *)
Lemma forRangeM_structs (t : Transformer) (structs : list scanner.Struct.t) :
  forall (i : nat) (w : World),
    let w' := snd (forRangeM (fun _ s _ =>
                                msg ← transformStruct t s;
                                onPackage (appendMessage msg))
                             i structs tt w) in
    Package.Name (pkg w') = Package.Name (pkg w) /\
    Package.Path (pkg w') = Package.Path (pkg w) /\
    Package.Options (pkg w') = Package.Options (pkg w) /\
    Package.Messages (pkg w') =
      Package.Messages (pkg w) ++ map (messageOf t) structs /\
    Package.Enums (pkg w') = Package.Enums (pkg w) /\
    Package.RPCs (pkg w') = Package.RPCs (pkg w) /\
    exists more : list Warning, warnings w' = warnings w ++ more.
Proof.
  induction structs as [|s structs IH]; intros i w; cbn zeta.
  - cbn. rewrite app_nil_r. repeat split. exists []. now rewrite app_nil_r.
  - rewrite forRangeM_cons, structsStep_run.
    destruct (transformStruct_run t s w) as (w1 & Hrun & Hp & more1 & Hw).
    rewrite Hrun. cbn [snd].
    destruct (IH (S i) {| pkg := appendMessage (messageOf t s) (pkg w1);
                          warnings := warnings w1 |})
      as (Hn & Hpa & Ho & Hm & He & Hr & more2 & Hw2).
    cbn zeta in Hn, Hpa, Ho, Hm, He, Hr, Hw2.
    destruct Hp as (Pn & Pp & Po & Pm & Pe & Pr).
    split; [rewrite Hn; cbn; congruence|].
    split; [rewrite Hpa; cbn; congruence|].
    split; [rewrite Ho; cbn; congruence|].
    split; [rewrite Hm; cbn; rewrite <- Pm, <- app_assoc; reflexivity|].
    split; [rewrite He; cbn; congruence|].
    split; [rewrite Hr; cbn; congruence|].
    exists (more1 ++ more2). rewrite Hw2. cbn [warnings].
    now rewrite Hw, app_assoc.
Qed.

Lemma onPackage_run (f : Package.t -> Package.t) (w : World) :
  onPackage f w = (tt, {| pkg := f (pkg w); warnings := warnings w |}).
Proof. reflexivity. Qed.

(** The second loop of [Transform]. *)
Lemma forRangeM_enums (t : Transformer) (enums : list scanner.Enum.t) :
  forall (i : nat) (w : World),
    let w' := snd (forRangeM (fun _ e _ =>
                                onPackage (appendEnum (transformEnum t e)))
                             i enums tt w) in
    Package.Name (pkg w') = Package.Name (pkg w) /\
    Package.Path (pkg w') = Package.Path (pkg w) /\
    Package.Options (pkg w') = Package.Options (pkg w) /\
    Package.Messages (pkg w') = Package.Messages (pkg w) /\
    Package.Enums (pkg w') =
      Package.Enums (pkg w) ++ map (transformEnum t) enums /\
    Package.RPCs (pkg w') = Package.RPCs (pkg w) /\
    warnings w' = warnings w.
Proof.
  induction enums as [|e enums IH]; intros i w; cbn zeta.
  - cbn. now rewrite app_nil_r.
  - rewrite forRangeM_cons, onPackage_run.
    destruct (IH (S i) {| pkg := appendEnum (transformEnum t e) (pkg w);
                          warnings := warnings w |})
      as (Hn & Hpa & Ho & Hm & He & Hr & Hw).
    cbn zeta in Hn, Hpa, Ho, Hm, He, Hr, Hw.
    split; [rewrite Hn; reflexivity|].
    split; [rewrite Hpa; reflexivity|].
    split; [rewrite Ho; reflexivity|].
    split; [rewrite Hm; reflexivity|].
    split; [rewrite He; cbn; rewrite <- app_assoc; reflexivity|].
    split; [rewrite Hr; reflexivity|].
    rewrite Hw. reflexivity.
Qed.

Lemma Transform_run (t : Transformer) (p : scanner.Package.t)
    (log : list Warning) :
  Transform t p log =
    let w0 :=
      {| pkg := {| Package.Name := toProtobufPkg (scanner.Package.Path p);
                   Package.Path := scanner.Package.Path p;
                   Package.Options := defaultOptionsForPackage p;
                   Package.Messages := []; Package.Enums := [];
                   Package.RPCs := []; Package.Imports := [] |};
         warnings := log |} in
    let w1 := snd (forRangeM (fun _ s _ =>
                                msg ← transformStruct t s;
                                onPackage (appendMessage msg))
                             0 (scanner.Package.Structs p) tt w0) in
    let w2 := snd (forRangeM (fun _ e _ =>
                                onPackage (appendEnum (transformEnum t e)))
                             0 (scanner.Package.Enums p) tt w1) in
    (pkg w2, warnings w2).
Proof.
  unfold Transform, mbind, M_bind. cbn zeta.
  destruct (forRangeM _ 0 (scanner.Package.Structs p) tt _) as [[] w1].
  cbn [snd].
  now destruct (forRangeM _ 0 (scanner.Package.Enums p) tt w1) as [[] w2].
Qed.

End StructFacts.

(** X3. The message of a struct does not depend on the package and the
    sink that [transformStruct] runs in: it bears the name of the struct,
    no options, the fields that transform and the positions of those that
    do not. No declared field is lost: the fields and the reserved
    positions of the message are together as many as the fields of the
    struct. *)
Theorem transformStruct_message :
  forall (U : Unicode) (t : Transformer) (s : scanner.Struct.t) (w : World),
    fst (transformStruct t s w) =
      {| Message.Name := scanner.Struct.Name s;
         Message.Fields := keptFrom t 0 (scanner.Struct.Fields s);
         Message.Reserved := droppedFrom t 0 (scanner.Struct.Fields s);
         Message.Options := ∅ |} /\
    (length (Message.Fields (fst (transformStruct t s w))) +
     length (Message.Reserved (fst (transformStruct t s w))) =
     length (scanner.Struct.Fields s))%nat.
Proof.
  intros U t s w. rewrite transformStruct_messageOf. split; [reflexivity|].
  apply kept_dropped_length.
Qed.

(** X4. [Transform] returns a package named after the namespace of the
    scanned path, with that path, the single option go_package set to the
    scanned name, one message per struct and one enum per enum, each in
    declaration order and each what [transformStruct] and [transformEnum]
    make of it, and no RPC. The sink keeps what it had. *)
Theorem Transform_package :
  forall (U : Unicode) (t : Transformer) (p : scanner.Package.t)
         (log : list Warning),
    let out := fst (Transform t p log) in
    Package.Name out = toProtobufPkg (scanner.Package.Path p) /\
    Package.Path out = scanner.Package.Path p /\
    Package.Options out =
      {[ str "go_package" := StringValue (scanner.Package.Name p) ]} /\
    Package.Messages out =
      map (fun s => fst (transformStruct t s emptyWorld))
          (scanner.Package.Structs p) /\
    Package.Enums out = map (transformEnum t) (scanner.Package.Enums p) /\
    Package.RPCs out = [] /\
    exists more : list Warning, snd (Transform t p log) = log ++ more.
Proof.
  intros U t p log out. subst out. rewrite Transform_run. cbn zeta.
  match goal with
  | |- context [forRangeM _ 0 (scanner.Package.Structs p) tt ?w0] =>
      pose proof (forRangeM_structs t (scanner.Package.Structs p) 0 w0)
        as (Hn & Hpa & Ho & Hm & He & Hr & more & Hw)
  end.
  cbn zeta in Hn, Hpa, Ho, Hm, He, Hr, Hw.
  match goal with
  | |- context [forRangeM _ 0 (scanner.Package.Enums p) tt ?w1] =>
      pose proof (forRangeM_enums t (scanner.Package.Enums p) 0 w1)
        as (Hn2 & Hpa2 & Ho2 & Hm2 & He2 & Hr2 & Hw2)
  end.
  cbn zeta in Hn2, Hpa2, Ho2, Hm2, He2, Hr2, Hw2. cbn [fst snd].
  rewrite Hn2, Hpa2, Ho2, Hm2, He2, Hr2, Hw2, Hn, Hpa, Ho, Hm, He, Hr, Hw.
  cbn [pkg warnings Package.Name Package.Path Package.Options
       Package.Messages Package.Enums Package.RPCs app].
  repeat split.
  - apply map_ext. intros s. now rewrite transformStruct_messageOf.
  - now exists more.
Qed.

(** X5. An override table set with [SetMappings] replaces the one before
    it and is asked first: a basic or named type with an entry in it
    becomes what that entry says, whatever the default table has for it,
    and a type without one is left to the default table alone. Setting a
    [nil] table afterwards changes nothing. *)
Theorem SetMappings_override :
  forall (U : Unicode) (t : Transformer) (m : TypeMappings),
    let t' := SetMappings None (SetMappings (Some m) t) in
    (forall (name : gostring) (protoType : ProtoType.t) (repeated : bool)
            (w : World),
        m !! name = Some protoType ->
        fst (transformType t' (scanner.Basic name repeated) w) =
          Some (ProtoType_Type protoType)) /\
    (forall (path name : gostring) (protoType : ProtoType.t) (repeated : bool)
            (w : World),
        m !! scanner.Named_String path name = Some protoType ->
        fst (transformType t' (scanner.Named path name repeated) w) =
          Some (ProtoType_Type protoType)) /\
    (forall name : gostring,
        m !! name = None -> findMapping t' name = defaultMappings !! name).
Proof.
  intros U t m t'. subst t'. cbn [SetMappings]. repeat split.
  - intros name pt r w Hm.
    rewrite (transformType_basic_mapped _ name r w pt); [reflexivity|].
    unfold findMapping. cbn [mappings]. now rewrite Hm.
  - intros path name pt r w Hm. cbn [transformType].
    unfold findMapping. cbn [mappings]. now rewrite Hm.
  - intros name Hm. unfold findMapping. cbn [mappings]. now rewrite Hm.
Qed.

Lemma SetMappings_override_witness :
  fst (transformType (U := latin1)
         (SetMappings None (SetMappings (Some suiteMappings) NewTransformer))
         (scanner.Named (str "time") (str "Duration") false) emptyWorld) =
    Some (ProtoType_Type (basicType "uint64")) /\
  findMapping
    (SetMappings None (SetMappings (Some suiteMappings) NewTransformer))
    (str "time.Time") = defaultMappings !! str "time.Time".
Proof.
  pose proof (SetMappings_override latin1 NewTransformer suiteMappings)
    as (_ & Hnamed & Hdefault).
  split.
  - apply (Hnamed (str "time") (str "Duration")). reflexivity.
  - apply Hdefault. reflexivity.
Defined.

(** ** More on identifier case *)

Section SnakeCaseMore.
Context {U : Unicode}.

Lemma flat_map_singleton_nth {A : Type} (f : rune -> A) (s p : gostring) :
  flat_map (fun i => [f (nth i (p ++ s) 0)]) (seq (length p) (length s)) =
    map f s.
Proof.
  revert p. induction s as [|r s IH]; intros p; [reflexivity|].
  cbn [length seq flat_map map app].
  rewrite app_nth2, Nat.sub_diag by lia. cbn [nth]. f_equal.
  specialize (IH (p ++ [r])). rewrite <- app_assoc in IH. cbn [app] in IH.
  rewrite length_app in IH. cbn [length] in IH.
  now replace (length p + 1)%nat with (S (length p)) in IH by lia.
Qed.

Lemma forallb_nth (P : rune -> bool) (s : gostring) (i : nat) :
  forallb P s = true -> (i < length s)%nat -> P (nth i s 0) = true.
Proof.
  intros H Hi. rewrite forallb_forall in H. apply H. now apply nth_In.
Qed.

(** Where no rune gets a separator the identifier is lowercased rune by
    rune. *)
Lemma lowerSnakeRunes_plain (s : gostring) :
  (forall i, (i < length s)%nat -> needsSeparator s i = false) ->
  lowerSnakeRunes s = map ToLower s.
Proof.
  intros H. unfold lowerSnakeRunes.
  rewrite (flat_map_ext_seq _ (fun i => [ToLower (nth i s 0)])).
  - apply (flat_map_singleton_nth ToLower s []).
  - intros i Hi. now rewrite H by lia.
Qed.

Lemma length_flat_map_opt {A : Type} (b : nat -> bool) (x y : nat -> A)
    (l : list nat) :
  length (flat_map (fun i => if b i then [x i; y i] else [y i]) l) =
    (length l + length (List.filter b l))%nat.
Proof.
  induction l as [|i l IH]; [reflexivity|].
  cbn [flat_map List.filter]. rewrite length_app, IH.
  destruct (b i); cbn [length]; lia.
Qed.

Lemma filter_seq_length (b : nat -> bool) (a n : nat) :
  (length (List.filter b (seq a n)) <= n)%nat.
Proof.
  revert a. induction n as [|n IH]; intros a; [reflexivity|].
  cbn [seq List.filter]. specialize (IH (S a)).
  destruct (b a); cbn [length]; lia.
Qed.

End SnakeCaseMore.

(** X6. An identifier without an uppercase letter, and an identifier all
    in uppercase, are lowercased rune by rune and get no separator. *)
Theorem toLowerSnakeCase_plain :
  forall (U : Unicode) (s : gostring),
    forallb (fun r => negb (IsUpper r)) s = true \/ forallb IsUpper s = true ->
    toLowerSnakeCase s = map ToLower s.
Proof.
  intros U s H. rewrite toLowerSnakeCase_runes. apply lowerSnakeRunes_plain.
  intros [|j] Hi; [reflexivity|]. cbn [needsSeparator].
  destruct H as [H|H].
  - apply (forallb_nth _ s (S j) H) in Hi. apply negb_true_iff in Hi.
    now rewrite Hi.
  - assert (Hj : (j < length s)%nat) by lia.
    apply (forallb_nth _ s j H) in Hj. rewrite Hj. now rewrite andb_false_r.
Qed.

Lemma toLowerSnakeCase_plain_witness :
  toLowerSnakeCase (U := latin1) (str "HTTP") =
    map (ToLower (Unicode := latin1)) (str "HTTP").
Proof.
  apply (toLowerSnakeCase_plain latin1 (str "HTTP")). right. reflexivity.
Defined.

(** X7. [toLowerSnakeCase] drops no rune and adds one per separator: the
    result is as long as the identifier plus the number of runes that get
    a separator, and these are fewer than the runes, the first rune never
    getting one. *)
Theorem toLowerSnakeCase_length :
  forall (U : Unicode) (s : gostring),
    length (toLowerSnakeCase s) = (length s + separators s)%nat /\
    (separators s <= length s - 1)%nat.
Proof.
  intros U s. rewrite toLowerSnakeCase_runes. unfold lowerSnakeRunes, separators.
  rewrite (length_flat_map_opt (needsSeparator s) (fun _ => underscore)
             (fun i => ToLower (nth i s 0))).
  rewrite length_seq. split; [reflexivity|].
  destruct (length s) as [|n]; [reflexivity|].
  cbn [seq List.filter needsSeparator].
  pose proof (filter_seq_length (needsSeparator s) 1 n). lia.
Qed.

(** ** Package names of ASCII paths *)

Lemma ascii_rune_cases (r : rune) :
  isASCII r = true -> In r (map Z.of_nat (seq 0 128)).
Proof.
  unfold isASCII, inRange. intros H. apply andb_true_iff in H as [Hl Hh].
  apply Z.leb_le in Hl, Hh. apply in_map_iff. exists (Z.to_nat r).
  split; [lia|]. apply in_seq. lia.
Qed.

(** On an ASCII rune the Latin-1 table agrees with the ASCII reading, and
    the rune is neither a mark nor decomposable. *)
Lemma ascii_table :
  forallb (fun r =>
             bool_decide (pkgRune (U := latin1) r =
                            default space (asciiNamespaceRune r)) &&
             bool_decide (asciiNamespaceRune r <> Some space) &&
             match asciiNamespaceRune r with
             | Some x => isASCII x
             | None => true
             end &&
             undecomposed r && negb (Latin1.isMn r))
          (map Z.of_nat (seq 0 128)) = true.
Proof. vm_compute. reflexivity. Qed.

Lemma ascii_rune_facts (r : rune) :
  isASCII r = true ->
  pkgRune (U := latin1) r = default space (asciiNamespaceRune r) /\
  asciiNamespaceRune r <> Some space /\
  (forall x, asciiNamespaceRune r = Some x -> isASCII x = true) /\
  undecomposed r = true /\ Latin1.isMn r = false.
Proof.
  intros H. apply ascii_rune_cases in H. pose proof ascii_table as T.
  rewrite forallb_forall in T. specialize (T r H).
  repeat (apply andb_true_iff in T as [T ?]).
  repeat match goal with
         | Hb : bool_decide _ = true |- _ => apply bool_decide_eq_true in Hb
         | Hb : negb _ = true |- _ => apply negb_true_iff in Hb
         end.
  repeat split; try assumption.
  intros x Hx. now rewrite Hx in *.
Qed.

Lemma omap_cons {A B : Type} (f : A -> option B) (x : A) (l : list A) :
  omap f (x :: l) = match f x with
                    | Some y => y :: omap f l
                    | None => omap f l
                    end.
Proof. reflexivity. Qed.

Lemma removeSpaces_ascii (path : gostring) :
  forallb isASCII path = true ->
  removeSpaces (map (pkgRune (U := latin1)) path) =
    omap asciiNamespaceRune path.
Proof.
  induction path as [|r path IH]; [reflexivity|].
  cbn [forallb]. intros H. apply andb_true_iff in H as [Hr Hp].
  destruct (ascii_rune_facts r Hr) as (Hpkg & Hsp & _).
  rewrite omap_cons. cbn [map removeSpaces List.filter].
  fold (removeSpaces (map (pkgRune (U := latin1)) path)).
  rewrite Hpkg, (IH Hp).
  destruct (asciiNamespaceRune r) as [x|]; cbn [default from_option id].
  - destruct (x =? space) eqn:Hx; [|reflexivity].
    apply Z.eqb_eq in Hx. now subst x.
  - now rewrite Z.eqb_refl.
Qed.

Lemma omap_ascii (path : gostring) :
  forallb isASCII path = true ->
  forallb isASCII (omap asciiNamespaceRune path) = true.
Proof.
  induction path as [|r path IH]; [reflexivity|].
  cbn [forallb]. intros H. apply andb_true_iff in H as [Hr Hp].
  destruct (ascii_rune_facts r Hr) as (_ & _ & Hx & _).
  rewrite omap_cons.
  destruct (asciiNamespaceRune r) as [x|]; [|now apply IH].
  cbn [forallb]. now rewrite (Hx x eq_refl), IH.
Qed.

(** Normalisation leaves ASCII text as it is. *)
Lemma foldChain_ascii (s : gostring) :
  forallb isASCII s = true -> foldChain (U := latin1) s = s.
Proof.
  intros H. unfold foldChain. cbn [NFC NFD latin1].
  assert (Hu : forallb undecomposed s = true).
  { eapply Latin1Facts.forallb_weaken; [|exact H].
    intros r Hr. now apply ascii_rune_facts in Hr. }
  assert (Hm : forallb (fun r => negb (Latin1.isMn r)) s = true).
  { eapply Latin1Facts.forallb_weaken; [|exact H].
    intros r Hr. apply ascii_rune_facts in Hr as (_ & _ & _ & _ & Hr).
    now rewrite Hr. }
  rewrite (Latin1Facts.nfd_fixed s Hu).
  assert (Hf : removeMn (U := latin1) s = s).
  { unfold removeMn. clear H Hu. induction s as [|r s IH]; [reflexivity|].
    cbn [forallb] in Hm. apply andb_true_iff in Hm as [Hr Hs].
    cbn [List.filter IsMn latin1]. rewrite Hr. f_equal. now apply IH. }
  rewrite Hf. now apply Latin1Facts.nfc_fixed.
Qed.

(** X8. On the Latin-1 table, the namespace of an ASCII path is the path
    with every slash and dot turned into a dot, every letter and digit
    kept and every other rune deleted; neighbouring dots stay as they
    are. *)
Theorem toProtobufPkg_ascii :
  forall path : gostring,
    forallb isASCII path = true ->
    toProtobufPkg (U := latin1) path = omap asciiNamespaceRune path.
Proof.
  intros path H. unfold toProtobufPkg. cbn zeta.
  rewrite (removeSpaces_ascii path H).
  apply foldChain_ascii. now apply omap_ascii.
Qed.

Lemma toProtobufPkg_ascii_witness :
  toProtobufPkg (U := latin1) (str "gopkg.in/go-foo//foo.v1") =
    omap asciiNamespaceRune (str "gopkg.in/go-foo//foo.v1").
Proof.
  apply (toProtobufPkg_ascii (str "gopkg.in/go-foo//foo.v1")). reflexivity.
Defined.

(** ** Decorators and import mappings *)

Lemma temporal_decorate (native : string) (f : Field.t) :
  setLiteral "(gogoproto.nullable)" "false" (setLiteral native "true" f) =
    {| Field.Name := Field.Name f; Field.Pos := Field.Pos f;
       Field.Typ := Field.Typ f; Field.Repeated := Field.Repeated f;
       Field.Options := temporalOptions native (Field.Options f) |}.
Proof. reflexivity. Qed.

Lemma temporalOptions_idempotent (native : string) (options : Options) :
  temporalOptions native (temporalOptions native options) =
    temporalOptions native options.
Proof.
  unfold temporalOptions. apply map_eq. intros k.
  rewrite !lookup_insert. repeat case_decide; congruence.
Qed.

(** X9. Decorating a field with an entry of the default table leaves its
    name, position, type and repeated flag alone, and doing it twice is
    doing it once. The entries of time.Time and time.Duration set the
    option of the native representation to true and the nullable option
    to false and keep every other option; the other entries change
    nothing. *)
Theorem DefaultMappings_decorate :
  forall (name : gostring) (protoType : ProtoType.t) (f : Field.t),
    DefaultMappings !! name = Some protoType ->
    let f' := ProtoType_Decorate protoType f in
    Field.Name f' = Field.Name f /\ Field.Pos f' = Field.Pos f /\
    Field.Typ f' = Field.Typ f /\ Field.Repeated f' = Field.Repeated f /\
    ProtoType_Decorate protoType f' = f' /\
    Field.Options f' =
      (if bool_decide (name = str "time.Time")
       then temporalOptions "(gogoproto.stdtime)" (Field.Options f)
       else if bool_decide (name = str "time.Duration")
            then temporalOptions "(gogoproto.stdduration)" (Field.Options f)
            else Field.Options f).
Proof.
  intros name pt f H. apply elem_of_list_to_map_2 in H.
  repeat (apply elem_of_cons in H as [H|H];
          [injection H as -> ->; cbn zeta;
           unfold ProtoType_Decorate, Decorators_Run;
           cbn [ProtoType.Decorators basicType upgradedType NewDecorators
                fold_left app];
           rewrite ?temporal_decorate;
           cbn [Field.Name Field.Pos Field.Typ Field.Repeated Field.Options];
           rewrite ?temporalOptions_idempotent;
           repeat split; now destruct f|]).
  inversion H.
Qed.

Lemma DefaultMappings_decorate_witness :
  Field.Options
    (ProtoType_Decorate
       (default (basicType "") (DefaultMappings !! str "time.Time"))
       {| Field.Name := str "created"; Field.Pos := 1;
          Field.Typ := Named (str "google.protobuf") (str "Timestamp") false;
          Field.Repeated := false; Field.Options := ∅ |}) =
    temporalOptions "(gogoproto.stdtime)" ∅.
Proof.
  apply (DefaultMappings_decorate (str "time.Time")
           (default (basicType "") (DefaultMappings !! str "time.Time"))
           {| Field.Name := str "created"; Field.Pos := 1;
              Field.Typ := Named (str "google.protobuf") (str "Timestamp") false;
              Field.Repeated := false; Field.Options := ∅ |}).
  reflexivity.
Defined.

Lemma goOutEntry_None (value : ProtoType.t) :
  ProtoType.Import value = [] \/ ProtoType.GoImport value = [] ->
  goOutEntry value = None.
Proof.
  unfold goOutEntry. intros [H|H]; rewrite H; [reflexivity|].
  now destruct (ProtoType.Import value).
Qed.

Lemma omap_all_None {A B : Type} (f : A -> option B) (l : list A) :
  (forall x, x ∈ l -> f x = None) -> omap f l = [].
Proof.
  induction l as [|x l IH]; intros H; [reflexivity|].
  rewrite omap_cons, (H x) by apply list_elem_of_here.
  apply IH. intros y Hy. apply H. now apply list_elem_of_further.
Qed.

(** X10. Whatever the order in which the table is ranged over:
    [ToGoOutPath] is empty for a table none of whose types has both an
    import and a Go import, and for the default table it is its two import
    mappings, of the timestamp and of the duration, joined by a comma, in
    one order or the other. *)
Theorem ToGoOutPath_orders :
  (forall (t : TypeMappings) (order : list (gostring * ProtoType.t)),
      iterationOf t order ->
      (forall (name : gostring) (value : ProtoType.t),
          t !! name = Some value ->
          ProtoType.Import value = [] \/ ProtoType.GoImport value = []) ->
      ToGoOutPath_in order = []) /\
  (forall order : list (gostring * ProtoType.t),
      iterationOf DefaultMappings order ->
      ToGoOutPath_in order = timestampGoOut ++ str "," ++ durationGoOut \/
      ToGoOutPath_in order = durationGoOut ++ str "," ++ timestampGoOut).
Proof.
  split.
  - intros t order Hperm Hnone. unfold ToGoOutPath_in.
    rewrite omap_all_None; [reflexivity|].
    intros [name value] Hin. cbn [snd]. apply goOutEntry_None.
    apply (Hnone name). apply elem_of_map_to_list.
    unfold iterationOf in Hperm. now rewrite <- Hperm.
  - intros order Hperm. unfold iterationOf in Hperm. unfold ToGoOutPath_in.
    assert (H : omap (fun e : gostring * ProtoType.t => goOutEntry (snd e))
                  order ≡ₚ
                omap (fun e : gostring * ProtoType.t => goOutEntry (snd e))
                  (map_to_list DefaultMappings))
      by now rewrite Hperm.
    assert (Hd : omap (fun e : gostring * ProtoType.t => goOutEntry (snd e))
                   (map_to_list DefaultMappings) ≡ₚ
                 [timestampGoOut; durationGoOut]).
    { vm_compute. first [reflexivity | apply perm_swap]. }
    rewrite Hd in H. symmetry in H.
    apply Permutation_length_2_inv in H as [-> | ->]; [left|right]; reflexivity.
Qed.

Lemma ToGoOutPath_orders_witness :
  ToGoOutPath_in (map_to_list suiteMappings) = [] /\
  (ToGoOutPath_in (map_to_list DefaultMappings) =
     timestampGoOut ++ str "," ++ durationGoOut \/
   ToGoOutPath_in (map_to_list DefaultMappings) =
     durationGoOut ++ str "," ++ timestampGoOut).
Proof.
  split.
  - apply (proj1 ToGoOutPath_orders suiteMappings);
      [unfold iterationOf; reflexivity|].
    intros name value H. unfold suiteMappings in H.
    apply lookup_insert_Some in H as [[_ <-]|[_ H]]; [now left|].
    apply lookup_singleton_Some in H as [_ <-]. now left.
  - apply (proj2 ToGoOutPath_orders). unfold iterationOf. reflexivity.
Defined.

(** ** The scanner *)

Lemma SetRepeated_idempotent (r : bool) (t : scanner.Ty) :
  scanner.SetRepeated r (scanner.SetRepeated r t) = scanner.SetRepeated r t.
Proof. now destruct t. Qed.

Lemma scanType_nil (srcDir : gostring) (typ : types.Ty) (log : list Warning) :
  fst (scanType srcDir typ log) = Return None <-> pointsToOther typ = true.
Proof.
  induction typ as [[p|] n|n|e IH|e IH|e IH|k IHk e IHe|r]; cbn; try easy.
  - destruct (scanType srcDir e log) as [[|[t|]] log']; cbn; easy.
  - destruct (scanType srcDir e log) as [[|[t|]] log']; cbn; easy.
  - destruct (scanType srcDir k log) as [[|k'] log1]; cbn; [easy|].
    destruct (scanType srcDir e log1) as [[|e'] log2]; cbn; easy.
Qed.

Lemma scanType_underByte (srcDir : gostring) (typ : types.Ty) :
  forall (seen : bool) (log : list Warning),
    underByte seen typ = true ->
    exists r : bool,
      scanType srcDir typ log =
        (Return (Some (scanner.Basic (str "byte") r)), log) /\
      (seen = false -> r = true).
Proof.
  induction typ as [p n|n|e IH|e IH|e IH|k IHk e IHe|r]; intros seen log H;
    cbn in H; try discriminate.
  - apply andb_true_iff in H as [Hs Hn]. apply bool_decide_eq_true in Hn.
    subst n. exists false. split; [reflexivity|]. now intros ->.
  - destruct (IH true log H) as (r & Hr & _). cbn [scanType]. rewrite Hr.
    now exists true.
  - destruct (IH true log H) as (r & Hr & _). cbn [scanType]. rewrite Hr.
    now exists true.
  - exact (IH seen log H).
Qed.

(** A type that is supported scans to a type and leaves the sink alone. *)
Lemma scanType_total (srcDir : gostring) (typ : types.Ty) :
  forall log : list Warning,
    supported typ = true ->
    exists t : scanner.Ty, scanType srcDir typ log = (Return (Some t), log).
Proof.
  induction typ as [[p|] n|n|e IH|e IH|e IH|k IHk e IHe|r]; intros log H;
    cbn in H; try discriminate; cbn [scanType].
  - now eexists.
  - now eexists.
  - destruct (IH log H) as [t ->]. now eexists.
  - destruct (IH log H) as [t ->]. now eexists.
  - exact (IH log H).
  - apply andb_true_iff in H as [Hk He].
    destruct (IHk log Hk) as [k' ->]. destruct (IHe log He) as [e' ->].
    now eexists.
Qed.

(** X11. [scanType] scans a Go type built of basic types, named types
    that have a package, slices, arrays, pointers and maps alone to a
    type: it does not panic, does not return [nil] and warns of nothing.
    On a named type that has no package, such as the predeclared [error],
    it panics, and so it does on a slice, a pointer or a map that holds
    one. *)
Theorem scanType_supported :
  (forall (srcDir : gostring) (typ : types.Ty) (log : list Warning),
      supported typ = true ->
      exists t : scanner.Ty, scanType srcDir typ log = (Return (Some t), log)) /\
  (forall (srcDir name : gostring) (other : types.Ty) (log : list Warning),
      let universe := types.Named None name in
      fst (scanType srcDir universe log) = Panic /\
      fst (scanType srcDir (types.Slice universe) log) = Panic /\
      fst (scanType srcDir (types.Pointer universe) log) = Panic /\
      fst (scanType srcDir (types.Map universe other) log) = Panic).
Proof.
  split.
  - intros srcDir typ log. apply scanType_total.
  - intros srcDir name other log universe. now repeat split.
Qed.

Lemma scanType_supported_witness :
  (exists t : scanner.Ty,
      scanType (str "/go/src") goMapOfSlices [] = (Return (Some t), [])) /\
  (exists t : scanner.Ty,
      scanType (str "/go/src") goTimes [] = (Return (Some t), [])).
Proof.
  split.
  - apply (proj1 scanType_supported (str "/go/src") goMapOfSlices []).
    reflexivity.
  - apply (proj1 scanType_supported (str "/go/src") goTimes []).
    reflexivity.
Defined.

(** X12. [scanType] keeps one repeated flag and no trace of pointers: an
    array scans as a slice does, a slice of slices as a slice, and a
    pointer, outside a slice or inside it, as what it points to. *)
Theorem scanType_flattens :
  forall (srcDir : gostring) (elem : types.Ty) (log : list Warning),
    scanType srcDir (types.Array elem) log =
      scanType srcDir (types.Slice elem) log /\
    scanType srcDir (types.Slice (types.Slice elem)) log =
      scanType srcDir (types.Slice elem) log /\
    scanType srcDir (types.Slice (types.Array elem)) log =
      scanType srcDir (types.Slice elem) log /\
    scanType srcDir (types.Slice (types.Pointer elem)) log =
      scanType srcDir (types.Slice elem) log /\
    scanType srcDir (types.Pointer (types.Slice elem)) log =
      scanType srcDir (types.Slice elem) log.
Proof.
  intros srcDir elem log.
  assert (H : scanType srcDir (types.Slice (types.Slice elem)) log =
              scanType srcDir (types.Slice elem) log).
  { cbn [scanType].
    destruct (scanType srcDir elem log) as [[|[t|]] log']; try reflexivity.
    now rewrite SetRepeated_idempotent. }
  repeat split; try reflexivity; exact H.
Qed.

(** X13. [scanType] returns [nil] exactly for a type of an unsupported
    kind, reached through pointers or not; asked for a slice or an array
    of such a type, it panics. *)
Theorem scanType_unsupported :
  forall (srcDir : gostring) (typ : types.Ty) (log : list Warning),
    (fst (scanType srcDir typ log) = Return None <->
     pointsToOther typ = true) /\
    (pointsToOther typ = true ->
     fst (scanType srcDir (types.Slice typ) log) = Panic /\
     fst (scanType srcDir (types.Array typ) log) = Panic).
Proof.
  intros srcDir typ log. split; [apply scanType_nil|].
  intros H. apply (scanType_nil srcDir typ log) in H. cbn [scanType].
  destruct (scanType srcDir typ log) as [[|[t|]] log']; cbn in H |- *;
    try discriminate; now split.
Qed.

Lemma scanType_unsupported_witness :
  fst (scanType (str "/go/src")
         (types.Slice (types.Pointer (types.Other (str "chan int")))) []) =
    Panic /\
  fst (scanType (str "/go/src")
         (types.Array (types.Pointer (types.Other (str "chan int")))) []) =
    Panic.
Proof.
  apply (proj2 (scanType_unsupported (str "/go/src")
                  (types.Pointer (types.Other (str "chan int"))) [])).
  reflexivity.
Defined.

(** X14. A Go map whose key is supported (no unsupported kind and no named
    type without a package in it) and whose element is of an unsupported
    kind scans to a map without a value type, and the field of such a map
    is not dropped: [transformField] returns a field whose map type has
    what the key becomes and no value. *)
Theorem scanType_map_without_value :
  forall (U : Unicode) (srcDir : gostring) (key elem : types.Ty)
         (log : list Warning),
    supported key = true ->
    pointsToOther elem = true ->
    exists k : scanner.Ty,
      fst (scanType srcDir (types.Map key elem) log) =
        Return (Some (scanner.Map (Some k) None false)) /\
      forall (t : Transformer) (fname : gostring) (pos : Z) (w : World),
        fst (transformField t
               {| scanner.Field.Name := fname;
                  scanner.Field.Typ := scanner.Map (Some k) None false |}
               pos w) =
          Some {| Field.Name := toLowerSnakeCase fname; Field.Pos := pos;
                  Field.Typ := Map (typeOf t (Some k)) None;
                  Field.Repeated := false; Field.Options := ∅ |}.
Proof.
  intros U srcDir key elem log Hk He.
  destruct (scanType_total srcDir key log Hk) as [k Hkey].
  exists k. split.
  - cbn [scanType]. rewrite Hkey.
    apply (scanType_nil srcDir elem log) in He.
    destruct (scanType srcDir elem log) as [[|[t|]] log']; cbn in He;
      try discriminate; reflexivity.
  - intros t fname pos w. rewrite transformField_run by reflexivity.
    cbn [scanner.Field.Typ scanner.Field.Name scanner.IsRepeated].
    rewrite transformType_map_run.
    pose proof (typeOf_result t k w) as Hr.
    destruct (transformType t k w) as [rk w1]. cbn [fst] in Hr. now subst rk.
Qed.

Lemma scanType_map_without_value_witness :
  exists k : scanner.Ty,
    fst (scanType (str "/go/src")
           (types.Map (types.Basic (str "string"))
                      (types.Other (str "chan int"))) []) =
      Return (Some (scanner.Map (Some k) None false)) /\
    forall (t : Transformer) (fname : gostring) (pos : Z) (w : World),
      fst (transformField (U := latin1) t
             {| scanner.Field.Name := fname;
                scanner.Field.Typ := scanner.Map (Some k) None false |}
             pos w) =
        Some {| Field.Name := toLowerSnakeCase (U := latin1) fname;
                Field.Pos := pos;
                Field.Typ := Map (typeOf (U := latin1) t (Some k)) None;
                Field.Repeated := false; Field.Options := ∅ |}.
Proof.
  apply (scanType_map_without_value latin1 (str "/go/src")
           (types.Basic (str "string")) (types.Other (str "chan int")) []);
    reflexivity.
Defined.

(** X15. A Go type that is bytes in sequence, at whatever depth of
    slices, arrays and pointers, scans to the repeated basic type byte,
    and its field becomes one field of type bytes that is not repeated. *)
Theorem scanType_bytes :
  forall (U : Unicode) (srcDir : gostring) (typ : types.Ty)
         (log : list Warning),
    underByte false typ = true ->
    scanType srcDir typ log =
      (Return (Some (scanner.Basic (str "byte") true)), log) /\
    forall (t : Transformer) (fname : gostring) (pos : Z) (w : World),
      transformField t
        {| scanner.Field.Name := fname;
           scanner.Field.Typ := scanner.Basic (str "byte") true |} pos w =
        (Some {| Field.Name := toLowerSnakeCase fname; Field.Pos := pos;
                 Field.Typ := Basic (str "bytes"); Field.Repeated := false;
                 Field.Options := ∅ |}, w).
Proof.
  intros U srcDir typ log H.
  destruct (scanType_underByte srcDir typ false log H) as (r & Hr & Htrue).
  rewrite (Htrue eq_refl) in Hr. split; [exact Hr | reflexivity].
Qed.

Lemma scanType_bytes_witness :
  scanType (str "/go/src")
    (types.Slice (types.Pointer (types.Array (types.Basic (str "byte"))))) [] =
    (Return (Some (scanner.Basic (str "byte") true)), []).
Proof.
  apply (scanType_bytes latin1 (str "/go/src")
           (types.Slice (types.Pointer (types.Array (types.Basic (str "byte")))))
           []).
  reflexivity.
Defined.

(** ** Paths under GOPATH *)

Lemma isPrefix_app (p b : gostring) : isPrefix p (p ++ b) = true.
Proof.
  induction p as [|a p IH]; [reflexivity|].
  cbn. now rewrite Z.eqb_refl, IH.
Qed.

Lemma isPrefix_true (p s : gostring) :
  isPrefix p s = true -> exists b : gostring, s = p ++ b.
Proof.
  revert s. induction p as [|a p IH]; intros s H.
  - now exists s.
  - destruct s as [|c s]; [discriminate|]. cbn in H.
    apply andb_true_iff in H as [Ha Hp]. apply Z.eqb_eq in Ha. subst c.
    destruct (IH s Hp) as [b ->]. now exists b.
Qed.

Lemma removeAllFrom_skip (old a b : gostring) :
  removeAllFrom old (length a) (a ++ b) = removeAllFrom old 0 b.
Proof.
  induction a as [|r a IH]; [reflexivity|].
  cbn [length app removeAllFrom]. exact IH.
Qed.

Lemma removeAllFrom_absent (old s : gostring) :
  ~ occursIn old s -> removeAllFrom old 0 s = s.
Proof.
  induction s as [|r s IH]; intros H; [reflexivity|].
  cbn [removeAllFrom].
  destruct (isPrefix old (r :: s)) eqn:Hp.
  - exfalso. apply H. apply isPrefix_true in Hp as [b Hb].
    exists [], b. exact Hb.
  - f_equal. apply IH. intros (a & b & ->). apply H.
    now exists (r :: a), b.
Qed.

(** X16. [removeGoPath] takes the source directory of GOPATH, with the
    slash after it, off the front of a path, and leaves a path in which
    it does not occur as it is. *)
Theorem removeGoPath_prefix :
  forall srcDir : gostring,
    (forall rest : gostring,
        removeGoPath srcDir (srcDir ++ [slash] ++ rest) =
          removeGoPath srcDir rest) /\
    (forall path : gostring,
        ~ occursIn (srcDir ++ [slash]) path ->
        removeGoPath srcDir path = path).
Proof.
  intros srcDir. unfold removeGoPath, strings_removeAll.
  destruct (srcDir ++ [slash]) as [|r old] eqn:Hold.
  { now destruct srcDir. }
  split.
  - intros rest. rewrite app_assoc, Hold.
    pose proof (isPrefix_app (r :: old) rest) as Hp.
    cbn [app removeAllFrom] in Hp |- *. rewrite Hp.
    replace (length (r :: old) - 1)%nat with (length old)
      by (cbn [length]; lia).
    apply removeAllFrom_skip.
  - intros path H. now apply removeAllFrom_absent.
Qed.

Lemma removeGoPath_prefix_witness :
  removeGoPath (str "/go/src") (str "fmt") = str "fmt".
Proof.
  apply (proj2 (removeGoPath_prefix (str "/go/src")) (str "fmt")).
  intros (a & b & H). apply (f_equal length) in H.
  rewrite !length_app in H. cbn in H. lia.
Defined.

(** ** Enum values in the order of their constants *)

Lemma insertValue_perm (x : enumValue.t) (l : list enumValue.t) :
  insertValue x l ≡ₚ x :: l.
Proof.
  induction l as [|y l IH]; [reflexivity|].
  cbn [insertValue]. destruct (enumValues_Less y x); [|reflexivity].
  rewrite IH. apply perm_swap.
Qed.

Lemma sort_Stable_perm (l : list enumValue.t) : sort_Stable l ≡ₚ l.
Proof.
  induction l as [|x l IH]; [reflexivity|].
  cbn [sort_Stable foldr]. fold (sort_Stable l).
  now rewrite insertValue_perm, IH.
Qed.

Lemma insertValue_sorted (x : enumValue.t) (l : list enumValue.t) :
  StronglySorted (fun a b => enumValue.pos a <= enumValue.pos b) l ->
  StronglySorted (fun a b => enumValue.pos a <= enumValue.pos b)
                 (insertValue x l).
Proof.
  induction l as [|y l IH]; intros H.
  - repeat constructor.
  - apply StronglySorted_inv in H as [Hl Hy]. cbn [insertValue].
    unfold enumValues_Less. destruct (Z.ltb_spec (enumValue.pos y) (enumValue.pos x)).
    + constructor; [now apply IH|].
      rewrite insertValue_perm. constructor; [lia | exact Hy].
    + constructor; [now constructor|].
      constructor; [exact H|].
      eapply List.Forall_impl; [|exact Hy]. cbn beta. intros z Hz. lia.
Qed.

Lemma sort_Stable_sorted (l : list enumValue.t) :
  StronglySorted (fun a b => enumValue.pos a <= enumValue.pos b)
                 (sort_Stable l).
Proof.
  induction l as [|x l IH]; [constructor|].
  cbn [sort_Stable foldr]. now apply insertValue_sorted.
Qed.

(** The values at one position come out in the order they went in. *)
Lemma insertValue_stable (p : Z) (x : enumValue.t) (l : list enumValue.t) :
  List.filter (fun v => enumValue.pos v =? p) (insertValue x l) =
    List.filter (fun v => enumValue.pos v =? p) (x :: l).
Proof.
  induction l as [|y l IH]; [reflexivity|].
  cbn [insertValue]. unfold enumValues_Less.
  destruct (Z.ltb_spec (enumValue.pos y) (enumValue.pos x)); [|reflexivity].
  cbn [List.filter] in *. rewrite IH.
  destruct (Z.eqb_spec (enumValue.pos y) p), (Z.eqb_spec (enumValue.pos x) p);
    try reflexivity; lia.
Qed.

Lemma sort_Stable_stable (p : Z) (l : list enumValue.t) :
  List.filter (fun v => enumValue.pos v =? p) (sort_Stable l) =
    List.filter (fun v => enumValue.pos v =? p) l.
Proof.
  induction l as [|x l IH]; [reflexivity|].
  cbn [sort_Stable foldr]. fold (sort_Stable l).
  rewrite insertValue_stable. cbn [List.filter]. now rewrite IH.
Qed.

Lemma elem_of_constValues (consts : gmap gostring Z) (vals : list gostring)
    (v : gostring) :
  v ∈ map enumValue.name (constValues consts vals) <->
  v ∈ vals /\ is_Some (consts !! v).
Proof.
  unfold constValues. rewrite list_elem_of_fmap. split.
  - intros (e & -> & He). apply list_elem_of_omap in He as (v & Hv & Hc).
    destruct (consts !! v) as [d|] eqn:Hd; [|discriminate].
    injection Hc as <-. cbn. split; [exact Hv|]. now rewrite Hd.
  - intros (Hv & d & Hd).
    exists {| enumValue.name := v; enumValue.pos := uint d |}.
    split; [reflexivity|]. apply list_elem_of_omap. exists v.
    split; [exact Hv|]. now rewrite Hd.
Qed.

Lemma insertValue_least (x : enumValue.t) (l : list enumValue.t) :
  Forall (fun y => enumValue.pos x <= enumValue.pos y) l ->
  insertValue x l = x :: l.
Proof.
  destruct l as [|y l]; [reflexivity|]. intros H.
  apply Forall_cons_1 in H as [Hy _]. cbn [insertValue].
  unfold enumValues_Less.
  now destruct (Z.ltb_spec (enumValue.pos y) (enumValue.pos x)); [lia|].
Qed.

Lemma sort_Stable_fixed (l : list enumValue.t) :
  StronglySorted (fun a b => enumValue.pos a <= enumValue.pos b) l ->
  sort_Stable l = l.
Proof.
  induction l as [|x l IH]; intros H; [reflexivity|].
  apply StronglySorted_inv in H as [Hl Hx].
  cbn [sort_Stable foldr]. fold (sort_Stable l). rewrite (IH Hl).
  now apply insertValue_least.
Qed.

(** X17. [newEnum] keeps of the candidate names those that are constants,
    each once per occurrence, and orders them by the position of their
    constant, ascending; names whose constants have the same position stay
    in the order they came in. A list that is in order already is left in
    that order. *)
Theorem newEnum_sorted :
  forall (consts : gmap gostring Z) (name : gostring) (vals : list gostring),
    let sorted := sort_Stable (constValues consts vals) in
    scanner.Enum.Name (newEnum consts name vals) = name /\
    scanner.Enum.Values (newEnum consts name vals) =
      map enumValue.name sorted /\
    StronglySorted (fun a b => enumValue.pos a <= enumValue.pos b) sorted /\
    sorted ≡ₚ constValues consts vals /\
    (forall p : Z,
        List.filter (fun v => enumValue.pos v =? p) sorted =
          List.filter (fun v => enumValue.pos v =? p)
                      (constValues consts vals)) /\
    (forall v : gostring,
        v ∈ scanner.Enum.Values (newEnum consts name vals) <->
        v ∈ vals /\ is_Some (consts !! v)) /\
    (StronglySorted (fun a b => enumValue.pos a <= enumValue.pos b)
                    (constValues consts vals) ->
     scanner.Enum.Values (newEnum consts name vals) =
       map enumValue.name (constValues consts vals)).
Proof.
  intros consts name vals sorted. subst sorted.
  split; [reflexivity|]. split; [reflexivity|].
  split; [apply sort_Stable_sorted|].
  split; [apply sort_Stable_perm|].
  split; [intros p; apply sort_Stable_stable|].
  split.
  - intros v. cbn [newEnum scanner.Enum.Values].
    rewrite <- elem_of_constValues.
    now rewrite (sort_Stable_perm (constValues consts vals)).
  - intros H. cbn [newEnum scanner.Enum.Values]. now rewrite sort_Stable_fixed.
Qed.

Lemma newEnum_sorted_witness :
  scanner.Enum.Values
    (newEnum fooConsts (str "Foo") [str "Foo"; str "Other"; str "Bar"; str "BarBaz"]) =
    map enumValue.name
        (constValues fooConsts [str "Foo"; str "Other"; str "Bar"; str "BarBaz"]).
Proof.
  apply (newEnum_sorted fooConsts (str "Foo")
           [str "Foo"; str "Other"; str "Bar"; str "BarBaz"]).
  vm_compute. repeat constructor; discriminate.
Defined.

Lemma transformField_dropped_iff_witness :
  fst (transformField (U := latin1) NewTransformer
         (field "Invalid" (scanner.NewBasic (str "complex64"))) 1 emptyWorld) =
    None.
Proof.
  apply (proj2 (transformField_dropped_iff latin1 NewTransformer
                  (field "Invalid" (scanner.NewBasic (str "complex64")))
                  1 emptyWorld)).
  exists (str "complex64"), false. repeat split.
Defined.

(** ** Upper snake case *)

Lemma latin1_upper_table :
  forallb (fun r => Latin1.toUpper (Latin1.toLower r) =? Latin1.toUpper r)
          (map Z.of_nat (seq 0 256)) = true.
Proof. vm_compute. reflexivity. Qed.

Lemma latin1_ToUpper_ToLower (r : rune) :
  Latin1.toUpper (Latin1.toLower r) = Latin1.toUpper r.
Proof.
  destruct (Latin1.isUpper r) eqn:Hu.
  - assert (Hr : In r (map Z.of_nat (seq 0 256))).
    { unfold Latin1.isUpper, inRange in Hu. apply in_map_iff.
      exists (Z.to_nat r). split; [lia|]. apply in_seq. lia. }
    pose proof latin1_upper_table as T. rewrite forallb_forall in T.
    apply Z.eqb_eq. now apply T.
  - unfold Latin1.toLower. now rewrite Hu.
Qed.

(** X18. On an identifier every rune of which has the uppercase of its
    lowercase for its uppercase, and with the underscore its own
    uppercase, [toUpperSnakeCase] is the identifier with its separators
    inserted and every rune uppercased. The Kelvin sign, U+212A, is no
    such rune: it is its own uppercase and has the small k for its
    lowercase, so [toUpperSnakeCase] turns it into the capital K. *)
Theorem toUpperSnakeCase_spec :
  (forall (U : Unicode) (s : gostring),
      Forall (fun r => ToUpper (ToLower r) = ToUpper r) s ->
      ToUpper underscore = underscore ->
      toUpperSnakeCase s = map ToUpper (insertSeparators s)) /\
  toUpperSnakeCase (U := ucd) [0x212A] = [0x4B] /\
  map (ToUpper (Unicode := ucd)) (insertSeparators (U := ucd) [0x212A]) =
    [0x212A].
Proof.
  split; [|split; vm_compute; reflexivity].
  intros U s Hul Hu. unfold toUpperSnakeCase, strings_ToUpper.
  rewrite toLowerSnakeCase_runes. unfold lowerSnakeRunes, insertSeparators.
  rewrite !map_flat_map. apply flat_map_ext_seq. intros i Hi.
  assert (Hi' : ToUpper (ToLower (nth i s 0)) = ToUpper (nth i s 0)).
  { rewrite List.Forall_forall in Hul. apply Hul. apply nth_In. lia. }
  destruct (needsSeparator s i); cbn [map]; now rewrite ?Hi'.
Qed.

Lemma toUpperSnakeCase_spec_witness :
  toUpperSnakeCase (U := ucd) (str "foo1barBaz") =
    map (ToUpper (Unicode := ucd))
        (insertSeparators (U := ucd) (str "foo1barBaz")) /\
  toUpperSnakeCase (U := ucd) (str "foo1barBaz") = str "FOO1BAR_BAZ".
Proof.
  split; [|vm_compute; reflexivity].
  apply (proj1 toUpperSnakeCase_spec ucd (str "foo1barBaz"));
    [|vm_compute; reflexivity].
  repeat constructor; vm_compute; reflexivity.
Defined.
